(** * shalom-orders: tenant session manager and shipment workflows

    A shallow embedding of the request validators ([src/index.js]), of the
    tenant manager ([src/tenantManager.js], in its two revisions), of the
    handlers of the server and of the queue worker, with the properties of
    the specification stated over it.

    Conventions.
    - A JavaScript string is a [string] (a sequence of bytes); the markers the
      code looks for are ASCII or are compared bytewise.
    - A value that may be [undefined] or [null] is an [option].
    - A JavaScript number that the code only compares and increments is a [Z];
      [NaN] is the [None] of an [option Z].
    - A number that is read from a text ([parseFloat]) or from a request
      body is a double, [Num.Double]: the literal rounded to the nearest one.
    - The rendered text of an element ([innerText]) depends on the layout; it
      is kept on the element as an observation, next to the tree from which
      [textContent] is computed.
    - The browser driver and the external site are the environment: every
      operation takes the observations the driver returns during the call
      (which command throws, the current URL, the page content) as an
      argument and returns, next to its result, the list of commands and
      store writes it issued.
    - The durable store is a finite map from [apiKey] (the unique index of
      the table) to the row; the only store errors are Prisma's
      record-not-found ones. *)

From Stdlib Require Import ZArith Ascii.
From stdpp Require Import gmap strings list.

Local Open Scope Z_scope.

(** ** JavaScript strings *)

Module Js.

(** [s[i]]: the character at index [i], [undefined] out of range. *)
Definition at_ (s : string) (i : nat) : option ascii := String.get i s.

(** [\d] *)
Definition is_digit (c : ascii) : bool :=
  (48 <=? nat_of_ascii c)%nat && (nat_of_ascii c <=? 57)%nat.

(** [[A-Z]] *)
Definition is_upper (c : ascii) : bool :=
  (65 <=? nat_of_ascii c)%nat && (nat_of_ascii c <=? 90)%nat.

(** [[a-z]] *)
Definition is_lower (c : ascii) : bool :=
  (97 <=? nat_of_ascii c)%nat && (nat_of_ascii c <=? 122)%nat.

(** [\s], on the ASCII range: tab, line feed, vertical tab, form feed,
    carriage return and space. *)
Definition is_space (c : ascii) : bool :=
  let n := nat_of_ascii c in
  ((9 <=? n)%nat && (n <=? 13)%nat) || (n =? 32)%nat.

Definition chars (s : string) : list ascii := String.list_ascii_of_string s.

Fixpoint all_chars (p : ascii -> bool) (s : string) : bool :=
  match s with
  | EmptyString => true
  | String c s' => p c && all_chars p s'
  end.

(** [s.startsWith(p)] *)
Fixpoint starts_with (p s : string) : bool :=
  match p, s with
  | EmptyString, _ => true
  | String a p', String b s' => if decide (a = b) then starts_with p' s' else false
  | String _ _, EmptyString => false
  end.

(** [s.includes(p)] *)
Fixpoint includes (s p : string) : bool :=
  starts_with p s ||
  match s with
  | EmptyString => false
  | String _ s' => includes s' p
  end.

(** A string in a boolean position: only the empty string is falsy. *)
Definition truthy (s : string) : bool :=
  match s with EmptyString => false | _ => true end.

(** An optional string in a boolean position: [undefined], [null] and the
    empty string are falsy. *)
Definition truthy_opt (o : option string) : bool :=
  match o with Some s => truthy s | None => false end.

(** [a || b] on strings. *)
Definition or_else (o : option string) (d : string) : string :=
  match o with
  | Some s => if truthy s then s else d
  | None => d
  end.

(** [parseInt(s[i])] for a single character or [undefined]: the digit's
    value, [NaN] otherwise. *)
Definition parseInt_char (o : option ascii) : option Z :=
  match o with
  | Some c => if is_digit c then Some (Z.of_nat (nat_of_ascii c) - 48) else None
  | None => None
  end.

(** [x + k] and [x === y] on numbers that may be [NaN]. *)
Definition plus (x : option Z) (k : Z) : option Z := (fun v => v + k) <$> x.

Definition strict_eq (x y : option Z) : bool :=
  match x, y with
  | Some a, Some b => bool_decide (a = b)
  | _, _ => false
  end.

End Js.

(** ** The security-code validators of the two shipment endpoints *)

Module SecurityCode.

(** [/^\d{4}$/.test(code)] *)
Definition four_digits (code : string) : bool :=
  bool_decide (String.length code = 4%nat) && Js.all_chars Js.is_digit code.

(** [isConsecutive] of [POST /shipments] ([src/index.js], lines 176-183). *)
Definition isConsecutive (code : string) : bool :=
  let d i := Js.parseInt_char (Js.at_ code i) in
  (Js.strict_eq (d 1%nat) (Js.plus (d 0%nat) 1) &&
   Js.strict_eq (d 2%nat) (Js.plus (d 1%nat) 1) &&
   Js.strict_eq (d 3%nat) (Js.plus (d 2%nat) 1))
  ||
  (Js.strict_eq (d 1%nat) (Js.plus (d 0%nat) (-1)) &&
   Js.strict_eq (d 2%nat) (Js.plus (d 1%nat) (-1)) &&
   Js.strict_eq (d 3%nat) (Js.plus (d 2%nat) (-1))).

(** The security-code block of [POST /shipments] ([src/index.js], lines
    169-189): [Some error] is the 400 reply, [None] lets the request go on
    to [tenantManager.registerShipment]. *)
Definition shipments_check (securityCode : option string) : option string :=
  if Js.truthy_opt securityCode then
    let code := default "" securityCode in
    if negb (four_digits code) then
      Some "securityCode must be exactly 4 digits"
    else if isConsecutive code then
      Some "securityCode cannot have consecutive digits (e.g., 1234, 4321)"
    else None
  else None.

(** The runs of four consecutive digits, ascending and descending, written
    out. *)
Definition runs : list string :=
  ["0123"; "1234"; "2345"; "3456"; "4567"; "5678"; "6789";
   "9876"; "8765"; "7654"; "6543"; "5432"; "4321"; "3210"].

(** What the specification asks of a security code: exactly four digits that
    are not such a run. *)
Definition well_formed (code : string) : Prop :=
  four_digits code = true /\ code ∉ runs.

Definition digit_chars : list ascii := Js.chars "0123456789".

(** The ten thousand strings of four digits. *)
Definition all_codes : list string :=
  a ← digit_chars; b ← digit_chars; c ← digit_chars; d ← digit_chars;
  [String a (String b (String c (String d EmptyString)))].

Definition ascending : string := "0123456789".
Definition descending : string := "9876543210".

(** The security-code block of [POST /register] (lines 428-437 of the
    server with the massive route). *)
Definition register_check (securityCode : option string) : option string :=
  if Js.truthy_opt securityCode then
    let pin := default "" securityCode in
    if bool_decide (String.length pin = 4%nat) &&
       (Js.includes ascending pin || Js.includes descending pin)
    then Some "Security code cannot be a sequence of 4 consecutive digits (e.g. 1234, 4321)"
    else None
  else None.

End SecurityCode.

(** ** JavaScript numbers *)

Module Num.

(** A Number that is not [NaN]: [Finite m e] is the double [m * 2 ^ e],
    written with [m] odd, or with [m = 0] and [e = 0] for zero (the sign of
    zero is not kept); [Infinity] is the value beyond the largest double. *)
Inductive Double :=
| Finite (m e : Z)
| Infinity (negative : bool).

(** The trailing zero bits of a mantissa moved into the exponent. *)
Fixpoint strip (p : positive) (e : Z) : positive * Z :=
  match p with
  | xO p' => strip p' (e + 1)
  | _ => (p, e)
  end.

Definition normal (m e : Z) : Double :=
  match m with
  | Z0 => Finite 0 0
  | Zpos p => let '(p', e') := strip p e in Finite (Zpos p') e'
  | Zneg p => let '(p', e') := strip p e in Finite (Zneg p') e'
  end.

(** The binary exponent of the fraction [n / d], both positive: the [e]
    with [2 ^ e <= n / d < 2 ^ (e + 1)]. *)
Definition exponent (n d : Z) : Z :=
  let e0 := Z.log2 n - Z.log2 d in
  if (if 0 <=? e0 then d * 2 ^ e0 <=? n else d <=? n * 2 ^ (- e0)) then e0 else e0 - 1.

(** The integer nearest to [n / d], the even one of the two when [n / d]
    lies half way. *)
Definition nearest (n d : Z) : Z :=
  let q := n / d in
  match 2 * (n mod d) ?= d with
  | Lt => q
  | Gt => q + 1
  | Eq => if Z.even q then q else q + 1
  end.

(** The exponent of the last bit of the doubles around [n / d]: 53 bits of
    precision, and never below the exponent of the subnormal doubles. *)
Definition quantum (n d : Z) : Z := Z.max (exponent n d - 52) (-1074).

(** [n / d] in units of the last bit, rounded to the nearest integer. *)
Definition mantissa (n d : Z) : Z :=
  let q := quantum n d in
  if 0 <=? q then nearest n (d * 2 ^ q) else nearest (n * 2 ^ (- q)) d.

(** The Number value of the fraction [n / d], with [n] not negative and [d]
    positive: the double nearest to it, the one with an even mantissa when it
    lies half way between two, and [Infinity] from [2 ^ 1024] on. This is what
    the engine gives for a decimal literal. *)
Definition round (n d : Z) : Double :=
  if n =? 0 then Finite 0 0
  else
    let q := quantum n d in
    let m := mantissa n d in
    if (0 <=? q) && (2 ^ 1024 <=? m * 2 ^ q) then Infinity false else normal m q.

(** A number in a boolean position: only zero is falsy (there is no [NaN]
    here). *)
Definition is_zero (x : Double) : bool :=
  match x with Finite m _ => m =? 0 | Infinity _ => false end.

End Num.

(** ** Scanning page text: the regular expressions of the manager *)

Module Scan.

(** The longest prefix whose characters satisfy [p], and what follows it:
    a greedy [p*]. *)
Fixpoint take_while (p : ascii -> bool) (s : string) : string * string :=
  match s with
  | EmptyString => (EmptyString, EmptyString)
  | String c s' =>
      if p c then let '(a, b) := take_while p s' in (String c a, b)
      else (EmptyString, s)
  end.

(** What follows the literal [p] at the head of [s]. *)
Fixpoint strip (p s : string) : option string :=
  match p, s with
  | EmptyString, _ => Some s
  | String a p', String b s' => if decide (a = b) then strip p' s' else None
  | String _ _, EmptyString => None
  end.

(** The number of bytes of the white-space character at the head of [s], 0
    when there is none: the ASCII ones, and the UTF-8 encodings of U+00A0,
    U+1680, U+2000..U+200A, U+2028, U+2029, U+202F, U+205F, U+3000, U+FEFF. *)
Definition space_width (s : string) : nat :=
  match Js.chars s with
  | c :: rest =>
      if Js.is_space c then 1%nat
      else
        match nat_of_ascii c, nat_of_ascii <$> rest with
        | 194%nat, 160%nat :: _ => 2%nat
        | 225%nat, 154%nat :: 128%nat :: _ => 3%nat
        | 226%nat, 128%nat :: b :: _ =>
            if ((128 <=? b)%nat && (b <=? 138)%nat) || (b =? 168)%nat || (b =? 169)%nat
               || (b =? 175)%nat
            then 3%nat else 0%nat
        | 226%nat, 129%nat :: 159%nat :: _ => 3%nat
        | 227%nat, 128%nat :: 128%nat :: _ => 3%nat
        | 239%nat, 187%nat :: 191%nat :: _ => 3%nat
        | _, _ => 0%nat
        end
  | [] => 0%nat
  end.

Fixpoint drop (n : nat) (s : string) : string :=
  match n, s with
  | S n', String _ s' => drop n' s'
  | _, _ => s
  end.

(** A greedy [\s*]: what follows the white space at the head of [s]. The
    first argument bounds the number of characters skipped. *)
Fixpoint skip_space_upto (fuel : nat) (s : string) : string :=
  match fuel with
  | O => s
  | S fuel' =>
      match space_width s with
      | O => s
      | w => skip_space_upto fuel' (drop w s)
      end
  end.

Definition skip_space (s : string) : string := skip_space_upto (String.length s) s.

(** The leftmost match: [f] tried at every position from the left. *)
Fixpoint first_match {A} (f : string -> option A) (s : string) : option A :=
  match f s with
  | Some a => Some a
  | None =>
      match s with
      | EmptyString => None
      | String _ s' => first_match f s'
      end
  end.

Definition dash : ascii := ascii_of_nat 45.
Definition dot : ascii := ascii_of_nat 46.
Definition colon : ascii := ascii_of_nat 58.

(** [/([A-Z]\d+)\s*-\s*(\d+)/] at the head of [s]: the two groups. No
    shorter choice of a greedy part can succeed where the longest fails,
    since the character classes that follow one another are disjoint. *)
Definition registration_at (s : string) : option (string * string) :=
  match s with
  | String c s1 =>
      if Js.is_upper c then
        let '(d1, s2) := take_while Js.is_digit s1 in
        if Js.truthy d1 then
          match skip_space s2 with
          | String c' s3 =>
              if decide (c' = dash) then
                let '(d2, _) := take_while Js.is_digit (skip_space s3) in
                if Js.truthy d2 then Some (String c d1, d2) else None
              else None
          | EmptyString => None
          end
        else None
      else None
  | EmptyString => None
  end.

(** [content.match(/([A-Z]\d+)\s*-\s*(\d+)/)] *)
Definition registration (content : string) : option (string * string) :=
  first_match registration_at content.

Definition is_digit_or_dot (c : ascii) : bool := Js.is_digit c || bool_decide (c = dot).

(** [/S\/\s*([\d.]+)/] at the head of [s]: the group. *)
Definition price_at (s : string) : option string :=
  match strip "S/" s with
  | Some s1 =>
      let '(g, _) := take_while is_digit_or_dot (skip_space s1) in
      if Js.truthy g then Some g else None
  | None => None
  end.

(** [content.match(/S\/\s*([\d.]+)/)] *)
Definition price (content : string) : option string := first_match price_at content.

Definition digit_value (c : ascii) : N := N.of_nat (nat_of_ascii c - 48).

(** The digits [s] read as a decimal numeral that continues [acc]. *)
Definition read_digits (acc : N) (s : string) : N :=
  foldl (fun a c => (10 * a + digit_value c)%N) acc (Js.chars s).

(** A Number that may be [NaN]. *)
Inductive Number :=
| Num (d : Num.Double)
| NaN.

(** The longest prefix of [g] that is a decimal literal, as its digits
    before and after the point: [12], [12.], [12.5] and [.5] are literals,
    [.] is not. *)
Definition literal (g : string) : option (string * string) :=
  let '(int_part, rest) := take_while Js.is_digit g in
  let frac_part :=
    match rest with
    | String c rest' => if decide (c = dot) then fst (take_while Js.is_digit rest') else EmptyString
    | EmptyString => EmptyString
    end in
  if Js.truthy int_part || Js.truthy frac_part then Some (int_part, frac_part) else None.

(** The fraction a literal stands for: numerator and denominator. *)
Definition fraction (int_part frac_part : string) : Z * Z :=
  (Z.of_N (read_digits (read_digits 0 int_part) frac_part),
   10 ^ Z.of_nat (String.length frac_part)).

(** [parseFloat(g)] on a group made of digits and dots: the Number value of
    the longest prefix that is a decimal literal, [NaN] when there is none. *)
Definition parseFloat (g : string) : Number :=
  match literal g with
  | Some (int_part, frac_part) =>
      Num (Num.round (fst (fraction int_part frac_part)) (snd (fraction int_part frac_part)))
  | None => NaN
  end.

(** *** What the regular expressions match

    The matches are described here by the text they cover, independently of
    the scanners above. *)

(** The string starts with a character of the class [p]. *)
Definition starts (p : ascii -> bool) (s : string) : bool :=
  match s with String c _ => p c | EmptyString => false end.







(** [int_part.frac_part] is the longest prefix of [g] that is a decimal
    literal: digits, then possibly a point and digits, with a digit on one
    side of the point at least. *)
Definition literal_here (g int_part frac_part : string) : Prop :=
  Js.all_chars Js.is_digit int_part = true
  /\ Js.all_chars Js.is_digit frac_part = true
  /\ Js.truthy int_part || Js.truthy frac_part = true
  /\ ((exists rest, g = int_part +:+ String dot (frac_part +:+ rest)
                    /\ starts Js.is_digit rest = false)
      \/ (frac_part = EmptyString
          /\ exists rest, g = int_part +:+ rest
                          /\ starts is_digit_or_dot rest = false)).

(** The shape [<letter><digits> - <digits>] of a registration number: the
    two parts around the dash. *)
Definition is_registration (a b : string) : Prop :=
  exists c ds,
    a = String c ds /\ Js.is_upper c = true /\
    Js.truthy ds = true /\ Js.all_chars Js.is_digit ds = true /\
    Js.truthy b = true /\ Js.all_chars Js.is_digit b = true.

End Scan.

(** ** The pending-shipments view and its scrape *)

Module Dom.

(** A document: elements and text nodes. An element has its classes, what
    the browser returns for [el.innerText] ([None] for an element that has
    no such property, as outside HTML) and its children. [innerText] is the
    text as rendered, which depends on the style sheet: it is an observation
    here, not computed from the children. *)
#[warnings="-register-all"]
Inductive Node :=
| Elem (classes : list string) (rendered : option string) (children : list Node)
| Text (s : string).

Definition is_element (n : Node) : bool :=
  match n with Elem _ _ _ => true | Text _ => false end.

(** [el.textContent]: the texts below [el], in order. *)
Fixpoint textContent (n : Node) : string :=
  match n with
  | Text s => s
  | Elem _ _ kids => String.concat "" (List.map textContent kids)
  end.

(** [el.innerText] *)
Definition innerText (n : Node) : option string :=
  match n with
  | Elem _ rendered _ => rendered
  | Text _ => None
  end.

Definition has_class (c : string) (n : Node) : bool :=
  match n with
  | Elem classes _ _ => bool_decide (c ∈ classes)
  | Text _ => false
  end.

(** The elements below and including [n], in document order, each with its
    ancestors, the nearest first. *)
Fixpoint elements (ancestors : list Node) (n : Node) : list (Node * list Node) :=
  match n with
  | Text _ => []
  | Elem _ _ kids => (n, ancestors) :: List.flat_map (elements (n :: ancestors)) kids
  end.

(** [document.querySelectorAll('*')] *)
Definition all_elements (doc : Node) : list (Node * list Node) := elements [] doc.

(** [el.querySelector('.' + c)]: an element strictly below [el] has the
    class. *)
Definition has_descendant (c : string) (el : Node) : bool :=
  existsb (fun x => has_class c (fst x)) (List.tl (elements [] el)).

(** [el.closest('.' + c)]: [el] or one of its ancestors has the class. *)
Definition closest (c : string) (el : Node) (ancestors : list Node) : bool :=
  existsb (has_class c) (el :: ancestors).

(** *** The tree, as relations

    The position of an element in the document, described without the
    traversal above. *)

(** [k] is an element child of [p]. *)
Definition child (p k : Node) : Prop :=
  is_element k = true
  /\ match p with Elem _ _ kids => k ∈ kids | Text _ => False end.

(** [d] is an element strictly below [p]. *)
Inductive below : Node -> Node -> Prop :=
| below_child p k : child p k -> below p k
| below_deeper p k d : child p k -> below k d -> below p d.


End Dom.

Module Scrape.

(** Upper case, as the case-insensitive flag compares characters: the ASCII
    letters and, after the lead byte 195, the letters U+00E0..U+00FE of the
    two-byte range. *)
Fixpoint fold_case (after_lead : bool) (s : string) : string :=
  match s with
  | EmptyString => EmptyString
  | String c s' =>
      let n := nat_of_ascii c in
      if after_lead then
        String (if (160 <=? n)%nat && (n <=? 190)%nat && negb (n =? 183)%nat
                then ascii_of_nat (n - 32) else c)
               (fold_case false s')
      else if Js.is_lower c then String (ascii_of_nat (n - 32)) (fold_case false s')
      else String c (fold_case (n =? 195)%nat s')
  end.

(** What follows the literal [p] at the head of [s], compared without
    regard to case. *)
Definition strip_ci (p s : string) : option string :=
  if Js.starts_with (fold_case false p) (fold_case false s)
  then Some (Scan.drop (String.length p) s) else None.

(** [:?] *)
Definition optional (c : ascii) (s : string) : string :=
  match s with
  | String c' s' => if decide (c' = c) then s' else s
  | EmptyString => s
  end.

Definition group (p : ascii -> bool) (s : string) : option string :=
  let '(g, _) := Scan.take_while p s in
  if Js.truthy g then Some g else None.

(** [/N° de Orden:?\s*(\d+)/i] at the head of [s]. *)
Definition order_at (s : string) : option string :=
  match strip_ci "N° de Orden" s with
  | Some s1 => group Js.is_digit (Scan.skip_space (optional Scan.colon s1))
  | None => None
  end.

Definition is_alnum (c : ascii) : bool := Js.is_upper c || Js.is_lower c || Js.is_digit c.

(** [/Código:?\s*([A-Z0-9]+)/i] at the head of [s]. *)
Definition code_at (s : string) : option string :=
  match strip_ci "Código" s with
  | Some s1 => group is_alnum (Scan.skip_space (optional Scan.colon s1))
  | None => None
  end.

(** [/S\/\.?\s*([\d.]+)/] at the head of [s]: when the group cannot be found
    after the optional dot, the dot is given back and starts the group. *)
Definition cost_at (s : string) : option string :=
  match Scan.strip "S/" s with
  | Some s1 =>
      let after s2 := group Scan.is_digit_or_dot (Scan.skip_space s2) in
      match s1 with
      | String c s2 =>
          if decide (c = Scan.dot) then
            match after s2 with
            | Some g => Some g
            | None => after s1
            end
          else after s1
      | EmptyString => None
      end
  | None => None
  end.

(** An element of the list the scrape returns. *)
Record Entry := mkEntry {
  orderNumber : string;
  code : string;
  cost : string
}.

(** [el.children.length === 0 && el.textContent &&
     el.textContent.includes('N° de Orden')] *)
Definition is_order_label (el : Dom.Node) : bool :=
  match el with
  | Dom.Elem _ _ kids =>
      forallb (fun k => negb (Dom.is_element k)) kids &&
      Js.truthy (Dom.textContent el) &&
      Js.includes (Dom.textContent el) "N° de Orden"
  | Dom.Text _ => false
  end.

Definition orderLabels (doc : Dom.Node) : list (Dom.Node * list Dom.Node) :=
  List.filter (fun x => is_order_label (fst x)) (Dom.all_elements doc).

Definition is_card (text : string) : bool :=
  Js.includes text "Código" && Js.includes text "S/".

(** [container.innerText || ''] *)
Definition text (container : Dom.Node) : string := Js.or_else (Dom.innerText container) "".

(** [while (container && attempts < 6)]: the first of the six nearest
    ancestors whose text has both markers, with its own ancestors. *)
Fixpoint find_container (attempts : nat) (ancestors : list Dom.Node)
  : option (Dom.Node * list Dom.Node) :=
  match attempts, ancestors with
  | S attempts', container :: above =>
      if is_card (text container) then Some (container, above)
      else find_container attempts' above
  | _, _ => None
  end.

(** [!!container.closest('.time-deleted') ||
     !!container.querySelector('.time-deleted')] *)
Definition isDeleted (container : Dom.Node) (above : list Dom.Node) : bool :=
  Dom.closest "time-deleted" container above || Dom.has_descendant "time-deleted" container.

Definition exists_order (o : string) (results : list Entry) : bool :=
  existsb (fun r => bool_decide (orderNumber r = o)) results.

(** The body of [orderLabels.forEach]. *)
Definition visit (results : list Entry) (label : Dom.Node * list Dom.Node) : list Entry :=
  match find_container 6 (snd label) with
  | Some (container, above) =>
      match Scan.first_match order_at (text container) with
      | Some o =>
          if negb (isDeleted container above) && negb (exists_order o results)
          then results ++ [mkEntry o (default "N/A" (Scan.first_match code_at (text container)))
                                     (default "0.00" (Scan.first_match cost_at (text container)))]
          else results
      | None => results
      end
  | None => results
  end.

(** The entries collected over the whole view. *)
Definition collect (doc : Dom.Node) : list Entry := foldl visit [] (orderLabels doc).

(** The function run by [page.evaluate] in [registerMassiveShipment]. *)
Definition shipments (doc : Dom.Node) : list Entry :=
  match last (collect doc) with
  | Some e => [e]
  | None => []
  end.

(** What [visit] appends for a label: the entry of its card, when the card
    is not marked deleted. *)
Definition from_live_card (labels : list (Dom.Node * list Dom.Node)) (e : Entry) : Prop :=
  exists label container above,
    label ∈ labels /\
    find_container 6 (snd label) = Some (container, above) /\
    isDeleted container above = false /\
    Scan.first_match order_at (text container) = Some (orderNumber e) /\
    code e = default "N/A" (Scan.first_match code_at (text container)) /\
    cost e = default "0.00" (Scan.first_match cost_at (text container)).

(** *** What the scrape reads, as relations

    The cards of the view and the texts the three expressions match,
    described on the tree and on the text, without the traversal and the
    scanners above. *)









(** The card is marked deleted: it has the class [time-deleted], or one of
    its ancestors has it, or an element below it has it. *)
Definition deleted (container : Dom.Node) (above : list Dom.Node) : Prop :=
  Dom.has_class "time-deleted" container = true
  \/ (exists a, a ∈ above /\ Dom.has_class "time-deleted" a = true)
  \/ (exists d, Dom.below container d /\ Dom.has_class "time-deleted" d = true).



End Scrape.

(** ** The durable store: the [instances] table behind [db.instance] *)

Module Store.

(** A value of a [data] object passed to the store client. *)
Inductive Value :=
| VStr (s : string)
| VNull
| VBool (b : bool)
| VDate (t : nat).

(** The [data: { ... }] object of a write: field names with their values. *)
Abbreviation Data := (list (string * Value)).

(** A row of [instances] ([prisma/migrations/20260127173443_init]). The
    column [password] is not in that migration: the revision of the manager
    that restores sessions on demand reads [dbInstance.password], so the row
    carries it, as a value that only a party outside the manager can fill. *)
Record Row := mkRow {
  id : string;
  username : option string;
  storageState : option string;
  password : option string;
  isActive : bool;
  createdAt : nat;
  lastUsedAt : nat
}.

(** [where: { apiKey }] and [where: { id }]. *)
Inductive Where :=
| ByApiKey (k : string)
| ById (i : string).

(** The writes the manager sends to the store. *)
Inductive Write :=
| Create (data : Data)
| Update (w : Where) (data : Data)
| Delete (w : Where).

Definition field (name : string) (data : Data) : option Value :=
  snd <$> List.find (fun f => bool_decide (fst f = name)) data.

Definition field_names (w : Write) : list string :=
  match w with
  | Create data => fst <$> data
  | Update _ data => fst <$> data
  | Delete _ => []
  end.

Definition opt_of (v : Value) : option string :=
  match v with VStr s => Some s | _ => None end.

(** A partial update: the fields named in [data] are overwritten, the others
    are kept. *)
Definition set_field (r : Row) (f : string * Value) : Row :=
  let '(name, v) := f in
  if bool_decide (name = "username") then
    mkRow (id r) (opt_of v) (storageState r) (password r) (isActive r) (createdAt r) (lastUsedAt r)
  else if bool_decide (name = "storageState") then
    mkRow (id r) (username r) (opt_of v) (password r) (isActive r) (createdAt r) (lastUsedAt r)
  else if bool_decide (name = "password") then
    mkRow (id r) (username r) (storageState r) (opt_of v) (isActive r) (createdAt r) (lastUsedAt r)
  else if bool_decide (name = "isActive") then
    mkRow (id r) (username r) (storageState r) (password r)
          (match v with VBool b => b | _ => isActive r end) (createdAt r) (lastUsedAt r)
  else if bool_decide (name = "lastUsedAt") then
    mkRow (id r) (username r) (storageState r) (password r) (isActive r) (createdAt r)
          (match v with VDate t => t | _ => lastUsedAt r end)
  else r.

Definition set_fields (data : Data) (r : Row) : Row := foldl set_field r data.

Definition selects (w : Where) (k : string) (r : Row) : bool :=
  match w with
  | ByApiKey k' => bool_decide (k = k')
  | ById i => bool_decide (id r = i)
  end.

Definition has_row (w : Where) (db : gmap string Row) : bool :=
  match w with
  | ByApiKey k => bool_decide (is_Some (db !! k))
  | ById i => bool_decide (Exists (fun kr => id (snd kr) = i) (map_to_list db))
  end.

(** [db.instance.create]: a new row with the defaults of the table; [None] is
    the rejection of the write (a missing key field, or the unique index on
    [apiKey]). *)
Definition create (now : nat) (data : Data) (db : gmap string Row) : option (gmap string Row) :=
  match field "id" data, field "apiKey" data with
  | Some (VStr i), Some (VStr k) =>
      match db !! k with
      | Some _ => None
      | None =>
          Some (<[k := set_fields data (mkRow i None None None true now now)]> db)
      end
  | _, _ => None
  end.

(** [db.instance.update]: [None] is the record-not-found rejection (P2025). *)
Definition update (w : Where) (data : Data) (db : gmap string Row) : option (gmap string Row) :=
  if has_row w db then
    Some (map_imap (fun k r => Some (if selects w k r then set_fields data r else r)) db)
  else None.

(** [db.instance.delete]: [None] is the record-not-found rejection (P2025). *)
Definition delete (w : Where) (db : gmap string Row) : option (gmap string Row) :=
  if has_row w db then
    Some (map_imap (fun k r => if selects w k r then None else Some r) db)
  else None.

(** The effect of a write on the table. *)
Definition apply (now : nat) (w : Write) (db : gmap string Row) : option (gmap string Row) :=
  match w with
  | Create data => create now data db
  | Update wh data => update wh data db
  | Delete wh => delete wh db
  end.

(** [db.instance.findFirst({ where: { apiKey } })] *)
Definition findFirst (k : string) (db : gmap string Row) : option Row := db !! k.

(** [db.instance.findMany()]: the rows with their keys. *)
Definition findMany (db : gmap string Row) : list (string * Row) := map_to_list db.

End Store.

(** ** The browser driver, as seen from the manager *)

Module Driver.

(** The commands the manager sends to the driver. A locator is the text of
    its selector. *)
Inductive Cmd :=
| Launch
| NewContext (seed : option string)
| NewPage
| Route
| Goto (url : string)
| Reload
| Url
| Content
| WaitForSelector (sel : string)
| Query (sel : string)
| WaitForLoadState
| WaitVisible (loc : string)
| IsVisible (loc : string)
| InputValue (loc : string)
| InnerText (loc : string)
| Fill (loc text : string)
| Click (loc : string)
| Press (key : string)
| WaitForEvent (name : string)
| SetFiles (path : string)
| Evaluate
| ClearCookies
| ClearStorage
| StorageState
| Screenshot
| CloseContext (h : nat)
| CloseBrowser (h : nat)
| Pause (ms : nat).

(** A command that types, clicks or presses: an interaction with a form. *)
Definition is_form_interaction (c : Cmd) : bool :=
  match c with
  | Fill _ _ | Click _ | Press _ | SetFiles _ => true
  | _ => false
  end.

(** A piece of a workflow: a command whose failure ends the workflow; a
    group run under [try { ... } catch { }] (or with [.catch(() => {})]),
    whose failure only ends the group; a statement that throws by itself (a
    property read on [null]). *)
Inductive Block :=
| Do (c : Cmd)
| Try (cs : list Cmd)
| Raise (msg : string).

Definition width (b : Block) : nat :=
  match b with Do _ => 1%nat | Try cs => length cs | Raise _ => 0%nat end.

(** The number of positions of a workflow. *)
Definition span (bs : list Block) : nat := sum_list (width <$> bs).

(** The commands of a group that are issued when the command at position
    [i + j] throws for the first [j]. [this._wait] never throws. *)
Fixpoint run_try (fails : nat -> option string) (i : nat) (cs : list Cmd) : list Cmd :=
  match cs with
  | [] => []
  | c :: cs' =>
      match c, fails i with
      | Pause _, _ | _, None => c :: run_try fails (S i) cs'
      | _, Some _ => [c]
      end
  end.

(** Running a workflow from position [i]: the commands issued, and the
    message of the failure that ended it, if any. [fails j] says whether the
    command at position [j] of the workflow throws. *)
Fixpoint run (fails : nat -> option string) (i : nat) (bs : list Block)
  : list Cmd * option string :=
  match bs with
  | [] => ([], None)
  | Do c :: bs' =>
      match c, fails i with
      | Pause _, _ | _, None =>
          let '(cs, r) := run fails (S i) bs' in (c :: cs, r)
      | _, Some msg => ([c], Some msg)
      end
  | Try g :: bs' =>
      let '(cs, r) := run fails (i + length g)%nat bs' in
      (run_try fails i g ++ cs, r)
  | Raise msg :: _ => ([], Some msg)
  end.

(** A part of a workflow that depends on the position it starts at (to ask
    the environment what the driver answers there), and the sequence of two
    parts. *)
Definition Part : Type := nat -> list Block.

Definition fixed (bs : list Block) : Part := fun _ => bs.

Definition then_ (a b : Part) : Part := fun i => a i ++ b (i + span (a i))%nat.

(** The commands of a workflow, in order. *)
Definition commands (bs : list Block) : list Cmd :=
  bs ≫= (fun b => match b with Do c => [c] | Try cs => cs | Raise _ => [] end).

(** A workflow of plain commands: no group, no statement that throws by
    itself, no wait. *)
Definition plain (bs : list Block) : Prop :=
  Forall (fun b => match b with
                   | Do (Pause _) => False
                   | Do _ => True
                   | _ => False
                   end) bs.

End Driver.

(** ** What an operation leaves behind *)

(** The trace of an operation: driver commands, store writes, and the
    [console.log] line that opens a login attempt. *)
Inductive Event :=
| Drv (c : Driver.Cmd)
| Db (w : Store.Write)
| LogAttempt (attempt retries : Z).

(** The completion of an [async] function: a value, or a rejection with the
    message of the error. *)
Inductive Outcome (A : Type) :=
| Return (a : A)
| Throw (msg : string).
Arguments Return {A} a.
Arguments Throw {A} msg.

Definition is_db (e : Event) : option Store.Write :=
  match e with Db w => Some w | _ => None end.

(** The store writes of a trace. *)
Definition writes (tr : list Event) : list Store.Write := omap is_db tr.

Definition is_cmd (e : Event) : option Driver.Cmd :=
  match e with Drv c => Some c | _ => None end.

(** The driver commands of a trace. *)
Definition cmds (tr : list Event) : list Driver.Cmd := omap is_cmd tr.

Definition is_attempt (e : Event) : bool :=
  match e with LogAttempt _ _ => true | _ => false end.

(** The number of login attempts of a trace. *)
Definition attempts (tr : list Event) : nat := length (filter (fun e => is_attempt e = true) tr).

(** The number of driver commands of a trace that satisfy [f]. *)
Definition issued (f : Driver.Cmd -> bool) (tr : list Event) : nat :=
  length (List.filter f (cmds tr)).

(** ** One login attempt: the body of the retry loop *)

Module Login.

(** What the driver and the site answer during one attempt. *)
Record AttemptObs := mkAttemptObs {
  a_fails : nat -> option string;  (* the command at this position throws *)
  a_email : bool;                  (* an [input[type=email]] exists *)
  a_text : bool;                   (* an [input[type=text]] exists *)
  a_password : bool;               (* an [input[type=password]] exists *)
  a_submit : bool;                 (* a [button[type=submit]] exists *)
  a_url : string;                  (* [page.url()] after the submission *)
  a_content : string               (* [page.content()] *)
}.

Definition null_fill : string := "Cannot read properties of null (reading 'fill')".

(** The commands of the [try] body up to [page.url()]. *)
Definition attempt_script (attempt : Z) (username password : string) (o : AttemptObs)
  : list Driver.Block :=
  (if 1 <? attempt then [Driver.Do Driver.Reload] else []) ++
  [Driver.Do (Driver.WaitForSelector "input[type=text], input[type=email]");
   Driver.Do (Driver.Query "input[type=email]")] ++
  (if a_email o then [] else [Driver.Do (Driver.Query "input[type=text]")]) ++
  [if a_email o || a_text o then Driver.Do (Driver.Fill "emailInput" username)
   else Driver.Raise null_fill;
   Driver.Do (Driver.Query "input[type=password]");
   if a_password o then Driver.Do (Driver.Fill "passwordInput" password)
   else Driver.Raise null_fill;
   Driver.Do (Driver.Query "button[type=submit]")] ++
  (if a_submit o
   then [Driver.Do Driver.WaitForLoadState; Driver.Do (Driver.Click "button[type=submit]")]
   else [Driver.Do (Driver.Press "Enter"); Driver.Do Driver.WaitForLoadState]) ++
  [Driver.Do Driver.Url].

(** How the body of the loop ends. *)
Inductive AttemptResult :=
| Navigated (url : string)   (* the URL no longer contains [login] *)
| InvalidIndicator           (* the content shows the error indicator *)
| NoIndicator                (* still on the login view, no indicator *)
| Threw (msg : string).      (* a command threw: the [catch] branch *)

(** The error indicator of the login view. *)
Definition has_indicator (content : string) : bool :=
  Js.includes content "incorrectas" || Js.includes content "error".

Definition attempt_once (attempt retries : Z) (username password : string) (o : AttemptObs)
  : list Event * AttemptResult :=
  let script := attempt_script attempt username password o in
  let '(cs, r) := Driver.run (a_fails o) 0 script in
  let tr := LogAttempt attempt retries :: (Drv <$> cs) in
  match r with
  | Some msg => (tr, Threw msg)
  | None =>
      if negb (Js.includes (a_url o) "login") then (tr, Navigated (a_url o))
      else
        match a_fails o (Driver.span script) with
        | Some msg => (tr ++ [Drv Driver.Content], Threw msg)
        | None =>
            (tr ++ [Drv Driver.Content],
             if has_indicator (a_content o) then InvalidIndicator else NoIndicator)
        end
  end.

(** The object a login returns: [{ success, message, url }]. *)
Record Result := mkResult {
  success : bool;
  message : option string;
  url : option string
}.

Definition invalid_credentials : Result := mkResult false (Some "Invalid credentials") None.
Definition login_failed : Result := mkResult false (Some "Login failed") None.
Definition failed_with (msg : string) : Result := mkResult false (Some msg) None.

(** [_attemptLogin(page, username, password, instanceId, retries)] of the
    revision that restores on demand:
    [for (let attempt = 1; attempt <= retries; attempt++)]. The first argument
    counts the iterations that remain, [retries - attempt + 1]. *)
Fixpoint attempt_loop (remaining : nat) (attempt retries : Z) (username password : string)
    (obs : Z -> AttemptObs) : list Event * Result :=
  match remaining with
  | O => ([], login_failed)
  | S remaining' =>
      let '(tr, r) := attempt_once attempt retries username password (obs attempt) in
      let next := attempt_loop remaining' (attempt + 1) retries username password obs in
      match r with
      | Navigated u => (tr, mkResult true None (Some u))
      | InvalidIndicator =>
          if attempt <? retries
          then (tr ++ Drv (Driver.Pause 1000) :: fst next, snd next)
          else (tr, invalid_credentials)
      | NoIndicator => (tr ++ fst next, snd next)
      | Threw msg =>
          if attempt =? retries then (tr, failed_with msg)
          else (tr ++ Drv (Driver.Pause 1000) :: fst next, snd next)
      end
  end.

Definition _attemptLogin (username password : string) (retries : Z) (obs : Z -> AttemptObs)
  : list Event * Result :=
  attempt_loop (Z.to_nat retries) 1 retries username password obs.

(** The steps of an attempt, as commands of the trace: [fill] of the text
    [text] into the input [loc]; the submission of the form
    ([submitBtn.click()], or [keyboard.press('Enter')] when there is no
    submit button); [page.reload]; the wait of one second between two
    attempts. *)
Definition types (loc text : string) (c : Driver.Cmd) : bool :=
  match c with
  | Driver.Fill l t => String.eqb l loc && String.eqb t text
  | _ => false
  end.

Definition submits (c : Driver.Cmd) : bool :=
  match c with
  | Driver.Click l => String.eqb l "button[type=submit]"
  | Driver.Press key => String.eqb key "Enter"
  | _ => false
  end.

Definition reloads (c : Driver.Cmd) : bool :=
  match c with Driver.Reload => true | _ => false end.

Definition pauses (c : Driver.Cmd) : bool :=
  match c with Driver.Pause ms => Nat.eqb ms 1000 | _ => false end.

End Login.

(** ** The state of the manager and the shape of its operations *)

Module Tenant.

(** An entry of [this.instances]. The revision that launches one browser per
    session keeps its handle in [browser]; an entry rebuilt from the store
    has none. *)
Record Instance := mkInstance {
  id : string;
  apiKey : string;
  own_browser : option nat;
  context : nat;
  page : nat;
  createdAt : nat;
  username : option string;
  lastShipmentTime : option nat
}.

(** The fields of the [TenantManager] singleton, and the store behind
    [getPrisma()]. *)
Record State := mkState {
  instances : gmap string Instance;
  initialized : bool;
  browser : option nat;
  isShuttingDown : bool;
  db : gmap string Store.Row
}.

Definition with_instances (f : gmap string Instance -> gmap string Instance) (s : State) : State :=
  mkState (f (instances s)) (initialized s) (browser s) (isShuttingDown s) (db s).

Definition with_db (d : gmap string Store.Row) (s : State) : State :=
  mkState (instances s) (initialized s) (browser s) (isShuttingDown s) d.

Definition with_initialized (b : bool) (s : State) : State :=
  mkState (instances s) b (browser s) (isShuttingDown s) (db s).

Definition with_browser (h : option nat) (s : State) : State :=
  mkState (instances s) (initialized s) h (isShuttingDown s) (db s).

Definition set_username (u : option string) (i : Instance) : Instance :=
  mkInstance (id i) (apiKey i) (own_browser i) (context i) (page i) (createdAt i) u
             (lastShipmentTime i).

Definition set_lastShipmentTime (t : nat) (i : Instance) : Instance :=
  mkInstance (id i) (apiKey i) (own_browser i) (context i) (page i) (createdAt i) (username i)
             (Some t).

(** What [context.storageState()] and the clock answer during
    [_saveStorageState]. *)
Record SaveObs := mkSaveObs {
  sv_state : option string;      (* the serialized state; [None]: the call throws *)
  sv_now : nat;
  sv_context_browser : bool      (* [instance.context.browser()] is not null *)
}.

(** What the driver and the site answer while one row is restored. *)
Record RestoreObs := mkRestoreObs {
  r_parse_ok : bool;             (* [JSON.parse(dbInstance.storageState)] succeeds *)
  r_fails : nat -> option string;
  r_context : nat;
  r_page : nat;
  r_url : string;                (* [page.url()] after the navigation to the root *)
  r_attempts : Z -> Login.AttemptObs;
  r_now : nat;
  r_save : SaveObs
}.

(** The environment of one call of an operation. *)
Record Env := mkEnv {
  e_launch : Outcome nat;        (* [chromium.launch] in [initialize] *)
  e_relaunch : Outcome nat;      (* [chromium.launch] in [createInstance] *)
  e_restore : string -> RestoreObs;
  e_uuid : string * string;      (* the two [uuidv4()]: [apiKey], [id] *)
  e_context : nat;
  e_page : nat;
  e_now : nat;                   (* [new Date()], [Date.now()] *)
  e_fails : nat -> option string; (* the command at this position throws *)
  e_visible : nat -> bool;       (* the answer of [isVisible()] at this position *)
  e_url : string;                (* [page.url()] when the operation starts *)
  e_url_after : string;          (* [page.url()] when it returns *)
  e_attempts : Z -> Login.AttemptObs;
  e_save : SaveObs;
  e_name_value : string;         (* [nameInput.inputValue()] *)
  e_content : string;            (* [page.content()] *)
  e_title : option string;       (* the text of [.swal2-title]; [None]: throws *)
  e_document : Dom.Node          (* the document [page.evaluate] runs on *)
}.

(** An operation: from a state to a completion, the state it leaves and the
    trace it produced. *)
Definition M (A : Type) : Type := State -> Outcome A * State * list Event.

Definition ret {A} (a : A) : M A := fun s => (Return a, s, []).

Definition bind {A B} (c : M A) (f : A -> M B) : M B := fun s =>
  match c s with
  | (Return a, s1, t1) => let '(r, s2, t2) := f a s1 in (r, s2, t1 ++ t2)
  | (Throw msg, s1, t1) => (Throw msg, s1, t1)
  end.

Definition throw {A} (msg : string) : M A := fun s => (Throw msg, s, []).

(** [try { c } catch (error) { h error.message }] *)
Definition catch {A} (c : M A) (h : string -> M A) : M A := fun s =>
  match c s with
  | (Throw msg, s1, t1) => let '(r, s2, t2) := h msg s1 in (r, s2, t1 ++ t2)
  | r => r
  end.

Definition emit (tr : list Event) : M unit := fun s => (Return (), s, tr).
Definition get : M State := fun s => (Return s, s, []).
Definition modify (f : State -> State) : M unit := fun s => (Return (), f s, []).

(** The driver commands of a workflow, the first at position [i]: the
    commands issued, then the failure if one ended it. *)
Definition drive_from (i : nat) (fails : nat -> option string) (bs : list Driver.Block)
  : M unit := fun s =>
  let '(cs, r) := Driver.run fails i bs in
  (match r with Some msg => Throw msg | None => Return () end, s, Drv <$> cs).

Definition drive (fails : nat -> option string) (bs : list Driver.Block) : M unit :=
  drive_from 0 fails bs.

Definition not_found : string := "Record not found (P2025)".

(** A write sent to the store: recorded, applied, and rejected when the
    store rejects it. *)
Definition store (now : nat) (w : Store.Write) : M unit := fun s =>
  match Store.apply now w (db s) with
  | Some d => (Return (), with_db d s, [Db w])
  | None => (Throw not_found, s, [Db w])
  end.

(** [this.getInstance(apiKey)] *)
Definition getInstance (k : string) : M (option Instance) := fun s =>
  (Return (instances s !! k), s, []).

Definition result {A} (x : Outcome A * State * list Event) : Outcome A := fst (fst x).
Definition state {A} (x : Outcome A * State * list Event) : State := snd (fst x).
Definition trace {A} (x : Outcome A * State * list Event) : list Event := snd x.

End Tenant.

Notation "x <- c1 ;; c2" := (Tenant.bind c1 (fun x => c2))
  (at level 100, c1 at next level, right associativity).
Notation "c1 ;; c2" := (Tenant.bind c1 (fun _ => c2))
  (at level 100, right associativity).

(** ** Shipment requests and results *)

Module Shipment.

Record Recipient := mkRecipient {
  documentNumber : string;
  name : option string;
  phone : option string
}.

(** The body of a shipment request, as [registerShipment] reads it. *)
Record Data := mkData {
  productType : string;
  origin : string;
  destination : string;
  recipient : Recipient;
  warranty : bool;
  secureBilling : bool;
  contentType : option string;
  securityCode : option string
}.

(** The objects [registerShipment] returns. *)
Record Result := mkResult {
  success : bool;
  registrationNumber : option string;
  price : option Scan.Number;
  message : option string;
  error : option string;
  details : option string
}.

Definition lower (c : ascii) : ascii :=
  if Js.is_upper c then ascii_of_nat (nat_of_ascii c + 32) else c.

(** [s.toLowerCase()], on the ASCII letters. *)
Fixpoint toLowerCase (s : string) : string :=
  match s with
  | EmptyString => EmptyString
  | String c s' => String (lower c) (toLowerCase s')
  end.

(** The own properties of [typeMap]. *)
Definition typeMap : list (string * string) :=
  [("sobre", "Sobre"); ("xxs", "Caja Paquete XXS"); ("xs", "Caja Paquete XS");
   ("s", "Caja Paquete S"); ("m", "Caja Paquete M"); ("l", "Caja Paquete L");
   ("custom", "Otra Medida")].

(** The properties [typeMap] inherits from [Object.prototype] whose names
    are in lower case, each with the text [String] gives for its value (a
    function and an object, both truthy). *)
Definition inherited : list (string * string) :=
  [("constructor", "function Object() { [native code] }"); ("__proto__", "[object Object]")].

(** [typeMap[shipmentData.productType.toLowerCase()] || 'Sobre']: an own
    property, or else an inherited one, or else the default. The value of an
    inherited property is not a string; it is passed to [getByText] as it
    is, and is kept here by its text. *)
Definition typeName (d : Data) : string :=
  default "Sobre"
    (snd <$> List.find (fun kv => bool_decide (fst kv = toLowerCase (productType d)))
               (typeMap ++ inherited)).

(** [shipmentData.securityCode || '5858'] *)
Definition code (d : Data) : string := Js.or_else (securityCode d) "5858".

(** [_getRegistrationResult(page)], from the content of the page and the
    title of the error dialog. *)
Definition registration_result (content : string) (title : option string) : Result :=
  if Js.includes content "Registrado" then
    mkResult true
      ((fun m => fst m +:+ " - " +:+ snd m) <$> Scan.registration content)
      (Scan.parseFloat <$> Scan.price content)
      (Some "Shipment registered successfully") None None
  else
    mkResult false None None (Some (default "Unknown error" title)) None None.

(** The first step of both workflows: the navigation that resets the view. *)
Definition home : Driver.Cmd := Driver.Goto "https://pro.shalom.pe/#/home".

Definition continuar : string := "role=button[name=Continuar]".
Definition key (digit : ascii) : string := "role=button[name=" +:+ String digit "]".

(** [_selectLocationFast(page, placeholder, text)] *)
Definition selectLocationFast (placeholder text : string) : list Driver.Block :=
  [Driver.Do (Driver.Click (".multiselect >> text=" +:+ placeholder));
   Driver.Do (Driver.Fill ("placeholder=" +:+ placeholder) text);
   Driver.Do (Driver.Pause 1500);
   Driver.Do (Driver.Press "ArrowDown");
   Driver.Do (Driver.Pause 200);
   Driver.Do (Driver.Press "Enter");
   Driver.Do (Driver.Pause 400)].

(** Step 7: the keypad is awaited, then one click per character of the
    code. The code is never empty there, see [code]. *)
Definition code_entry (code : string) : list Driver.Block :=
  match code with
  | String first _ =>
      Driver.Do (Driver.WaitVisible (key first)) ::
      (Js.chars code ≫= fun digit =>
         [Driver.Do (Driver.Click (key digit)); Driver.Do (Driver.Pause 150)])
  | EmptyString => []
  end.

(** The end of the workflow: the confirmation and the wait for the marker. *)
Definition submit : list Driver.Block :=
  [Driver.Do (Driver.Click continuar);
   Driver.Try [Driver.WaitVisible "text=Registrado"];
   Driver.Do (Driver.Pause 500)].

(** Steps 1 and 2: the reset of the view, the product type, the two
    locations. *)
Definition opening (d : Data) : list Driver.Block :=
  [Driver.Do home;
   Driver.Do (Driver.Goto "https://pro.shalom.pe/#/envios");
   Driver.Do (Driver.WaitVisible "text=¿Qué tipo de producto");
   Driver.Do (Driver.Click ("text=" +:+ typeName d));
   Driver.Do (Driver.Click continuar);
   Driver.Do (Driver.WaitVisible "text=¿A dónde")] ++
  selectLocationFast "Origen" (origin d) ++
  selectLocationFast "Destino" (destination d) ++
  [Driver.Do (Driver.Click continuar); Driver.Do (Driver.Pause 800)].

End Shipment.

(** ** The manager of [src/tenantManager.js]

    Sessions are restored at start-up only; a closed session is kept in the
    store as an inactive row. *)

Module TenantManager.

Import Tenant.

Definition instance_not_found : string := "Instance not found".
Definition null_newContext : string := "Cannot read properties of null (reading 'newContext')".
Definition undefined_close : string := "Cannot read properties of undefined (reading 'close')".

(** [_saveStorageState(apiKey)] *)
Definition _saveStorageState (k : string) (o : SaveObs) : M unit :=
  instance <- getInstance k ;;
  match instance with
  | None => ret ()
  | Some _ =>
      catch
        (emit [Drv Driver.StorageState] ;;
         match sv_state o with
         | None => throw "storageState failed"
         | Some blob =>
             store (sv_now o)
               (Store.Update (Store.ByApiKey k)
                  [("storageState", Store.VStr blob); ("lastUsedAt", Store.VDate (sv_now o))])
         end)
        (fun _ => ret ())
  end.

(** The driver part of [_restoreInstance]. *)
Definition restore_script (row : Store.Row) (o : RestoreObs) : list Driver.Block :=
  match Store.storageState row with
  | Some blob =>
      if Js.truthy blob then
        if r_parse_ok o then
          Driver.Try [Driver.NewContext (Some blob)] ::
          match r_fails o 0%nat with
          | Some _ => [Driver.Do (Driver.NewContext None)]
          | None => []
          end
        else [Driver.Do (Driver.NewContext None)]
      else [Driver.Do (Driver.NewContext None)]
  | None => [Driver.Do (Driver.NewContext None)]
  end ++
  [Driver.Do Driver.NewPage; Driver.Do Driver.Route;
   Driver.Do (Driver.Goto "https://pro.shalom.pe"); Driver.Do (Driver.Pause 2000);
   Driver.Do Driver.Url].

(** [_restoreInstance(dbInstance)] once the shared browser is known. *)
Definition restore_row (k : string) (row : Store.Row) (o : RestoreObs) : M (bool * option string) :=
  s <- get ;;
  match browser s with
  | None => throw null_newContext
  | Some _ =>
      drive (r_fails o) (restore_script row o) ;;
      let isLoggedIn := negb (Js.includes (r_url o) "login") in
      modify (with_instances
                <[k := mkInstance (Store.id row) k None (r_context o) (r_page o)
                         (Store.createdAt row)
                         (if isLoggedIn then Store.username row else None) None]>) ;;
      store (r_now o)
        (Store.Update (Store.ById (Store.id row)) [("lastUsedAt", Store.VDate (r_now o))]) ;;
      ret (isLoggedIn, Store.username row)
  end.

(** The loop of [initialize]: a row that cannot be restored is marked
    inactive. *)
Fixpoint restore_all (rows : list (string * Store.Row)) (env : Env) : M unit :=
  match rows with
  | [] => ret ()
  | (k, row) :: rows' =>
      catch (restore_row k row (e_restore env k) ;; ret ())
        (fun _ =>
           store (e_now env)
             (Store.Update (Store.ById (Store.id row)) [("isActive", Store.VBool false)])) ;;
      restore_all rows' env
  end.

(** [db.instance.findMany({ where: { isActive: true } })] *)
Definition active_rows (d : gmap string Store.Row) : list (string * Store.Row) :=
  List.filter (fun kr => Store.isActive (snd kr)) (Store.findMany d).

(** [initialize()] *)
Definition initialize (env : Env) : M unit :=
  s <- get ;;
  if initialized s then ret ()
  else
    catch
      ((match browser s with
        | Some _ => ret ()
        | None =>
            emit [Drv Driver.Launch] ;;
            match e_launch env with
            | Return h => modify (with_browser (Some h))
            | Throw msg => throw msg
            end
        end) ;;
       s' <- get ;;
       restore_all (active_rows (db s')) env ;;
       modify (with_initialized true))
      (fun _ => modify (with_initialized true)).

(** [createInstance()]: every session launches a browser of its own. *)
Definition createInstance (env : Env) : M (string * string) :=
  initialize env ;;
  let '(k, i) := e_uuid env in
  store (e_now env)
    (Store.Create [("id", Store.VStr i); ("apiKey", Store.VStr k); ("isActive", Store.VBool true)]) ;;
  emit [Drv Driver.Launch] ;;
  match e_relaunch env with
  | Throw msg => throw msg
  | Return h =>
      drive (e_fails env)
        [Driver.Do (Driver.NewContext None); Driver.Do Driver.NewPage;
         Driver.Do (Driver.Goto "https://pro.shalom.pe/login"); Driver.Do (Driver.Pause 1500)] ;;
      modify (with_instances
                <[k := mkInstance i k (Some h) (e_context env) (e_page env) (e_now env) None None]>) ;;
      ret (k, i)
  end.

(** [getStatus(apiKey)]: [None] is the [null] it returns. *)
Definition getStatus (k : string) (env : Env) : M (option (bool * option string * string)) :=
  initialize env ;;
  instance <- getInstance k ;;
  match instance with
  | None => ret None
  | Some i =>
      let logged := negb (Js.includes (e_url env) "login") && bool_decide (username i <> None) in
      ret (Some (logged, if logged then username i else None, e_url env))
  end.

Definition bind_username (k u : string) : M unit :=
  modify (with_instances (alter (set_username (Some u)) k)).

(** The retry loop of [login]: the success branch sits inside the [try], so
    a store rejection there is handled like a driver failure. The first
    argument counts the iterations that remain. *)
Fixpoint login_loop (remaining : nat) (attempt retries : Z) (k u password : string) (env : Env)
  : M Login.Result :=
  match remaining with
  | O => ret Login.login_failed
  | S remaining' =>
      let next := login_loop remaining' (attempt + 1) retries k u password env in
      let on_error msg :=
        if attempt =? retries then ret (Login.failed_with msg)
        else emit [Drv (Driver.Pause 1000)] ;; next in
      let once := Login.attempt_once attempt retries u password (e_attempts env attempt) in
      emit (fst once) ;;
      match snd once with
      | Login.Navigated currentUrl =>
          catch
            (bind_username k u ;;
             store (e_now env) (Store.Update (Store.ByApiKey k) [("username", Store.VStr u)]) ;;
             _saveStorageState k (e_save env) ;;
             ret (Login.mkResult true (Some "Login successful") (Some currentUrl)))
            on_error
      | Login.InvalidIndicator =>
          if attempt <? retries then emit [Drv (Driver.Pause 1000)] ;; next
          else ret Login.invalid_credentials
      | Login.NoIndicator => next
      | Login.Threw msg => on_error msg
      end
  end.

(** [login(apiKey, username, password, retries)] *)
Definition login (k u password : string) (retries : Z) (env : Env) : M Login.Result :=
  initialize env ;;
  instance <- getInstance k ;;
  match instance with
  | None => throw instance_not_found
  | Some i =>
      if negb (Js.includes (e_url env) "login") then
        (if negb (Js.truthy_opt (username i)) then
           bind_username k u ;;
           store (e_now env) (Store.Update (Store.ByApiKey k) [("username", Store.VStr u)])
         else ret ()) ;;
        _saveStorageState k (e_save env) ;;
        ret (Login.mkResult true (Some "Already logged in") (Some (e_url_after env)))
      else login_loop (Z.to_nat retries) 1 retries k u password env
  end.

(** [logout(apiKey)] *)
Definition logout (k : string) (env : Env) : M Login.Result :=
  initialize env ;;
  instance <- getInstance k ;;
  match instance with
  | None => throw instance_not_found
  | Some _ =>
      drive (e_fails env) [Driver.Do Driver.ClearCookies; Driver.Do Driver.ClearStorage] ;;
      modify (with_instances (alter (set_username None) k)) ;;
      store (e_now env)
        (Store.Update (Store.ByApiKey k) [("username", Store.VNull); ("storageState", Store.VNull)]) ;;
      drive_from 2 (e_fails env) [Driver.Do (Driver.Goto "https://pro.shalom.pe/login")] ;;
      ret (Login.mkResult true (Some "Logged out") None)
  end.

(** [closeInstance(apiKey)]: the row is kept, marked inactive. *)
Definition closeInstance (k : string) (env : Env) : M bool :=
  initialize env ;;
  instance <- getInstance k ;;
  match instance with
  | Some i =>
      match own_browser i with
      | None => throw undefined_close
      | Some h =>
          drive (e_fails env) [Driver.Do (Driver.CloseBrowser h)] ;;
          modify (with_instances (delete k)) ;;
          store (e_now env)
            (Store.Update (Store.ByApiKey k) [("isActive", Store.VBool false)]) ;;
          ret true
      end
  | None => ret false
  end.

(** An element of the list [listInstances] returns. *)
Record Listed := mkListed {
  l_id : string;
  l_apiKey : string;
  l_username : option string;
  l_createdAt : nat;
  l_lastUsedAt : nat;
  inMemory : bool
}.

(** [listInstances()]: the active rows, each with its liveness. *)
Definition listInstances (env : Env) : M (list Listed) :=
  initialize env ;;
  s <- get ;;
  ret ((fun kr =>
          mkListed (Store.id (snd kr)) (fst kr) (Store.username (snd kr))
            (Store.createdAt (snd kr)) (Store.lastUsedAt (snd kr))
            (bool_decide (is_Some (instances s !! fst kr)))) <$> active_rows (db s)).

(** The loop of [shutdown] over the live sessions: the state is saved, the
    context closed, and a failure of either is logged. *)
Fixpoint close_all (live : list (string * Instance)) (env : Env) : M unit :=
  match live with
  | [] => ret ()
  | (k, i) :: live' =>
      catch
        (_saveStorageState k (r_save (e_restore env k)) ;;
         drive (r_fails (e_restore env k)) [Driver.Do (Driver.CloseContext (context i))])
        (fun _ => ret ()) ;;
      close_all live' env
  end.

(** [shutdown()] *)
Definition shutdown (env : Env) : M unit :=
  s <- get ;;
  close_all (map_to_list (instances s)) env ;;
  s' <- get ;;
  match browser s' with
  | Some h =>
      drive (e_fails env) [Driver.Do (Driver.CloseBrowser h)] ;;
      modify (with_browser None)
  | None => ret ()
  end.

(** Step 6: the sworn declaration, when it is visible. *)
Definition declaration_part (d : Shipment.Data) (env : Env) : Driver.Part := fun i =>
  let contentType := Js.or_else (Shipment.contentType d) "Documentos" in
  Driver.Try [Driver.IsVisible "text=Declaración Jurada"] ::
  (if e_visible env i && bool_decide (e_fails env i = None) then
     Driver.Try [Driver.Click ("text=" +:+ contentType)] ::
     match e_fails env (S i) with
     | Some _ => [Driver.Do (Driver.Click "text=Documentos"); Driver.Do (Driver.Pause 300)]
     | None => [Driver.Do (Driver.Pause 300)]
     end
   else []).

(** The steps of [registerShipment] between the entry and the result. *)
Definition shipment_script (d : Shipment.Data) (env : Env) : list Driver.Block :=
  Driver.then_
    (Driver.fixed
       (Shipment.opening d ++
        (if Shipment.warranty d then [] else [Driver.Try [Driver.Click "text=No deseo Garantía"]]) ++
        [Driver.Do (Driver.Click Shipment.continuar);
         Driver.Do (Driver.WaitVisible "input[placeholder=DNI] >> nth=1");
         Driver.Do (Driver.Fill "input[placeholder=DNI] >> nth=1"
                      (Shipment.documentNumber (Shipment.recipient d)));
         Driver.Do (Driver.Pause 2000);
         Driver.Do (Driver.Click Shipment.continuar); Driver.Do (Driver.Pause 800)] ++
        (if Shipment.secureBilling d then []
         else [Driver.Try [Driver.Click "text=No deseo el servicio"]]) ++
        [Driver.Do (Driver.Click Shipment.continuar); Driver.Do (Driver.Pause 800)]))
    (Driver.then_ (declaration_part d env)
       (Driver.fixed (Shipment.code_entry (Shipment.code d) ++ Shipment.submit)))
    0%nat.

(** [registerShipment(apiKey, shipmentData)]: a failure of a step is thrown
    again. *)
Definition registerShipment (k : string) (d : Shipment.Data) (env : Env) : M Shipment.Result :=
  initialize env ;;
  instance <- getInstance k ;;
  match instance with
  | None => throw instance_not_found
  | Some _ =>
      let script := shipment_script d env in
      drive (e_fails env) script ;;
      drive_from (Driver.span script) (e_fails env) [Driver.Do Driver.Content] ;;
      (if Js.includes (e_content env) "Registrado" then ret ()
       else emit [Drv (Driver.InnerText ".swal2-title")]) ;;
      modify (with_instances (alter (set_lastShipmentTime (e_now env)) k)) ;;
      _saveStorageState k (e_save env) ;;
      ret (Shipment.registration_result (e_content env) (e_title env))
  end.

(** The operations of the manager, as calls. *)
Inductive Call :=
| Initialize
| SaveStorageState (k : string)
| CreateInstance
| GetStatus (k : string)
| LoginCall (k u password : string) (retries : Z)
| Logout (k : string)
| CloseInstance (k : string)
| ListInstances
| RegisterShipment (k : string) (d : Shipment.Data)
| Shutdown.

Definition forget {A} (x : Outcome A * State * list Event) : State * list Event :=
  (state x, trace x).

(** The state and the trace a call leaves. *)
Definition perform (c : Call) (env : Env) (s : State) : State * list Event :=
  match c with
  | Initialize => forget (initialize env s)
  | SaveStorageState k => forget (_saveStorageState k (e_save env) s)
  | CreateInstance => forget (createInstance env s)
  | GetStatus k => forget (getStatus k env s)
  | LoginCall k u password retries => forget (login k u password retries env s)
  | Logout k => forget (logout k env s)
  | CloseInstance k => forget (closeInstance k env s)
  | ListInstances => forget (listInstances env s)
  | RegisterShipment k d => forget (registerShipment k d env s)
  | Shutdown => forget (shutdown env s)
  end.

End TenantManager.

(** ** The manager that restores sessions on demand

    The revision of [tenantManager.js] with [getOrRestoreInstance],
    [_attemptLogin] and [registerMassiveShipment]. *)

Module TenantManagerR.

Import Tenant.

Definition instance_not_found : string := "Instance not found".
Definition null_newContext : string := "Cannot read properties of null (reading 'newContext')".

(** [_saveStorageState(apiKey)] *)
Definition _saveStorageState (k : string) (o : SaveObs) : M unit :=
  instance <- getInstance k ;;
  match instance with
  | None => ret ()
  | Some _ =>
      s <- get ;;
      if isShuttingDown s && negb (sv_context_browser o) then ret ()
      else
        catch
          (emit [Drv Driver.StorageState] ;;
           match sv_state o with
           | None => throw "storageState failed"
           | Some blob =>
               store (sv_now o)
                 (Store.Update (Store.ByApiKey k)
                    [("storageState", Store.VStr blob); ("lastUsedAt", Store.VDate (sv_now o))])
           end)
          (fun _ => ret ())
  end.

(** The driver part of [_restoreInstance]: the context, seeded with the
    stored state when it parses, the page, the navigation to the root. *)
Definition restore_script (row : Store.Row) (o : RestoreObs) : list Driver.Block :=
  match Store.storageState row with
  | Some blob =>
      if Js.truthy blob then
        if r_parse_ok o then
          Driver.Try [Driver.NewContext (Some blob)] ::
          match r_fails o 0%nat with
          | Some _ => [Driver.Do (Driver.NewContext None)]
          | None => []
          end
        else [Driver.Do (Driver.NewContext None)]
      else [Driver.Do (Driver.NewContext None)]
  | None => [Driver.Do (Driver.NewContext None)]
  end ++
  [Driver.Do Driver.NewPage; Driver.Do Driver.Route;
   Driver.Do (Driver.Goto "https://pro.shalom.pe"); Driver.Do (Driver.Pause 2000);
   Driver.Do Driver.Url].

(** [_restoreInstance(dbInstance)] once the shared browser is known: the row
    is [dbInstance], [k] its [apiKey]. *)
Definition restore_row (k : string) (row : Store.Row) (o : RestoreObs) : M (bool * option string) :=
  s <- get ;;
  match browser s with
  | None => throw null_newContext
  | Some _ =>
      drive (r_fails o) (restore_script row o) ;;
      let at_login := Js.includes (r_url o) "login" in
      isLoggedIn <-
        (if at_login && Js.truthy_opt (Store.username row) && Js.truthy_opt (Store.password row)
         then
           let loginResult :=
             Login._attemptLogin (default "" (Store.username row))
               (default "" (Store.password row)) 3 (r_attempts o) in
           emit (fst loginResult) ;; ret (Login.success (snd loginResult))
         else ret (negb at_login)) ;;
      modify (with_instances
                <[k := mkInstance (Store.id row) k None (r_context o) (r_page o)
                         (Store.createdAt row)
                         (if isLoggedIn then Store.username row else None) None]>) ;;
      store (r_now o)
        (Store.Update (Store.ById (Store.id row)) [("lastUsedAt", Store.VDate (r_now o))]) ;;
      (if isLoggedIn then _saveStorageState k (r_save o) else ret ()) ;;
      ret (isLoggedIn, Store.username row)
  end.

(** The loop of [initialize] over the rows read from the store. Each row goes
    through [_restoreInstance], whose first line finds the browser set. *)
Fixpoint restore_all (rows : list (string * Store.Row)) (env : Env) : M unit :=
  match rows with
  | [] => ret ()
  | (k, row) :: rows' =>
      s <- get ;;
      if isShuttingDown s then ret ()
      else
        catch (restore_row k row (e_restore env k) ;; ret ()) (fun _ => ret ()) ;;
        restore_all rows' env
  end.

(** [initialize()] *)
Definition initialize (env : Env) : M unit :=
  s <- get ;;
  if initialized s || isShuttingDown s then ret ()
  else
    catch
      ((match browser s with
        | Some _ => ret ()
        | None =>
            emit [Drv Driver.Launch] ;;
            match e_launch env with
            | Return h => modify (with_browser (Some h))
            | Throw msg => throw msg
            end
        end) ;;
       s' <- get ;;
       restore_all (Store.findMany (db s')) env ;;
       modify (with_initialized true))
      (fun _ => modify (with_initialized true)).

(** [_restoreInstance(dbInstance)] *)
Definition _restoreInstance (k : string) (row : Store.Row) (env : Env)
  : M (bool * option string) :=
  s <- get ;;
  (match browser s with None => initialize env | Some _ => ret () end) ;;
  restore_row k row (e_restore env k).

(** [createInstance()] *)
Definition createInstance (env : Env) : M (string * string) :=
  initialize env ;;
  s <- get ;;
  (match browser s with
   | Some _ => ret ()
   | None =>
       emit [Drv Driver.Launch] ;;
       match e_relaunch env with
       | Return h => modify (with_browser (Some h))
       | Throw msg => throw msg
       end
   end) ;;
  let '(k, i) := e_uuid env in
  store (e_now env) (Store.Create [("id", Store.VStr i); ("apiKey", Store.VStr k)]) ;;
  drive (e_fails env)
    [Driver.Do (Driver.NewContext None); Driver.Do Driver.NewPage; Driver.Do Driver.Route;
     Driver.Do (Driver.Goto "https://pro.shalom.pe/login"); Driver.Do (Driver.Pause 1500)] ;;
  modify (with_instances
            <[k := mkInstance i k None (e_context env) (e_page env) (e_now env) None None]>) ;;
  ret (k, i).

(** [getOrRestoreInstance(apiKey)] *)
Definition getOrRestoreInstance (k : string) (env : Env) : M (option Instance) :=
  instance <- getInstance k ;;
  match instance with
  | Some i => ret (Some i)
  | None =>
      s <- get ;;
      match Store.findFirst k (db s) with
      | None => ret None
      | Some row => _restoreInstance k row env ;; getInstance k
      end
  end.

(** The object [getStatus] returns. *)
Record Status := mkStatus {
  isLoggedIn : bool;
  status_username : option string;
  status_url : string
}.

(** [getStatus(apiKey)] *)
Definition getStatus (k : string) (env : Env) : M (option Status) :=
  initialize env ;;
  instance <- getInstance k ;;
  match instance with
  | None => ret None
  | Some i =>
      let logged := negb (Js.includes (e_url env) "login") && bool_decide (username i <> None) in
      ret (Some (mkStatus logged (if logged then username i else None) (e_url env)))
  end.

Definition bind_username (k u : string) : M unit :=
  modify (with_instances (alter (set_username (Some u)) k)).

(** [login(apiKey, username, password, retries)] *)
Definition login (k u password : string) (retries : Z) (env : Env) : M Login.Result :=
  initialize env ;;
  instance <- getOrRestoreInstance k env ;;
  match instance with
  | None => throw instance_not_found
  | Some i =>
      if negb (Js.includes (e_url env) "login") then
        (if negb (Js.truthy_opt (username i)) then
           bind_username k u ;;
           store (e_now env) (Store.Update (Store.ByApiKey k) [("username", Store.VStr u)])
         else ret ()) ;;
        _saveStorageState k (e_save env) ;;
        ret (Login.mkResult true (Some "Already logged in") (Some (e_url_after env)))
      else
        let result := Login._attemptLogin u password retries (e_attempts env) in
        emit (fst result) ;;
        if Login.success (snd result) then
          bind_username k u ;;
          store (e_now env) (Store.Update (Store.ByApiKey k) [("username", Store.VStr u)]) ;;
          _saveStorageState k (e_save env) ;;
          ret (Login.mkResult true (Some "Login successful") (Login.url (snd result)))
        else ret (snd result)
  end.

(** [logout(apiKey)] *)
Definition logout (k : string) (env : Env) : M Login.Result :=
  initialize env ;;
  instance <- getInstance k ;;
  match instance with
  | None => throw instance_not_found
  | Some _ =>
      drive (e_fails env) [Driver.Do Driver.ClearCookies; Driver.Do Driver.ClearStorage] ;;
      modify (with_instances (alter (set_username None) k)) ;;
      store (e_now env)
        (Store.Update (Store.ByApiKey k) [("username", Store.VNull); ("storageState", Store.VNull)]) ;;
      drive_from 2 (e_fails env) [Driver.Do (Driver.Goto "https://pro.shalom.pe/login")] ;;
      ret (Login.mkResult true (Some "Logged out") None)
  end.

(** [closeInstance(apiKey)] *)
Definition closeInstance (k : string) (env : Env) : M bool :=
  initialize env ;;
  instance <- getInstance k ;;
  (match instance with
   | Some i =>
       catch (drive (e_fails env) [Driver.Do (Driver.CloseContext (context i))])
             (fun _ => ret ()) ;;
       modify (with_instances (delete k))
   | None => ret ()
   end) ;;
  catch (store (e_now env) (Store.Delete (Store.ByApiKey k)) ;; ret true)
        (fun _ => ret false).

(** An element of the list [listInstances] returns. *)
Record Listed := mkListed {
  l_id : string;
  l_apiKey : string;
  l_username : option string;
  l_createdAt : nat;
  l_lastUsedAt : nat;
  inMemory : bool
}.

(** [listInstances()]: the rows, each with its liveness. *)
Definition listInstances (env : Env) : M (list Listed) :=
  initialize env ;;
  s <- get ;;
  ret ((fun kr =>
          mkListed (Store.id (snd kr)) (fst kr) (Store.username (snd kr))
            (Store.createdAt (snd kr)) (Store.lastUsedAt (snd kr))
            (bool_decide (is_Some (instances s !! fst kr)))) <$> Store.findMany (db s)).

(** The loop of [shutdown] over the live sessions: the state is saved, the
    context closed, and a failure of either is logged. *)
Fixpoint close_all (live : list (string * Instance)) (env : Env) : M unit :=
  match live with
  | [] => ret ()
  | (k, i) :: live' =>
      catch
        (_saveStorageState k (r_save (e_restore env k)) ;;
         drive (r_fails (e_restore env k)) [Driver.Do (Driver.CloseContext (context i))])
        (fun _ => ret ()) ;;
      close_all live' env
  end.

(** [shutdown()] *)
Definition shutdown (env : Env) : M unit :=
  s <- get ;;
  close_all (map_to_list (instances s)) env ;;
  s' <- get ;;
  match browser s' with
  | Some h =>
      drive (e_fails env) [Driver.Do (Driver.CloseBrowser h)] ;;
      modify (with_browser None)
  | None => ret ()
  end.

(** Step 4 after the document number: the name is typed only when the
    lookup left the field empty, the phone when one is given. *)
Definition recipient_part (d : Shipment.Data) (env : Env) : Driver.Part := fun i =>
  let r := Shipment.recipient d in
  let name_input := "input[placeholder=Nombre]" in
  let name_blocks :=
    match Shipment.name r with
    | Some n =>
        if Js.truthy n then
          Driver.Do (Driver.IsVisible name_input) ::
          (if e_visible env i then
             Driver.Do (Driver.InputValue name_input) ::
             (if Js.truthy (Scan.skip_space (e_name_value env)) then []
              else [Driver.Do (Driver.Fill name_input n)])
           else [])
        else []
    | None => []
    end in
  let j := (i + Driver.span name_blocks)%nat in
  let phone_input := "input[placeholder=Teléfono]" in
  name_blocks ++
  match Shipment.phone r with
  | Some ph =>
      if Js.truthy ph then
        Driver.Do (Driver.IsVisible phone_input) ::
        (if e_visible env j then [Driver.Do (Driver.Fill phone_input ph)] else [])
      else []
  | None => []
  end.

(** Step 6: the sworn declaration, when it shows up within its wait. *)
Definition declaration_part (d : Shipment.Data) (env : Env) : Driver.Part := fun i =>
  let contentType := Js.or_else (Shipment.contentType d) "Documentos" in
  [Driver.Try
     [Driver.WaitVisible "text=Declaración Jurada";
      Driver.IsVisible ("text=" +:+ contentType);
      Driver.Click (if e_visible env (S i) then "text=" +:+ contentType else "text=Documentos");
      Driver.Pause 500]].

(** The steps of [registerShipment] between the entry and the result. *)
Definition shipment_script (d : Shipment.Data) (env : Env) : list Driver.Block :=
  Driver.then_
    (Driver.fixed
       (Shipment.opening d ++
        [Driver.Try [Driver.Click "text=No deseo Garantía"];
         Driver.Do (Driver.Click Shipment.continuar);
         Driver.Do (Driver.WaitVisible "input[placeholder=DNI] >> nth=1");
         Driver.Do (Driver.Fill "input[placeholder=DNI] >> nth=1"
                      (Shipment.documentNumber (Shipment.recipient d)));
         Driver.Do (Driver.Pause 2000)]))
    (Driver.then_ (recipient_part d env)
       (Driver.then_
          (Driver.fixed
             [Driver.Do (Driver.Click Shipment.continuar); Driver.Do (Driver.Pause 800);
              Driver.Try [Driver.Click "text=No deseo el servicio"];
              Driver.Do (Driver.Click Shipment.continuar); Driver.Do (Driver.Pause 800)])
          (Driver.then_ (declaration_part d env)
             (Driver.fixed (Shipment.code_entry (Shipment.code d) ++ Shipment.submit)))))
    0%nat.

(** The part of [registerShipment] under its [try]: the steps, the result,
    the save. *)
Definition shipment_body (k : string) (d : Shipment.Data) (env : Env) : M Shipment.Result :=
  let script := shipment_script d env in
  drive (e_fails env) script ;;
  drive_from (Driver.span script) (e_fails env) [Driver.Do Driver.Content] ;;
  (if Js.includes (e_content env) "Registrado" then ret ()
   else emit [Drv (Driver.InnerText ".swal2-title")]) ;;
  modify (with_instances (alter (set_lastShipmentTime (e_now env)) k)) ;;
  _saveStorageState k (e_save env) ;;
  ret (Shipment.registration_result (e_content env) (e_title env)).

(** [registerShipment(apiKey, shipmentData)] *)
Definition registerShipment (k : string) (d : Shipment.Data) (env : Env) : M Shipment.Result :=
  initialize env ;;
  instance <- getOrRestoreInstance k env ;;
  match instance with
  | None => throw instance_not_found
  | Some _ =>
      catch (shipment_body k d env)
        (fun msg =>
           emit [Drv Driver.Screenshot] ;;
           ret (Shipment.mkResult false None None None (Some msg) (Some "Registration failed")))
  end.

(** The object [registerMassiveShipment] returns; the elapsed time is left
    out. *)
Record MassiveResult := mkMassiveResult {
  m_success : bool;
  m_message : string;
  m_shipments : list Scrape.Entry
}.

(** [securityCode = '8002'] in the parameter list: the default replaces
    [undefined] only. *)
Definition massive_code (securityCode : option string) : string := default "8002" securityCode.

(** The error of the driver when [fill] is given [undefined]. *)
Definition fill_undefined : string := "locator.fill: value: expected string, got undefined".

(** [page.locator('.input-keyCode-N').fill(code[N - 1])] for N from 1 to 4. *)
Definition code_fill (code : string) : list Driver.Block :=
  let fill_digit i loc :=
    match Js.at_ code i with
    | Some c => Driver.Do (Driver.Fill loc (String c ""))
    | None => Driver.Raise fill_undefined
    end in
  [fill_digit 0%nat ".input-keyCode-1"; fill_digit 1%nat ".input-keyCode-2";
   fill_digit 2%nat ".input-keyCode-3"; fill_digit 3%nat ".input-keyCode-4"].

(** The upload: the button, in the page or behind the menu. *)
Definition upload_part (filePath : string) (env : Env) : Driver.Part := fun i =>
  let massive := "text=Carga masiva de envíos" in
  Driver.Do (Driver.IsVisible massive) ::
  (if e_visible env i then [Driver.Do (Driver.Click massive)]
   else
     Driver.Do (Driver.IsVisible "text=Registra") ::
     (if e_visible env (i + 1)%nat then
        [Driver.Do (Driver.Click "text=Registra"); Driver.Do (Driver.Pause 500);
         Driver.Do (Driver.IsVisible massive);
         if e_visible env (i + 4)%nat then Driver.Do (Driver.Click massive)
         else Driver.Raise "Massive shipment button not found even after opening menu"]
      else [Driver.Raise "Massive shipment button not found"])) ++
  [Driver.Do (Driver.WaitForEvent "filechooser"); Driver.Do (Driver.SetFiles filePath);
   Driver.Do (Driver.WaitVisible "role=button[name=OK]");
   Driver.Do (Driver.Click "role=button[name=OK]"); Driver.Do (Driver.Pause 1000)].

(** The shared code: the key button, the confirmation, the four digits. *)
Definition key_part (code : string) (env : Env) : Driver.Part := fun i =>
  let keyButton := "button[title=Clave de seguridad masiva]" in
  [Driver.Do (Driver.IsVisible keyButton);
   Driver.Do (Driver.Click (if e_visible env i then keyButton else ".btn-warning"));
   Driver.Do (Driver.Click "role=button[name=Sí]")] ++
  code_fill code ++
  [Driver.Do (Driver.Click "text=GENERAR");
   Driver.Do (Driver.WaitVisible "role=button[name=Confirmar]");
   Driver.Do (Driver.Click "role=button[name=Confirmar]"); Driver.Do (Driver.Pause 1000)].

(** The submission, its confirmations, and the pending-shipments view. *)
Definition finalize_part (env : Env) : Driver.Part := fun i =>
  let confirmBtn := "role=button[name=Confirmar]" in
  [Driver.Do (Driver.Click ".btn-continuar"); Driver.Do (Driver.Pause 1000);
   Driver.Do (Driver.IsVisible confirmBtn)] ++
  (if e_visible env (i + 2)%nat then [Driver.Do (Driver.Click confirmBtn)]
   else [Driver.Do (Driver.WaitVisible confirmBtn); Driver.Do (Driver.Click confirmBtn)]) ++
  [Driver.Do (Driver.Pause 1000);
   Driver.Do (Driver.WaitVisible "role=button[name=OK]");
   Driver.Do (Driver.Click "role=button[name=OK]"); Driver.Do (Driver.Pause 1000);
   Driver.Do (Driver.Goto "https://pro.shalom.pe/#/solicitud/pendientes");
   Driver.Try [Driver.WaitForSelector "text=N° de Orden"];
   Driver.Do (Driver.Pause 1500);
   Driver.Do Driver.Evaluate].

(** The steps of [registerMassiveShipment]. *)
Definition massive_script (filePath code : string) (env : Env) : list Driver.Block :=
  Driver.then_
    (Driver.fixed
       [Driver.Do (Driver.Goto "https://pro.shalom.pe/#/envios/list"); Driver.Do Driver.Reload;
        Driver.Do (Driver.Pause 2000)])
    (Driver.then_ (upload_part filePath env)
       (Driver.then_ (key_part code env) (finalize_part env)))
    0%nat.

(** [registerMassiveShipment(apiKey, filePath, securityCode)] *)
Definition registerMassiveShipment (k filePath : string) (securityCode : option string)
    (env : Env) : M MassiveResult :=
  initialize env ;;
  instance <- getOrRestoreInstance k env ;;
  match instance with
  | None => throw instance_not_found
  | Some _ =>
      catch
        (drive (e_fails env) (massive_script filePath (massive_code securityCode) env) ;;
         modify (with_instances (alter (set_lastShipmentTime (e_now env)) k)) ;;
         _saveStorageState k (e_save env) ;;
         ret (mkMassiveResult true "Massive shipment registered successfully"
                (Scrape.shipments (e_document env))))
        (fun msg => emit [Drv Driver.Screenshot] ;; throw msg)
  end.

(** The operations of the manager, as calls. *)
Inductive Call :=
| Initialize
| SaveStorageState (k : string)
| CreateInstance
| GetOrRestoreInstance (k : string)
| GetStatus (k : string)
| LoginCall (k u password : string) (retries : Z)
| Logout (k : string)
| CloseInstance (k : string)
| ListInstances
| RegisterShipment (k : string) (d : Shipment.Data)
| RegisterMassiveShipment (k filePath : string) (securityCode : option string)
| Shutdown.

Definition forget {A} (x : Outcome A * State * list Event) : State * list Event :=
  (state x, trace x).

(** The state and the trace a call leaves. *)
Definition perform (c : Call) (env : Env) (s : State) : State * list Event :=
  match c with
  | Initialize => forget (initialize env s)
  | SaveStorageState k => forget (_saveStorageState k (e_save env) s)
  | CreateInstance => forget (createInstance env s)
  | GetOrRestoreInstance k => forget (getOrRestoreInstance k env s)
  | GetStatus k => forget (getStatus k env s)
  | LoginCall k u password retries => forget (login k u password retries env s)
  | Logout k => forget (logout k env s)
  | CloseInstance k => forget (closeInstance k env s)
  | RegisterShipment k d => forget (registerShipment k d env s)
  | RegisterMassiveShipment k filePath securityCode =>
      forget (registerMassiveShipment k filePath securityCode env s)
  | ListInstances => forget (listInstances env s)
  | Shutdown => forget (shutdown env s)
  end.

End TenantManagerR.

(** ** The two shipment routes of the server *)

Module Server.

(** What a route handler does with a request: it answers by itself, or it
    calls the manager. *)
Inductive Action :=
| Send (code : nat) (error : string)
| RegisterShipment (d : Shipment.Data)
| RegisterMassiveShipment (filePath : option string) (securityCode : option string).

(** The body of [POST /shipments]: every field may be missing. *)
Record ShipmentBody := mkShipmentBody {
  productType : option string;
  origin : option string;
  destination : option string;
  recipient : option (option string * option string * option string);
  warranty : bool;
  secureBilling : bool;
  contentType : option string;
  securityCode : option string
}.

(** The handler of [POST /shipments] ([src/index.js], lines 140-204), up to
    the call of the manager. *)
Definition shipments (body : option ShipmentBody) : Action :=
  match body with
  | None => Send 400 "Request body is required"
  | Some b =>
      if negb (Js.truthy_opt (productType b)) then
        Send 400 "productType is required (sobre, xxs, xs, s, m, l, or custom)"
      else if negb (Js.truthy_opt (origin b)) then
        Send 400 "origin is required (search text for origin location)"
      else if negb (Js.truthy_opt (destination b)) then
        Send 400 "destination is required (search text for destination location)"
      else
        match recipient b with
        | Some (Some doc, name, phone) =>
            if Js.truthy doc then
              match SecurityCode.shipments_check (securityCode b) with
              | Some error => Send 400 error
              | None =>
                  RegisterShipment
                    (Shipment.mkData (default "" (productType b)) (default "" (origin b))
                       (default "" (destination b)) (Shipment.mkRecipient doc name phone)
                       (warranty b) (secureBilling b) (contentType b) (securityCode b))
              end
            else Send 400 "recipient.documentNumber is required"
        | _ => Send 400 "recipient.documentNumber is required"
        end
  end.

(** The handler of [POST /register], up to the call of the manager.
    [shipments] is the number of rows of the list in the body, [generated]
    the path of the file written from them. *)
Definition register (filePath : option string) (shipments : option nat)
    (securityCode : option string) (generated : string) : Action :=
  match SecurityCode.register_check securityCode with
  | Some error => Send 400 error
  | None =>
      if negb (Js.truthy_opt filePath) && negb (bool_decide (is_Some shipments)) then
        Send 400 "Either filePath or shipments must be provided"
      else
        match shipments with
        | Some (S _) => RegisterMassiveShipment (Some generated) securityCode
        | _ => RegisterMassiveShipment filePath securityCode
        end
  end.

End Server.

(** ** The queue worker *)

Module Worker.

(** [concurrency: 5] and [limiter: { max: 10, duration: 1000 }]. *)
Definition concurrency : nat := 5.
Definition limiter_max : nat := 10.

(** [job.data] with the identifier of the job. *)
Record Job := mkJob {
  job_id : nat;
  job_apiKey : string;
  job_data : Shipment.Data
}.

(** A job whose processor is running: the commands it has still to await. *)
Record Running := mkRunning {
  job : Job;
  left : list Driver.Cmd
}.

(** The worker: the jobs that wait, the jobs in flight, the number of jobs
    started in the current window of the limiter. *)
Record Sys := mkSys {
  waiting : list Job;
  active : list Running;
  started : nat
}.

Inductive Label :=
| Enqueue (j : Job)
| Start (j : Job)
| Step (j : Job) (c : Driver.Cmd)
| Finish (j : Job)
| Failed (j : Job)
| Window.

Section Processor.

(** The environment each job meets. *)
Variable env : Job -> Tenant.Env.

(** The commands [registerShipment] awaits for a job, one after the other,
    when none of them fails. *)
Definition awaits (j : Job) : list Driver.Cmd :=
  Driver.commands (TenantManager.shipment_script (job_data j) (env j)) ++
  [Driver.Content; Driver.StorageState].

(** One move of the worker [setupWorker] would create. The ceiling and the
    limiter are its configuration, assumed here as the conditions under
    which the library starts a job; the processor of a started job calls
    [registerShipment], which takes no lock. Between two awaits of a job,
    any other job may move. *)
Inductive step : Sys -> Label -> Sys -> Prop :=
| step_enqueue s j :
    step s (Enqueue j) (mkSys (waiting s ++ [j]) (active s) (started s))
| step_start j w a n :
    (length a < concurrency)%nat ->
    (n < limiter_max)%nat ->
    step (mkSys (j :: w) a n) (Start j) (mkSys w (a ++ [mkRunning j (awaits j)]) (S n))
| step_await w a1 j c cs a2 n :
    step (mkSys w (a1 ++ mkRunning j (c :: cs) :: a2) n) (Step j c)
         (mkSys w (a1 ++ mkRunning j cs :: a2) n)
| step_finish w a1 j a2 n :
    step (mkSys w (a1 ++ mkRunning j [] :: a2) n) (Finish j) (mkSys w (a1 ++ a2) n)
| step_failed w a1 j cs a2 n :
    step (mkSys w (a1 ++ mkRunning j cs :: a2) n) (Failed j) (mkSys w (a1 ++ a2) n)
| step_window w a n :
    step (mkSys w a n) Window (mkSys w a 0).

(** A run of the worker, with the labels of its moves in order. *)
Inductive run : Sys -> list Label -> Sys -> Prop :=
| run_nil s : run s [] s
| run_cons s l s' tr s'' : step s l s' -> run s' tr s'' -> run s (l :: tr) s''.

(** The routes do not go through the queue: the handlers of
    [POST /shipments] and [POST /register] call [registerShipment]
    themselves, and [setupWorker] is called nowhere. A call is in flight
    from the arrival of its request, whatever else is in flight; its
    function runs up to its next [await], and between two awaits of a call
    any other call may move. The state is the list of the calls in flight. *)
Inductive direct : list Running -> Label -> list Running -> Prop :=
| direct_start a j :
    direct a (Start j) (a ++ [mkRunning j (awaits j)])
| direct_await a1 j c cs a2 :
    direct (a1 ++ mkRunning j (c :: cs) :: a2) (Step j c) (a1 ++ mkRunning j cs :: a2)
| direct_finish a1 j a2 :
    direct (a1 ++ mkRunning j [] :: a2) (Finish j) (a1 ++ a2)
| direct_failed a1 j cs a2 :
    direct (a1 ++ mkRunning j cs :: a2) (Failed j) (a1 ++ a2).

Inductive direct_run : list Running -> list Label -> list Running -> Prop :=
| direct_nil a : direct_run a [] a
| direct_cons a l a' tr a'' :
    direct a l a' -> direct_run a' tr a'' -> direct_run a (l :: tr) a''.

End Processor.

(** The worker at start-up, with the jobs already queued. *)
Definition idle (queue : list Job) : Sys := mkSys queue [] 0.

(** Per-session serialization of a run: whenever a job begins a step after
    another job on the same key was started, that other job has finished or
    failed in between. *)
Definition serialized (tr : list Label) : Prop :=
  forall i1 i2 j1 j2 c,
    tr !! i1 = Some (Start j1) ->
    tr !! i2 = Some (Step j2 c) ->
    (i1 < i2)%nat ->
    job_id j1 <> job_id j2 ->
    job_apiKey j1 = job_apiKey j2 ->
    exists i3, (i1 < i3 < i2)%nat /\ (tr !! i3 = Some (Finish j1) \/ tr !! i3 = Some (Failed j1)).

End Worker.

(** ** What an operation keeps and what it writes *)

Module Inv.

Import Tenant.

(** The operation [c] keeps the invariant [I] of the state, and every write
    it sends to the store satisfies [W]. *)
Definition keeps {A} (I : State -> Prop) (W : Store.Write -> Prop) (c : M A) : Prop :=
  forall s, I s -> I (state (c s)) /\ Forall W (writes (trace (c s))).

(** The columns the manager writes. *)
Definition written_columns : list string :=
  ["id"; "apiKey"; "username"; "storageState"; "lastUsedAt"; "isActive"].


(** Every field of the write is one of [columns]. *)
Definition within (columns : list string) (w : Store.Write) : bool :=
  forallb (fun name => bool_decide (name ∈ columns)) (Store.field_names w).

(** The write names written columns only. *)
Definition plain (w : Store.Write) : Prop := within written_columns w = true.




(** The session [i] of the key [k] is live on an initialized manager that is
    not shutting down, and its row is in the store. *)
Definition live (k : string) (i : Instance) (row : Store.Row) (s : State) : Prop :=
  initialized s = true /\ isShuttingDown s = false /\
  instances s !! k = Some i /\ db s !! k = Some row.

(** An attempt that ends at the invalid-credentials indicator: the form is
    found and submitted without a failure of the driver, the page stays on
    the login view, and its content shows the indicator. *)
Definition shows_invalid (o : Login.AttemptObs) : Prop :=
  (forall j, Login.a_fails o j = None) /\
  Login.a_email o || Login.a_text o = true /\
  Login.a_password o = true /\
  Js.includes (Login.a_url o) "login" = true /\
  Login.has_indicator (Login.a_content o) = true.

(** The first command that throws is the one at position [j], and it throws
    [msg]. *)
Definition fails_at (o : Login.AttemptObs) (j : nat) (msg : string) : Prop :=
  Login.a_fails o j = Some msg /\ forall j', (j' < j)%nat -> Login.a_fails o j' = None.

(** An attempt that ends in the [catch] branch with the message [msg].
    Either the inputs of the form are found and a command throws [msg] (a
    timeout, or any other exception of the driver): any command of the form
    workflow, up to [page.url()], or the [page.content()] that follows it
    when the page is still on the login view. Or an input of the form is
    missing, no command throws, and [fill] is read on [null]. *)
Definition breaks (attempt : Z) (u p : string) (o : Login.AttemptObs) (msg : string) : Prop :=
  (Login.a_email o || Login.a_text o = true /\
   Login.a_password o = true /\
   exists j,
     fails_at o j msg /\
     ((j < Driver.span (Login.attempt_script attempt u p o))%nat
      \/ (j = Driver.span (Login.attempt_script attempt u p o)
          /\ Js.includes (Login.a_url o) "login" = true)))
  \/ ((Login.a_email o || Login.a_text o = false \/ Login.a_password o = false) /\
      (forall j, Login.a_fails o j = None) /\
      msg = Login.null_fill).

(** No session and no row for the key [k]. *)
Definition absent (k : string) (s : State) : Prop :=
  instances s !! k = None /\ db s !! k = None.

End Inv.

(** ** The rows of the Excel file of a massive registration *)

Module Excel.

(** A value of the request body, as [JSON.parse] gives it. A number is a
    double: the literal is rounded when it is read, so [1e-400] is zero and
    [1e999] is [Infinity]. An object or an array is kept by its text. *)
Inductive Value :=
| Number (d : Num.Double)
| Text (s : string)
| Bool (b : bool)
| Null
| Object (json : string).

(** The value in a boolean position: zero, the empty string, [false] and
    [null] are falsy (a body has no [NaN]). *)
Definition truthy (v : Value) : bool :=
  match v with
  | Number d => negb (Num.is_zero d)
  | Text s => Js.truthy s
  | Bool b => b
  | Null => false
  | Object _ => true
  end.

(** [a || d], the first operand possibly [undefined]. *)
Definition or_value (o : option Value) (d : Value) : Value :=
  match o with
  | Some v => if truthy v then v else d
  | None => d
  end.

(** A field that is missing or falsy: a falsy operand of [||]. *)
Definition no_measure (o : option Value) : bool :=
  match o with Some v => negb (truthy v) | None => true end.

(** [s.recipient]: the fields the generator reads. *)
Record Recipient := mkRecipient {
  documentNumber : option string;
  phone : option string
}.

(** An element of [shipments]: the fields the generator reads, each possibly
    missing. The texts are strings. The schema of the route declares
    [height], [width], [length], [weight] and [quantity] numbers and says
    nothing of [alto], [ancho], [largo], [peso] and [cantidad]; the
    generator reads all ten alike, so each is any value here. *)
Record Shipment := mkShipment {
  recipientDoc : option string;
  recipientPhone : option string;
  contactDoc : option string;
  contactPhone : option string;
  recipient : option Recipient;
  grr : option string;
  origin : option string;
  destination : option string;
  content : option string;
  merchandise : option string;
  height : option Value;
  alto : option Value;
  width : option Value;
  ancho : option Value;
  length : option Value;
  largo : option Value;
  weight : option Value;
  peso : option Value;
  quantity : option Value;
  cantidad : option Value
}.

(** A row of the sheet, by column. *)
Record Row := mkRow {
  DESTINATARIO_DOC : string;
  TELF_DESTINATARIO : string;
  CONTACTO_DOC : string;
  TELF_CONTACTO : string;
  NRO_GRR : string;
  ORIGEN : string;
  DESTINO : string;
  MERCADERIA : string;
  ALTO : Value;
  ANCHO : Value;
  LARGO : Value;
  PESO : Value;
  CANTIDAD : Value
}.

(** [a || b], the second operand possibly [undefined]. *)
Definition or_opt (a b : option string) : option string :=
  if Js.truthy_opt a then a else b.

Definition zero : Value := Number (Num.Finite 0 0).
Definition one : Value := Number (Num.Finite 1 0).

(** The function mapped over [shipments]. [s.recipient?.documentNumber] is
    [undefined] when there is no [recipient]. *)
Definition row (s : Shipment) : Row :=
  let doc := recipient s ≫= documentNumber in
  let tel := recipient s ≫= phone in
  mkRow
    (Js.or_else (or_opt (recipientDoc s) doc) "")
    (Js.or_else (or_opt (recipientPhone s) tel) "")
    (Js.or_else (or_opt (contactDoc s) (or_opt (recipientDoc s) doc)) "")
    (Js.or_else (or_opt (contactPhone s) (or_opt (recipientPhone s) tel)) "")
    (Js.or_else (grr s) "")
    (Js.or_else (origin s) "")
    (Js.or_else (destination s) "")
    (Js.or_else (or_opt (content s) (merchandise s)) "")
    (or_value (height s) (or_value (alto s) zero))
    (or_value (width s) (or_value (ancho s) zero))
    (or_value (length s) (or_value (largo s) zero))
    (or_value (weight s) (or_value (peso s) zero))
    (or_value (quantity s) (or_value (cantidad s) one)).

(** [shipments.map(s => ({ ... }))] *)
Definition rows (shipments : list Shipment) : list Row := row <$> shipments.

(** What [generateMassiveShipmentExcel] meets on the disk. *)
Record Disk := mkDisk {
  d_path : string;          (* [path.resolve(outputDir, filename)], [Date.now()] in the name *)
  d_mkdir : option string;  (* [fs.mkdirSync] throws *)
  d_write : option string;  (* the making of the sheet or [XLSX.writeFile] throws *)
  d_partial : bool          (* a write that throws leaves a file at the path *)
}.

Definition outputDir : string := "./temp".

(** [generateMassiveShipmentExcel(shipments)] on the paths that exist,
    files and directories alike: the directory is made when it is missing,
    then the workbook is written. The result is the path of the file, or the
    error thrown, with the paths that exist afterwards. *)
Definition generateMassiveShipmentExcel (shipments : list Shipment) (d : Disk)
    (paths : gset string) : Outcome string * gset string :=
  match (if bool_decide (outputDir ∈ paths) then None else d_mkdir d) with
  | Some msg => (Throw msg, paths)
  | None =>
      let paths1 := paths ∪ {[outputDir]} in
      match d_write d with
      | Some msg => (Throw msg, if d_partial d then paths1 ∪ {[d_path d]} else paths1)
      | None => (Return (d_path d), paths1 ∪ {[d_path d]})
      end
  end.

End Excel.

(** ** The agency service *)

Module Agency.

(** A parsed JSON value. *)
#[warnings="-register-all"]
Inductive Json :=
| JNull
| JBool (b : bool)
| JNumber (q : QArith_base.Q)
| JString (s : string)
| JArray (items : list Json)
| JObject (fields : list (string * Json)).

(** A JSON value in a boolean position. *)
Definition truthy (j : Json) : bool :=
  match j with
  | JNull => false
  | JBool b => b
  | JNumber q => negb (QArith_base.Qnum q =? 0)%Z
  | JString s => Js.truthy s
  | JArray _ | JObject _ => true
  end.

(** A response the page receives: its URL, the method of its request, and
    the value [response.json()] gives ([None]: it throws). *)
Record Response := mkResponse {
  r_url : string;
  r_method : string;
  r_json : option Json
}.

(** The test of [responseHandler]. *)
Definition matches (r : Response) : bool :=
  Js.includes (r_url r) "agencias" && Js.includes (r_url r) "listar"
  && negb (bool_decide (r_method r = "OPTIONS")).

(** What [apiResponsePromise] resolves with: the body of the first matching
    response whose body parses; [None] is the [null] of the timeout. The
    responses are those whose handler ran to its end within the timeout, in
    that order. *)
Definition apiResult (responses : list Response) : option Json :=
  head (omap (fun r => if matches r then r_json r else None) responses).

Definition timeout : string := "Timeout waiting for Agency API response (or received null)".

(** The calls the service makes on the driver. *)
Inductive Cmd :=
| Launch
| NewContext
| NewPage
| Route
| On
| Goto
| Off
| ClosePage
| CloseContext.

(** A call that returned, a call that threw. *)
Inductive Event :=
| Did (c : Cmd)
| Failed (c : Cmd).

(** The fields of the [AgencyService] singleton. *)
Record Service := mkService {
  browser : option nat;
  processing : bool
}.

(** What the driver and the site answer during one call. *)
Record Obs := mkObs {
  connected : bool;              (* [this.browser.isConnected()] on entry *)
  launch : Outcome nat;          (* [chromium.launch] *)
  newContext : option string;    (* the message of the error it throws, if any *)
  newPage : option string;
  route : option string;
  goto : option string;
  responses : list Response;
  connected_after : bool;        (* [this.browser.isConnected()] in the [catch] *)
  page_close : bool;             (* [page.close()] returns *)
  context_close : bool           (* [context.close()] returns *)
}.

(** The [try] block: how it completes, [this.browser] and the locals
    [context], [page] and [responseHandler] (set or not) when it does, and
    the calls made. *)
Record Attempt := mkAttempt {
  outcome : Outcome Json;
  browser_after : option nat;
  context : bool;
  page : bool;
  responseHandler : bool;
  log : list Event
}.

Definition attempt (o : Obs) (s : Service) : Attempt :=
  let alive := match browser s with Some _ => connected o | None => false end in
  let initialize :=
    if alive then (None, browser s, [])
    else
      match launch o with
      | Return h => (None, Some h, [Did Launch])
      | Throw msg => (Some msg, browser s, [Failed Launch])
      end in
  match initialize with
  | (Some msg, b, t) => mkAttempt (Throw msg) b false false false t
  | (None, b, t) =>
      match newContext o with
      | Some msg => mkAttempt (Throw msg) b false false false (t ++ [Failed NewContext])
      | None =>
          match newPage o with
          | Some msg =>
              mkAttempt (Throw msg) b true false false (t ++ [Did NewContext; Failed NewPage])
          | None =>
              match route o with
              | Some msg =>
                  mkAttempt (Throw msg) b true true false
                    (t ++ [Did NewContext; Did NewPage; Failed Route])
              | None =>
                  let t' := t ++ [Did NewContext; Did NewPage; Did Route; Did On] in
                  match goto o with
                  | Some msg => mkAttempt (Throw msg) b true true true (t' ++ [Failed Goto])
                  | None =>
                      mkAttempt
                        (match apiResult (responses o) with
                         | Some j => if truthy j then Return j else Throw timeout
                         | None => Throw timeout
                         end)
                        b true true true (t' ++ [Did Goto])
                  end
              end
          end
      end
  end.

(** How a call stands when the model leaves it: it returned, it threw, or
    it is in the loop that waits for [processing] to be false. *)
Inductive Completion :=
| Returned (j : Json)
| Rejected (msg : string)
| Waiting.

Definition closing (c : Cmd) (ok : bool) : Event := if ok then Did c else Failed c.

(** [getAgencies()]: the wait for the lock, the [try] block, the [catch]
    that forgets a browser that is gone, and the [finally] that removes the
    listener, closes the page and the context, and gives the lock back. *)
Definition getAgencies (o : Obs) (s : Service) : Completion * Service * list Event :=
  if processing s then (Waiting, s, [])
  else
    let a := attempt o s in
    let b :=
      match outcome a, browser_after a with
      | Throw _, Some h => if connected_after o then Some h else None
      | _, b => b
      end in
    let finally :=
      (if page a && responseHandler a then [Did Off] else []) ++
      (if page a then [closing ClosePage (page_close o)] else []) ++
      (if context a then [closing CloseContext (context_close o)] else []) in
    (match outcome a with Return j => Returned j | Throw msg => Rejected msg end,
     mkService b false, log a ++ finally).

End Agency.

(** ** The pre-handlers and the handlers of the server *)

Module Routes.

Import Tenant.

(** What a pre-handler does with a request: it replies by itself, it returns
    without a reply, or it returns with [request.instance] and
    [request.isAdmin] set. *)
Inductive Verdict :=
| Deny (code : nat) (error : string)
| Pass
| Allow (instance : Instance) (isAdmin : bool).

(** [checkAdminApiKey]: [apiKey] is the header [x-api-key], [adminApiKey]
    the variable [ADMIN_API_KEY] of the process. *)
Definition checkAdminApiKey (apiKey adminApiKey : option string) : Verdict :=
  if negb (Js.truthy_opt apiKey) then Deny 401 "Missing x-api-key header"
  else if negb (Js.truthy_opt adminApiKey) || negb (bool_decide (apiKey = adminApiKey))
       then Deny 403 "Invalid Admin API Key"
       else Pass.

(** [checkApiKey] of the server that goes with [src/tenantManager.js]:
    [instanceId] is the field of the body. *)
Definition checkApiKey (apiKey adminApiKey instanceId : option string) (env : Env) : M Verdict :=
  if negb (Js.truthy_opt apiKey) then ret (Deny 401 "Missing x-api-key header")
  else if Js.truthy_opt adminApiKey && bool_decide (apiKey = adminApiKey) then
    if negb (Js.truthy_opt instanceId) then ret (Deny 400 "Missing instanceId in request body")
    else
      allInstances <- TenantManager.listInstances env ;;
      match List.find (fun i => bool_decide (Some (TenantManager.l_id i) = instanceId))
                      allInstances with
      | None => ret (Deny 404 "Instance not found")
      | Some instanceData =>
          instance <- getInstance (TenantManager.l_apiKey instanceData) ;;
          match instance with
          | None => ret (Deny 404 "Instance not active")
          | Some i => ret (Allow i true)
          end
      end
  else
    instance <- getInstance (default "" apiKey) ;;
    match instance with
    | None => ret (Deny 403 "Invalid API Key or Instance not active")
    | Some i =>
        if negb (Js.truthy_opt instanceId) then ret (Deny 400 "Missing instanceId in request body")
        else if negb (bool_decide (instanceId = Some (id i)))
             then ret (Deny 403 "instanceId does not match the API Key")
             else ret (Allow i false)
    end.

(** [checkApiKey] of the server with the massive route: a session that is
    not live is restored from its row. *)
Definition checkApiKeyR (apiKey adminApiKey instanceId : option string) (env : Env) : M Verdict :=
  if negb (Js.truthy_opt apiKey) then ret (Deny 401 "Missing x-api-key header")
  else if Js.truthy_opt adminApiKey && bool_decide (apiKey = adminApiKey) then
    if negb (Js.truthy_opt instanceId) then ret (Deny 400 "Missing instanceId in request body")
    else
      allInstances <- TenantManagerR.listInstances env ;;
      match List.find (fun i => bool_decide (Some (TenantManagerR.l_id i) = instanceId))
                      allInstances with
      | None => ret (Deny 404 "Instance not found")
      | Some instanceData =>
          instance <- TenantManagerR.getOrRestoreInstance (TenantManagerR.l_apiKey instanceData) env ;;
          match instance with
          | None => ret (Deny 404 "Instance not found")
          | Some i => ret (Allow i true)
          end
      end
  else
    instance <- TenantManagerR.getOrRestoreInstance (default "" apiKey) env ;;
    match instance with
    | None => ret (Deny 403 "Invalid API Key")
    | Some i =>
        if negb (Js.truthy_opt instanceId) then ret (Deny 400 "Missing instanceId in request body")
        else if negb (bool_decide (instanceId = Some (id i)))
             then ret (Deny 403 "instanceId does not match the API Key")
             else ret (Allow i false)
    end.

(** What a handler sends: a body with its status, or an error object. *)
Inductive Reply (A : Type) :=
| Answer (code : nat) (body : A)
| Fail (code : nat) (error : string) (details : option string).
Arguments Answer {A} code body.
Arguments Fail {A} code error details.

(** [retries || 3] *)
Definition retries_or_3 (retries : option Z) : Z :=
  match retries with
  | Some r => if r =? 0 then 3 else r
  | None => 3
  end.

(** The handler of [POST /login], over the [login] of either manager;
    [instance] is [request.instance]. *)
Definition login_handler (login : string -> string -> string -> Z -> Env -> M Login.Result)
    (instance : Instance) (username password : option string) (retries : option Z) (env : Env)
  : M (Reply Login.Result) :=
  if negb (Js.truthy_opt username) || negb (Js.truthy_opt password) then
    ret (Fail 400 "Username and password are required" None)
  else
    catch
      (result <- login (apiKey instance) (default "" username) (default "" password)
                   (retries_or_3 retries) env ;;
       ret (if Login.success result then Answer 200 result else Answer 401 result))
      (fun msg => ret (Fail 500 "Login execution failed" (Some msg))).

(** The handler of [DELETE /instances]: what [closeInstance] returns is not
    looked at. *)
Definition close_handler (closeInstance : string -> Env -> M bool) (instance : Instance)
    (env : Env) : M (Reply string) :=
  catch (closeInstance (apiKey instance) env ;; ret (Answer 200 "closed"))
        (fun _ => ret (Fail 500 "Failed to close instance" None)).

Definition try_again : string := "Ocurrió un error. Por favor intente nuevamente.".

(** The handler of [POST /register] with the paths it works on: [files] are
    the paths that exist, files and directories. [disk] is what
    [generateMassiveShipmentExcel] meets when it is called; [manager] is
    what [registerMassiveShipment] does with the path and the code it is
    given: its completion, and the files it writes (the screenshot it takes
    when a step fails); [unlink_ok] says whether [fs.unlinkSync] returns,
    [debug] whether [DEBUG] is [true]. The stack of the error is left out of
    the reply. *)
Definition register_handler (filePath : option string) (shipments : option (list Excel.Shipment))
    (securityCode : option string) (disk : Excel.Disk) (unlink_ok debug : bool)
    (manager : option string -> option string
               -> Outcome TenantManagerR.MassiveResult * gset string)
    (files : gset string) : Reply TenantManagerR.MassiveResult * gset string :=
  match SecurityCode.register_check securityCode with
  | Some error => (Fail 400 error None, files)
  | None =>
      if negb (Js.truthy_opt filePath) && negb (bool_decide (is_Some shipments)) then
        (Fail 400 "Either filePath or shipments must be provided" None, files)
      else
        let failed msg := Fail 500 (if debug then msg else try_again) None in
        let call path (files : gset string) :=
          (match fst (manager path securityCode) with
           | Return result => Answer 200 result
           | Throw msg => failed msg
           end,
           files ∪ snd (manager path securityCode)) in
        match shipments with
        | Some (s :: rest) =>
            match Excel.generateMassiveShipmentExcel (s :: rest) disk files with
            | (Throw msg, files1) => (failed msg, files1)
            | (Return path, files1) =>
                let '(reply, files2) := call (Some path) files1 in
                (reply,
                 if bool_decide (path ∈ files2) && unlink_ok then files2 ∖ {[path]} else files2)
            end
        | _ => call filePath files
        end
  end.

End Routes.

(** ** Shapes of the state of the manager *)

Module Shape.

Import Tenant.

(** The manager when the process starts: nothing is live, nothing is
    initialized, and the store holds the rows of the previous runs. *)
Definition started (rows : gmap string Store.Row) : State := mkState ∅ false None false rows.

(** The states the manager of [src/tenantManager.js] goes through from a
    start over the store [rows], whatever calls it receives and whatever the
    driver and the site answer. *)
Inductive reachable (rows : gmap string Store.Row) : State -> Prop :=
| reach_start : reachable rows (started rows)
| reach_call c env s : reachable rows s -> reachable rows (fst (TenantManager.perform c env s)).

(** The same for the manager that restores sessions on demand. *)
Inductive reachableR (rows : gmap string Store.Row) : State -> Prop :=
| reachR_start : reachableR rows (started rows)
| reachR_call c env s : reachableR rows s -> reachableR rows (fst (TenantManagerR.perform c env s)).

(** Every session of the Registry sits under its own key. *)
Definition keyed (s : State) : Prop :=
  forall k i, instances s !! k = Some i -> apiKey i = k.

(** No row of the store carries a password. *)
Definition no_password (rows : gmap string Store.Row) : Prop :=
  forall k row, rows !! k = Some row -> Store.password row = None.

(** The session of [k] was closed and [row] is what is kept of it: no
    session is live under [k], and the row of [k] is inactive and has the
    username and the cached state of [row]. *)
Definition retired (k : string) (row : Store.Row) (s : State) : Prop :=
  (instances s !! k = None) /\
  (exists row', (db s !! k = Some row') /\ (Store.isActive row' = false) /\
                (Store.username row' = Store.username row) /\
                (Store.storageState row' = Store.storageState row)).

(** An attempt that logs in: the form is found and submitted without a
    failure of the driver, and the page has left the login view. *)
Definition navigates (o : Login.AttemptObs) : Prop :=
  (forall j, Login.a_fails o j = None) /\
  Login.a_email o || Login.a_text o = true /\
  Login.a_password o = true /\
  Js.includes (Login.a_url o) "login" = false.

(** What the success branch of [login] leaves: the username on the session
    and on the row, and the state of the context on the row when the driver
    returns one. *)
Definition bound (k u : string) (env : Tenant.Env) (i : Tenant.Instance) (row : Store.Row)
    (s' : Tenant.State) : Prop :=
  Tenant.instances s' !! k = Some (Tenant.set_username (Some u) i)
  /\ exists row',
       Tenant.db s' !! k = Some row'
       /\ Store.id row' = Store.id row
       /\ Store.username row' = Some u
       /\ (forall blob, Tenant.sv_state (Tenant.e_save env) = Some blob ->
           Store.storageState row' = Some blob
           /\ Store.lastUsedAt row' = Tenant.sv_now (Tenant.e_save env)).

(** The row [_saveStorageState] leaves for the key [k] at [shutdown]: the
    state of the context and the date when the driver returns the state,
    the row as it was when it does not. *)
Definition saved (env : Tenant.Env) (k : string) (row : Store.Row) : Store.Row :=
  match Tenant.sv_state (Tenant.r_save (Tenant.e_restore env k)) with
  | Some blob =>
      Store.mkRow (Store.id row) (Store.username row) (Some blob) (Store.password row)
        (Store.isActive row) (Store.createdAt row)
        (Tenant.sv_now (Tenant.r_save (Tenant.e_restore env k)))
  | None => row
  end.

End Shape.

(** ** Sample observations *)

(** An attempt that ends on the login view with the indicator shown. *)
Definition wrong_password : Login.AttemptObs :=
  Login.mkAttemptObs (fun _ => None) true false true true
    "https://pro.shalom.pe/login" "<p>Credenciales incorrectas</p>".

(** A line break of a rendered text. *)
Definition nl : string := String (ascii_of_nat 10) "".

(** A card of the pending-shipments view: the three fields are rendered on
    lines of their own. *)
Definition card_text (order code cost : string) : string :=
  "N° de Orden: " +:+ order +:+ nl +:+ "Código: " +:+ code +:+ nl +:+ "S/ " +:+ cost.

Definition card (deleted : bool) (order code cost : string) : Dom.Node :=
  let field t := Dom.Elem ["label"] (Some t) [Dom.Text t] in
  Dom.Elem (if deleted then ["card"; "time-deleted"] else ["card"])
    (Some (card_text order code cost))
    [Dom.Elem ["row"] (Some (card_text order code cost))
       [field ("N° de Orden: " +:+ order); field ("Código: " +:+ code); field ("S/ " +:+ cost)]].

Definition pending_view : Dom.Node :=
  Dom.Elem ["list"]
    (Some (card_text "101" "AB12" "8.00" +:+ nl +:+ card_text "102" "CD34" "9.50" +:+ nl +:+
           card_text "103" "EF56" "12.00" +:+ nl +:+ card_text "104" "GH78" "7.00"))
    [card false "101" "AB12" "8.00"; card true "102" "CD34" "9.50";
     card false "103" "EF56" "12.00"; card true "104" "GH78" "7.00"].

(** A driver that never throws and finds every element it is asked for, on
    a page that shows a registered shipment. *)
Definition quiet_save : Tenant.SaveObs := Tenant.mkSaveObs (Some "{}") 7 true.

Definition quiet_restore : Tenant.RestoreObs :=
  Tenant.mkRestoreObs true (fun _ => None) 1 1 "https://pro.shalom.pe/#/home"
    (fun _ => wrong_password) 7 quiet_save.

Definition quiet : Tenant.Env :=
  Tenant.mkEnv (Return 1%nat) (Return 1%nat) (fun _ => quiet_restore) ("key-2", "id-2") 2 2 7
    (fun _ => None) (fun _ => true) "https://pro.shalom.pe/#/home" "https://pro.shalom.pe/#/home"
    (fun _ => wrong_password) quiet_save "ANA PEREZ"
    "<b>Registrado</b> <span>B123 - 4567</span> S/ 12.50" None pending_view.

(** The same driver, failing to return the state of the context. *)
Definition stateless : Tenant.Env :=
  Tenant.mkEnv (Return 1%nat) (Return 1%nat) (fun _ => quiet_restore) ("key-2", "id-2") 2 2 7
    (fun _ => None) (fun _ => true) "https://pro.shalom.pe/#/home" "https://pro.shalom.pe/#/home"
    (fun _ => wrong_password) (Tenant.mkSaveObs None 7 true) "ANA PEREZ"
    "<b>Registrado</b> <span>B123 - 4567</span> S/ 12.50" None pending_view.

(** A manager with one live session, logged in as [ana], and its row. *)
Definition ana : Tenant.Instance :=
  Tenant.mkInstance "id-1" "key-1" (Some 1%nat) 1 1 0 (Some "ana@x.com") None.

Definition one_session : Tenant.State :=
  Tenant.mkState {[ "key-1" := ana ]} true (Some 0%nat) false
    {[ "key-1" := Store.mkRow "id-1" (Some "ana@x.com") None None true 0 0 ]}.

(** A request for an envelope, without a security code. *)
Definition envelope : Shipment.Data :=
  Shipment.mkData "sobre" "Lima" "Cusco" (Shipment.mkRecipient "12345678" None None)
    false false None None.



Definition at_login : Tenant.Env :=
  Tenant.mkEnv (Return 1%nat) (Return 1%nat)
    (fun _ => Tenant.mkRestoreObs true (fun _ => None) 1 1 "https://pro.shalom.pe/login"
                (fun _ => wrong_password) 7 quiet_save)
    ("key-2", "id-2") 2 2 7
    (fun _ => None) (fun _ => true) "https://pro.shalom.pe/login" "https://pro.shalom.pe/login"
    (fun _ => wrong_password) quiet_save "ANA PEREZ" "<p>Credenciales incorrectas</p>" None
    pending_view.

(** Two jobs of the queue for the same session. *)
Definition first_job : Worker.Job := Worker.mkJob 1 "key-1" envelope.
Definition second_job : Worker.Job := Worker.mkJob 2 "key-1" envelope.

(** An attempt that leaves the login view. *)
Definition accepted : Login.AttemptObs :=
  Login.mkAttemptObs (fun _ => None) true false true true
    "https://pro.shalom.pe/#/home" "<p>Inicio</p>".

(** The site shows the indicator at the first attempt and accepts the
    second. *)
Definition second_try : Tenant.Env :=
  Tenant.mkEnv (Return 1%nat) (Return 1%nat) (fun _ => quiet_restore) ("key-2", "id-2") 2 2 7
    (fun _ => None) (fun _ => true) "https://pro.shalom.pe/login" "https://pro.shalom.pe/#/home"
    (fun a => if a =? 2 then accepted else wrong_password) quiet_save "ANA PEREZ"
    "<b>Registrado</b> <span>B123 - 4567</span> S/ 12.50" None pending_view.

(** A driver whose first command throws. *)
Definition stuck : Tenant.Env :=
  Tenant.mkEnv (Return 1%nat) (Return 1%nat) (fun _ => quiet_restore) ("key-2", "id-2") 2 2 7
    (fun j => if (j =? 0)%nat then Some "Timeout 15000ms exceeded" else None) (fun _ => true)
    "https://pro.shalom.pe/#/home" "https://pro.shalom.pe/#/home"
    (fun _ => wrong_password) quiet_save "ANA PEREZ" "" None pending_view.

(** A row without a password, and an initialized manager that has the row
    and no session for it. *)
Definition plain_row : Store.Row :=
  Store.mkRow "id-1" (Some "ana@x.com") (Some "{}") None true 0 0.

Definition cold : Tenant.State :=
  Tenant.mkState ∅ true (Some 0%nat) false {[ "key-1" := plain_row ]}.

(** A call of the agency service on a page that receives one response of
    the agencies API. *)
Definition agencies_response : Agency.Response :=
  Agency.mkResponse "https://servicesweb.shalomcontrol.com/api/v1/web/agencias/listar" "POST"
    (Some (Agency.JArray [Agency.JString "Lima"])).

Definition agency_obs : Agency.Obs :=
  Agency.mkObs false (Return 1%nat) None None None None
    [Agency.mkResponse "https://agencias.shalom.pe/" "GET" None; agencies_response]
    true true true.

Definition idle : Agency.Service := Agency.mkService None false.

(** * Properties *)

(** ** Checks of the definitions on concrete inputs *)

Example attempt_twice :
  snd (Login._attemptLogin "user@x.com" "wrong" 2 (fun _ => wrong_password))
  = Login.invalid_credentials
  /\ attempts (fst (Login._attemptLogin "user@x.com" "wrong" 2 (fun _ => wrong_password))) = 2%nat.
Proof. split; reflexivity. Qed.

Example scrape_pending_view :
  Scrape.collect pending_view
  = [Scrape.mkEntry "101" "AB12" "8.00"; Scrape.mkEntry "103" "EF56" "12.00"]
  /\ Scrape.shipments pending_view = [Scrape.mkEntry "103" "EF56" "12.00"].
Proof. split; vm_compute; reflexivity. Qed.

Example shipments_route_codes :
  SecurityCode.shipments_check <$> [Some "1234"; Some "4321"; Some "0123"; Some "9876"]
  = [Some "securityCode cannot have consecutive digits (e.g., 1234, 4321)";
     Some "securityCode cannot have consecutive digits (e.g., 1234, 4321)";
     Some "securityCode cannot have consecutive digits (e.g., 1234, 4321)";
     Some "securityCode cannot have consecutive digits (e.g., 1234, 4321)"]
  /\ SecurityCode.shipments_check <$> [Some "5858"; Some "1357"; Some "0000"] = [None; None; None]
  /\ SecurityCode.shipments_check <$> [Some "12345"; Some "12a4"; Some "585"]
     = [Some "securityCode must be exactly 4 digits"; Some "securityCode must be exactly 4 digits";
        Some "securityCode must be exactly 4 digits"].
Proof. repeat split; reflexivity. Qed.

Example register_route_codes :
  SecurityCode.register_check <$> [Some "1234"; Some "4321"; Some "0123"; Some "9876"]
  = [Some "Security code cannot be a sequence of 4 consecutive digits (e.g. 1234, 4321)";
     Some "Security code cannot be a sequence of 4 consecutive digits (e.g. 1234, 4321)";
     Some "Security code cannot be a sequence of 4 consecutive digits (e.g. 1234, 4321)";
     Some "Security code cannot be a sequence of 4 consecutive digits (e.g. 1234, 4321)"]
  /\ SecurityCode.register_check <$> [Some "5858"; Some "1357"; Some "0000"] = [None; None; None]
  /\ SecurityCode.register_check <$> [Some "12345"; Some "12a4"; Some "585"] = [None; None; None].
Proof. repeat split; reflexivity. Qed.

Example registration_found :
  Scan.registration "<b>Registrado</b> <span>B123 -  4567</span> S/ 12.50" = Some ("B123", "4567")
  /\ Scan.parseFloat <$> Scan.price "<b>Registrado</b> <span>B123 -  4567</span> S/ 12.50"
     = Some (Scan.Num (Num.Finite 25 (-1))).
Proof. split; reflexivity. Qed.

Example cost_gives_back_the_dot :
  Scrape.cost_at "S/. 12.50" = Some "12.50" /\ Scrape.cost_at "S/. abc" = Some ".".
Proof. split; reflexivity. Qed.

Example run_try_swallows :
  Driver.run (fun i => if (i =? 1)%nat then Some "timeout" else None) 0
    [Driver.Do Driver.Url; Driver.Try [Driver.Click "a"; Driver.Click "b"]; Driver.Do Driver.Content]
  = ([Driver.Url; Driver.Click "a"; Driver.Content], None).
Proof. reflexivity. Qed.

Example store_update_username :
  Store.update (Store.ByApiKey "k") [("username", Store.VStr "u")]
    {[ "k" := Store.mkRow "i" None None None true 0%nat 0%nat ]}
  = Some {[ "k" := Store.mkRow "i" (Some "u") None None true 0%nat 0%nat ]}.
Proof. vm_compute. reflexivity. Qed.

Example register_envelope :
  Tenant.result (TenantManager.registerShipment "key-1" envelope quiet one_session)
  = Return (Shipment.mkResult true (Some "B123 - 4567") (Some (Scan.Num (Num.Finite 25 (-1))))
              (Some "Shipment registered successfully") None None).
Proof. vm_compute. reflexivity. Qed.

(** ** The security code (C1, C10) *)

Lemma is_digit_cases (c : ascii) : Js.is_digit c = true -> c ∈ SecurityCode.digit_chars.
Proof.
  destruct c as [[] [] [] [] [] [] [] []]; cbn; intros H; try discriminate H;
    unfold SecurityCode.digit_chars; cbn; set_solver.
Qed.

Lemma four_digits_all_codes (code : string) :
  SecurityCode.four_digits code = true -> code ∈ SecurityCode.all_codes.
Proof.
  unfold SecurityCode.four_digits. intros H.
  apply andb_prop in H as [Hlen Hdig]. apply bool_decide_eq_true in Hlen.
  destruct code as [|a [|b [|c [|d [|e code]]]]]; simpl in Hlen; try discriminate.
  simpl in Hdig.
  repeat (apply andb_prop in Hdig as [?%is_digit_cases Hdig]).
  unfold SecurityCode.all_codes.
  apply list_elem_of_bind. exists a. split; [|done].
  apply list_elem_of_bind. exists b. split; [|done].
  apply list_elem_of_bind. exists c. split; [|done].
  apply list_elem_of_bind. exists d. split; [|done].
  constructor.
Qed.

Lemma isConsecutive_runs_all :
  forallb (fun code => Bool.eqb (SecurityCode.isConsecutive code)
                                (bool_decide (code ∈ SecurityCode.runs)))
          SecurityCode.all_codes = true.
Proof. vm_compute. reflexivity. Qed.

(** On four digits, [isConsecutive] holds exactly of the fourteen runs. *)
Lemma isConsecutive_runs (code : string) :
  SecurityCode.four_digits code = true ->
  SecurityCode.isConsecutive code = true <-> code ∈ SecurityCode.runs.
Proof.
  intros H%four_digits_all_codes.
  pose proof isConsecutive_runs_all as Hall.
  rewrite forallb_forall in Hall.
  apply list_elem_of_In, Hall, Bool.eqb_prop in H. rewrite H.
  apply bool_decide_eq_true.
Qed.

(** The check of [POST /shipments] lets a code that was supplied go on to the
    manager exactly when it is four digits that are not a run. *)
Lemma shipments_check_accepts (code : string) :
  Js.truthy code = true ->
  SecurityCode.shipments_check (Some code) = None <-> SecurityCode.well_formed code.
Proof.
  intros Ht. unfold SecurityCode.shipments_check, SecurityCode.well_formed. simpl. rewrite Ht.
  destruct (SecurityCode.four_digits code) eqn:H4; simpl.
  - pose proof (isConsecutive_runs code H4) as Hr.
    destruct (SecurityCode.isConsecutive code).
    + split; [discriminate|]. intros [_ Hn]. exfalso. apply Hn, Hr. reflexivity.
    + split; [|reflexivity]. intros _. split; [reflexivity|]. intros Hin.
      apply Hr in Hin. discriminate.
  - split; [discriminate|]. intros [Hf _]. discriminate.
Qed.

(** The check of [POST /register] lets every code through whose length is
    not four, whatever its characters. *)
Lemma register_check_other_lengths (pin : string) :
  String.length pin <> 4%nat -> SecurityCode.register_check (Some pin) = None.
Proof.
  intros Hlen. unfold SecurityCode.register_check. simpl.
  destruct (Js.truthy pin); [|reflexivity].
  rewrite bool_decide_eq_false_2 by assumption. reflexivity.
Qed.

(** On four digits the two routes agree: each rejects exactly the runs. *)
Lemma routes_agree_on_four_digits (code : string) :
  SecurityCode.four_digits code = true ->
  (SecurityCode.register_check (Some code) = None <-> SecurityCode.well_formed code)
  /\ (SecurityCode.shipments_check (Some code) = None <-> SecurityCode.well_formed code).
Proof.
  intros H4.
  assert (Ht : Js.truthy code = true).
  { unfold SecurityCode.four_digits in H4. apply andb_prop in H4 as [Hl _].
    apply bool_decide_eq_true in Hl. destruct code; [discriminate Hl|reflexivity]. }
  split; [|apply shipments_check_accepts, Ht].
  assert (Hall : forallb
                   (fun c => Bool.eqb (bool_decide (SecurityCode.register_check (Some c) = None))
                                      (bool_decide (SecurityCode.shipments_check (Some c) = None)))
                   SecurityCode.all_codes = true) by (vm_compute; reflexivity).
  rewrite forallb_forall in Hall.
  pose proof (four_digits_all_codes code H4) as Hin.
  apply list_elem_of_In, Hall, Bool.eqb_prop in Hin.
  rewrite <- (shipments_check_accepts code Ht).
  split; intros Hx.
  - apply (bool_decide_eq_true_1 _). rewrite <- Hin. apply bool_decide_eq_true_2. exact Hx.
  - apply (bool_decide_eq_true_1 _). rewrite Hin. apply bool_decide_eq_true_2. exact Hx.
Qed.

(** A code that its route rejects is answered by the handler with status
    400: the manager, and with it the driver, is not called. *)
Lemma rejected_before_the_manager :
  (forall b error,
     SecurityCode.shipments_check (Server.securityCode b) = Some error ->
     exists e, Server.shipments (Some b) = Server.Send 400 e)
  /\ (forall filePath shipments code generated error,
        SecurityCode.register_check code = Some error ->
        Server.register filePath shipments code generated = Server.Send 400 error).
Proof.
  split.
  - intros b error H. unfold Server.shipments.
    destruct (negb _); [eauto|]. destruct (negb _); [eauto|]. destruct (negb _); [eauto|].
    destruct (Server.recipient b) as [[[[doc|] name] phone]|]; eauto.
    destruct (Js.truthy doc); [|eauto]. rewrite H. eauto.
  - intros filePath shipments code generated error H. unfold Server.register. rewrite H.
    reflexivity.
Qed.

(** C1, at the request that shows the defect: [POST /register] with the
    security code 12345. The check of [POST /shipments] answers this code
    with the four-digit error; the check of [POST /register] lets it through,
    the handler calls the manager, and the massive workflow types 1, 2, 3, 4:
    a run of consecutive digits. *)
Theorem C1_register_route_accepts_12345 :
  SecurityCode.shipments_check (Some "12345") = Some "securityCode must be exactly 4 digits"
  /\ ~ SecurityCode.well_formed "12345"
  /\ SecurityCode.register_check (Some "12345") = None
  /\ Server.register (Some "envios.xlsx") None (Some "12345") "tmp.xlsx"
     = Server.RegisterMassiveShipment (Some "envios.xlsx") (Some "12345")
  /\ TenantManagerR.code_fill (TenantManagerR.massive_code (Some "12345"))
     = [Driver.Do (Driver.Fill ".input-keyCode-1" "1"); Driver.Do (Driver.Fill ".input-keyCode-2" "2");
        Driver.Do (Driver.Fill ".input-keyCode-3" "3"); Driver.Do (Driver.Fill ".input-keyCode-4" "4")].
Proof.
  split; [reflexivity|]. split; [|repeat split; reflexivity].
  intros [H _]. vm_compute in H. discriminate H.
Qed.

(** Both workflows contain the entry of the code they computed. *)
Lemma shipment_script_enters_code (d : Shipment.Data) (env : Tenant.Env) :
  (exists before, TenantManager.shipment_script d env
                  = before ++ Shipment.code_entry (Shipment.code d) ++ Shipment.submit)
  /\ (exists before, TenantManagerR.shipment_script d env
                     = before ++ Shipment.code_entry (Shipment.code d) ++ Shipment.submit).
Proof.
  split.
  - unfold TenantManager.shipment_script, Driver.then_, Driver.fixed.
    eexists. rewrite !app_assoc. reflexivity.
  - unfold TenantManagerR.shipment_script, Driver.then_, Driver.fixed.
    eexists. rewrite !app_assoc. reflexivity.
Qed.

(** Without a code (absent or empty) the single workflow enters 5858, and the
    check of its route is skipped; without a code in the body the massive
    workflow uses 8002, and the check of its route is skipped. *)
Lemma default_codes (d : Shipment.Data) :
  Js.truthy_opt (Shipment.securityCode d) = false ->
  Shipment.code d = "5858"
  /\ Shipment.code_entry (Shipment.code d)
     = [Driver.Do (Driver.WaitVisible "role=button[name=5]");
        Driver.Do (Driver.Click "role=button[name=5]"); Driver.Do (Driver.Pause 150);
        Driver.Do (Driver.Click "role=button[name=8]"); Driver.Do (Driver.Pause 150);
        Driver.Do (Driver.Click "role=button[name=5]"); Driver.Do (Driver.Pause 150);
        Driver.Do (Driver.Click "role=button[name=8]"); Driver.Do (Driver.Pause 150)]
  /\ SecurityCode.shipments_check (Shipment.securityCode d) = None
  /\ TenantManagerR.massive_code None = "8002"
  /\ SecurityCode.register_check None = None.
Proof.
  intros H.
  assert (Hc : Shipment.code d = "5858").
  { unfold Shipment.code, Js.or_else. destruct (Shipment.securityCode d) as [s|]; [|reflexivity].
    simpl in H. rewrite H. reflexivity. }
  rewrite Hc. split; [reflexivity|]. split; [reflexivity|]. split; [|split; reflexivity].
  unfold SecurityCode.shipments_check. rewrite H. reflexivity.
Qed.

(** C10, at the request that shows the defect: [POST /register] with an
    empty security code. The check of the route is skipped and the handler
    passes the empty string on; the default of the parameter does not
    replace it, so the workflow has no digit to type and fails at the entry
    of the code, after the file was uploaded. *)
Theorem C10_massive_empty_code_not_defaulted :
  Server.register (Some "envios.xlsx") None (Some "") "tmp.xlsx"
  = Server.RegisterMassiveShipment (Some "envios.xlsx") (Some "")
  /\ TenantManagerR.massive_code (Some "") = ""
  /\ TenantManagerR.massive_code (Some "") <> "8002"
  /\ Tenant.result
       (TenantManagerR.registerMassiveShipment "key-1" "envios.xlsx" (Some "") quiet one_session)
     = Throw TenantManagerR.fill_undefined
  /\ Driver.SetFiles "envios.xlsx"
     ∈ cmds (Tenant.trace
               (TenantManagerR.registerMassiveShipment "key-1" "envios.xlsx" (Some "") quiet
                  one_session)).
Proof.
  split; [reflexivity|]. split; [reflexivity|]. split; [discriminate|].
  split; [vm_compute; reflexivity|].
  vm_compute. repeat constructor.
Qed.

(** ** Result extraction (C8) *)

Lemma take_while_all (p : ascii -> bool) (s : string) :
  Js.all_chars p (fst (Scan.take_while p s)) = true.
Proof.
  induction s as [|c s IH]; simpl; [reflexivity|].
  destruct (p c) eqn:Hc; [|reflexivity].
  destruct (Scan.take_while p s) as [a b]. simpl in *. rewrite Hc. exact IH.
Qed.

Lemma first_match_Some {A} (f : string -> option A) (s : string) (x : A) :
  Scan.first_match f s = Some x -> exists suffix, f suffix = Some x.
Proof.
  induction s as [|c s IH]; simpl.
  - destruct (f EmptyString) eqn:H; [|discriminate].
    intros [= ->]. eauto.
  - destruct (f (String c s)) eqn:H.
    + intros [= ->]. eauto.
    + exact IH.
Qed.

Lemma registration_at_shape (s a b : string) :
  Scan.registration_at s = Some (a, b) -> Scan.is_registration a b.
Proof.
  unfold Scan.registration_at. destruct s as [|c s1]; [discriminate|].
  destruct (Js.is_upper c) eqn:Hc; [|discriminate].
  pose proof (take_while_all Js.is_digit s1) as H1.
  destruct (Scan.take_while Js.is_digit s1) as [d1 s2]. simpl in H1.
  destruct (Js.truthy d1) eqn:Ht1; [|discriminate].
  destruct (Scan.skip_space s2) as [|c' s3]; [discriminate|].
  destruct (decide (c' = Scan.dash)); [|discriminate].
  pose proof (take_while_all Js.is_digit (Scan.skip_space s3)) as H2.
  destruct (Scan.take_while Js.is_digit (Scan.skip_space s3)) as [d2 rest]. simpl in H2.
  destruct (Js.truthy d2) eqn:Ht2; [|discriminate].
  intros [= <- <-]. exists c, d1. repeat split; assumption.
Qed.

(** ** The Number value of a decimal literal *)

Lemma nearest_spec (n d : Z) :
  0 < d ->
  2 * Z.abs (n - Num.nearest n d * d) <= d
  /\ (2 * Z.abs (n - Num.nearest n d * d) = d -> Z.even (Num.nearest n d) = true).
Proof.
  intros Hd. unfold Num.nearest.
  pose proof (Z.div_mod n d ltac:(lia)) as E.
  pose proof (Z.mod_pos_bound n d Hd) as Hr.
  destruct (Z.compare_spec (2 * (n mod d)) d) as [Heq|Hlt|Hgt].
  - destruct (Z.even (n / d)) eqn:He.
    + split; [nia|intros _; exact He].
    + split; [nia|]. intros _. rewrite Z.even_add, He. reflexivity.
  - split; [nia|]. intros H. nia.
  - split; [nia|]. intros H. nia.
Qed.

Lemma exponent_spec (n d : Z) :
  0 < n -> 0 < d ->
  let e := Num.exponent n d in
  (0 <= e -> d * 2 ^ e <= n < d * 2 ^ (e + 1))
  /\ (e < 0 -> d <= n * 2 ^ (- e) < 2 * d).
Proof.
  intros Hn Hd. cbv zeta. unfold Num.exponent.
  destruct (Z.log2_spec n Hn) as [Hn1 Hn2]. destruct (Z.log2_spec d Hd) as [Hd1 Hd2].
  pose proof (Z.log2_nonneg n) as Hln. pose proof (Z.log2_nonneg d) as Hld.
  set (a := Z.log2 n) in *. set (b := Z.log2 d) in *.
  rewrite Z.pow_succ_r in Hn2, Hd2 by lia.
  destruct (Z.leb_spec 0 (a - b)) as [Hab|Hab].
  - assert (Ea : 2 ^ a = 2 ^ (a - b) * 2 ^ b) by (rewrite <- Z.pow_add_r by lia; f_equal; lia).
    assert (Hp : 0 < 2 ^ (a - b)) by (apply Z.pow_pos_nonneg; lia).
    assert (Hpb : 0 < 2 ^ b) by (apply Z.pow_pos_nonneg; lia).
    destruct (Z.leb_spec (d * 2 ^ (a - b)) n) as [Hle|Hgt].
    + split; [|lia]. intros _. split; [exact Hle|].
      rewrite Z.pow_add_r by lia. change (2 ^ 1) with 2. nia.
    + split.
      * intros He. split.
        -- assert (E2 : 2 ^ (a - b) = 2 * 2 ^ (a - b - 1))
             by (rewrite <- Z.pow_succ_r by lia; f_equal; lia).
           nia.
        -- replace (a - b - 1 + 1) with (a - b) by lia. exact Hgt.
      * intros He. assert (a - b = 0) as E0 by lia. rewrite E0 in *.
        replace (- (0 - 1)) with 1 by lia. change (2 ^ 1) with 2. change (2 ^ 0) with 1 in *.
        lia.
  - assert (Eb : 2 ^ b = 2 ^ (b - a) * 2 ^ a) by (rewrite <- Z.pow_add_r by lia; f_equal; lia).
    assert (Hp : 0 < 2 ^ (b - a)) by (apply Z.pow_pos_nonneg; lia).
    assert (Hpa : 0 < 2 ^ a) by (apply Z.pow_pos_nonneg; lia).
    replace (- (a - b)) with (b - a) by lia.
    destruct (Z.leb_spec d (n * 2 ^ (b - a))) as [Hle|Hgt].
    + split; [lia|]. intros _. replace (- (a - b)) with (b - a) by lia. split; [exact Hle|nia].
    + split; [lia|]. intros _. replace (- (a - b - 1)) with (Z.succ (b - a)) by lia.
      rewrite Z.pow_succ_r by lia. split; [nia|lia].
Qed.

Lemma strip_value (p : positive) (e : Z) :
  let '(p', e') := Num.strip p e in
  e <= e' /\ Zpos p = Zpos p' * 2 ^ (e' - e) /\ Z.odd (Zpos p') = true.
Proof.
  revert e. induction p as [p IH|p IH|]; intros e; simpl.
  - rewrite Z.sub_diag. split; [lia|]. split; [lia|reflexivity].
  - specialize (IH (e + 1)). destruct (Num.strip p (e + 1)) as [p' e'].
    destruct IH as (Hle & Hv & Ho). split; [lia|]. split; [|exact Ho].
    replace (e' - e) with (Z.succ (e' - (e + 1))) by lia. rewrite Z.pow_succ_r by lia. lia.
  - rewrite Z.sub_diag. split; [lia|]. split; reflexivity.
Qed.

(** [Num.round] gives the nearest double: with [q] the exponent of the
    last bit at [n / d], the result is [m * 2 ^ q] for an integer [m] at
    most half a unit away from [n / d] in units of [2 ^ q], and even when
    exactly half a unit away; it is [Infinity] when that value reaches
    [2 ^ 1024]. *)
Lemma round_spec (n d : Z) :
  0 < n -> 0 < d ->
  let q := Num.quantum n d in
  let m := Num.mantissa n d in
  (0 <= q -> 2 * Z.abs (n - m * (d * 2 ^ q)) <= d * 2 ^ q
             /\ (2 * Z.abs (n - m * (d * 2 ^ q)) = d * 2 ^ q -> Z.even m = true))
  /\ (q < 0 -> 2 * Z.abs (n * 2 ^ (- q) - m * d) <= d
               /\ (2 * Z.abs (n * 2 ^ (- q) - m * d) = d -> Z.even m = true))
  /\ match Num.round n d with
     | Num.Infinity negative => negative = false /\ 0 <= q /\ 2 ^ 1024 <= m * 2 ^ q
     | Num.Finite m' e' =>
         (m' = 0 \/ q <= e') /\ m = m' * 2 ^ (e' - q) /\ (0 <= q -> m * 2 ^ q < 2 ^ 1024)
         /\ (m' = 0 \/ Z.odd m' = true)
     end.
Proof.
  intros Hn Hd. cbv zeta.
  assert (Hm : 0 <= Num.mantissa n d).
  { unfold Num.mantissa, Num.nearest.
    destruct (Z.leb_spec 0 (Num.quantum n d)) as [Hq|Hq].
    - assert (0 < 2 ^ Num.quantum n d) by (apply Z.pow_pos_nonneg; lia).
      assert (0 <= n / (d * 2 ^ Num.quantum n d)) by (apply Z.div_pos; [lia|nia]).
      destruct (_ ?= _); [destruct (Z.even _)|..]; lia.
    - assert (0 < 2 ^ (- Num.quantum n d)) by (apply Z.pow_pos_nonneg; lia).
      assert (0 <= n * 2 ^ (- Num.quantum n d) / d) by (apply Z.div_pos; [nia|lia]).
      destruct (_ ?= _); [destruct (Z.even _)|..]; lia. }
  split; [|split].
  - intros Hq. unfold Num.mantissa. rewrite (proj2 (Z.leb_le _ _) Hq).
    apply nearest_spec. assert (0 < 2 ^ Num.quantum n d) by (apply Z.pow_pos_nonneg; lia). nia.
  - intros Hq. unfold Num.mantissa. rewrite (proj2 (Z.leb_gt _ _) Hq).
    apply nearest_spec. exact Hd.
  - unfold Num.round. rewrite (proj2 (Z.eqb_neq n 0)) by lia.
    destruct (Z.leb_spec 0 (Num.quantum n d)) as [Hq|Hq]; cbn [andb].
    + destruct (Z.leb_spec (2 ^ 1024) (Num.mantissa n d * 2 ^ Num.quantum n d)) as [Ho|Ho].
      * split; [reflexivity|]. split; [exact Hq|exact Ho].
      * unfold Num.normal. destruct (Num.mantissa n d) as [|p|p] eqn:Em; [| |lia].
        -- split; [left; reflexivity|]. split; [reflexivity|]. split; [intros _; exact Ho|].
           left. reflexivity.
        -- pose proof (strip_value p (Num.quantum n d)) as Hs.
           destruct (Num.strip p (Num.quantum n d)) as [p' e']. destruct Hs as (Hle & Hv & Hodd).
           split; [right; exact Hle|]. split; [exact Hv|]. split; [intros _; exact Ho|].
           right. exact Hodd.
    + unfold Num.normal. destruct (Num.mantissa n d) as [|p|p] eqn:Em; [| |lia].
      * split; [left; reflexivity|]. split; [reflexivity|]. split; [lia|]. left. reflexivity.
      * pose proof (strip_value p (Num.quantum n d)) as Hs.
        destruct (Num.strip p (Num.quantum n d)) as [p' e']. destruct Hs as (Hle & Hv & Hodd).
        split; [right; exact Hle|]. split; [exact Hv|]. split; [lia|]. right. exact Hodd.
Qed.

Example round_values :
  Num.round 1250 100 = Num.Finite 25 (-1)
  /\ Num.round 1 10 = Num.Finite 3602879701896397 (-55)
  /\ Num.round 9007199254740993 1 = Num.Finite 1 53
  /\ Num.round 5 (10 ^ 324) = Num.Finite 1 (-1074)
  /\ Num.round 2 (10 ^ 324) = Num.Finite 0 0
  /\ Num.round (17976931348623157 * 10 ^ 292) 1 = Num.Finite 9007199254740991 971
  /\ Num.round (10 ^ 309) 1 = Num.Infinity false.
Proof. repeat split; vm_compute; reflexivity. Qed.

(** ** The matches of the expressions *)

Lemma string_app_cons (c : ascii) (a b : string) : String c a +:+ b = String c (a +:+ b).
Proof. reflexivity. Qed.

Lemma string_app_nil_l (s : string) : "" +:+ s = s.
Proof. reflexivity. Qed.

Lemma take_while_spec (p : ascii -> bool) (s a b : string) :
  Scan.take_while p s = (a, b)
  <-> s = a +:+ b /\ Js.all_chars p a = true /\ Scan.starts p b = false.
Proof.
  revert a b. induction s as [|c s IH]; intros a b; simpl.
  - split.
    + intros [= <- <-]. repeat split.
    + intros (H & _ & _). destruct a; [|discriminate H]. destruct b; [reflexivity|discriminate H].
  - destruct (p c) eqn:Hc.
    + destruct (Scan.take_while p s) as [a' b'] eqn:E. split.
      * intros [= <- <-]. destruct (proj1 (IH a' b') eq_refl) as (-> & Ha & Hb).
        split; [reflexivity|]. split; [simpl; rewrite Hc; exact Ha|exact Hb].
      * intros (H & Ha & Hb). destruct a as [|c' a].
        { rewrite string_app_nil_l in H. subst b. simpl in Hb. congruence. }
        rewrite string_app_cons in H. injection H as <- ->. simpl in Ha.
        rewrite Hc in Ha. simpl in Ha.
        assert (E' : (a', b') = (a, b)) by (apply IH; auto). congruence.
    + split.
      * intros [= <- <-]. split; [reflexivity|]. split; [reflexivity|exact Hc].
      * intros (H & Ha & Hb). destruct a as [|c' a].
        { rewrite string_app_nil_l in H. subst b. reflexivity. }
        rewrite string_app_cons in H. injection H as <- ->. simpl in Ha. rewrite Hc in Ha. discriminate.
Qed.


















Lemma string_app_assoc (a b c : string) : (a +:+ b) +:+ c = a +:+ (b +:+ c).
Proof. induction a as [|x a IH]; [reflexivity|]. rewrite !string_app_cons, IH. reflexivity. Qed.

Lemma literal_spec (g i f : string) :
  Scan.literal g = Some (i, f) <-> Scan.literal_here g i f.
Proof.
  unfold Scan.literal, Scan.literal_here. split.
  - destruct (Scan.take_while Js.is_digit g) as [i' rest] eqn:E.
    apply take_while_spec in E as (-> & Hi & Hrest).
    destruct rest as [|c rest'].
    + destruct (Js.truthy i') eqn:Ht; [|discriminate]. intros [= <- <-].
      split; [exact Hi|]. split; [reflexivity|]. split; [rewrite Ht; reflexivity|].
      right. split; [reflexivity|]. exists "". split; reflexivity.
    + destruct (decide (c = Scan.dot)) as [->|Hne].
      * destruct (Scan.take_while Js.is_digit rest') as [f' rest2] eqn:E2. cbn [fst].
        apply take_while_spec in E2 as (-> & Hf & Hrest2).
        destruct (Js.truthy i' || Js.truthy f') eqn:Ht; [|discriminate]. intros [= <- <-].
        split; [exact Hi|]. split; [exact Hf|]. split; [exact Ht|].
        left. exists rest2. split; [reflexivity|exact Hrest2].
      * destruct (Js.truthy i') eqn:Ht; [|discriminate]. cbn [orb]. intros [= <- <-].
        split; [exact Hi|]. split; [reflexivity|]. split; [rewrite Ht; reflexivity|].
        right. split; [reflexivity|]. exists (String c rest'). split; [reflexivity|].
        simpl in Hrest |- *. unfold Scan.is_digit_or_dot. rewrite Hrest.
        rewrite bool_decide_eq_false_2 by exact Hne. reflexivity.
  - intros (Hi & Hf & Ht & [(rest & -> & Hrest) | (-> & rest & -> & Hrest)]).
    + assert (E : Scan.take_while Js.is_digit (i +:+ String Scan.dot (f +:+ rest))
                  = (i, String Scan.dot (f +:+ rest))).
      { apply take_while_spec. split; [reflexivity|]. split; [exact Hi|reflexivity]. }
      rewrite E. rewrite decide_True by reflexivity.
      assert (E2 : Scan.take_while Js.is_digit (f +:+ rest) = (f, rest)).
      { apply take_while_spec. split; [reflexivity|]. split; [exact Hf|exact Hrest]. }
      rewrite E2. cbn [fst]. rewrite Ht. reflexivity.
    + assert (Hd : Scan.starts Js.is_digit rest = false /\
                   match rest with
                   | String c rest' =>
                       if decide (c = Scan.dot) then fst (Scan.take_while Js.is_digit rest') else ""
                   | "" => ""
                   end = "").
      { destruct rest as [|c rest']; [split; reflexivity|]. simpl in Hrest |- *.
        unfold Scan.is_digit_or_dot in Hrest. apply orb_false_elim in Hrest as [Hd Hdot].
        split; [exact Hd|]. destruct (decide (c = Scan.dot)) as [->|]; [|reflexivity].
        rewrite bool_decide_eq_true_2 in Hdot by reflexivity. discriminate. }
      destruct Hd as [Hd Hfrac].
      assert (E : Scan.take_while Js.is_digit (i +:+ rest) = (i, rest)).
      { apply take_while_spec. split; [reflexivity|]. split; [exact Hi|exact Hd]. }
      rewrite E, Hfrac, Ht. reflexivity.
Qed.

Lemma literal_unique (g i f i' f' : string) :
  Scan.literal_here g i f -> Scan.literal_here g i' f' -> i = i' /\ f = f'.
Proof.
  intros H H'. apply literal_spec in H, H'. rewrite H in H'. injection H' as <- <-.
  split; reflexivity.
Qed.



(** ** The scrape of the pending shipments (C9) *)



Lemma visit_live (all : list (Dom.Node * list Dom.Node)) (results : list Scrape.Entry)
    (label : Dom.Node * list Dom.Node) :
  label ∈ all ->
  Forall (Scrape.from_live_card all) results ->
  Forall (Scrape.from_live_card all) (Scrape.visit results label).
Proof.
  intros Hin Hres. unfold Scrape.visit.
  destruct (Scrape.find_container 6 (snd label)) as [[container above]|] eqn:Hc; [|exact Hres].
  destruct (Scan.first_match Scrape.order_at _) as [o|] eqn:Ho; [|exact Hres].
  destruct (Scrape.isDeleted container above) eqn:Hd; simpl; [exact Hres|].
  destruct (Scrape.exists_order o results); simpl; [exact Hres|].
  apply Forall_app. split; [exact Hres|]. constructor; [|constructor].
  exists label, container, above. simpl. repeat split; assumption.
Qed.

Lemma collect_live (all labels : list (Dom.Node * list Dom.Node)) (results : list Scrape.Entry) :
  labels ⊆ all ->
  Forall (Scrape.from_live_card all) results ->
  Forall (Scrape.from_live_card all) (foldl Scrape.visit results labels).
Proof.
  revert results. induction labels as [|l labels IH]; intros results Hsub Hres; simpl.
  - exact Hres.
  - apply IH; [set_solver|]. apply visit_live; [set_solver|exact Hres].
Qed.

(** ** The document tree *)













(** ** The three expressions of the scrape *)




































(** ** A logic of invariants and writes *)

Section Keeps.

Import Tenant Inv.

Context (I : State -> Prop) (W : Store.Write -> Prop).

Lemma writes_app (t1 t2 : list Event) : writes (t1 ++ t2) = writes t1 ++ writes t2.
Proof. apply omap_app. Qed.

Lemma writes_drv (cs : list Driver.Cmd) : writes (Drv <$> cs) = [].
Proof. induction cs as [|c cs IH]; [reflexivity|exact IH]. Qed.

Lemma keeps_ret {A} (a : A) : keeps I W (ret a).
Proof. intros s Hs. split; [exact Hs|constructor]. Qed.

Lemma keeps_throw {A} (msg : string) : keeps I W (@throw A msg).
Proof. intros s Hs. split; [exact Hs|constructor]. Qed.

Lemma keeps_get : keeps I W get.
Proof. intros s Hs. split; [exact Hs|constructor]. Qed.

Lemma keeps_getInstance (k : string) : keeps I W (getInstance k).
Proof. intros s Hs. split; [exact Hs|constructor]. Qed.

Lemma keeps_emit (tr : list Event) : Forall W (writes tr) -> keeps I W (emit tr).
Proof. intros Htr s Hs. split; [exact Hs|exact Htr]. Qed.

Lemma keeps_modify (f : State -> State) : (forall s, I s -> I (f s)) -> keeps I W (modify f).
Proof. intros Hf s Hs. split; [apply Hf, Hs|constructor]. Qed.

Lemma keeps_bind {A B} (c : M A) (f : A -> M B) :
  keeps I W c -> (forall a, keeps I W (f a)) -> keeps I W (bind c f).
Proof.
  intros Hc Hf s Hs. unfold bind, state, trace.
  destruct (Hc s Hs) as [H1 H2]. unfold state, trace in H1, H2.
  destruct (c s) as [[[a|msg] s1] t1]; simpl in *; [|split; assumption].
  destruct (Hf a s1 H1) as [H3 H4]. unfold state, trace in H3, H4.
  destruct (f a s1) as [[r s2] t2]; simpl in *.
  split; [exact H3|]. rewrite writes_app. apply Forall_app. split; assumption.
Qed.

Lemma keeps_catch {A} (c : M A) (h : string -> M A) :
  keeps I W c -> (forall msg, keeps I W (h msg)) -> keeps I W (catch c h).
Proof.
  intros Hc Hh s Hs. unfold catch, state, trace.
  destruct (Hc s Hs) as [H1 H2]. unfold state, trace in H1, H2.
  destruct (c s) as [[[a|msg] s1] t1]; simpl in *; [split; assumption|].
  destruct (Hh msg s1 H1) as [H3 H4]. unfold state, trace in H3, H4.
  destruct (h msg s1) as [[r s2] t2]; simpl in *.
  split; [exact H3|]. rewrite writes_app. apply Forall_app. split; assumption.
Qed.

Lemma keeps_drive_from (i : nat) (fails : nat -> option string) (bs : list Driver.Block) :
  keeps I W (drive_from i fails bs).
Proof.
  intros s Hs. unfold drive_from, state, trace.
  destruct (Driver.run fails i bs) as [cs r]. simpl.
  split; [exact Hs|]. rewrite writes_drv. constructor.
Qed.

Lemma keeps_store (now : nat) (w : Store.Write) :
  W w ->
  (forall s d, I s -> Store.apply now w (db s) = Some d -> I (with_db d s)) ->
  keeps I W (store now w).
Proof.
  intros Hw Hdb s Hs. unfold store, state, trace.
  destruct (Store.apply now w (db s)) as [d|] eqn:Hd; simpl.
  - split; [eapply Hdb; eassumption|]. repeat constructor. exact Hw.
  - split; [exact Hs|]. repeat constructor. exact Hw.
Qed.

End Keeps.

(** ** The writes of the manager (C7) *)

Lemma attempt_once_writes (attempt retries : Z) (u p : string) (o : Login.AttemptObs) :
  writes (fst (Login.attempt_once attempt retries u p o)) = [].
Proof.
  unfold Login.attempt_once.
  destruct (Driver.run _ _ _) as [cs [msg|]]; simpl; [apply writes_drv|].
  destruct (negb _); simpl; [apply writes_drv|].
  destruct (Login.a_fails o _); simpl; rewrite writes_app, writes_drv; reflexivity.
Qed.

Lemma attempt_loop_writes (n : nat) (attempt retries : Z) (u p : string)
    (obs : Z -> Login.AttemptObs) :
  writes (fst (Login.attempt_loop n attempt retries u p obs)) = [].
Proof.
  revert attempt. induction n as [|n IH]; intros attempt; simpl; [reflexivity|].
  pose proof (attempt_once_writes attempt retries u p (obs attempt)) as H1.
  destruct (Login.attempt_once attempt retries u p (obs attempt)) as [tr r]. simpl in H1.
  specialize (IH (attempt + 1)).
  destruct r; simpl; [exact H1| | |].
  - destruct (attempt <? retries); simpl; [|exact H1].
    rewrite writes_app, H1. simpl. exact IH.
  - rewrite writes_app, H1. exact IH.
  - destruct (attempt =? retries); simpl; [exact H1|].
    rewrite writes_app, H1. simpl. exact IH.
Qed.

Create HintDb writes.

Ltac writes_step :=
  lazymatch goal with
  | |- Inv.keeps _ _ (let _ := _ in _) => cbv zeta
  | |- Inv.keeps _ _ (Tenant.bind _ _) => apply keeps_bind; [|intros ?]
  | |- Inv.keeps _ _ (Tenant.catch _ _) => apply keeps_catch; [|intros ?]
  | |- Inv.keeps _ _ (Tenant.ret _) => apply keeps_ret
  | |- Inv.keeps _ _ (Tenant.throw _) => apply keeps_throw
  | |- Inv.keeps _ _ Tenant.get => apply keeps_get
  | |- Inv.keeps _ _ (Tenant.getInstance _) => apply keeps_getInstance
  | |- Inv.keeps _ _ (Tenant.modify _) => apply keeps_modify; intros; exact Logic.I
  | |- Inv.keeps _ _ (Tenant.drive_from _ _ _) => apply keeps_drive_from
  | |- Inv.keeps _ _ (Tenant.drive _ _) => apply keeps_drive_from
  | |- Inv.keeps _ _ (Tenant.store _ _) =>
      apply keeps_store; [reflexivity | intros; exact Logic.I]
  | |- Inv.keeps _ _ (Tenant.emit (fst (Login._attemptLogin _ _ _ _))) =>
      apply keeps_emit; unfold Login._attemptLogin; rewrite attempt_loop_writes; constructor
  | |- Inv.keeps _ _ (Tenant.emit (fst (Login.attempt_once _ _ _ _ _))) =>
      apply keeps_emit; rewrite attempt_once_writes; constructor
  | |- Inv.keeps _ _ (Tenant.emit _) => apply keeps_emit; constructor
  | |- Inv.keeps _ _ (match ?x with _ => _ end) => destruct x
  end.

Ltac writes_tac := repeat first [ assumption | solve [auto with writes] | writes_step ].

Local Abbreviation only_plain c := (Inv.keeps (fun _ => True) Inv.plain c).

Lemma save_writes (k : string) (o : Tenant.SaveObs) :
  only_plain (TenantManager._saveStorageState k o).
Proof. unfold TenantManager._saveStorageState. writes_tac. Qed.

Lemma saveR_writes (k : string) (o : Tenant.SaveObs) :
  only_plain (TenantManagerR._saveStorageState k o).
Proof. unfold TenantManagerR._saveStorageState. writes_tac. Qed.

#[local] Hint Resolve save_writes saveR_writes : writes.

Lemma restore_row_writes (k : string) (row : Store.Row) (o : Tenant.RestoreObs) :
  only_plain (TenantManager.restore_row k row o).
Proof. unfold TenantManager.restore_row. writes_tac. Qed.

Lemma restore_rowR_writes (k : string) (row : Store.Row) (o : Tenant.RestoreObs) :
  only_plain (TenantManagerR.restore_row k row o).
Proof. unfold TenantManagerR.restore_row. writes_tac. Qed.

#[local] Hint Resolve restore_row_writes restore_rowR_writes : writes.

Lemma restore_all_writes (rows : list (string * Store.Row)) (env : Tenant.Env) :
  only_plain (TenantManager.restore_all rows env).
Proof.
  induction rows as [|[k row] rows IH]; simpl; writes_tac.
Qed.

Lemma restore_allR_writes (rows : list (string * Store.Row)) (env : Tenant.Env) :
  only_plain (TenantManagerR.restore_all rows env).
Proof.
  induction rows as [|[k row] rows IH]; simpl; writes_tac.
Qed.

#[local] Hint Resolve restore_all_writes restore_allR_writes : writes.

Lemma initialize_writes (env : Tenant.Env) : only_plain (TenantManager.initialize env).
Proof. unfold TenantManager.initialize. writes_tac. Qed.

Lemma initializeR_writes (env : Tenant.Env) : only_plain (TenantManagerR.initialize env).
Proof. unfold TenantManagerR.initialize. writes_tac. Qed.

#[local] Hint Resolve initialize_writes initializeR_writes : writes.

Lemma login_loop_writes (n : nat) (attempt retries : Z) (k u p : string) (env : Tenant.Env) :
  only_plain (TenantManager.login_loop n attempt retries k u p env).
Proof.
  revert attempt. induction n as [|n IH]; intros attempt; simpl; [apply keeps_ret|].
  unfold TenantManager.bind_username. writes_tac.
Qed.

#[local] Hint Resolve login_loop_writes : writes.



Lemma getOrRestore_writes (k : string) (env : Tenant.Env) :
  only_plain (TenantManagerR.getOrRestoreInstance k env).
Proof.
  unfold TenantManagerR.getOrRestoreInstance, TenantManagerR._restoreInstance. writes_tac.
Qed.

#[local] Hint Resolve getOrRestore_writes : writes.


(** *** The writes do not depend on the password *)















(** ** A key that was never created (C3) *)

Lemma keeps_get_bind {B} (I : Tenant.State -> Prop) (W : Store.Write -> Prop)
    (f : Tenant.State -> Tenant.M B) :
  (forall s, I s -> I (Tenant.state (f s s)) /\ Forall W (writes (Tenant.trace (f s s)))) ->
  Inv.keeps I W (Tenant.bind Tenant.get f).
Proof.
  intros H s Hs. unfold Tenant.bind, Tenant.get.
  destruct (H s Hs) as [H1 H2]. unfold Tenant.state, Tenant.trace in *.
  destruct (f s s) as [[r s2] t2]. simpl in *. split; assumption.
Qed.

Lemma update_keeps_none (w : Store.Where) (data : Store.Data) (db d : gmap string Store.Row)
    (k : string) :
  Store.update w data db = Some d -> db !! k = None -> d !! k = None.
Proof.
  unfold Store.update. destruct (Store.has_row w db); [|discriminate].
  intros [= <-] Hk. rewrite map_lookup_imap, Hk. reflexivity.
Qed.

Lemma delete_keeps_none (w : Store.Where) (db d : gmap string Store.Row) (k : string) :
  Store.delete w db = Some d -> db !! k = None -> d !! k = None.
Proof.
  unfold Store.delete. destruct (Store.has_row w db); [|discriminate].
  intros [= <-] Hk. rewrite map_lookup_imap, Hk. reflexivity.
Qed.

Lemma update_keeps_absent (now : nat) (w : Store.Where) (data : Store.Data) (k : string) :
  Inv.keeps (Inv.absent k) (fun _ => True) (Tenant.store now (Store.Update w data)).
Proof.
  apply keeps_store; [exact Logic.I|].
  intros s d [Hi Hd] Ha. split; [exact Hi|]. simpl in *. eapply update_keeps_none; eassumption.
Qed.

Lemma save_keeps_absent (k k' : string) (o : Tenant.SaveObs) :
  Inv.keeps (Inv.absent k) (fun _ => True) (TenantManager._saveStorageState k' o)
  /\ Inv.keeps (Inv.absent k) (fun _ => True) (TenantManagerR._saveStorageState k' o).
Proof.
  split.
  - unfold TenantManager._saveStorageState.
    apply keeps_bind; [apply keeps_getInstance|]. intros [i|]; [|apply keeps_ret].
    apply keeps_catch; [|intros; apply keeps_ret].
    apply keeps_bind; [apply keeps_emit; constructor|]. intros _.
    destruct (Tenant.sv_state o); [apply update_keeps_absent|apply keeps_throw].
  - unfold TenantManagerR._saveStorageState.
    apply keeps_bind; [apply keeps_getInstance|]. intros [i|]; [|apply keeps_ret].
    apply keeps_bind; [apply keeps_get|]. intros s.
    destruct (_ && _); [apply keeps_ret|].
    apply keeps_catch; [|intros; apply keeps_ret].
    apply keeps_bind; [apply keeps_emit; constructor|]. intros _.
    destruct (Tenant.sv_state o); [apply update_keeps_absent|apply keeps_throw].
Qed.

Lemma set_instance_keeps_absent (k k' : string) (i : Tenant.Instance) :
  k' <> k ->
  Inv.keeps (Inv.absent k) (fun _ => True)
    (Tenant.modify (Tenant.with_instances <[k' := i]>)).
Proof.
  intros Hne. apply keeps_modify. intros s [Hi Hd]. split; [|exact Hd].
  simpl. rewrite lookup_insert_ne by exact Hne. exact Hi.
Qed.

Lemma restore_row_keeps_absent (k k' : string) (row : Store.Row) (o : Tenant.RestoreObs) :
  k' <> k ->
  Inv.keeps (Inv.absent k) (fun _ => True) (TenantManager.restore_row k' row o)
  /\ Inv.keeps (Inv.absent k) (fun _ => True) (TenantManagerR.restore_row k' row o).
Proof.
  intros Hne. split.
  - unfold TenantManager.restore_row.
    apply keeps_bind; [apply keeps_get|]. intros s.
    destruct (Tenant.browser s); [|apply keeps_throw].
    apply keeps_bind; [apply keeps_drive_from|]. intros _.
    apply keeps_bind; [apply set_instance_keeps_absent, Hne|]. intros _.
    apply keeps_bind; [apply update_keeps_absent|]. intros _. apply keeps_ret.
  - unfold TenantManagerR.restore_row.
    apply keeps_bind; [apply keeps_get|]. intros s.
    destruct (Tenant.browser s); [|apply keeps_throw].
    apply keeps_bind; [apply keeps_drive_from|]. intros _.
    apply keeps_bind.
    { destruct (_ && _); [|apply keeps_ret].
      apply keeps_bind; [apply keeps_emit; exact (Forall_true _ _ (fun _ => Logic.I))|].
      intros _. apply keeps_ret. }
    intros logged.
    apply keeps_bind; [apply set_instance_keeps_absent, Hne|]. intros _.
    apply keeps_bind; [apply update_keeps_absent|]. intros _.
    apply keeps_bind; [|intros; apply keeps_ret].
    destruct logged; [apply save_keeps_absent|apply keeps_ret].
Qed.

Lemma restore_all_keeps_absent (k : string) (rows : list (string * Store.Row)) (env : Tenant.Env) :
  Forall (fun kr => fst kr <> k) rows ->
  Inv.keeps (Inv.absent k) (fun _ => True) (TenantManager.restore_all rows env)
  /\ Inv.keeps (Inv.absent k) (fun _ => True) (TenantManagerR.restore_all rows env).
Proof.
  induction rows as [|[k' row] rows IH]; intros Hrows; simpl.
  - split; apply keeps_ret.
  - inversion Hrows as [|? ? Hne Hrest]; subst. simpl in Hne.
    destruct (IH Hrest) as [IH1 IH2].
    destruct (restore_row_keeps_absent k k' row (Tenant.e_restore env k') Hne) as [R1 R2].
    split.
    + apply keeps_bind; [|intros; exact IH1].
      apply keeps_catch; [|intros; apply update_keeps_absent].
      apply keeps_bind; [exact R1|intros; apply keeps_ret].
    + apply keeps_bind; [apply keeps_get|]. intros s.
      destruct (Tenant.isShuttingDown s); [apply keeps_ret|].
      apply keeps_bind; [|intros; exact IH2].
      apply keeps_catch; [|intros; apply keeps_ret].
      apply keeps_bind; [exact R2|intros; apply keeps_ret].
Qed.

Lemma rows_other_keys (k : string) (d : gmap string Store.Row) :
  d !! k = None ->
  Forall (fun kr => fst kr <> k) (Store.findMany d)
  /\ Forall (fun kr => fst kr <> k) (TenantManager.active_rows d).
Proof.
  intros Hk.
  assert (H : Forall (fun kr : string * Store.Row => fst kr <> k) (Store.findMany d)).
  { apply Forall_forall. intros [k' row] Hin Heq. simpl in Heq. subst k'.
    apply elem_of_map_to_list in Hin. congruence. }
  split; [exact H|].
  unfold TenantManager.active_rows. rewrite Forall_forall in *.
  intros kr Hin. apply H. apply list_elem_of_In. apply list_elem_of_In in Hin.
  apply filter_In in Hin. tauto.
Qed.

Lemma flags_keep_absent (k : string) :
  Inv.keeps (Inv.absent k) (fun _ => True) (Tenant.modify (Tenant.with_initialized true))
  /\ (forall h, Inv.keeps (Inv.absent k) (fun _ => True) (Tenant.modify (Tenant.with_browser h))).
Proof.
  split; [|intros h]; apply keeps_modify; intros s Hs; exact Hs.
Qed.

(** [initialize] creates no session and no row for a key that has none. *)
Lemma initialize_keeps_absent (k : string) (env : Tenant.Env) :
  Inv.keeps (Inv.absent k) (fun _ => True) (TenantManager.initialize env)
  /\ Inv.keeps (Inv.absent k) (fun _ => True) (TenantManagerR.initialize env).
Proof.
  destruct (flags_keep_absent k) as [Hinit Hbrowser].
  assert (Hlaunch : forall s : Tenant.State,
    Inv.keeps (Inv.absent k) (fun _ => True)
      match Tenant.browser s with
      | Some _ => Tenant.ret ()
      | None =>
          Tenant.bind (Tenant.emit [Drv Driver.Launch])
            (fun _ => match Tenant.e_launch env with
                      | Return h => Tenant.modify (Tenant.with_browser (Some h))
                      | Throw msg => Tenant.throw msg
                      end)
      end).
  { intros s. destruct (Tenant.browser s); [apply keeps_ret|].
    apply keeps_bind; [apply keeps_emit; constructor|]. intros _.
    destruct (Tenant.e_launch env); [apply Hbrowser|apply keeps_throw]. }
  split.
  - unfold TenantManager.initialize.
    apply keeps_bind; [apply keeps_get|]. intros s.
    destruct (Tenant.initialized s); [apply keeps_ret|].
    apply keeps_catch; [|intros; exact Hinit].
    apply keeps_bind; [apply Hlaunch|]. intros _.
    apply keeps_get_bind. intros s' Hs'.
    apply keeps_bind; [|intros; exact Hinit|exact Hs'].
    apply restore_all_keeps_absent, rows_other_keys, Hs'.
  - unfold TenantManagerR.initialize.
    apply keeps_bind; [apply keeps_get|]. intros s.
    destruct (_ || _); [apply keeps_ret|].
    apply keeps_catch; [|intros; exact Hinit].
    apply keeps_bind; [apply Hlaunch|]. intros _.
    apply keeps_get_bind. intros s' Hs'.
    apply keeps_bind; [|intros; exact Hinit|exact Hs'].
    apply restore_all_keeps_absent, rows_other_keys, Hs'.
Qed.

(** [initialize] always completes. *)
Lemma initialize_returns (env : Tenant.Env) (s : Tenant.State) :
  Tenant.result (TenantManager.initialize env s) = Return ()
  /\ Tenant.result (TenantManagerR.initialize env s) = Return ().
Proof.
  assert (H : forall (c : Tenant.M unit) s0,
             Tenant.result
               (Tenant.catch c (fun _ => Tenant.modify (Tenant.with_initialized true)) s0)
             = Return ()).
  { intros c s0. unfold Tenant.catch, Tenant.result.
    destruct (c s0) as [[[[]|msg] s1] t1]; reflexivity. }
  split.
  - unfold TenantManager.initialize, Tenant.bind at 1. simpl.
    destruct (Tenant.initialized s); [reflexivity|].
    specialize (H (Tenant.bind
      match Tenant.browser s with
      | Some _ => Tenant.ret ()
      | None =>
          Tenant.bind (Tenant.emit [Drv Driver.Launch])
            (fun _ => match Tenant.e_launch env with
                      | Return h => Tenant.modify (Tenant.with_browser (Some h))
                      | Throw msg => Tenant.throw msg
                      end)
      end
      (fun _ => Tenant.bind Tenant.get
         (fun s' => Tenant.bind (TenantManager.restore_all (TenantManager.active_rows (Tenant.db s')) env)
            (fun _ => Tenant.modify (Tenant.with_initialized true))))) s).
    unfold Tenant.result in *.
    destruct (Tenant.catch _ _ s) as [[r s2] t2]. simpl in *. exact H.
  - unfold TenantManagerR.initialize, Tenant.bind at 1. simpl.
    destruct (_ || _); [reflexivity|].
    specialize (H (Tenant.bind
      match Tenant.browser s with
      | Some _ => Tenant.ret ()
      | None =>
          Tenant.bind (Tenant.emit [Drv Driver.Launch])
            (fun _ => match Tenant.e_launch env with
                      | Return h => Tenant.modify (Tenant.with_browser (Some h))
                      | Throw msg => Tenant.throw msg
                      end)
      end
      (fun _ => Tenant.bind Tenant.get
         (fun s' => Tenant.bind (TenantManagerR.restore_all (Store.findMany (Tenant.db s')) env)
            (fun _ => Tenant.modify (Tenant.with_initialized true))))) s).
    unfold Tenant.result in *.
    destruct (Tenant.catch _ _ s) as [[r s2] t2]. simpl in *. exact H.
Qed.

Lemma initialize_absent (k : string) (env : Tenant.Env) (s : Tenant.State) :
  Inv.absent k s ->
  (exists s1 t1, TenantManager.initialize env s = (Return (), s1, t1) /\ Inv.absent k s1)
  /\ (exists s1 t1, TenantManagerR.initialize env s = (Return (), s1, t1) /\ Inv.absent k s1).
Proof.
  intros Hs.
  destruct (initialize_keeps_absent k env) as [K1 K2].
  destruct (initialize_returns env s) as [R1 R2].
  destruct (K1 s Hs) as [A1 _]. destruct (K2 s Hs) as [A2 _].
  unfold Tenant.result, Tenant.state in *.
  destruct (TenantManager.initialize env s) as [[r1 s1] t1].
  destruct (TenantManagerR.initialize env s) as [[r2 s2] t2].
  simpl in *. subst r1 r2. split; eauto.
Qed.

Lemma getOrRestore_absent (k : string) (env : Tenant.Env) (s : Tenant.State) :
  Inv.absent k s -> TenantManagerR.getOrRestoreInstance k env s = (Return None, s, []).
Proof.
  intros [Hi Hd].
  unfold TenantManagerR.getOrRestoreInstance, Tenant.bind, Tenant.getInstance, Tenant.get,
    Store.findFirst.
  rewrite Hi. simpl. rewrite Hd. reflexivity.
Qed.

Lemma delete_absent (k : string) (now : nat) (s : Tenant.State) :
  Inv.absent k s ->
  Tenant.store now (Store.Delete (Store.ByApiKey k)) s
  = (Throw Tenant.not_found, s, [Db (Store.Delete (Store.ByApiKey k))]).
Proof.
  intros [_ Hd]. unfold Tenant.store, Store.apply, Store.delete, Store.has_row.
  rewrite Hd. rewrite bool_decide_eq_false_2; [reflexivity|]. intros [x Hx]. discriminate Hx.
Qed.

Ltac after_initialize Heq :=
  unfold Tenant.bind at 1; rewrite Heq; cbn beta iota.

(** C3. For a key with no session in the Registry and no row in the store,
    [getOrRestoreInstance] returns null without touching the driver or the
    store, [login], [logout], [registerShipment] and
    [registerMassiveShipment] reject with "Instance not found", [getStatus]
    returns null and [closeInstance] returns false, in both revisions of
    the manager; and none of these calls creates a session or a row for the
    key. *)
Theorem C3_unknown_key (k : string) (env : Tenant.Env) (s : Tenant.State) :
  Inv.absent k s ->
  TenantManagerR.getOrRestoreInstance k env s = (Return None, s, [])
  /\ (forall u p retries,
        Tenant.result (TenantManagerR.login k u p retries env s)
        = Throw TenantManagerR.instance_not_found
        /\ Tenant.result (TenantManager.login k u p retries env s)
           = Throw TenantManager.instance_not_found)
  /\ Tenant.result (TenantManagerR.logout k env s) = Throw TenantManagerR.instance_not_found
  /\ Tenant.result (TenantManager.logout k env s) = Throw TenantManager.instance_not_found
  /\ Tenant.result (TenantManagerR.getStatus k env s) = Return None
  /\ Tenant.result (TenantManager.getStatus k env s) = Return None
  /\ (forall d,
        Tenant.result (TenantManagerR.registerShipment k d env s)
        = Throw TenantManagerR.instance_not_found
        /\ Tenant.result (TenantManager.registerShipment k d env s)
           = Throw TenantManager.instance_not_found)
  /\ (forall filePath code,
        Tenant.result (TenantManagerR.registerMassiveShipment k filePath code env s)
        = Throw TenantManagerR.instance_not_found)
  /\ Tenant.result (TenantManagerR.closeInstance k env s) = Return false
  /\ Tenant.result (TenantManager.closeInstance k env s) = Return false
  /\ (forall u p retries d filePath code c,
        c ∈ [TenantManagerR.GetOrRestoreInstance k; TenantManagerR.GetStatus k;
             TenantManagerR.LoginCall k u p retries; TenantManagerR.Logout k;
             TenantManagerR.CloseInstance k; TenantManagerR.RegisterShipment k d;
             TenantManagerR.RegisterMassiveShipment k filePath code] ->
        Inv.absent k (fst (TenantManagerR.perform c env s))).
Proof.
  intros Hs.
  destruct (initialize_absent k env s Hs)
    as [(s1 & t1 & E1 & Hs1) (s2 & t2 & E2 & Hs2)].
  pose proof (getOrRestore_absent k env s2 Hs2) as G2.
  assert (G1 : Tenant.getInstance k s1 = (Return None, s1, [])).
  { unfold Tenant.getInstance. rewrite (proj1 Hs1). reflexivity. }
  assert (G2' : Tenant.getInstance k s2 = (Return None, s2, [])).
  { unfold Tenant.getInstance. rewrite (proj1 Hs2). reflexivity. }
  split; [apply getOrRestore_absent, Hs|].
  split.
  { intros u p retries. split.
    - unfold TenantManagerR.login. after_initialize E2.
      unfold Tenant.bind at 1. rewrite G2. reflexivity.
    - unfold TenantManager.login. after_initialize E1.
      unfold Tenant.bind at 1. rewrite G1. reflexivity. }
  split.
  { unfold TenantManagerR.logout. after_initialize E2.
    unfold Tenant.bind at 1. rewrite G2'. reflexivity. }
  split.
  { unfold TenantManager.logout. after_initialize E1.
    unfold Tenant.bind at 1. rewrite G1. reflexivity. }
  split.
  { unfold TenantManagerR.getStatus. after_initialize E2.
    unfold Tenant.bind at 1. rewrite G2'. reflexivity. }
  split.
  { unfold TenantManager.getStatus. after_initialize E1.
    unfold Tenant.bind at 1. rewrite G1. reflexivity. }
  split.
  { intros d. split.
    - unfold TenantManagerR.registerShipment. after_initialize E2.
      unfold Tenant.bind at 1. rewrite G2. reflexivity.
    - unfold TenantManager.registerShipment. after_initialize E1.
      unfold Tenant.bind at 1. rewrite G1. reflexivity. }
  split.
  { intros filePath code. unfold TenantManagerR.registerMassiveShipment. after_initialize E2.
    unfold Tenant.bind at 1. rewrite G2. reflexivity. }
  split.
  { unfold TenantManagerR.closeInstance. after_initialize E2.
    unfold Tenant.bind at 1. rewrite G2'. cbn beta iota.
    unfold Tenant.bind at 1, Tenant.ret at 1. cbn beta iota.
    unfold Tenant.catch, Tenant.bind. rewrite (delete_absent k _ s2 Hs2). reflexivity. }
  split.
  { unfold TenantManager.closeInstance. after_initialize E1.
    unfold Tenant.bind at 1. rewrite G1. reflexivity. }
  intros u p retries d filePath code c Hc.
  repeat (apply elem_of_cons in Hc as [->|Hc]); [..|inversion Hc];
    unfold TenantManagerR.perform, TenantManagerR.forget, Tenant.state; cbn [fst].
  - rewrite (getOrRestore_absent k env s Hs). exact Hs.
  - unfold TenantManagerR.getStatus. after_initialize E2.
    unfold Tenant.bind at 1. rewrite G2'. exact Hs2.
  - unfold TenantManagerR.login. after_initialize E2.
    unfold Tenant.bind at 1. rewrite G2. exact Hs2.
  - unfold TenantManagerR.logout. after_initialize E2.
    unfold Tenant.bind at 1. rewrite G2'. exact Hs2.
  - unfold TenantManagerR.closeInstance. after_initialize E2.
    unfold Tenant.bind at 1. rewrite G2'. cbn beta iota.
    unfold Tenant.bind at 1, Tenant.ret at 1. cbn beta iota.
    unfold Tenant.catch, Tenant.bind. rewrite (delete_absent k _ s2 Hs2). exact Hs2.
  - unfold TenantManagerR.registerShipment. after_initialize E2.
    unfold Tenant.bind at 1. rewrite G2. exact Hs2.
  - unfold TenantManagerR.registerMassiveShipment. after_initialize E2.
    unfold Tenant.bind at 1. rewrite G2. exact Hs2.
Qed.

(** ** Login on an authenticated session (C4) *)

Lemma update_key (k : string) (data : Store.Data) (db : gmap string Store.Row) (row : Store.Row) :
  db !! k = Some row ->
  exists d, Store.update (Store.ByApiKey k) data db = Some d
            /\ d !! k = Some (Store.set_fields data row)
            /\ (forall k', k' <> k -> d !! k' = db !! k').
Proof.
  intros H. unfold Store.update, Store.has_row.
  rewrite bool_decide_eq_true_2 by (rewrite H; eauto).
  eexists. split; [reflexivity|]. split.
  - rewrite map_lookup_imap, H. simpl. rewrite bool_decide_eq_true_2 by reflexivity. reflexivity.
  - intros k' Hne. rewrite map_lookup_imap. destruct (db !! k') as [r|]; [|reflexivity].
    simpl. rewrite bool_decide_eq_false_2 by exact Hne. reflexivity.
Qed.

(** The rows the writes of the manager produce. *)
Lemma set_fields_row (r : Store.Row) (t : nat) (b u : string) :
  Store.set_fields [("lastUsedAt", Store.VDate t)] r
  = Store.mkRow (Store.id r) (Store.username r) (Store.storageState r) (Store.password r)
      (Store.isActive r) (Store.createdAt r) t
  /\ Store.set_fields [("storageState", Store.VStr b); ("lastUsedAt", Store.VDate t)] r
     = Store.mkRow (Store.id r) (Store.username r) (Some b) (Store.password r)
         (Store.isActive r) (Store.createdAt r) t
  /\ Store.set_fields [("username", Store.VNull); ("storageState", Store.VNull)] r
     = Store.mkRow (Store.id r) None None (Store.password r) (Store.isActive r)
         (Store.createdAt r) (Store.lastUsedAt r)
  /\ Store.set_fields [("username", Store.VStr u)] r
     = Store.mkRow (Store.id r) (Some u) (Store.storageState r) (Store.password r)
         (Store.isActive r) (Store.createdAt r) (Store.lastUsedAt r)
  /\ Store.set_fields [("isActive", Store.VBool false)] r
     = Store.mkRow (Store.id r) (Store.username r) (Store.storageState r) (Store.password r)
         false (Store.createdAt r) (Store.lastUsedAt r).
Proof. destruct r. repeat split; vm_compute; reflexivity. Qed.

Lemma initialize_done (env : Tenant.Env) (s : Tenant.State) :
  Tenant.initialized s = true ->
  TenantManager.initialize env s = (Return (), s, [])
  /\ TenantManagerR.initialize env s = (Return (), s, []).
Proof.
  intros H. unfold TenantManager.initialize, TenantManagerR.initialize, Tenant.bind, Tenant.get.
  rewrite H. split; reflexivity.
Qed.

Lemma getOrRestore_live (k : string) (i : Tenant.Instance) (env : Tenant.Env) (s : Tenant.State) :
  Tenant.instances s !! k = Some i ->
  TenantManagerR.getOrRestoreInstance k env s = (Return (Some i), s, []).
Proof.
  intros H. unfold TenantManagerR.getOrRestoreInstance, Tenant.bind, Tenant.getInstance.
  rewrite H. reflexivity.
Qed.

(** [_saveStorageState] on a live session with its row: the state of the
    context is asked for, and written when the driver returns it. *)
Lemma save_live (k : string) (i : Tenant.Instance) (row : Store.Row) (o : Tenant.SaveObs)
    (s : Tenant.State) :
  Tenant.isShuttingDown s = false ->
  Tenant.instances s !! k = Some i ->
  Tenant.db s !! k = Some row ->
  let w blob := Store.Update (Store.ByApiKey k)
                  [("storageState", Store.VStr blob); ("lastUsedAt", Store.VDate (Tenant.sv_now o))] in
  forall save, save = TenantManager._saveStorageState \/ save = TenantManagerR._saveStorageState ->
  match Tenant.sv_state o with
  | None => save k o s = (Return (), s, [Drv Driver.StorageState])
  | Some blob =>
      exists d, save k o s = (Return (), Tenant.with_db d s, [Drv Driver.StorageState; Db (w blob)])
                /\ d !! k = Some (Store.set_fields
                                    [("storageState", Store.VStr blob);
                                     ("lastUsedAt", Store.VDate (Tenant.sv_now o))] row)
  end.
Proof.
  intros Hsd Hi Hd w save Hsave. subst w. cbv beta.
  assert (Hu : forall blob,
             exists d,
               Store.update (Store.ByApiKey k)
                 [("storageState", Store.VStr blob); ("lastUsedAt", Store.VDate (Tenant.sv_now o))]
                 (Tenant.db s) = Some d
               /\ d !! k = Some (Store.set_fields
                                   [("storageState", Store.VStr blob);
                                    ("lastUsedAt", Store.VDate (Tenant.sv_now o))] row)).
  { intros blob. destruct (update_key k [("storageState", Store.VStr blob);
                            ("lastUsedAt", Store.VDate (Tenant.sv_now o))] _ _ Hd)
      as (d & Hu & Hk & _). eauto. }
  destruct Hsave as [-> | ->].
  - unfold TenantManager._saveStorageState, Tenant.bind, Tenant.getInstance, Tenant.catch,
      Tenant.emit, Tenant.store, Tenant.throw, Tenant.ret, Store.apply.
    rewrite Hi. destruct (Tenant.sv_state o) as [blob|]; [|reflexivity].
    destruct (Hu blob) as (d & -> & Hk). exists d. split; [reflexivity|exact Hk].
  - unfold TenantManagerR._saveStorageState, Tenant.bind, Tenant.getInstance, Tenant.catch,
      Tenant.emit, Tenant.store, Tenant.throw, Tenant.ret, Tenant.get, Store.apply.
    rewrite Hi, Hsd. cbn [andb].
    destruct (Tenant.sv_state o) as [blob|]; [|reflexivity].
    destruct (Hu blob) as (d & -> & Hk). exists d. split; [reflexivity|exact Hk].
Qed.

Lemma update_username_live (k u : string) (i : Tenant.Instance) (row : Store.Row) (now : nat)
    (s : Tenant.State) :
  Tenant.instances s !! k = Some i ->
  Tenant.db s !! k = Some row ->
  exists d,
    Tenant.bind (TenantManagerR.bind_username k u)
      (fun _ => Tenant.store now (Store.Update (Store.ByApiKey k) [("username", Store.VStr u)])) s
    = (Return (),
       Tenant.with_db d (Tenant.with_instances (alter (Tenant.set_username (Some u)) k) s),
       [Db (Store.Update (Store.ByApiKey k) [("username", Store.VStr u)])])
    /\ d !! k = Some (Store.set_fields [("username", Store.VStr u)] row).
Proof.
  intros Hi Hd.
  destruct (update_key k [("username", Store.VStr u)] _ _ Hd) as (d & Hu & Hk & _).
  exists d. split; [|exact Hk].
  unfold Tenant.bind, TenantManagerR.bind_username, Tenant.modify, Tenant.store, Store.apply.
  cbn [Tenant.db Tenant.with_instances]. rewrite Hu. reflexivity.
Qed.

Lemma save_then_ret {A} (k : string) (i : Tenant.Instance) (row : Store.Row) (o : Tenant.SaveObs)
    (s : Tenant.State) (r : A) (save : string -> Tenant.SaveObs -> Tenant.M unit) :
  save = TenantManager._saveStorageState \/ save = TenantManagerR._saveStorageState ->
  Tenant.isShuttingDown s = false ->
  Tenant.instances s !! k = Some i ->
  Tenant.db s !! k = Some row ->
  exists s',
    Tenant.bind (save k o) (fun _ => Tenant.ret r) s
    = (Return r, s',
       Drv Driver.StorageState
       :: match Tenant.sv_state o with
          | Some blob =>
              [Db (Store.Update (Store.ByApiKey k)
                     [("storageState", Store.VStr blob);
                      ("lastUsedAt", Store.VDate (Tenant.sv_now o))])]
          | None => []
          end)
    /\ Tenant.instances s' = Tenant.instances s
    /\ Tenant.db s' !! k
       = Some (match Tenant.sv_state o with
               | Some blob =>
                   Store.mkRow (Store.id row) (Store.username row) (Some blob)
                     (Store.password row) (Store.isActive row) (Store.createdAt row)
                     (Tenant.sv_now o)
               | None => row
               end).
Proof.
  intros Hsave Hsd Hi Hd.
  pose proof (save_live k i row o s Hsd Hi Hd save Hsave) as H. cbv zeta in H.
  unfold Tenant.bind, Tenant.ret. destruct (Tenant.sv_state o) as [blob|].
  - destruct H as (d & -> & Hk). cbn beta iota.
    rewrite (proj1 (proj2 (set_fields_row row (Tenant.sv_now o) blob ""))) in Hk.
    eexists. split; [reflexivity|]. split; [reflexivity|exact Hk].
  - rewrite H. cbn beta iota. eexists. split; [reflexivity|]. split; [reflexivity|exact Hd].
Qed.

(** C4, the claim as stated fails: the state is not always persisted. When
    the driver fails to return the state of the context, [_saveStorageState]
    swallows the failure: [login] on the authenticated session still returns
    the success, and nothing is written to the store. *)
Lemma C4_state_not_persisted :
  Inv.live "key-1" ana (Store.mkRow "id-1" (Some "ana@x.com") None None true 0 0) one_session
  /\ Js.includes (Tenant.e_url stateless) "login" = false
  /\ TenantManager.login "key-1" "bob@x.com" "secret" 3 stateless one_session
     = (Return (Login.mkResult true (Some "Already logged in")
                  (Some "https://pro.shalom.pe/#/home")),
        one_session, [Drv Driver.StorageState])
  /\ TenantManagerR.login "key-1" "bob@x.com" "secret" 3 stateless one_session
     = (Return (Login.mkResult true (Some "Already logged in")
                  (Some "https://pro.shalom.pe/#/home")),
        one_session, [Drv Driver.StorageState])
  /\ ~ (forall k u p retries env s i row,
          Inv.live k i row s ->
          Js.includes (Tenant.e_url env) "login" = false ->
          exists w, w ∈ writes (Tenant.trace (TenantManager.login k u p retries env s))
                    /\ "storageState" ∈ Store.field_names w).
Proof.
  assert (Hl : Inv.live "key-1" ana
                 (Store.mkRow "id-1" (Some "ana@x.com") None None true 0 0) one_session)
    by (repeat split; vm_compute; reflexivity).
  split; [exact Hl|]. split; [reflexivity|].
  split; [vm_compute; reflexivity|]. split; [vm_compute; reflexivity|].
  intros H.
  destruct (H "key-1" "bob@x.com" "secret" 3 stateless one_session _ _ Hl eq_refl)
    as (w & Hw & _).
  vm_compute in Hw. apply elem_of_nil in Hw. exact Hw.
Qed.

(** C4, amended. On an initialized manager, [login] on a live session whose
    page is not on the login view returns the success "Already logged in"
    without an attempt: the only command it sends to the driver is the
    request for the state of the context. Whether the session is bound is
    read from the live session: when it has a username, session and row
    keep theirs; when it has none (null or empty), the identifier given is
    set on the session and written to the row. The state of the context is
    written to the row, with the date, when the driver returns it; when the
    driver fails there the failure is swallowed and the row keeps its state.
    Nothing else is written, and both revisions of the manager do so. *)
Theorem C4_login_when_already_authenticated (k u p : string) (retries : Z) (env : Tenant.Env)
    (s : Tenant.State) (i : Tenant.Instance) (row : Store.Row) :
  Inv.live k i row s ->
  Js.includes (Tenant.e_url env) "login" = false ->
  forall login,
    login = TenantManager.login \/ login = TenantManagerR.login ->
    let x := login k u p retries env s in
    let bound := Js.truthy_opt (Tenant.username i) in
    let o := Tenant.e_save env in
    Tenant.result x
    = Return (Login.mkResult true (Some "Already logged in") (Some (Tenant.e_url_after env)))
    /\ attempts (Tenant.trace x) = 0%nat
    /\ cmds (Tenant.trace x) = [Driver.StorageState]
    /\ writes (Tenant.trace x)
       = (if bound then []
          else [Store.Update (Store.ByApiKey k) [("username", Store.VStr u)]])
         ++ match Tenant.sv_state o with
            | Some blob =>
                [Store.Update (Store.ByApiKey k)
                   [("storageState", Store.VStr blob);
                    ("lastUsedAt", Store.VDate (Tenant.sv_now o))]]
            | None => []
            end
    /\ Tenant.instances (Tenant.state x) !! k
       = Some (if bound then i else Tenant.set_username (Some u) i)
    /\ Tenant.db (Tenant.state x) !! k
       = Some (Store.mkRow (Store.id row)
                 (if bound then Store.username row else Some u)
                 (match Tenant.sv_state o with
                  | Some blob => Some blob
                  | None => Store.storageState row
                  end)
                 (Store.password row) (Store.isActive row) (Store.createdAt row)
                 (match Tenant.sv_state o with
                  | Some _ => Tenant.sv_now o
                  | None => Store.lastUsedAt row
                  end)).
Proof.
  intros (Hinit & Hsd & Hi & Hd) Hurl login Hlogin. cbv zeta.
  set (R := Login.mkResult true (Some "Already logged in") (Some (Tenant.e_url_after env))).
  assert (Hsave : exists save,
             (save = TenantManager._saveStorageState \/ save = TenantManagerR._saveStorageState)
             /\ login k u p retries env s
                = let '(r, s2, t2) :=
                    Tenant.bind
                      (if negb (Js.truthy_opt (Tenant.username i)) then
                         Tenant.bind (TenantManagerR.bind_username k u)
                           (fun _ => Tenant.store (Tenant.e_now env)
                                       (Store.Update (Store.ByApiKey k)
                                          [("username", Store.VStr u)]))
                       else Tenant.ret ())
                      (fun _ => Tenant.bind (save k (Tenant.e_save env)) (fun _ => Tenant.ret R)) s
                  in (r, s2, t2)).
  { destruct (initialize_done env s Hinit) as [E1 E2].
    destruct Hlogin as [-> | ->].
    - exists TenantManager._saveStorageState. split; [left; reflexivity|].
      unfold TenantManager.login. unfold Tenant.bind at 1. rewrite E1. cbn beta iota.
      unfold Tenant.bind at 1, Tenant.getInstance at 1. rewrite Hi. cbn beta iota.
      rewrite Hurl. cbn [negb].
      change TenantManager.bind_username with TenantManagerR.bind_username.
      destruct (Tenant.bind _ _ s) as [[r s2] t2]. reflexivity.
    - exists TenantManagerR._saveStorageState. split; [right; reflexivity|].
      unfold TenantManagerR.login. unfold Tenant.bind at 1. rewrite E2. cbn beta iota.
      unfold Tenant.bind at 1. rewrite (getOrRestore_live k i env s Hi). cbn beta iota.
      rewrite Hurl. cbn [negb].
      destruct (Tenant.bind _ _ s) as [[r s2] t2]. reflexivity. }
  destruct Hsave as (save & Hsave & ->).
  destruct (Js.truthy_opt (Tenant.username i)) eqn:Ht; cbn [negb].
  - destruct (save_then_ret k i row (Tenant.e_save env) s R save Hsave Hsd Hi Hd)
      as (s' & E & Hi' & Hd').
    match goal with
    | |- context [Tenant.bind (Tenant.ret ()) ?f s] =>
        assert (E0 : Tenant.bind (Tenant.ret ()) f s
                     = (Return R, s',
                        Drv Driver.StorageState
                        :: match Tenant.sv_state (Tenant.e_save env) with
                           | Some blob =>
                               [Db (Store.Update (Store.ByApiKey k)
                                      [("storageState", Store.VStr blob);
                                       ("lastUsedAt",
                                        Store.VDate (Tenant.sv_now (Tenant.e_save env)))])]
                           | None => []
                           end))
          by (unfold Tenant.bind at 1, Tenant.ret at 1; cbn beta iota; rewrite E; reflexivity);
        rewrite E0
    end.
    unfold Tenant.result, Tenant.state, Tenant.trace. cbn [fst snd app].
    rewrite Hi', Hi, Hd'.
    destruct (Tenant.sv_state (Tenant.e_save env)) as [blob|];
      repeat split; destruct row; reflexivity.
  - destruct (update_username_live k u i row (Tenant.e_now env) s Hi Hd) as (d & Hb & Hk).
    rewrite (proj1 (proj2 (proj2 (proj2 (set_fields_row row 0 "" u))))) in Hk.
    set (s1 := Tenant.with_db d
                 (Tenant.with_instances (alter (Tenant.set_username (Some u)) k) s)) in *.
    assert (Hi1 : Tenant.instances s1 !! k = Some (Tenant.set_username (Some u) i))
      by (cbn; rewrite lookup_alter_eq, Hi; reflexivity).
    destruct (save_then_ret k _ _ (Tenant.e_save env) s1 R save Hsave Hsd Hi1 Hk)
      as (s' & E & Hi' & Hd').
    match goal with
    | |- context [Tenant.bind ?c ?f s] =>
        assert (E0 : Tenant.bind c f s
                     = (Return R, s',
                        [Db (Store.Update (Store.ByApiKey k) [("username", Store.VStr u)])]
                        ++ Drv Driver.StorageState
                           :: match Tenant.sv_state (Tenant.e_save env) with
                              | Some blob =>
                                  [Db (Store.Update (Store.ByApiKey k)
                                         [("storageState", Store.VStr blob);
                                          ("lastUsedAt",
                                           Store.VDate (Tenant.sv_now (Tenant.e_save env)))])]
                              | None => []
                              end))
          by (unfold Tenant.bind at 1; rewrite Hb; cbn beta iota; rewrite E; reflexivity);
        rewrite E0
    end.
    unfold Tenant.result, Tenant.state, Tenant.trace. cbn [fst snd app].
    rewrite Hi', Hi1, Hd'.
    destruct (Tenant.sv_state (Tenant.e_save env)) as [blob|]; repeat split; reflexivity.
Qed.

(** ** The retry loop of login (C5) *)

Lemma attempts_drv (cs : list Driver.Cmd) : attempts (Drv <$> cs) = 0%nat.
Proof.
  unfold attempts. induction cs as [|c cs IH]; [reflexivity|].
  cbn [fmap list_fmap]. rewrite filter_cons_False by (simpl; discriminate). exact IH.
Qed.

Lemma attempts_app (t1 t2 : list Event) : attempts (t1 ++ t2) = (attempts t1 + attempts t2)%nat.
Proof. unfold attempts. rewrite filter_app, length_app. reflexivity. Qed.

Lemma attempts_cons_drv (c : Driver.Cmd) (tr : list Event) : attempts (Drv c :: tr) = attempts tr.
Proof. reflexivity. Qed.

Lemma attempt_once_attempts (attempt retries : Z) (u p : string) (o : Login.AttemptObs) :
  attempts (fst (Login.attempt_once attempt retries u p o)) = 1%nat.
Proof.
  unfold Login.attempt_once.
  destruct (Driver.run _ _ _) as [cs [msg|]]; cbn [fst].
  - change (S (attempts (Drv <$> cs)) = 1%nat). rewrite attempts_drv. reflexivity.
  - destruct (negb _); cbn [fst].
    + change (S (attempts (Drv <$> cs)) = 1%nat). rewrite attempts_drv. reflexivity.
    + destruct (Login.a_fails o _); cbn [fst];
        change (attempts ((LogAttempt attempt retries :: (Drv <$> cs)) ++ [Drv Driver.Content])
                = 1%nat);
        rewrite attempts_app; change (S (attempts (Drv <$> cs)) + 0 = 1)%nat;
        rewrite attempts_drv; reflexivity.
Qed.

Lemma issued_app (f : Driver.Cmd -> bool) (t1 t2 : list Event) :
  issued f (t1 ++ t2) = (issued f t1 + issued f t2)%nat.
Proof.
  unfold issued, cmds. rewrite omap_app, List.filter_app, length_app. reflexivity.
Qed.

Lemma issued_pause (f : Driver.Cmd -> bool) (tr : list Event) :
  issued f (Drv (Driver.Pause 1000) :: tr)
  = ((if f (Driver.Pause 1000) then 1 else 0) + issued f tr)%nat.
Proof.
  unfold issued, cmds. cbn [omap list_omap is_cmd List.filter].
  destruct (f (Driver.Pause 1000)); reflexivity.
Qed.

Lemma plain_span (bs : list Driver.Block) : Driver.plain bs -> Driver.span bs = length bs.
Proof.
  unfold Driver.span. induction 1 as [|b bs Hb _ IH]; [reflexivity|].
  cbn [fmap list_fmap sum_list length]. rewrite IH.
  destruct b as [c| |]; [|contradiction..]. reflexivity.
Qed.

(** A plain workflow stops at the first command that throws. *)
Lemma run_fails_at (fails : nat -> option string) (bs : list Driver.Block) (msg : string) :
  Driver.plain bs ->
  forall i j,
  (j < length bs)%nat ->
  fails (i + j)%nat = Some msg ->
  (forall j', (j' < j)%nat -> fails (i + j')%nat = None) ->
  Driver.run fails i bs = (take (S j) (Driver.commands bs), Some msg).
Proof.
  induction 1 as [|b bs Hb Hbs IH]; intros i j Hj Hf Hbefore; [simpl in Hj; lia|].
  destruct b as [c| |]; [|contradiction..].
  destruct j as [|j].
  - rewrite Nat.add_0_r in Hf. cbn [Driver.run]. rewrite Hf.
    destruct c; try reflexivity. contradiction.
  - cbn [Driver.run].
    assert (E : fails i = None) by (rewrite <- (Nat.add_0_r i); apply Hbefore; lia).
    rewrite E.
    rewrite (IH (S i) j); [destruct c; reflexivity|simpl in Hj; lia| |].
    + rewrite <- Hf. f_equal. lia.
    + intros j' Hj'. rewrite <- (Hbefore (S j')) by lia. f_equal. lia.
Qed.

(** A plain workflow whose commands do not throw runs through. *)
Lemma run_clean (fails : nat -> option string) (bs : list Driver.Block) :
  Driver.plain bs ->
  forall i,
  (forall j, (j < length bs)%nat -> fails (i + j)%nat = None) ->
  Driver.run fails i bs = (Driver.commands bs, None).
Proof.
  induction 1 as [|b bs Hb Hbs IH]; intros i Hf; [reflexivity|].
  destruct b as [c| |]; [|contradiction..].
  cbn [Driver.run].
  assert (E : fails i = None) by (rewrite <- (Nat.add_0_r i); apply Hf; simpl; lia).
  rewrite E, IH; [destruct c; reflexivity|].
  intros j Hj. rewrite <- (Hf (S j)) by (simpl; lia). f_equal. lia.
Qed.

Lemma attempt_script_plain (attempt : Z) (u p : string) (o : Login.AttemptObs) :
  Login.a_email o || Login.a_text o = true ->
  Login.a_password o = true ->
  Driver.plain (Login.attempt_script attempt u p o).
Proof.
  intros Hin Hpw. unfold Login.attempt_script, Driver.plain. rewrite Hin, Hpw.
  destruct (1 <? attempt), (Login.a_email o), (Login.a_submit o);
    cbn [app]; repeat constructor.
Qed.

(** An attempt that breaks ends in the [catch] branch, with the message of
    the failure. *)
Lemma attempt_once_breaks (attempt retries : Z) (u p msg : string) (o : Login.AttemptObs) :
  Inv.breaks attempt u p o msg ->
  snd (Login.attempt_once attempt retries u p o) = Login.Threw msg.
Proof.
  intros [(Hin & Hpw & j & [Hf Hbefore] & Hj) | (Hmiss & Hf & ->)].
  - pose proof (attempt_script_plain attempt u p o Hin Hpw) as Hp.
    pose proof (plain_span _ Hp) as Hs.
    unfold Login.attempt_once. destruct Hj as [Hj | [-> Hurl]].
    + rewrite (run_fails_at _ _ msg Hp 0%nat j); [reflexivity|lia|exact Hf|exact Hbefore].
    + rewrite (run_clean _ _ Hp 0%nat) by (intros j Hj; apply Hbefore; simpl; lia).
      rewrite Hurl, Hf. reflexivity.
  - unfold Login.attempt_once, Login.attempt_script.
    destruct Hmiss as [Hin | Hpw].
    + rewrite Hin. apply orb_false_elim in Hin as [-> _].
      destruct (1 <? attempt); cbn; rewrite ?Hf; cbn; rewrite ?Hf; reflexivity.
    + rewrite Hpw.
      destruct (1 <? attempt), (Login.a_email o) eqn:He, (Login.a_text o) eqn:Ht;
        cbn; rewrite ?Hf; cbn; rewrite ?Hf; cbn; rewrite ?Hf; reflexivity.
Qed.

Lemma attempt_once_invalid (attempt retries : Z) (u p : string) (o : Login.AttemptObs) :
  Inv.shows_invalid o ->
  snd (Login.attempt_once attempt retries u p o) = Login.InvalidIndicator
  /\ attempts (fst (Login.attempt_once attempt retries u p o)) = 1%nat.
Proof.
  intros (Hf & Hin & Hpw & Hurl & Hind).
  unfold Login.attempt_once, Login.attempt_script.
  rewrite Hin, Hpw, Hurl, Hind.
  destruct (1 <? attempt), (Login.a_email o), (Login.a_submit o);
    cbn; rewrite ?Hf; cbn; rewrite ?Hf; split; reflexivity.
Qed.

(** The steps of an attempt that ends at the indicator: the username and
    the password are typed once each and the form is submitted once, after
    a reload on every attempt but the first. *)
Lemma attempt_once_invalid_steps (attempt retries : Z) (u p : string) (o : Login.AttemptObs) :
  Inv.shows_invalid o ->
  issued (Login.types "emailInput" u) (fst (Login.attempt_once attempt retries u p o)) = 1%nat
  /\ issued (Login.types "passwordInput" p) (fst (Login.attempt_once attempt retries u p o))
     = 1%nat
  /\ issued Login.submits (fst (Login.attempt_once attempt retries u p o)) = 1%nat
  /\ issued Login.reloads (fst (Login.attempt_once attempt retries u p o))
     = (if 1 <? attempt then 1%nat else 0%nat)
  /\ issued Login.pauses (fst (Login.attempt_once attempt retries u p o)) = 0%nat.
Proof.
  intros (Hf & Hin & Hpw & Hurl & Hind).
  unfold Login.attempt_once, Login.attempt_script.
  rewrite Hin, Hpw, Hurl, Hind.
  destruct (1 <? attempt), (Login.a_email o), (Login.a_submit o);
    cbn; rewrite ?Hf; cbn; rewrite ?Hf; unfold issued, cmds; cbn;
    rewrite ?String.eqb_refl; repeat split; reflexivity.
Qed.

Lemma attempt_loop_invalid_steps (n : nat) (attempt retries : Z) (u p : string)
    (obs : Z -> Login.AttemptObs) :
  Z.of_nat (S n) = retries - attempt + 1 ->
  (forall a, attempt <= a <= retries -> Inv.shows_invalid (obs a)) ->
  1 <= attempt ->
  let tr := fst (Login.attempt_loop (S n) attempt retries u p obs) in
  issued (Login.types "emailInput" u) tr = S n
  /\ issued (Login.types "passwordInput" p) tr = S n
  /\ issued Login.submits tr = S n
  /\ issued Login.reloads tr = (if 1 <? attempt then S n else n)
  /\ issued Login.pauses tr = n.
Proof.
  revert attempt. induction n as [|n IH]; intros attempt Hn Hobs H1.
  - assert (attempt = retries) as -> by lia.
    destruct (attempt_once_invalid retries retries u p (obs retries)) as [Hr _];
      [apply Hobs; lia|].
    pose proof (attempt_once_invalid_steps retries retries u p (obs retries)) as Hs.
    cbn [Login.attempt_loop]. cbv zeta.
    destruct (Login.attempt_once retries retries u p (obs retries)) as [tr r].
    simpl in Hr, Hs. subst r. rewrite Z.ltb_irrefl. cbn [fst].
    destruct Hs as (? & ? & ? & ? & ?); [apply Hobs; lia|].
    repeat split; assumption.
  - destruct (attempt_once_invalid attempt retries u p (obs attempt)) as [Hr _];
      [apply Hobs; lia|].
    pose proof (attempt_once_invalid_steps attempt retries u p (obs attempt)) as Hs.
    destruct (IH (attempt + 1)) as (I1 & I2 & I3 & I4 & I5);
      [lia|intros a Ha'; apply Hobs; lia|lia|].
    assert ((1 <? attempt + 1) = true) as E by (apply Z.ltb_lt; lia). rewrite E in I4.
    remember (S n) as m. cbn [Login.attempt_loop]. cbv zeta.
    destruct (Login.attempt_once attempt retries u p (obs attempt)) as [tr r].
    simpl in Hr, Hs. subst r.
    assert ((attempt <? retries) = true) as -> by (apply Z.ltb_lt; lia).
    cbn [fst snd].
    destruct Hs as (S1 & S2 & S3 & S4 & S5); [apply Hobs; lia|].
    rewrite !issued_app, !issued_pause, S1, S2, S3, S4, S5, I1, I2, I3, I4, I5.
    cbn [Login.types Login.submits Login.reloads Login.pauses Nat.eqb].
    repeat split; try lia. destruct (1 <? attempt); lia.
Qed.

Lemma attempt_loop_invalid (n : nat) (attempt retries : Z) (u p : string)
    (obs : Z -> Login.AttemptObs) :
  Z.of_nat (S n) = retries - attempt + 1 ->
  (forall a, attempt <= a <= retries -> Inv.shows_invalid (obs a)) ->
  snd (Login.attempt_loop (S n) attempt retries u p obs) = Login.invalid_credentials
  /\ attempts (fst (Login.attempt_loop (S n) attempt retries u p obs)) = S n.
Proof.
  revert attempt. induction n as [|n IH]; intros attempt Hn Hobs.
  - assert (attempt = retries) as -> by lia.
    destruct (attempt_once_invalid retries retries u p (obs retries)) as [Hr Ha];
      [apply Hobs; lia|].
    cbn [Login.attempt_loop].
    destruct (Login.attempt_once retries retries u p (obs retries)) as [tr r].
    simpl in Hr, Ha. subst r. rewrite Z.ltb_irrefl. split; [reflexivity|exact Ha].
  - destruct (attempt_once_invalid attempt retries u p (obs attempt)) as [Hr Ha];
      [apply Hobs; lia|].
    destruct (IH (attempt + 1)) as [IHr IHa]; [lia|intros a Ha'; apply Hobs; lia|].
    remember (S n) as m. cbn [Login.attempt_loop].
    destruct (Login.attempt_once attempt retries u p (obs attempt)) as [tr r].
    simpl in Hr, Ha. subst r.
    assert ((attempt <? retries) = true) as -> by (apply Z.ltb_lt; lia).
    cbn [fst snd]. split; [exact IHr|].
    rewrite !attempts_app, ?attempts_cons_drv, ?attempts_app, Ha, IHa. reflexivity.
Qed.

(** A loop whose attempts all break returns the message of the last one. *)
Lemma attempt_loop_breaks (n : nat) (attempt retries : Z) (u p : string)
    (obs : Z -> Login.AttemptObs) (msg : Z -> string) :
  Z.of_nat (S n) = retries - attempt + 1 ->
  (forall a, attempt <= a <= retries -> Inv.breaks a u p (obs a) (msg a)) ->
  snd (Login.attempt_loop (S n) attempt retries u p obs) = Login.failed_with (msg retries)
  /\ attempts (fst (Login.attempt_loop (S n) attempt retries u p obs)) = S n.
Proof.
  revert attempt. induction n as [|n IH]; intros attempt Hn Hobs.
  - assert (attempt = retries) as -> by lia.
    pose proof (attempt_once_breaks retries retries u p (msg retries) (obs retries)) as Hr.
    pose proof (attempt_once_attempts retries retries u p (obs retries)) as Ha.
    cbn [Login.attempt_loop].
    destruct (Login.attempt_once retries retries u p (obs retries)) as [tr r].
    simpl in Hr, Ha. rewrite Hr by (apply Hobs; lia).
    rewrite Z.eqb_refl. split; [reflexivity|exact Ha].
  - pose proof (attempt_once_breaks attempt retries u p (msg attempt) (obs attempt)) as Hr.
    pose proof (attempt_once_attempts attempt retries u p (obs attempt)) as Ha.
    destruct (IH (attempt + 1)) as [IHr IHa]; [lia|intros a Ha'; apply Hobs; lia|].
    remember (S n) as m. cbn [Login.attempt_loop].
    destruct (Login.attempt_once attempt retries u p (obs attempt)) as [tr r].
    simpl in Hr, Ha. rewrite Hr by (apply Hobs; lia).
    assert ((attempt =? retries) = false) as -> by (apply Z.eqb_neq; lia).
    cbn [fst snd]. split; [exact IHr|].
    rewrite !attempts_app, ?attempts_cons_drv, ?attempts_app, Ha, IHa. reflexivity.
Qed.

(** As long as no attempt leaves the login view, the loop of
    src/tenantManager.js is the loop of [_attemptLogin]: it touches neither
    the session nor the store. *)
Lemma login_loop_without_navigation (n : nat) (attempt retries : Z) (k u p : string)
    (env : Tenant.Env) (s : Tenant.State) :
  (forall a url, attempt <= a < attempt + Z.of_nat n ->
     snd (Login.attempt_once a retries u p (Tenant.e_attempts env a)) <> Login.Navigated url) ->
  TenantManager.login_loop n attempt retries k u p env s
  = (Return (snd (Login.attempt_loop n attempt retries u p (Tenant.e_attempts env))), s,
     fst (Login.attempt_loop n attempt retries u p (Tenant.e_attempts env)))
  /\ Login.success (snd (Login.attempt_loop n attempt retries u p (Tenant.e_attempts env)))
     = false.
Proof.
  revert attempt. induction n as [|n IH]; intros attempt Hnav; [split; reflexivity|].
  destruct (IH (attempt + 1)) as [IHe IHs]; [intros a url Ha; apply Hnav; lia|].
  pose proof (fun url => Hnav attempt url ltac:(lia)) as H0.
  cbn [TenantManager.login_loop Login.attempt_loop]. cbv zeta.
  destruct (Login.attempt_once attempt retries u p (Tenant.e_attempts env attempt)) as [tr r].
  cbn [fst snd] in *.
  destruct r as [url| | |msg].
  - exfalso. exact (H0 url eq_refl).
  - destruct (attempt <? retries).
    + unfold Tenant.bind at 1 2, Tenant.emit. rewrite IHe. cbn beta iota.
      split; [reflexivity|exact IHs].
    + unfold Tenant.bind, Tenant.emit, Tenant.ret. rewrite app_nil_r. split; reflexivity.
  - unfold Tenant.bind at 1, Tenant.emit. rewrite IHe. cbn beta iota.
    split; [reflexivity|exact IHs].
  - destruct (attempt =? retries).
    + unfold Tenant.bind, Tenant.emit, Tenant.ret. rewrite app_nil_r. split; reflexivity.
    + unfold Tenant.bind at 1 2, Tenant.emit. rewrite IHe. cbn beta iota.
      split; [reflexivity|exact IHs].
Qed.

(** On a live session that sits on the login view, a [login] none of whose
    attempts leaves the login view returns what the loop returns and leaves
    the state as it was, in both revisions. *)
Lemma login_without_navigation (N : Z) (k u p : string) (env : Tenant.Env) (s : Tenant.State)
    (i : Tenant.Instance) (row : Store.Row) (login : string -> string -> string -> Z ->
                                                     Tenant.Env -> Tenant.M Login.Result) :
  Inv.live k i row s ->
  Js.includes (Tenant.e_url env) "login" = true ->
  (forall a url, 1 <= a <= N ->
     snd (Login.attempt_once a N u p (Tenant.e_attempts env a)) <> Login.Navigated url) ->
  login = TenantManager.login \/ login = TenantManagerR.login ->
  login k u p N env s
  = (Return (snd (Login._attemptLogin u p N (Tenant.e_attempts env))), s,
     fst (Login._attemptLogin u p N (Tenant.e_attempts env))).
Proof.
  intros (Hinit & Hsd & Hi & Hd) Hurl Hnav Hlogin.
  destruct (initialize_done env s Hinit) as [E1 E2].
  pose proof (getOrRestore_live k i env s Hi) as G.
  destruct (login_loop_without_navigation (Z.to_nat N) 1 N k u p env s) as [El Es];
    [intros a url Ha; apply Hnav; lia|].
  unfold Login._attemptLogin.
  destruct Hlogin as [-> | ->].
  - unfold TenantManager.login. unfold Tenant.bind at 1. rewrite E1. cbn beta iota.
    unfold Tenant.bind at 1, Tenant.getInstance. rewrite Hi. cbn beta iota.
    rewrite Hurl. cbn [negb]. rewrite El. reflexivity.
  - unfold TenantManagerR.login. unfold Tenant.bind at 1. rewrite E2. cbn beta iota.
    unfold Tenant.bind at 1. rewrite G. cbn beta iota.
    rewrite Hurl. cbn [negb]. cbv zeta. unfold Login._attemptLogin. rewrite Es.
    unfold Tenant.bind, Tenant.emit, Tenant.ret. rewrite app_nil_r. reflexivity.
Qed.

Lemma login_loop_invalid (n : nat) (attempt retries : Z) (k u p : string) (env : Tenant.Env)
    (s : Tenant.State) :
  Z.of_nat (S n) = retries - attempt + 1 ->
  (forall a, attempt <= a <= retries -> Inv.shows_invalid (Tenant.e_attempts env a)) ->
  exists tr,
    TenantManager.login_loop (S n) attempt retries k u p env s
    = (Return Login.invalid_credentials, s, tr)
    /\ attempts tr = S n.
Proof.
  revert attempt. induction n as [|n IH]; intros attempt Hn Hobs.
  - assert (attempt = retries) as -> by lia.
    destruct (attempt_once_invalid retries retries u p (Tenant.e_attempts env retries))
      as [Hr Ha]; [apply Hobs; lia|].
    cbn [TenantManager.login_loop]. cbv zeta. rewrite Hr, Z.ltb_irrefl.
    unfold Tenant.bind, Tenant.emit, Tenant.ret. eexists. split; [reflexivity|].
    rewrite app_nil_r. exact Ha.
  - destruct (attempt_once_invalid attempt retries u p (Tenant.e_attempts env attempt))
      as [Hr Ha]; [apply Hobs; lia|].
    destruct (IH (attempt + 1)) as (tr & IHe & IHa); [lia|intros a Ha'; apply Hobs; lia|].
    remember (S n) as m. cbn [TenantManager.login_loop]. cbv zeta. rewrite Hr.
    assert ((attempt <? retries) = true) as -> by (apply Z.ltb_lt; lia).
    unfold Tenant.bind at 1 2, Tenant.emit. rewrite IHe. cbn beta iota.
    eexists. split; [reflexivity|].
    rewrite !attempts_app, ?attempts_cons_drv, ?attempts_app, Ha, IHa. reflexivity.
Qed.

(** A timeout of the wait that precedes the submission, the seventh command
    of a first attempt, breaks the attempt. *)
Example breaks_before_the_submission :
  Inv.breaks 1 "user@x.com" "wrong"
    (Login.mkAttemptObs
       (fun j => if Nat.eqb j 6 then Some "Timeout 30000ms exceeded" else None)
       true false true true "https://pro.shalom.pe/login" "")
    "Timeout 30000ms exceeded".
Proof.
  left. split; [reflexivity|]. split; [reflexivity|].
  exists 6%nat. split; [split; [reflexivity|]|left; vm_compute; lia].
  intros j' Hj'. cbn [Login.a_fails].
  destruct (Nat.eqb_spec j' 6) as [->|_]; [lia|reflexivity].
Qed.

(** C5, the claim as stated fails when [retries] is not positive: the loop
    body never runs, so no attempt ends anywhere, and [login] returns
    'Login failed' rather than the invalid-credentials result. The route
    replaces a missing or zero [retries] by 3 and passes a negative one on
    as it is. *)
Lemma C5_no_attempt_when_retries_is_zero :
  Inv.live "key-1" ana (Store.mkRow "id-1" (Some "ana@x.com") None None true 0 0) one_session
  /\ Js.includes (Tenant.e_url at_login) "login" = true
  /\ (forall a, Inv.shows_invalid (Tenant.e_attempts at_login a))
  /\ TenantManager.login "key-1" "user@x.com" "wrong" 0 at_login one_session
     = (Return Login.login_failed, one_session, [])
  /\ TenantManagerR.login "key-1" "user@x.com" "wrong" 0 at_login one_session
     = (Return Login.login_failed, one_session, [])
  /\ Routes.retries_or_3 (Some (-1)) = -1
  /\ TenantManagerR.login "key-1" "user@x.com" "wrong" (-1) at_login one_session
     = (Return Login.login_failed, one_session, [])
  /\ Login.login_failed <> Login.invalid_credentials
  /\ ~ (forall N k u p env s i row,
          Inv.live k i row s ->
          Js.includes (Tenant.e_url env) "login" = true ->
          (forall a, 1 <= a <= N -> Inv.shows_invalid (Tenant.e_attempts env a)) ->
          Tenant.result (TenantManager.login k u p N env s) = Return Login.invalid_credentials).
Proof.
  assert (Hl : Inv.live "key-1" ana
                 (Store.mkRow "id-1" (Some "ana@x.com") None None true 0 0) one_session)
    by (repeat split; vm_compute; reflexivity).
  split; [exact Hl|]. split; [reflexivity|].
  split; [intros a; repeat split; reflexivity|].
  split; [vm_compute; reflexivity|]. split; [vm_compute; reflexivity|].
  split; [reflexivity|]. split; [vm_compute; reflexivity|].
  split; [discriminate|].
  intros H.
  specialize (H 0 "key-1" "user@x.com" "wrong" at_login one_session _ _ Hl eq_refl).
  assert (E : Tenant.result (TenantManager.login "key-1" "user@x.com" "wrong" 0 at_login
                               one_session) = Return Login.login_failed)
    by (vm_compute; reflexivity).
  rewrite E in H. discriminate H. intros a Ha. lia.
Qed.

(** C5, amended. On a live session that sits on the login view, a [login]
    with [retries = N], N at least 1, whose attempts all end at the
    invalid-credentials indicator returns
    [{ success: false, message: 'Invalid credentials' }] after exactly N
    attempts, in each of which the username and the password are typed into
    the form and the form is submitted, with a reload before every attempt
    but the first and a wait of one second between two attempts; the state
    is left as it was and nothing is written to the store. When instead
    every attempt breaks (a command of the attempt throws, whichever it is,
    or an input of the form is missing), the N attempts return
    [{ success: false }] with the message of the last failure: that result
    is the invalid-credentials result exactly when the message thrown is the
    text 'Invalid credentials'. With N below 1 no attempt is made and the
    result is 'Login failed', which differs from the invalid-credentials
    result. Both revisions of the manager do so. *)
Theorem C5_invalid_credentials_after_N_attempts (N : Z) (k u p : string) (env : Tenant.Env)
    (s : Tenant.State) (i : Tenant.Instance) (row : Store.Row) :
  Inv.live k i row s ->
  Js.includes (Tenant.e_url env) "login" = true ->
  (forall login,
     login = TenantManager.login \/ login = TenantManagerR.login ->
     (1 <= N ->
      (forall a, 1 <= a <= N -> Inv.shows_invalid (Tenant.e_attempts env a)) ->
      Tenant.result (login k u p N env s) = Return Login.invalid_credentials
      /\ Tenant.state (login k u p N env s) = s
      /\ writes (Tenant.trace (login k u p N env s)) = []
      /\ attempts (Tenant.trace (login k u p N env s)) = Z.to_nat N
      /\ issued (Login.types "emailInput" u) (Tenant.trace (login k u p N env s)) = Z.to_nat N
      /\ issued (Login.types "passwordInput" p) (Tenant.trace (login k u p N env s))
         = Z.to_nat N
      /\ issued Login.submits (Tenant.trace (login k u p N env s)) = Z.to_nat N
      /\ issued Login.reloads (Tenant.trace (login k u p N env s)) = Z.to_nat (N - 1)
      /\ issued Login.pauses (Tenant.trace (login k u p N env s)) = Z.to_nat (N - 1))
     /\ (1 <= N ->
         forall msg : Z -> string,
           (forall a, 1 <= a <= N -> Inv.breaks a u p (Tenant.e_attempts env a) (msg a)) ->
           Tenant.result (login k u p N env s) = Return (Login.failed_with (msg N))
           /\ Tenant.state (login k u p N env s) = s
           /\ writes (Tenant.trace (login k u p N env s)) = []
           /\ attempts (Tenant.trace (login k u p N env s)) = Z.to_nat N
           /\ (Login.failed_with (msg N) = Login.invalid_credentials
               <-> msg N = "Invalid credentials"))
     /\ (N <= 0 -> login k u p N env s = (Return Login.login_failed, s, [])))
  /\ Login.invalid_credentials <> Login.login_failed.
Proof.
  intros Hlive Hurl. split; [|discriminate].
  intros login Hlogin. split; [|split].
  - intros HN Hobs.
    rewrite (login_without_navigation N k u p env s i row login Hlive Hurl); [|
      intros a url Ha E;
      rewrite (proj1 (attempt_once_invalid a N u p _ (Hobs a Ha))) in E; discriminate E
      |exact Hlogin].
    unfold Tenant.result, Tenant.state, Tenant.trace. cbn [fst snd].
    unfold Login._attemptLogin.
    destruct (Z.to_nat N) as [|n] eqn:Hn; [lia|].
    assert (Hof : Z.of_nat (S n) = N - 1 + 1) by lia.
    destruct (attempt_loop_invalid n 1 N u p (Tenant.e_attempts env) Hof Hobs) as [Hr Ha].
    destruct (attempt_loop_invalid_steps n 1 N u p (Tenant.e_attempts env) Hof Hobs)
      as (S1 & S2 & S3 & S4 & S5); [lia|].
    rewrite Z.ltb_irrefl in S4.
    replace (Z.to_nat (N - 1)) with n by lia.
    rewrite Hr, attempt_loop_writes. repeat split; assumption.
  - intros HN msg Hobs.
    rewrite (login_without_navigation N k u p env s i row login Hlive Hurl); [|
      intros a url Ha E;
      rewrite (attempt_once_breaks a N u p (msg a) _ (Hobs a Ha)) in E; discriminate E
      |exact Hlogin].
    unfold Tenant.result, Tenant.state, Tenant.trace. cbn [fst snd].
    unfold Login._attemptLogin.
    destruct (Z.to_nat N) as [|n] eqn:Hn; [lia|].
    assert (Hof : Z.of_nat (S n) = N - 1 + 1) by lia.
    destruct (attempt_loop_breaks n 1 N u p (Tenant.e_attempts env) msg Hof Hobs) as [Hr Ha].
    rewrite Hr, attempt_loop_writes. repeat split; try assumption.
    + intros [= H]. exact H.
    + intros ->. reflexivity.
  - intros HN.
    rewrite (login_without_navigation N k u p env s i row login Hlive Hurl); [|
      intros a url Ha; lia|exact Hlogin].
    unfold Login._attemptLogin. replace (Z.to_nat N) with 0%nat by lia. reflexivity.
Qed.

(** ** Closing a session (C6) *)

Lemma delete_key (k : string) (db : gmap string Store.Row) (row : Store.Row) :
  db !! k = Some row ->
  exists d, Store.delete (Store.ByApiKey k) db = Some d /\ d !! k = None.
Proof.
  intros H. unfold Store.delete, Store.has_row.
  rewrite bool_decide_eq_true_2 by (rewrite H; eauto).
  eexists. split; [reflexivity|].
  rewrite map_lookup_imap, H. simpl. rewrite bool_decide_eq_true_2 by reflexivity. reflexivity.
Qed.




(** ** Concurrent registrations (C2) *)

Lemma run_try_quiet (fails : nat -> option string) (i : nat) (cs : list Driver.Cmd) :
  (forall j, fails j = None) -> Driver.run_try fails i cs = cs.
Proof.
  intros Hf. revert i. induction cs as [|c cs IH]; intros i; [reflexivity|].
  cbn [Driver.run_try]. rewrite Hf, IH. destruct c; reflexivity.
Qed.

Lemma run_quiet (fails : nat -> option string) (i : nat) (bs : list Driver.Block) :
  (forall j, fails j = None) ->
  Forall (fun b => match b with Driver.Raise _ => False | _ => True end) bs ->
  Driver.run fails i bs = (Driver.commands bs, None).
Proof.
  intros Hf Hbs. revert i. induction Hbs as [|b bs Hb Hbs IH]; intros i; [reflexivity|].
  destruct b as [c|cs|msg]; [| |contradiction].
  - cbn [Driver.run]. rewrite Hf, IH. destruct c; reflexivity.
  - cbn [Driver.run]. rewrite IH, run_try_quiet by exact Hf. reflexivity.
Qed.

Lemma cmds_app (t1 t2 : list Event) : cmds (t1 ++ t2) = cmds t1 ++ cmds t2.
Proof. apply omap_app. Qed.

Lemma cmds_drv (cs : list Driver.Cmd) : cmds (Drv <$> cs) = cs.
Proof. induction cs as [|c cs IH]; [reflexivity|]. cbn. f_equal. exact IH. Qed.

Lemma code_entry_no_raise (code : string) :
  Forall (fun b => match b with Driver.Raise _ => False | _ => True end)
    (Shipment.code_entry code).
Proof.
  unfold Shipment.code_entry. destruct code as [|first rest]; [constructor|].
  constructor; [exact I|].
  induction (Js.chars (String first rest)) as [|c cs IH]; [constructor|].
  cbn. repeat (constructor; [exact I|]). exact IH.
Qed.

Lemma shipment_script_no_raise (d : Shipment.Data) (env : Tenant.Env) :
  Forall (fun b => match b with Driver.Raise _ => False | _ => True end)
    (TenantManager.shipment_script d env).
Proof.
  unfold TenantManager.shipment_script, Driver.then_, Driver.fixed,
    TenantManager.declaration_part, Shipment.opening, Shipment.selectLocationFast,
    Shipment.submit.
  repeat (apply Forall_app; split);
    repeat match goal with
           | |- Forall _ (if ?b then _ else _) => destruct b
           | |- Forall _ (match ?x with Some _ => _ | None => _ end) => destruct x
           | |- Forall _ (_ :: _) => constructor; [exact I|]
           | |- Forall _ [] => constructor
           | |- Forall _ (Shipment.code_entry _) => apply code_entry_no_raise
           end.
Qed.

(** What [registerShipment] sends to the driver when no command fails and
    the marker is shown: the commands of the workflow, the read of the
    content, the request for the state. *)
Lemma registerShipment_commands (k : string) (d : Shipment.Data) (env : Tenant.Env)
    (s : Tenant.State) (i : Tenant.Instance) (row : Store.Row) :
  Inv.live k i row s ->
  (forall j, Tenant.e_fails env j = None) ->
  Js.includes (Tenant.e_content env) "Registrado" = true ->
  cmds (Tenant.trace (TenantManager.registerShipment k d env s))
  = Driver.commands (TenantManager.shipment_script d env)
    ++ [Driver.Content; Driver.StorageState].
Proof.
  intros (Hinit & Hsd & Hi & Hd) Hf Hc.
  destruct (initialize_done env s Hinit) as [E1 _].
  set (s1 := Tenant.with_instances
               (alter (Tenant.set_lastShipmentTime (Tenant.e_now env)) k) s).
  destruct (save_then_ret k (Tenant.set_lastShipmentTime (Tenant.e_now env) i) row
              (Tenant.e_save env) s1
              (Shipment.registration_result (Tenant.e_content env) (Tenant.e_title env))
              TenantManager._saveStorageState (or_introl eq_refl))
    as (s' & Es & _); [exact Hsd| |exact Hd|].
  { unfold s1. cbn. rewrite lookup_alter_eq, Hi. reflexivity. }
  unfold TenantManager.registerShipment. unfold Tenant.bind at 1. rewrite E1. cbn beta iota.
  unfold Tenant.bind at 1, Tenant.getInstance. rewrite Hi. cbn beta iota. cbv zeta.
  rewrite Hc.
  unfold Tenant.bind at 1, Tenant.drive, Tenant.drive_from.
  rewrite (run_quiet _ _ _ Hf (shipment_script_no_raise d env)). cbn beta iota.
  unfold Tenant.bind at 1. cbn [Driver.run]. rewrite Hf. cbn beta iota.
  unfold Tenant.bind at 1, Tenant.ret at 1. cbn beta iota.
  unfold Tenant.bind at 1, Tenant.modify. cbn beta iota.
  fold s1. rewrite Es.
  unfold Tenant.trace. cbn [snd].
  rewrite !cmds_app, cmds_drv. cbn [app].
  destruct (Tenant.sv_state (Tenant.e_save env)); reflexivity.
Qed.

Section WorkerFacts.

Variable env : Worker.Job -> Tenant.Env.

Lemma awaits_head (j : Worker.Job) :
  exists rest, Worker.awaits env j = Shipment.home :: Driver.Goto "https://pro.shalom.pe/#/envios" :: rest.
Proof.
  unfold Worker.awaits, TenantManager.shipment_script, Driver.then_, Driver.fixed,
    Shipment.opening.
  eexists. reflexivity.
Qed.

(** The second job of the queue begins while the first is in the middle of
    its workflow. *)
Lemma overlap (j1 j2 : Worker.Job) (q : list Worker.Job) :
  exists l1 l2,
    l1 <> []
    /\ Worker.run env (Worker.idle (j1 :: j2 :: q))
         [Worker.Start j1; Worker.Step j1 Shipment.home; Worker.Start j2; Worker.Step j2 Shipment.home]
         (Worker.mkSys q [Worker.mkRunning j1 l1; Worker.mkRunning j2 l2] 2).
Proof.
  destruct (awaits_head j1) as [r1 H1]. destruct (awaits_head j2) as [r2 H2].
  exists (Driver.Goto "https://pro.shalom.pe/#/envios" :: r1),
         (Driver.Goto "https://pro.shalom.pe/#/envios" :: r2).
  split; [discriminate|].
  eapply Worker.run_cons.
  { apply (Worker.step_start env j1 (j2 :: q) [] 0); unfold Worker.concurrency, Worker.limiter_max;
      simpl; lia. }
  rewrite H1. eapply Worker.run_cons.
  { exact (Worker.step_await env (j2 :: q) [] j1 Shipment.home _ [] 1). }
  eapply Worker.run_cons.
  { apply (Worker.step_start env j2 q _ 1); unfold Worker.concurrency, Worker.limiter_max;
      simpl; lia. }
  rewrite H2. eapply Worker.run_cons.
  { exact (Worker.step_await env q [_] j2 Shipment.home _ [] 2). }
  apply Worker.run_nil.
Qed.

Lemma overlap_not_serialized (j1 j2 : Worker.Job) :
  Worker.job_id j1 <> Worker.job_id j2 ->
  Worker.job_apiKey j1 = Worker.job_apiKey j2 ->
  ~ Worker.serialized
      [Worker.Start j1; Worker.Step j1 Shipment.home; Worker.Start j2; Worker.Step j2 Shipment.home].
Proof.
  intros Hid Hkey Hser.
  destruct (Hser 0%nat 3%nat j1 j2 Shipment.home eq_refl eq_refl ltac:(lia) Hid Hkey)
    as (i3 & Hlt & Hfin).
  assert (i3 = 1%nat \/ i3 = 2%nat) as [-> | ->] by lia;
    simpl in Hfin; destruct Hfin as [Hfin | Hfin]; discriminate Hfin.
Qed.

(** Two calls from the routes overlap likewise. *)
Lemma direct_overlap (j1 j2 : Worker.Job) :
  exists l1 l2,
    l1 <> []
    /\ Worker.direct_run env []
         [Worker.Start j1; Worker.Step j1 Shipment.home; Worker.Start j2; Worker.Step j2 Shipment.home]
         [Worker.mkRunning j1 l1; Worker.mkRunning j2 l2].
Proof.
  destruct (awaits_head j1) as [r1 H1]. destruct (awaits_head j2) as [r2 H2].
  exists (Driver.Goto "https://pro.shalom.pe/#/envios" :: r1),
         (Driver.Goto "https://pro.shalom.pe/#/envios" :: r2).
  split; [discriminate|].
  eapply Worker.direct_cons; [exact (Worker.direct_start env [] j1)|].
  rewrite H1. eapply Worker.direct_cons.
  { exact (Worker.direct_await env [] j1 Shipment.home _ []). }
  eapply Worker.direct_cons; [apply Worker.direct_start|].
  rewrite H2. eapply Worker.direct_cons.
  { exact (Worker.direct_await env [_] j2 Shipment.home _ []). }
  apply Worker.direct_nil.
Qed.

(** Any number of calls are in flight together. *)
Lemma direct_all_start (js : list Worker.Job) (a : list Worker.Running) :
  Worker.direct_run env a (Worker.Start <$> js)
    (a ++ ((fun j => Worker.mkRunning j (Worker.awaits env j)) <$> js)).
Proof.
  revert a. induction js as [|j js IH]; intros a.
  - rewrite app_nil_r. apply Worker.direct_nil.
  - cbn [fmap list_fmap]. eapply Worker.direct_cons; [apply Worker.direct_start|].
    specialize (IH (a ++ [Worker.mkRunning j (Worker.awaits env j)])).
    rewrite <- app_assoc in IH. exact IH.
Qed.

End WorkerFacts.

(** C2, the claim as stated fails: two jobs on the same credential key are
    not serialized. The worker starts the second while the first has only
    done its first navigation, and the second does its own first navigation
    on the same page. *)
Lemma C2_same_key_jobs_overlap :
  (exists s,
     Worker.run (fun _ => quiet) (Worker.idle [first_job; second_job])
       [Worker.Start first_job; Worker.Step first_job Shipment.home;
        Worker.Start second_job; Worker.Step second_job Shipment.home] s)
  /\ ~ Worker.serialized
         [Worker.Start first_job; Worker.Step first_job Shipment.home;
          Worker.Start second_job; Worker.Step second_job Shipment.home]
  /\ ~ (forall env queue tr s, Worker.run env (Worker.idle queue) tr s -> Worker.serialized tr).
Proof.
  destruct (overlap (fun _ => quiet) first_job second_job []) as (l1 & l2 & _ & Hrun).
  assert (Hns : ~ Worker.serialized
                    [Worker.Start first_job; Worker.Step first_job Shipment.home;
                     Worker.Start second_job; Worker.Step second_job Shipment.home]).
  { apply overlap_not_serialized; [discriminate|reflexivity]. }
  split; [eauto|]. split; [exact Hns|].
  intros H. exact (Hns (H _ _ _ _ Hrun)).
Qed.

(** C2, amended. [registerShipment] takes no lock on the session, and the
    routes call it from the handler of the request. Whatever their
    credential keys, equal or distinct, the second of two calls starts while
    the first is in the middle of its workflow, and does its first step
    then; when the keys are equal the run is not serialized. Nothing bounds
    the calls in flight: any number of requests are in flight together. The
    same overlap occurs between two jobs of the queue under the worker that
    [setupWorker] would create. The steps of a call are the commands
    [registerShipment] awaits on a live session when none fails and the
    marker is shown. *)
Theorem C2_no_session_lock (env : Worker.Job -> Tenant.Env) :
  (forall j1 j2,
     exists l1 l2,
       l1 <> []
       /\ Worker.direct_run env []
            [Worker.Start j1; Worker.Step j1 Shipment.home; Worker.Start j2; Worker.Step j2 Shipment.home]
            [Worker.mkRunning j1 l1; Worker.mkRunning j2 l2]
       /\ (Worker.job_id j1 <> Worker.job_id j2 ->
           Worker.job_apiKey j1 = Worker.job_apiKey j2 ->
           ~ Worker.serialized
               [Worker.Start j1; Worker.Step j1 Shipment.home; Worker.Start j2; Worker.Step j2 Shipment.home]))
  /\ (forall js : list Worker.Job,
        exists a,
          Worker.direct_run env [] (Worker.Start <$> js) a
          /\ Worker.job <$> a = js
          /\ Forall (fun r => Worker.left r = Worker.awaits env (Worker.job r)) a)
  /\ (forall j1 j2 queue,
        exists l1 l2,
          l1 <> []
          /\ Worker.run env (Worker.idle (j1 :: j2 :: queue))
               [Worker.Start j1; Worker.Step j1 Shipment.home; Worker.Start j2; Worker.Step j2 Shipment.home]
               (Worker.mkSys queue [Worker.mkRunning j1 l1; Worker.mkRunning j2 l2] 2)
          /\ (Worker.job_id j1 <> Worker.job_id j2 ->
              Worker.job_apiKey j1 = Worker.job_apiKey j2 ->
              ~ Worker.serialized
                  [Worker.Start j1; Worker.Step j1 Shipment.home; Worker.Start j2; Worker.Step j2 Shipment.home]))
  /\ (forall j s i row,
        Inv.live (Worker.job_apiKey j) i row s ->
        (forall n, Tenant.e_fails (env j) n = None) ->
        Js.includes (Tenant.e_content (env j)) "Registrado" = true ->
        cmds (Tenant.trace
                (TenantManager.registerShipment (Worker.job_apiKey j) (Worker.job_data j)
                   (env j) s))
        = Worker.awaits env j).
Proof.
  split; [|split; [|split]]; [| | |intros j s i row; apply registerShipment_commands].
  - intros j1 j2.
    destruct (direct_overlap env j1 j2) as (l1 & l2 & Hne & Hrun).
    exists l1, l2. split; [exact Hne|]. split; [exact Hrun|].
    apply overlap_not_serialized.
  - intros js. eexists. split; [apply (direct_all_start env js [])|].
    cbn [app]. split.
    + rewrite <- list_fmap_compose. induction js as [|j js IH]; [reflexivity|].
      cbn [fmap list_fmap]. f_equal. exact IH.
    + apply Forall_fmap, Forall_forall. intros j _. reflexivity.
  - intros j1 j2 queue.
    destruct (overlap env j1 j2 queue) as (l1 & l2 & Hne & Hrun).
    exists l1, l2. split; [exact Hne|]. split; [exact Hrun|].
    apply overlap_not_serialized.
Qed.

(** * Further properties of the code *)

(** ** The rows of the Excel file *)

Lemma or_value_truthy (o : option Excel.Value) (d : Excel.Value) :
  Excel.truthy (Excel.or_value o d) = negb (Excel.no_measure o) || Excel.truthy d.
Proof.
  unfold Excel.or_value, Excel.no_measure. destruct o as [v|]; [|reflexivity].
  destruct (Excel.truthy v) eqn:Hv; [exact Hv|reflexivity].
Qed.

Lemma or_value_missing (o : option Excel.Value) (d : Excel.Value) :
  Excel.no_measure o = true -> Excel.or_value o d = d.
Proof.
  unfold Excel.or_value, Excel.no_measure. destruct o as [v|]; [|reflexivity].
  destruct (Excel.truthy v); [discriminate|reflexivity].
Qed.

(** A quantity too small for a double is read as zero and written as 1; one
    too large is read as [Infinity] and written as such. *)
Example excel_quantity_is_a_double :
  Num.round 1 (10 ^ 400) = Num.Finite 0 0
  /\ Excel.or_value (Some (Excel.Number (Num.round 1 (10 ^ 400)))) Excel.one = Excel.one
  /\ Excel.or_value (Some (Excel.Number (Num.round (10 ^ 999) 1))) Excel.one
     = Excel.Number (Num.Infinity false).
Proof. vm_compute. repeat split; reflexivity. Qed.

(** The column CANTIDAD of a generated row is never falsy. A [quantity] that
    is truthy is written as given; when [quantity] is missing or falsy (zero,
    as a double) a truthy [cantidad] is written as given; when both are
    missing or falsy, 1 is written. A measure column is falsy exactly when
    the measure is missing or falsy under both of its names, and it then
    holds 0. *)
Theorem excel_quantity_is_never_zero (s : Excel.Shipment) :
  Excel.truthy (Excel.CANTIDAD (Excel.row s)) = true
  /\ (Excel.no_measure (Excel.quantity s) = true -> Excel.no_measure (Excel.cantidad s) = true ->
      Excel.CANTIDAD (Excel.row s) = Excel.one)
  /\ (forall q, Excel.quantity s = Some q -> Excel.truthy q = true ->
      Excel.CANTIDAD (Excel.row s) = q)
  /\ (forall q, Excel.no_measure (Excel.quantity s) = true ->
      Excel.cantidad s = Some q -> Excel.truthy q = true ->
      Excel.CANTIDAD (Excel.row s) = q)
  /\ (Excel.truthy (Excel.ALTO (Excel.row s))
      = negb (Excel.no_measure (Excel.height s) && Excel.no_measure (Excel.alto s))
      /\ (Excel.truthy (Excel.ALTO (Excel.row s)) = false ->
          Excel.ALTO (Excel.row s) = Excel.zero))
  /\ (Excel.truthy (Excel.ANCHO (Excel.row s))
      = negb (Excel.no_measure (Excel.width s) && Excel.no_measure (Excel.ancho s))
      /\ (Excel.truthy (Excel.ANCHO (Excel.row s)) = false ->
          Excel.ANCHO (Excel.row s) = Excel.zero))
  /\ (Excel.truthy (Excel.LARGO (Excel.row s))
      = negb (Excel.no_measure (Excel.length s) && Excel.no_measure (Excel.largo s))
      /\ (Excel.truthy (Excel.LARGO (Excel.row s)) = false ->
          Excel.LARGO (Excel.row s) = Excel.zero))
  /\ (Excel.truthy (Excel.PESO (Excel.row s))
      = negb (Excel.no_measure (Excel.weight s) && Excel.no_measure (Excel.peso s))
      /\ (Excel.truthy (Excel.PESO (Excel.row s)) = false ->
          Excel.PESO (Excel.row s) = Excel.zero)).
Proof.
  assert (Hm : forall a b : option Excel.Value,
            Excel.truthy (Excel.or_value a (Excel.or_value b Excel.zero))
            = negb (Excel.no_measure a && Excel.no_measure b)
            /\ (Excel.truthy (Excel.or_value a (Excel.or_value b Excel.zero)) = false ->
                Excel.or_value a (Excel.or_value b Excel.zero) = Excel.zero)).
  { intros a b. rewrite !or_value_truthy. cbn [Excel.truthy Excel.zero Num.is_zero].
    change (negb (0 =? 0)) with false. rewrite orb_false_r, negb_andb. split; [reflexivity|].
    intros H. apply orb_false_elim in H as [Ha Hb].
    apply negb_false_iff in Ha, Hb.
    rewrite (or_value_missing _ _ Ha), (or_value_missing _ _ Hb). reflexivity. }
  unfold Excel.row. cbn [Excel.CANTIDAD Excel.ALTO Excel.ANCHO Excel.LARGO Excel.PESO].
  split; [|split; [|split; [|split; [|split; [|split; [|split]]]]]]; try apply Hm.
  - rewrite !or_value_truthy. cbn. rewrite !orb_true_r. reflexivity.
  - intros H1 H2. rewrite (or_value_missing _ _ H1), (or_value_missing _ _ H2). reflexivity.
  - intros q Hq Hf. rewrite Hq. unfold Excel.or_value. rewrite Hf. reflexivity.
  - intros q H1 Hq Hf. rewrite (or_value_missing _ _ H1), Hq.
    unfold Excel.or_value. rewrite Hf. reflexivity.
Qed.

(** A shipment without a contact of its own gets the recipient as contact:
    when [contactDoc] is missing or empty the column CONTACTO (DOC) equals
    DESTINATARIO (DOC), and likewise for the two phone columns. The document
    of the recipient is the flat field [recipientDoc] when it is given, the
    nested [recipient.documentNumber] otherwise, and the empty text when
    there is neither. The sheet has one row per shipment, in order. *)
Theorem excel_contact_defaults_to_recipient (s : Excel.Shipment) :
  (Js.truthy_opt (Excel.contactDoc s) = false ->
   Excel.CONTACTO_DOC (Excel.row s) = Excel.DESTINATARIO_DOC (Excel.row s))
  /\ (Js.truthy_opt (Excel.contactPhone s) = false ->
      Excel.TELF_CONTACTO (Excel.row s) = Excel.TELF_DESTINATARIO (Excel.row s))
  /\ (forall doc, Excel.recipientDoc s = Some doc -> Js.truthy doc = true ->
      Excel.DESTINATARIO_DOC (Excel.row s) = doc)
  /\ (Js.truthy_opt (Excel.recipientDoc s) = false ->
      Excel.DESTINATARIO_DOC (Excel.row s)
      = Js.or_else (Excel.recipient s ≫= Excel.documentNumber) "")
  /\ (forall shipments,
        length (Excel.rows shipments) = length shipments
        /\ forall i, Excel.rows shipments !! i = Excel.row <$> shipments !! i).
Proof.
  unfold Excel.row. cbn [Excel.CONTACTO_DOC Excel.DESTINATARIO_DOC Excel.TELF_CONTACTO
                           Excel.TELF_DESTINATARIO].
  split; [|split; [|split; [|split]]].
  - intros H. unfold Excel.or_opt at 1. rewrite H. reflexivity.
  - intros H. unfold Excel.or_opt at 1. rewrite H. reflexivity.
  - intros doc Hd Ht. unfold Excel.or_opt. rewrite Hd. cbn. rewrite Ht. cbn. rewrite Ht.
    reflexivity.
  - intros H. unfold Excel.or_opt. rewrite H. reflexivity.
  - intros shipments. unfold Excel.rows. split; [apply length_fmap|].
    intros i. apply list_lookup_fmap.
Qed.

(** ** The agency service *)

Lemma apiResult_found (responses : list Agency.Response) (j : Agency.Json) :
  Agency.apiResult responses = Some j ->
  exists r, r ∈ responses /\ Agency.matches r = true /\ Agency.r_json r = Some j.
Proof.
  unfold Agency.apiResult. induction responses as [|r rs IH]; [discriminate|].
  cbn [omap list_omap].
  destruct (Agency.matches r) eqn:Hm.
  - destruct (Agency.r_json r) as [j'|] eqn:Hj.
    + cbn. intros [= <-]. exists r. split; [constructor|]. split; assumption.
    + intros H. destruct (IH H) as (r' & Hin & Hr'). exists r'. split; [|exact Hr'].
      constructor. exact Hin.
  - intros H. destruct (IH H) as (r' & Hin & Hr'). exists r'. split; [|exact Hr'].
    constructor. exact Hin.
Qed.

(** A call of [getAgencies] that finds the lock free gives it back, however
    the call ends: [processing] is false afterwards. Whatever call fails,
    a context that was opened is closed, a page that was opened is closed,
    and the response listener that was attached is removed. A call that
    finds the lock taken waits, and does nothing meanwhile. *)
Theorem agency_call_releases_what_it_took (o : Agency.Obs) (s : Agency.Service) :
  let '(c, s', tr) := Agency.getAgencies o s in
  (Agency.processing s = true -> c = Agency.Waiting /\ s' = s /\ tr = [])
  /\ (Agency.processing s = false ->
      c <> Agency.Waiting
      /\ Agency.processing s' = false
      /\ (Agency.Did Agency.NewContext ∈ tr ->
          Agency.Did Agency.CloseContext ∈ tr \/ Agency.Failed Agency.CloseContext ∈ tr)
      /\ (Agency.Did Agency.NewPage ∈ tr ->
          Agency.Did Agency.ClosePage ∈ tr \/ Agency.Failed Agency.ClosePage ∈ tr)
      /\ (Agency.Did Agency.On ∈ tr -> Agency.Did Agency.Off ∈ tr)).
Proof.
  unfold Agency.getAgencies.
  destruct (Agency.processing s) eqn:Hp.
  { split; [auto|discriminate]. }
  split; [discriminate|]. intros _.
  split; [destruct (Agency.outcome _); discriminate|].
  split; [reflexivity|].
  unfold Agency.attempt, Agency.closing.
  destruct (Agency.browser s) as [h|], (Agency.connected o), (Agency.launch o) as [h'|m0],
    (Agency.newContext o) as [m1|], (Agency.newPage o) as [m2|], (Agency.route o) as [m3|],
    (Agency.goto o) as [m4|], (Agency.page_close o), (Agency.context_close o);
    cbn; repeat split; intros H;
    repeat (apply elem_of_cons in H as [H|H]; [try discriminate H|]);
    try (apply elem_of_nil in H; contradiction);
    try (left; repeat constructor; fail); try (right; repeat constructor; fail);
    repeat constructor.
Qed.

(** What [getAgencies] returns is the body of a response whose URL contains
    "agencias" and "listar", whose request is not a pre-flight one (its
    method is not OPTIONS), and whose body parsed and is not a falsy value:
    the first response that matched and parsed. The navigation did not fail,
    and the lock was free. *)
Theorem agency_result_is_the_first_match (o : Agency.Obs) (s s' : Agency.Service)
    (tr : list Agency.Event) (j : Agency.Json) :
  Agency.getAgencies o s = (Agency.Returned j, s', tr) ->
  Agency.processing s = false
  /\ Agency.goto o = None
  /\ Agency.apiResult (Agency.responses o) = Some j
  /\ Agency.truthy j = true
  /\ exists r, r ∈ Agency.responses o
               /\ Js.includes (Agency.r_url r) "agencias" = true
               /\ Js.includes (Agency.r_url r) "listar" = true
               /\ Agency.r_method r <> "OPTIONS"
               /\ Agency.r_json r = Some j.
Proof.
  unfold Agency.getAgencies.
  destruct (Agency.processing s); [discriminate|].
  intros H. injection H as Hc _ _.
  assert (Ho : Agency.outcome (Agency.attempt o s) = Return j).
  { destruct (Agency.outcome (Agency.attempt o s)); [congruence|discriminate]. }
  clear Hc. unfold Agency.attempt in Ho.
  assert (Hres : Agency.goto o = None /\
                 match Agency.apiResult (Agency.responses o) with
                 | Some j' => if Agency.truthy j' then Return j' else Throw Agency.timeout
                 | None => Throw Agency.timeout
                 end = Return j).
  { destruct (match Agency.browser s with Some _ => Agency.connected o | None => false end);
      [|destruct (Agency.launch o)];
      destruct (Agency.newContext o), (Agency.newPage o), (Agency.route o), (Agency.goto o);
      cbn in Ho; try discriminate Ho; split; (reflexivity || exact Ho). }
  destruct Hres as [Hg Hr].
  destruct (Agency.apiResult (Agency.responses o)) as [j'|] eqn:Ha; [|discriminate].
  destruct (Agency.truthy j') eqn:Ht; [|discriminate]. injection Hr as ->.
  split; [reflexivity|]. split; [exact Hg|]. split; [reflexivity|]. split; [exact Ht|].
  destruct (apiResult_found _ _ Ha) as (r & Hin & Hm & Hj).
  unfold Agency.matches in Hm.
  apply andb_prop in Hm as [Hm Hmeth]. apply andb_prop in Hm as [Hu1 Hu2].
  exists r. repeat split; try assumption.
  apply negb_true_iff, bool_decide_eq_false in Hmeth. exact Hmeth.
Qed.

(** ** The pre-handlers of the server *)

(** [checkAdminApiKey] lets a request through exactly when the variable
    [ADMIN_API_KEY] is set to a non-empty text and the header [x-api-key]
    carries that text. When the variable is not set, or empty, no request
    gets through, whatever its header. *)
Theorem admin_gate_needs_the_configured_key (apiKey adminApiKey : option string) :
  (Routes.checkAdminApiKey apiKey adminApiKey = Routes.Pass
   <-> exists key, apiKey = Some key /\ adminApiKey = Some key /\ key <> "")
  /\ (Js.truthy_opt adminApiKey = false ->
      Routes.checkAdminApiKey apiKey adminApiKey <> Routes.Pass)
  /\ (forall i admin, Routes.checkAdminApiKey apiKey adminApiKey <> Routes.Allow i admin).
Proof.
  unfold Routes.checkAdminApiKey.
  split; [|split].
  - split.
    + destruct apiKey as [[|c key]|]; cbn; try discriminate.
      destruct adminApiKey as [[|c' key']|]; cbn; try discriminate.
      destruct (bool_decide _) eqn:Hb; cbn; [|discriminate].
      apply bool_decide_eq_true in Hb. injection Hb as <- <-.
      intros _. eexists. repeat split. discriminate.
    + intros (key & -> & -> & Hne). destruct key as [|c key]; [contradiction|].
      cbn. rewrite bool_decide_eq_true_2 by reflexivity. reflexivity.
  - intros Ha. destruct (negb (Js.truthy_opt apiKey)); [discriminate|].
    rewrite Ha. cbn. discriminate.
  - intros i admin. destruct (negb _); [discriminate|]. destruct (_ || _); discriminate.
Qed.

#[local] Set Warnings "-clear-no-such-hyp".

(** The handler of [POST /register] removes no file but the one it
    generated. Every path that existed before the request and is not the
    generated one exists after it, so the file named by [filePath] in the
    body is never deleted. The paths a request may leave behind are the
    directory [./temp], the generated file (when its removal fails, or when
    the write threw half way), and what the manager wrote (the screenshot of
    a failed registration), which stays. When the Excel file was generated
    and [unlinkSync] succeeds, it is gone after the request whether the
    manager returned or threw. *)
Theorem register_handler_removes_only_its_own_file (filePath : option string)
    (shipments : option (list Excel.Shipment)) (securityCode : option string)
    (disk : Excel.Disk) (unlink_ok debug : bool)
    (manager : option string -> option string
               -> Outcome TenantManagerR.MassiveResult * gset string)
    (files : gset string) :
  let files' := snd (Routes.register_handler filePath shipments securityCode disk unlink_ok
                       debug manager files) in
  (forall p,
     p ∈ files ->
     (p ∉ files'
      <-> SecurityCode.register_check securityCode = None
          /\ (exists s rest,
                shipments = Some (s :: rest)
                /\ fst (Excel.generateMassiveShipmentExcel (s :: rest) disk files) = Return p)
          /\ unlink_ok = true))
  /\ (forall p, p ∈ files -> (forall s rest, shipments <> Some (s :: rest)) -> p ∈ files')
  /\ (forall p,
        p ∈ files' ->
        p ∈ files \/ p = Excel.outputDir \/ p = Excel.d_path disk
        \/ (exists path, p ∈ snd (manager path securityCode)))
  /\ (forall path s rest,
        SecurityCode.register_check securityCode = None ->
        shipments = Some (s :: rest) ->
        fst (Excel.generateMassiveShipmentExcel (s :: rest) disk files) = Return path ->
        (unlink_ok = true -> path ∉ files')
        /\ (unlink_ok = false -> path ∈ files')
        /\ (forall p, p ∈ snd (manager (Some path) securityCode) -> p <> path -> p ∈ files'))
  /\ (forall p,
        SecurityCode.register_check securityCode = None ->
        Js.truthy_opt filePath = true \/ is_Some shipments ->
        (forall s rest, shipments <> Some (s :: rest)) ->
        p ∈ snd (manager filePath securityCode) -> p ∈ files').
Proof.
  unfold Routes.register_handler, Excel.generateMassiveShipmentExcel. cbv zeta.
  destruct (SecurityCode.register_check securityCode) as [e|]; cbn [snd].
  { split; [|split; [|split; [|split]]]; try discriminate; try (intros; tauto).
    intros p Hp. split; [contradiction|]. intros [H _]. discriminate H. }
  destruct (negb (Js.truthy_opt filePath) && negb (bool_decide (is_Some shipments))) eqn:Hn.
  { cbn [snd]. split; [|split; [|split; [|split]]]; try (intros; tauto).
    - intros p Hp. split; [contradiction|]. intros (_ & (s & rest & -> & _) & _).
      rewrite bool_decide_eq_true_2 in Hn by eauto. rewrite andb_false_r in Hn. discriminate Hn.
    - intros path s rest _ ->.
      rewrite bool_decide_eq_true_2 in Hn by eauto. rewrite andb_false_r in Hn. discriminate Hn.
    - intros p _ [Hf | Hs] _ _.
      + rewrite Hf in Hn. discriminate Hn.
      + rewrite bool_decide_eq_true_2 in Hn by exact Hs. rewrite andb_false_r in Hn.
        discriminate Hn. }
  clear Hn.
  destruct shipments as [[|s0 rest0]|]; cbn [snd].
  1, 3: (split; [|split; [set_solver|]; split; [|split]];
         [intros p Hp; split; [set_solver|];
          intros (_ & (s & rest & E & _) & _); discriminate E
         |intros p [Hp|Hp]%elem_of_union; [tauto|right; right; right; eauto]
         |discriminate|set_solver]).
  destruct (if bool_decide (Excel.outputDir ∈ files) then None else Excel.d_mkdir disk)
    as [msg|]; cbn [fst snd].
  { split; [|split; [|split; [|split]]]; try discriminate; try (intros; tauto).
    - intros p Hp. split; [contradiction|]. intros (_ & (s & rest & _ & H) & _). discriminate H.
    - intros p _ _ H. exfalso. exact (H _ _ eq_refl). }
  destruct (Excel.d_write disk) as [msg|]; cbn [fst snd].
  { split; [|split; [|split; [|split]]]; try discriminate.
    - intros p Hp. split; [destruct (Excel.d_partial disk); set_solver|].
      intros (_ & (s & rest & _ & H) & _). discriminate H.
    - intros p Hp _. destruct (Excel.d_partial disk); set_solver.
    - intros p Hp. destruct (Excel.d_partial disk); set_solver.
    - intros p _ _ H. exfalso. exact (H _ _ eq_refl). }
  set (path := Excel.d_path disk).
  set (shots := snd (manager (Some path) securityCode)).
  assert (Hin : path ∈ files ∪ {[Excel.outputDir]} ∪ {[path]} ∪ shots) by set_solver.
  rewrite (bool_decide_eq_true_2 _ Hin). cbn [andb].
  split; [|split; [|split; [|split]]].
  - intros p Hp. destruct unlink_ok.
    + split.
      * intros H. split; [reflexivity|]. split; [|reflexivity].
        exists s0, rest0. split; [reflexivity|]. f_equal.
        destruct (decide (p = path)) as [->|Hne]; [reflexivity|]. set_solver.
      * intros (_ & (s & rest & _ & [= <-]) & _). set_solver.
    + split; [set_solver|]. intros (_ & _ & H). discriminate H.
  - intros p _ H. exfalso. exact (H _ _ eq_refl).
  - intros p Hp. assert (p ∈ files ∪ {[Excel.outputDir]} ∪ {[path]} ∪ shots) as H
      by (destruct unlink_ok; set_solver).
    clear Hp. unfold shots in H. set_solver.
  - intros path' s rest _ _ [= <-]. split; [|split].
    + intros ->. set_solver.
    + intros ->. exact Hin.
    + intros p Hp Hne. destruct unlink_ok; set_solver.
  - intros p _ _ H. exfalso. exact (H _ _ eq_refl).
Qed.

(** ** What every state of the manager satisfies *)

Section Stable.

Import Tenant.

(** A property of the state that the elementary changes of the manager
    keep: registering a session under its own key, altering a session
    without touching its key, removing a session, setting the flags, and
    applying a write that names written columns only. *)
Variable I : State -> Prop.

Hypothesis I_insert : forall k i s, apiKey i = k -> I s -> I (with_instances <[k := i]> s).
Hypothesis I_alter : forall f k s,
  (forall i, apiKey (f i) = apiKey i) -> I s -> I (with_instances (alter f k) s).
Hypothesis I_delete : forall k s, I s -> I (with_instances (delete k) s).
Hypothesis I_browser : forall h s, I s -> I (with_browser h s).
Hypothesis I_initialized : forall b s, I s -> I (with_initialized b s).
Hypothesis I_store : forall now w s d,
  Inv.plain w -> I s -> Store.apply now w (db s) = Some d -> I (with_db d s).

Local Abbreviation stable c := (Inv.keeps I (fun _ => True) c).

Ltac stable_modify :=
  intros ? ?;
  first [ apply I_insert; [reflexivity|assumption]
        | apply I_alter; [intros []; reflexivity|assumption]
        | apply I_delete; assumption
        | apply I_browser; assumption
        | apply I_initialized; assumption ].

Ltac stable_store :=
  intros ? ? ? ?; eapply I_store; [|eassumption|eassumption]; reflexivity.

Ltac stable_tac :=
  repeat first
    [ assumption
    | solve [auto]
    | lazymatch goal with
      | |- Inv.keeps _ _ (let _ := _ in _) => cbv zeta
      | |- Inv.keeps _ _ (Tenant.bind _ _) => apply keeps_bind; [|intros ?]
      | |- Inv.keeps _ _ (Tenant.catch _ _) => apply keeps_catch; [|intros ?]
      | |- Inv.keeps _ _ (Tenant.ret _) => apply keeps_ret
      | |- Inv.keeps _ _ (Tenant.throw _) => apply keeps_throw
      | |- Inv.keeps _ _ Tenant.get => apply keeps_get
      | |- Inv.keeps _ _ (Tenant.getInstance _) => apply keeps_getInstance
      | |- Inv.keeps _ _ (Tenant.modify _) => apply keeps_modify; stable_modify
      | |- Inv.keeps _ _ (Tenant.drive_from _ _ _) => apply keeps_drive_from
      | |- Inv.keeps _ _ (Tenant.drive _ _) => apply keeps_drive_from
      | |- Inv.keeps _ _ (Tenant.store _ _) => apply keeps_store; [exact Logic.I|stable_store]
      | |- Inv.keeps _ _ (Tenant.emit _) =>
          apply keeps_emit; apply Forall_true; intros; exact Logic.I
      | |- Inv.keeps _ _ (match ?x with _ => _ end) => destruct x
      end ].

Lemma stable_save (k : string) (o : SaveObs) : stable (TenantManager._saveStorageState k o).
Proof. unfold TenantManager._saveStorageState. stable_tac. Qed.

Lemma stable_saveR (k : string) (o : SaveObs) : stable (TenantManagerR._saveStorageState k o).
Proof. unfold TenantManagerR._saveStorageState. stable_tac. Qed.

Hint Resolve stable_save stable_saveR : core.

Lemma stable_restore_row (k : string) (row : Store.Row) (o : RestoreObs) :
  stable (TenantManager.restore_row k row o).
Proof. unfold TenantManager.restore_row. stable_tac. Qed.

Lemma stable_restore_rowR (k : string) (row : Store.Row) (o : RestoreObs) :
  stable (TenantManagerR.restore_row k row o).
Proof. unfold TenantManagerR.restore_row. stable_tac. Qed.

Hint Resolve stable_restore_row stable_restore_rowR : core.

Lemma stable_restore_all (rows : list (string * Store.Row)) (env : Env) :
  stable (TenantManager.restore_all rows env).
Proof. induction rows as [|[k row] rows IH]; simpl; stable_tac. Qed.

Lemma stable_restore_allR (rows : list (string * Store.Row)) (env : Env) :
  stable (TenantManagerR.restore_all rows env).
Proof. induction rows as [|[k row] rows IH]; simpl; stable_tac. Qed.

Hint Resolve stable_restore_all stable_restore_allR : core.

Lemma stable_initialize (env : Env) : stable (TenantManager.initialize env).
Proof. unfold TenantManager.initialize. stable_tac. Qed.

Lemma stable_initializeR (env : Env) : stable (TenantManagerR.initialize env).
Proof. unfold TenantManagerR.initialize. stable_tac. Qed.

Hint Resolve stable_initialize stable_initializeR : core.

Lemma stable_login_loop (n : nat) (attempt retries : Z) (k u p : string) (env : Env) :
  stable (TenantManager.login_loop n attempt retries k u p env).
Proof.
  revert attempt. induction n as [|n IH]; intros attempt; simpl; [apply keeps_ret|].
  unfold TenantManager.bind_username. stable_tac.
Qed.

Lemma stable_close_all (live : list (string * Instance)) (env : Env) :
  stable (TenantManager.close_all live env).
Proof. induction live as [|[k i] live IH]; simpl; stable_tac. Qed.

Lemma stable_close_allR (live : list (string * Instance)) (env : Env) :
  stable (TenantManagerR.close_all live env).
Proof. induction live as [|[k i] live IH]; simpl; stable_tac. Qed.

Lemma stable_getOrRestore (k : string) (env : Env) :
  stable (TenantManagerR.getOrRestoreInstance k env).
Proof.
  unfold TenantManagerR.getOrRestoreInstance, TenantManagerR._restoreInstance. stable_tac.
Qed.

Hint Resolve stable_login_loop stable_close_all stable_close_allR stable_getOrRestore : core.

(** Every call of the manager of [src/tenantManager.js] keeps the property. *)
Lemma stable_perform (c : TenantManager.Call) (env : Env) (s : State) :
  I s -> I (fst (TenantManager.perform c env s)).
Proof.
  assert (H : forall A (m : M A), stable m -> I s -> I (fst (TenantManager.forget (m s)))).
  { intros A m Hm Hs. exact (proj1 (Hm s Hs)). }
  destruct c; simpl; apply H.
  - auto.
  - auto.
  - unfold TenantManager.createInstance. stable_tac.
  - unfold TenantManager.getStatus. stable_tac.
  - unfold TenantManager.login, TenantManager.bind_username. stable_tac.
  - unfold TenantManager.logout. stable_tac.
  - unfold TenantManager.closeInstance. stable_tac.
  - unfold TenantManager.listInstances. stable_tac.
  - unfold TenantManager.registerShipment. stable_tac.
  - unfold TenantManager.shutdown. stable_tac.
Qed.

(** So does every call of the manager that restores on demand. *)
Lemma stable_performR (c : TenantManagerR.Call) (env : Env) (s : State) :
  I s -> I (fst (TenantManagerR.perform c env s)).
Proof.
  assert (H : forall A (m : M A), stable m -> I s -> I (fst (TenantManagerR.forget (m s)))).
  { intros A m Hm Hs. exact (proj1 (Hm s Hs)). }
  destruct c; simpl; apply H.
  - auto.
  - auto.
  - unfold TenantManagerR.createInstance. stable_tac.
  - auto.
  - unfold TenantManagerR.getStatus. stable_tac.
  - unfold TenantManagerR.login, TenantManagerR.bind_username. stable_tac.
  - unfold TenantManagerR.logout. stable_tac.
  - unfold TenantManagerR.closeInstance. stable_tac.
  - unfold TenantManagerR.listInstances. stable_tac.
  - unfold TenantManagerR.registerShipment, TenantManagerR.shipment_body. stable_tac.
  - unfold TenantManagerR.registerMassiveShipment. stable_tac.
  - unfold TenantManagerR.shutdown. stable_tac.
Qed.

End Stable.

Lemma keyed_insert (k : string) (i : Tenant.Instance) (s : Tenant.State) :
  Tenant.apiKey i = k -> Shape.keyed s -> Shape.keyed (Tenant.with_instances <[k := i]> s).
Proof.
  intros Hi Hs k' i'. cbn. destruct (decide (k' = k)) as [->|Hne].
  - rewrite lookup_insert_eq. intros [= <-]. exact Hi.
  - rewrite lookup_insert_ne by congruence. apply Hs.
Qed.

Lemma keyed_alter (f : Tenant.Instance -> Tenant.Instance) (k : string) (s : Tenant.State) :
  (forall i, Tenant.apiKey (f i) = Tenant.apiKey i) ->
  Shape.keyed s -> Shape.keyed (Tenant.with_instances (alter f k) s).
Proof.
  intros Hf Hs k' i'. cbn. destruct (decide (k' = k)) as [->|Hne].
  - rewrite lookup_alter_eq. destruct (Tenant.instances s !! k) as [i|] eqn:Hi; [|discriminate].
    cbn. intros [= <-]. rewrite Hf. apply Hs, Hi.
  - rewrite lookup_alter_ne by congruence. apply Hs.
Qed.

Lemma keyed_delete (k : string) (s : Tenant.State) :
  Shape.keyed s -> Shape.keyed (Tenant.with_instances (delete k) s).
Proof.
  intros Hs k' i'. cbn. destruct (decide (k' = k)) as [->|Hne].
  - rewrite lookup_delete_eq. discriminate.
  - rewrite lookup_delete_ne by congruence. apply Hs.
Qed.

Lemma keyed_perform (env : Tenant.Env) (s : Tenant.State) :
  Shape.keyed s ->
  (forall c, Shape.keyed (fst (TenantManager.perform c env s)))
  /\ (forall c, Shape.keyed (fst (TenantManagerR.perform c env s))).
Proof.
  intros Hs.
  split; intros c; [apply stable_perform|apply stable_performR];
    auto using keyed_insert, keyed_alter, keyed_delete.
Qed.

(** Every session of the Registry sits under its own key, in every state
    either manager reaches from a start, whatever the calls and whatever the
    driver and the site answer: [this.instances.get(k)] never gives a
    session whose [apiKey] is another key. *)
Theorem every_session_sits_under_its_key (rows : gmap string Store.Row) (s : Tenant.State) :
  (Shape.reachable rows s -> Shape.keyed s)
  /\ (Shape.reachableR rows s -> Shape.keyed s).
Proof.
  assert (H0 : Shape.keyed (Shape.started rows)).
  { intros k i. cbn. rewrite lookup_empty. discriminate. }
  split; induction 1 as [|c env s Hr IH]; try exact H0.
  - apply (proj1 (keyed_perform env s IH)).
  - apply (proj2 (keyed_perform env s IH)).
Qed.

Lemma set_field_password (r : Store.Row) (f : string * Store.Value) :
  fst f ∈ Inv.written_columns -> Store.password (Store.set_field r f) = Store.password r.
Proof.
  destruct f as [name v]. cbn [fst]. intros H.
  apply list_elem_of_In in H. simpl in H.
  destruct H as [<-|[<-|[<-|[<-|[<-|[<-|[]]]]]]]; reflexivity.
Qed.

Lemma set_fields_password (data : Store.Data) (r : Store.Row) :
  Forall (fun f => fst f ∈ Inv.written_columns) data ->
  Store.password (Store.set_fields data r) = Store.password r.
Proof.
  unfold Store.set_fields. revert r.
  induction data as [|f data IH]; intros r Hd; [reflexivity|].
  inversion Hd as [|? ? Hf Hrest]; subst. cbn [foldl].
  rewrite IH by exact Hrest. apply set_field_password, Hf.
Qed.

Lemma within_fields (data : Store.Data) :
  forallb (fun name => bool_decide (name ∈ Inv.written_columns)) (fst <$> data) = true ->
  Forall (fun f => fst f ∈ Inv.written_columns) data.
Proof.
  induction data as [|f data IH]; [constructor|].
  cbn. intros [H1 H2]%andb_prop. constructor; [|apply IH, H2].
  apply bool_decide_eq_true in H1. exact H1.
Qed.

(** A write that names written columns only leaves the password of every
    row as it was, and creates rows without one. *)
Lemma plain_write_no_password (now : nat) (w : Store.Write) (db d : gmap string Store.Row) :
  Inv.plain w -> Shape.no_password db -> Store.apply now w db = Some d -> Shape.no_password d.
Proof.
  unfold Inv.plain, Inv.within. intros Hw Hdb Ha k row Hk.
  destruct w as [data|wh data|wh]; cbn in Hw, Ha.
  - unfold Store.create in Ha.
    destruct (Store.field "id" data) as [[i| | |]|]; try discriminate.
    destruct (Store.field "apiKey" data) as [[k0| | |]|]; try discriminate.
    destruct (db !! k0) eqn:Hk0; [discriminate|]. injection Ha as <-.
    destruct (decide (k = k0)) as [->|Hne].
    + rewrite lookup_insert_eq in Hk. injection Hk as <-.
      rewrite set_fields_password by (apply within_fields, Hw). reflexivity.
    + rewrite lookup_insert_ne in Hk by congruence. exact (Hdb k row Hk).
  - unfold Store.update in Ha. destruct (Store.has_row wh db); [|discriminate].
    injection Ha as <-. rewrite map_lookup_imap in Hk.
    destruct (db !! k) as [r|] eqn:Hr; [|discriminate]. cbn in Hk.
    destruct (Store.selects wh k r); injection Hk as <-.
    + rewrite set_fields_password by (apply within_fields, Hw). exact (Hdb k r Hr).
    + exact (Hdb k r Hr).
  - unfold Store.delete in Ha. destruct (Store.has_row wh db); [|discriminate].
    injection Ha as <-. rewrite map_lookup_imap in Hk.
    destruct (db !! k) as [r|] eqn:Hr; [|discriminate]. cbn in Hk.
    destruct (Store.selects wh k r); [discriminate|]. injection Hk as <-. exact (Hdb k r Hr).
Qed.

Lemma no_password_perform (env : Tenant.Env) (s : Tenant.State) :
  Shape.no_password (Tenant.db s) ->
  (forall c, Shape.no_password (Tenant.db (fst (TenantManager.perform c env s))))
  /\ (forall c, Shape.no_password (Tenant.db (fst (TenantManagerR.perform c env s)))).
Proof.
  intros Hs.
  split; intros c;
    [apply (stable_perform (fun s => Shape.no_password (Tenant.db s)))
    |apply (stable_performR (fun s => Shape.no_password (Tenant.db s)))];
    try (intros; assumption); try exact Hs;
    intros now w s0 d Hw H0 Ha; exact (plain_write_no_password now w _ d Hw H0 Ha).
Qed.

(** When the store holds no password at the start, it holds none in any
    state either manager reaches: no call, under any answer of the driver
    and the site, makes a row carry a password. *)
Theorem store_never_gains_a_password (rows : gmap string Store.Row) :
  Shape.no_password rows ->
  (forall s, Shape.reachable rows s -> Shape.no_password (Tenant.db s))
  /\ (forall s, Shape.reachableR rows s -> Shape.no_password (Tenant.db s)).
Proof.
  intros Hrows.
  split; intros s; induction 1 as [|c env s Hr IH]; try exact Hrows.
  - apply (proj1 (no_password_perform env s IH)).
  - apply (proj2 (no_password_perform env s IH)).
Qed.

(** ** The pre-handler of the protected routes *)

Lemma getOrRestore_registered (k : string) (env : Tenant.Env) (s s' : Tenant.State)
    (i : Tenant.Instance) (t : list Event) :
  TenantManagerR.getOrRestoreInstance k env s = (Return (Some i), s', t) ->
  Tenant.instances s' !! k = Some i.
Proof.
  unfold TenantManagerR.getOrRestoreInstance, Tenant.bind at 1, Tenant.getInstance at 1.
  destruct (Tenant.instances s !! k) as [i0|] eqn:Hi; cbn beta iota.
  { unfold Tenant.ret. intros [= <- <- _]. exact Hi. }
  unfold Tenant.bind at 1, Tenant.get. cbn beta iota.
  destruct (Store.findFirst k (Tenant.db s)) as [row|]; [|discriminate].
  unfold Tenant.bind at 1, Tenant.getInstance.
  destruct (TenantManagerR._restoreInstance k row env s) as [[[a|msg] s1] t1]; [|discriminate].
  intros [= H <- _]. exact H.
Qed.

Lemma checkApiKey_allows (apiKey adminApiKey instanceId : option string) (env : Tenant.Env)
    (s s' : Tenant.State) (i : Tenant.Instance) (admin : bool) (t : list Event) :
  Shape.keyed s ->
  Routes.checkApiKey apiKey adminApiKey instanceId env s = (Return (Routes.Allow i admin), s', t) ->
  if admin then apiKey = adminApiKey /\ Js.truthy_opt adminApiKey = true
  else apiKey = Some (Tenant.apiKey i) /\ instanceId = Some (Tenant.id i)
       /\ Tenant.instances s' !! Tenant.apiKey i = Some i.
Proof.
  intros Hkeyed. unfold Routes.checkApiKey.
  destruct (Js.truthy_opt apiKey) eqn:Hk; cbn [negb]; cbn beta iota; [|discriminate].
  destruct (Js.truthy_opt adminApiKey && bool_decide (apiKey = adminApiKey)) eqn:Ha.
  - apply andb_prop in Ha as [Ha1 Ha2]. apply bool_decide_eq_true in Ha2.
    destruct (negb (Js.truthy_opt instanceId)); cbn beta iota; [discriminate|].
    unfold Tenant.bind at 1.
    destruct (TenantManager.listInstances env s) as [[[all|msg] s1] t1]; [|discriminate].
    destruct (List.find _ all) as [data|]; cbn beta iota; [|discriminate].
    unfold Tenant.bind, Tenant.getInstance, Tenant.ret.
    destruct (Tenant.instances s1 !! TenantManager.l_apiKey data); cbn beta iota; [|discriminate].
    intros [= <- <- _ _]. split; assumption.
  - destruct apiKey as [key|]; [|discriminate].
    change (default "" (Some key)) with key.
    unfold Tenant.bind, Tenant.getInstance, Tenant.ret.
    destruct (Tenant.instances s !! key) as [i0|] eqn:Hi; cbn beta iota; [|discriminate].
    destruct (negb (Js.truthy_opt instanceId)); cbn beta iota; [discriminate|].
    destruct (bool_decide (instanceId = Some (Tenant.id i0))) eqn:Hid; cbn [negb]; cbn beta iota; [|discriminate].
    intros [= <- <- <- _]. apply bool_decide_eq_true in Hid.
    pose proof (Hkeyed key i0 Hi) as Hkey. rewrite Hkey.
    split; [reflexivity|]. split; [exact Hid|exact Hi].
Qed.

Lemma checkApiKeyR_allows (apiKey adminApiKey instanceId : option string) (env : Tenant.Env)
    (s s' : Tenant.State) (i : Tenant.Instance) (admin : bool) (t : list Event) :
  Shape.keyed s ->
  Routes.checkApiKeyR apiKey adminApiKey instanceId env s = (Return (Routes.Allow i admin), s', t) ->
  if admin then apiKey = adminApiKey /\ Js.truthy_opt adminApiKey = true
  else apiKey = Some (Tenant.apiKey i) /\ instanceId = Some (Tenant.id i)
       /\ Tenant.instances s' !! Tenant.apiKey i = Some i.
Proof.
  intros Hkeyed. unfold Routes.checkApiKeyR.
  destruct (Js.truthy_opt apiKey) eqn:Hk; cbn [negb]; cbn beta iota; [|discriminate].
  destruct (Js.truthy_opt adminApiKey && bool_decide (apiKey = adminApiKey)) eqn:Ha.
  - apply andb_prop in Ha as [Ha1 Ha2]. apply bool_decide_eq_true in Ha2.
    destruct (negb (Js.truthy_opt instanceId)); cbn beta iota; [discriminate|].
    unfold Tenant.bind at 1.
    destruct (TenantManagerR.listInstances env s) as [[[all|msg] s1] t1]; [|discriminate].
    destruct (List.find _ all) as [data|]; cbn beta iota; [|discriminate].
    unfold Tenant.bind, Tenant.ret.
    destruct (TenantManagerR.getOrRestoreInstance _ env s1) as [[[[i0|]|msg] s2] t2];
      cbn beta iota; try discriminate.
    intros [= <- <- _ _]. split; assumption.
  - destruct apiKey as [key|]; [|discriminate].
    change (default "" (Some key)) with key.
    pose proof (proj2 (keyed_perform env s Hkeyed) (TenantManagerR.GetOrRestoreInstance key))
      as Hkeyed'.
    cbn [TenantManagerR.perform] in Hkeyed'.
    unfold TenantManagerR.forget, Tenant.state in Hkeyed'.
    unfold Tenant.bind, Tenant.ret.
    destruct (TenantManagerR.getOrRestoreInstance key env s) as [[[[i0|]|msg] s2] t2] eqn:Hg;
      cbn [fst snd] in *; cbn beta iota; try discriminate.
    pose proof (getOrRestore_registered _ _ _ _ _ _ Hg) as Hi.
    destruct (negb (Js.truthy_opt instanceId)); cbn beta iota; [discriminate|].
    destruct (bool_decide (instanceId = Some (Tenant.id i0))) eqn:Hid; cbn [negb]; cbn beta iota; [|discriminate].
    intros [= <- <- <- _]. apply bool_decide_eq_true in Hid.
    pose proof (Hkeyed' key i0 Hi) as Hkey. rewrite Hkey.
    split; [reflexivity|]. split; [exact Hid|exact Hi].
Qed.

(** A request that [checkApiKey] lets through without the admin flag is
    served by the session of its own key: the header [x-api-key] is the key
    of the session attached to the request, that session is the one the
    Registry holds under this key, and the [instanceId] of the body is its
    identifier. A request that is let through with the admin flag carries
    the configured admin key in its header. A request without the header is
    answered 401 before the manager is called. This holds for the
    pre-handler of either server. *)
Theorem tenant_key_reaches_only_its_own_session (apiKey adminApiKey instanceId : option string)
    (env : Tenant.Env) (s : Tenant.State) (i : Tenant.Instance) (admin : bool) :
  Shape.keyed s ->
  (forall gate,
     gate = Routes.checkApiKey \/ gate = Routes.checkApiKeyR ->
     Tenant.result (gate apiKey adminApiKey instanceId env s) = Return (Routes.Allow i admin) ->
     if admin then apiKey = adminApiKey /\ Js.truthy_opt adminApiKey = true
     else apiKey = Some (Tenant.apiKey i)
          /\ instanceId = Some (Tenant.id i)
          /\ Tenant.instances (Tenant.state (gate apiKey adminApiKey instanceId env s))
               !! Tenant.apiKey i = Some i)
  /\ (Js.truthy_opt apiKey = false ->
      Routes.checkApiKey apiKey adminApiKey instanceId env s
      = (Return (Routes.Deny 401 "Missing x-api-key header"), s, [])
      /\ Routes.checkApiKeyR apiKey adminApiKey instanceId env s
         = (Return (Routes.Deny 401 "Missing x-api-key header"), s, [])).
Proof.
  intros Hkeyed. split.
  2: { intros Hk. unfold Routes.checkApiKey, Routes.checkApiKeyR. rewrite Hk. split; reflexivity. }
  intros gate Hgate. unfold Tenant.result, Tenant.state.
  destruct (gate apiKey adminApiKey instanceId env s) as [[r s'] t] eqn:E. cbn [fst snd].
  intros ->. destruct Hgate as [-> | ->].
  - exact (checkApiKey_allows _ _ _ _ _ _ _ _ _ Hkeyed E).
  - exact (checkApiKeyR_allows _ _ _ _ _ _ _ _ _ Hkeyed E).
Qed.

(** ** The handlers of login and of close *)

Lemma login_all_invalid (N : Z) (k u p : string) (env : Tenant.Env) (s : Tenant.State)
    (i : Tenant.Instance) (row : Store.Row) :
  1 <= N ->
  Inv.live k i row s ->
  Js.includes (Tenant.e_url env) "login" = true ->
  (forall a, 1 <= a <= N -> Inv.shows_invalid (Tenant.e_attempts env a)) ->
  (exists tr, TenantManager.login k u p N env s = (Return Login.invalid_credentials, s, tr)
              /\ attempts tr = Z.to_nat N)
  /\ (exists tr, TenantManagerR.login k u p N env s = (Return Login.invalid_credentials, s, tr)
                 /\ attempts tr = Z.to_nat N).
Proof.
  intros HN (Hinit & Hsd & Hi & Hd) Hurl Hobs.
  destruct (initialize_done env s Hinit) as [E1 E2].
  pose proof (getOrRestore_live k i env s Hi) as G.
  destruct (Z.to_nat N) as [|n] eqn:Hn; [lia|].
  assert (Hof : Z.of_nat (S n) = N - 1 + 1) by lia.
  split.
  - destruct (login_loop_invalid n 1 N k u p env s Hof Hobs) as (tr & Hl & Ha).
    exists tr. split; [|exact Ha].
    unfold TenantManager.login. unfold Tenant.bind at 1. rewrite E1. cbn beta iota.
    unfold Tenant.bind at 1, Tenant.getInstance. rewrite Hi. cbn beta iota.
    rewrite Hurl, Hn. cbn [negb]. rewrite Hl. reflexivity.
  - destruct (attempt_loop_invalid n 1 N u p (Tenant.e_attempts env) Hof Hobs) as [Hr Ha].
    exists (fst (Login.attempt_loop (S n) 1 N u p (Tenant.e_attempts env))).
    split; [|exact Ha].
    unfold TenantManagerR.login. unfold Tenant.bind at 1. rewrite E2. cbn beta iota.
    unfold Tenant.bind at 1. rewrite G. cbn beta iota.
    rewrite Hurl. cbn [negb]. cbv zeta. unfold Login._attemptLogin. rewrite Hn, Hr.
    unfold Tenant.bind, Tenant.emit, Tenant.ret. cbn. rewrite app_nil_r. reflexivity.
Qed.

Lemma login_no_iteration (N : Z) (k u p : string) (env : Tenant.Env) (s : Tenant.State)
    (i : Tenant.Instance) (row : Store.Row) :
  N <= 0 ->
  Inv.live k i row s ->
  Js.includes (Tenant.e_url env) "login" = true ->
  TenantManager.login k u p N env s = (Return Login.login_failed, s, [])
  /\ TenantManagerR.login k u p N env s = (Return Login.login_failed, s, []).
Proof.
  intros HN (Hinit & Hsd & Hi & Hd) Hurl.
  destruct (initialize_done env s Hinit) as [E1 E2].
  pose proof (getOrRestore_live k i env s Hi) as G.
  assert (Hn : Z.to_nat N = 0%nat) by lia.
  split.
  - unfold TenantManager.login. unfold Tenant.bind at 1. rewrite E1. cbn beta iota.
    unfold Tenant.bind at 1, Tenant.getInstance. rewrite Hi. cbn beta iota.
    rewrite Hurl, Hn. reflexivity.
  - unfold TenantManagerR.login. unfold Tenant.bind at 1. rewrite E2. cbn beta iota.
    unfold Tenant.bind at 1. rewrite G. cbn beta iota.
    rewrite Hurl. cbn [negb]. cbv zeta. unfold Login._attemptLogin. rewrite Hn. reflexivity.
Qed.

(** [POST /login] cannot ask for zero attempts: a body without [retries],
    or with [retries] 0, makes three. On a live session that sits on the
    login view, when the site shows the invalid-credentials indicator each
    time, such a request makes exactly three attempts and is answered 401
    with 'Invalid credentials'. A negative [retries] is passed on as it is:
    no attempt is made, and the answer is 401 with 'Login failed'. *)
Theorem login_route_retries (k u p : string) (retries : option Z) (env : Tenant.Env)
    (s : Tenant.State) (i : Tenant.Instance) (row : Store.Row) :
  Inv.live k i row s ->
  Tenant.apiKey i = k ->
  u <> "" -> p <> "" ->
  Js.includes (Tenant.e_url env) "login" = true ->
  forall login,
    login = TenantManager.login \/ login = TenantManagerR.login ->
    (retries = None \/ retries = Some 0 ->
     (forall a, 1 <= a <= 3 -> Inv.shows_invalid (Tenant.e_attempts env a)) ->
     Tenant.result (Routes.login_handler login i (Some u) (Some p) retries env s)
     = Return (Routes.Answer 401 Login.invalid_credentials)
     /\ attempts (Tenant.trace (Routes.login_handler login i (Some u) (Some p) retries env s))
        = 3%nat)
    /\ (forall r, retries = Some r -> r < 0 ->
        Routes.login_handler login i (Some u) (Some p) retries env s
        = (Return (Routes.Answer 401 Login.login_failed), s, [])).
Proof.
  intros Hlive Hkey Hu Hp Hurl login Hlogin.
  assert (Ht : negb (Js.truthy_opt (Some u)) || negb (Js.truthy_opt (Some p)) = false).
  { destruct u; [contradiction|]. destruct p; [contradiction|]. reflexivity. }
  unfold Routes.login_handler. rewrite Ht, Hkey. cbn [default from_option id].
  split.
  - intros Hr Hobs.
    assert (H3 : Routes.retries_or_3 retries = 3) by (destruct Hr as [-> | ->]; reflexivity).
    rewrite H3.
    destruct (login_all_invalid 3 k u p env s i row ltac:(lia) Hlive Hurl Hobs)
      as [(tr1 & E1 & A1) (tr2 & E2 & A2)].
    destruct Hlogin as [-> | ->]; unfold Tenant.catch, Tenant.bind;
      [rewrite E1|rewrite E2]; cbn; rewrite app_nil_r; split; (reflexivity || assumption).
  - intros r -> Hneg.
    assert (Hr : Routes.retries_or_3 (Some r) = r).
    { unfold Routes.retries_or_3. destruct (r =? 0) eqn:H0; [lia|reflexivity]. }
    rewrite Hr.
    destruct (login_no_iteration r k u p env s i row ltac:(lia) Hlive Hurl) as [E1 E2].
    destruct Hlogin as [-> | ->]; unfold Tenant.catch, Tenant.bind;
      [rewrite E1|rewrite E2]; reflexivity.
Qed.

Lemma closeInstanceR_returns (k : string) (env : Tenant.Env) (s : Tenant.State) :
  exists b, Tenant.result (TenantManagerR.closeInstance k env s) = Return b.
Proof.
  pose proof (proj2 (initialize_returns env s)) as Hinit.
  unfold TenantManagerR.closeInstance, Tenant.result in *.
  unfold Tenant.bind at 1.
  destruct (TenantManagerR.initialize env s) as [[r s1] t1]. cbn [fst] in Hinit. subst r.
  cbn beta iota.
  unfold Tenant.bind, Tenant.getInstance, Tenant.catch, Tenant.drive, Tenant.drive_from,
    Tenant.modify, Tenant.store, Tenant.ret.
  destruct (Tenant.instances s1 !! k) as [i|]; cbn beta iota.
  - destruct (Driver.run _ _ _) as [cs [msg|]]; cbn beta iota;
      destruct (Store.apply _ _ _); cbn; eauto.
  - destruct (Store.apply _ _ _); cbn; eauto.
Qed.

(** In the manager of [src/tenantManager.js] a session that was restored
    from the store cannot be closed. [_restoreInstance] registers a session
    without a browser of its own, and [closeInstance] on such a session
    throws where it reads [instance.browser.close]: nothing is closed, the
    session stays in the Registry, its row stays as it was, and
    [DELETE /instances] answers 500. *)
Theorem closing_a_restored_session_fails (k : string) (env : Tenant.Env) (s : Tenant.State) :
  (forall i row,
     Inv.live k i row s ->
     Tenant.own_browser i = None ->
     TenantManager.closeInstance k env s = (Throw TenantManager.undefined_close, s, [])
     /\ (Tenant.apiKey i = k ->
         Routes.close_handler TenantManager.closeInstance i env s
         = (Return (Routes.Fail 500 "Failed to close instance" None), s, [])))
  /\ (forall row o r s' t,
        TenantManager.restore_row k row o s = (Return r, s', t) ->
        Tenant.own_browser <$> Tenant.instances s' !! k = Some None).
Proof.
  split.
  - intros i row (Hinit & Hsd & Hi & Hd) Hb.
    destruct (initialize_done env s Hinit) as [E1 _].
    assert (E : TenantManager.closeInstance k env s
                = (Throw TenantManager.undefined_close, s, [])).
    { unfold TenantManager.closeInstance. unfold Tenant.bind at 1. rewrite E1. cbn beta iota.
      unfold Tenant.bind at 1, Tenant.getInstance. rewrite Hi. cbn beta iota. rewrite Hb.
      reflexivity. }
    split; [exact E|]. intros Hkey.
    unfold Routes.close_handler, Tenant.catch, Tenant.bind. rewrite Hkey, E. reflexivity.
  - intros row o r s' t.
    unfold TenantManager.restore_row, Tenant.bind, Tenant.get, Tenant.drive, Tenant.drive_from,
      Tenant.modify, Tenant.store, Tenant.ret, Tenant.throw.
    destruct (Tenant.browser s); [|discriminate].
    destruct (Driver.run _ _ _) as [cs [msg|]]; cbn beta iota; [discriminate|].
    cbn [Tenant.db Tenant.with_instances].
    destruct (Store.apply _ _ _); cbn beta iota; [|discriminate].
    intros [= _ <- _]. cbn. rewrite lookup_insert_eq. reflexivity.
Qed.

Lemma delete_missing (k : string) (db : gmap string Store.Row) :
  db !! k = None -> Store.delete (Store.ByApiKey k) db = None.
Proof.
  intros H. unfold Store.delete, Store.has_row.
  rewrite bool_decide_eq_false_2; [reflexivity|]. rewrite H. intros [x Hx]. discriminate Hx.
Qed.

(** What [closeInstance] of the manager that restores on demand returns
    says whether a row was deleted, not whether a session was closed. On an
    initialized manager it returns true exactly when the store had a row
    for the key; either way the key has no session and no row afterwards. A
    live session has its context closed even when the call returns false,
    and a key that is not live is closed without a call of the driver, also
    when the call returns true. *)
Theorem close_returns_whether_a_row_was_deleted (k : string) (env : Tenant.Env)
    (s : Tenant.State) :
  Tenant.initialized s = true ->
  let x := TenantManagerR.closeInstance k env s in
  Tenant.result x = Return (bool_decide (is_Some (Tenant.db s !! k)))
  /\ Tenant.instances (Tenant.state x) !! k = None
  /\ Tenant.db (Tenant.state x) !! k = None
  /\ (forall i, Tenant.instances s !! k = Some i ->
      Drv (Driver.CloseContext (Tenant.context i)) ∈ Tenant.trace x)
  /\ (Tenant.instances s !! k = None -> cmds (Tenant.trace x) = []).
Proof.
  intros Hinit. cbv zeta.
  destruct (initialize_done env s Hinit) as [_ E2].
  assert (E : exists d tr,
             TenantManagerR.closeInstance k env s
             = (Return (bool_decide (is_Some (Tenant.db s !! k))),
                Tenant.with_db d (Tenant.with_instances (delete k) s), tr)
             /\ d !! k = None
             /\ (forall i, Tenant.instances s !! k = Some i ->
                 Drv (Driver.CloseContext (Tenant.context i)) ∈ tr)
             /\ (Tenant.instances s !! k = None -> cmds tr = [])).
  { unfold TenantManagerR.closeInstance. unfold Tenant.bind at 1. rewrite E2. cbn beta iota.
    unfold Tenant.bind at 1, Tenant.getInstance.
    destruct (Tenant.instances s !! k) as [i|] eqn:Hi; cbn beta iota.
    - unfold Tenant.bind, Tenant.catch, Tenant.drive, Tenant.drive_from, Tenant.modify,
        Tenant.store, Tenant.ret, Store.apply.
      cbn [Driver.run].
      destruct (Tenant.db s !! k) as [row|] eqn:Hd.
      + destruct (delete_key k _ _ Hd) as (d & Hdel & Hk).
        rewrite bool_decide_eq_true_2 by eauto.
        exists d. eexists. split; [|split; [exact Hk|split]].
        * destruct (Tenant.e_fails env 0%nat); cbn; rewrite Hdel; reflexivity.
        * intros i' [= <-]. repeat constructor.
        * discriminate.
      + rewrite bool_decide_eq_false_2 by (intros [x Hx]; discriminate Hx).
        exists (Tenant.db s). eexists. split; [|split; [exact Hd|split]].
        * destruct (Tenant.e_fails env 0%nat); cbn; rewrite (delete_missing k _ Hd);
            destruct s; reflexivity.
        * intros i' [= <-]. repeat constructor.
        * discriminate.
    - assert (Hs : Tenant.with_instances (delete k) s = s).
      { destruct s as [ins ini br sd db]. unfold Tenant.with_instances. cbn in *.
        rewrite delete_id by exact Hi. reflexivity. }
      unfold Tenant.bind, Tenant.catch, Tenant.store, Tenant.ret, Store.apply.
      destruct (Tenant.db s !! k) as [row|] eqn:Hd.
      + destruct (delete_key k _ _ Hd) as (d & Hdel & Hk).
        rewrite bool_decide_eq_true_2 by eauto.
        exists d. eexists. split; [|split; [exact Hk|split]].
        * cbn. rewrite Hdel, Hs. reflexivity.
        * discriminate.
        * reflexivity.
      + rewrite bool_decide_eq_false_2 by (intros [x Hx]; discriminate Hx).
        exists (Tenant.db s). eexists. split; [|split; [exact Hd|split]].
        * cbn. rewrite (delete_missing k _ Hd), Hs. destruct s; reflexivity.
        * discriminate.
        * reflexivity. }
  destruct E as (d & tr & -> & Hk & Hctx & Hcmd).
  unfold Tenant.result, Tenant.state, Tenant.trace. cbn [fst snd].
  split; [reflexivity|]. split; [cbn; apply lookup_delete_eq|]. split; [exact Hk|].
  split; assumption.
Qed.

(** [DELETE /instances] of the server that restores on demand always
    answers 200 with the status "closed": [closeInstance] never throws, and
    the handler does not look at what it returns, so the answer is the same
    when [closeInstance] returned false. *)
Theorem close_route_always_answers_closed (i : Tenant.Instance) (env : Tenant.Env)
    (s : Tenant.State) :
  Tenant.result (Routes.close_handler TenantManagerR.closeInstance i env s)
  = Return (Routes.Answer 200 "closed")
  /\ (exists b, Tenant.result (TenantManagerR.closeInstance (Tenant.apiKey i) env s) = Return b)
  /\ (Tenant.initialized s = true -> Tenant.db s !! Tenant.apiKey i = None ->
      Tenant.result (TenantManagerR.closeInstance (Tenant.apiKey i) env s) = Return false).
Proof.
  destruct (closeInstanceR_returns (Tenant.apiKey i) env s) as [b Hb].
  split; [|split; [eauto|]].
  - unfold Routes.close_handler, Tenant.catch, Tenant.bind, Tenant.result in *.
    destruct (TenantManagerR.closeInstance (Tenant.apiKey i) env s) as [[r s1] t1].
    cbn [fst] in Hb. subst r. reflexivity.
  - intros Hinit Hd.
    destruct (initialize_done env s Hinit) as [_ E2].
    unfold TenantManagerR.closeInstance. unfold Tenant.bind at 1. rewrite E2. cbn beta iota.
    unfold Tenant.bind, Tenant.getInstance, Tenant.catch, Tenant.drive, Tenant.drive_from,
      Tenant.modify, Tenant.store, Tenant.ret, Store.apply, Tenant.result.
    destruct (Tenant.instances s !! Tenant.apiKey i) as [i0|]; cbn beta iota.
    + destruct (Driver.run _ _ _) as [cs [msg|]]; cbn beta iota;
        cbn [Tenant.db Tenant.with_instances]; rewrite (delete_missing _ _ Hd); reflexivity.
    + rewrite (delete_missing _ _ Hd). reflexivity.
Qed.

(** ** Creating a session *)

Lemma create_fresh (now : nat) (i k : string) (extra : Store.Data) (db : gmap string Store.Row) :
  db !! k = None ->
  Store.create now (("id", Store.VStr i) :: ("apiKey", Store.VStr k) :: extra) db
  = Some (<[k := Store.set_fields (("id", Store.VStr i) :: ("apiKey", Store.VStr k) :: extra)
                   (Store.mkRow i None None None true now now)]> db).
Proof.
  intros H. unfold Store.create, Store.field. cbn [List.find fst].
  rewrite (bool_decide_eq_true_2 ("id" = "id")) by reflexivity.
  rewrite (bool_decide_eq_false_2 ("id" = "apiKey")) by discriminate.
  rewrite (bool_decide_eq_true_2 ("apiKey" = "apiKey")) by reflexivity.
  cbn [fmap option_fmap option_map snd]. rewrite H. reflexivity.
Qed.

Lemma set_fields_keys (i k : string) (r : Store.Row) :
  Store.set_fields [("id", Store.VStr i); ("apiKey", Store.VStr k)] r = r
  /\ (Store.isActive r = true ->
      Store.set_fields [("id", Store.VStr i); ("apiKey", Store.VStr k);
                        ("isActive", Store.VBool true)] r = r).
Proof.
  destruct r as [i0 u st p a c l]. split; [vm_compute; reflexivity|].
  cbn [Store.isActive]. intros ->. vm_compute. reflexivity.
Qed.

(** [createInstance] writes the row before it opens the page. On an
    initialized manager and for a fresh key, the row of the new session is
    in the store when the call ends, whether it returns or throws; the
    session is in the Registry only when it returns. When the context, the
    page or the navigation fails (in [src/tenantManager.js], also the launch
    of the browser of the session), the call throws and leaves the row
    without a session. When nothing fails it returns the key and the
    identifier, and registers a session that is not logged in. *)
Theorem createInstance_writes_the_row_first (env : Tenant.Env) (s : Tenant.State)
    (k i : string) :
  Tenant.initialized s = true ->
  Tenant.e_uuid env = (k, i) ->
  Tenant.instances s !! k = None ->
  Tenant.db s !! k = None ->
  (forall h, Tenant.browser s = Some h ->
     let x := TenantManagerR.createInstance env s in
     Tenant.db (Tenant.state x) !! k
     = Some (Store.mkRow i None None None true (Tenant.e_now env) (Tenant.e_now env))
     /\ (Tenant.result x = Return (k, i)
         /\ Tenant.instances (Tenant.state x) !! k
            = Some (Tenant.mkInstance i k None (Tenant.e_context env) (Tenant.e_page env)
                      (Tenant.e_now env) None None)
         \/ exists msg, Tenant.result x = Throw msg /\ Tenant.instances (Tenant.state x) !! k = None)
     /\ ((forall j, Tenant.e_fails env j = None) -> Tenant.result x = Return (k, i))
     /\ (forall j msg, (j < 4)%nat -> Tenant.e_fails env j = Some msg ->
         exists msg', Tenant.result x = Throw msg'))
  /\ (let x := TenantManager.createInstance env s in
      Tenant.db (Tenant.state x) !! k
      = Some (Store.mkRow i None None None true (Tenant.e_now env) (Tenant.e_now env))
      /\ (Tenant.result x = Return (k, i)
          /\ (exists h, Tenant.e_relaunch env = Return h
                        /\ Tenant.instances (Tenant.state x) !! k
                           = Some (Tenant.mkInstance i k (Some h) (Tenant.e_context env)
                                     (Tenant.e_page env) (Tenant.e_now env) None None))
          \/ exists msg, Tenant.result x = Throw msg
                         /\ Tenant.instances (Tenant.state x) !! k = None)
      /\ (forall msg, Tenant.e_relaunch env = Throw msg -> Tenant.result x = Throw msg)).
Proof.
  intros Hinit Hu Hi Hd.
  destruct (initialize_done env s Hinit) as [E1 E2].
  split.
  - intros h Hb. cbv zeta.
    pose proof (create_fresh (Tenant.e_now env) i k [] _ Hd) as Hc.
    assert (E : TenantManagerR.createInstance env s
                = let '(cs, r) :=
                    Driver.run (Tenant.e_fails env) 0
                      [Driver.Do (Driver.NewContext None); Driver.Do Driver.NewPage;
                       Driver.Do Driver.Route;
                       Driver.Do (Driver.Goto "https://pro.shalom.pe/login");
                       Driver.Do (Driver.Pause 1500)] in
                  let s1 := Tenant.with_db
                              (<[k := Store.mkRow i None None None true (Tenant.e_now env)
                                        (Tenant.e_now env)]> (Tenant.db s)) s in
                  let w := Db (Store.Create [("id", Store.VStr i); ("apiKey", Store.VStr k)]) in
                  match r with
                  | Some msg => (Throw msg, s1, w :: (Drv <$> cs))
                  | None =>
                      (Return (k, i),
                       Tenant.with_instances
                         <[k := Tenant.mkInstance i k None (Tenant.e_context env)
                                  (Tenant.e_page env) (Tenant.e_now env) None None]> s1,
                       w :: (Drv <$> cs))
                  end).
    { unfold TenantManagerR.createInstance. unfold Tenant.bind at 1. rewrite E2. cbn beta iota.
      unfold Tenant.bind at 1, Tenant.get. cbn beta iota. rewrite Hb, Hu.
      unfold Tenant.bind, Tenant.ret, Tenant.store, Tenant.drive, Tenant.drive_from,
        Tenant.modify, Store.apply.
      rewrite Hc, (proj1 (set_fields_keys i k _)). cbn beta iota.
      destruct (Driver.run _ _ _) as [cs [msg|]]; cbn; rewrite ?app_nil_r; reflexivity. }
    rewrite E. clear E.
    split; [|split; [|split]].
    + destruct (Driver.run _ _ _) as [cs [msg|]]; cbn; apply lookup_insert_eq.
    + destruct (Driver.run _ _ _) as [cs [msg|]]; cbn.
      * right. exists msg. split; [reflexivity|exact Hi].
      * left. split; [reflexivity|apply lookup_insert_eq].
    + intros Hf. cbn. rewrite !Hf. reflexivity.
    + intros j msg Hj Hf. cbn [Driver.run].
      destruct (Tenant.e_fails env 0%nat) as [m0|] eqn:H0; [eexists; reflexivity|].
      destruct (Tenant.e_fails env 1%nat) as [m1|] eqn:H1; [eexists; reflexivity|].
      destruct (Tenant.e_fails env 2%nat) as [m2|] eqn:H2; [eexists; reflexivity|].
      destruct (Tenant.e_fails env 3%nat) as [m3|] eqn:H3; [eexists; reflexivity|].
      exfalso. destruct j as [|[|[|[|j]]]]; congruence || lia.
  - cbv zeta.
    pose proof (create_fresh (Tenant.e_now env) i k [("isActive", Store.VBool true)] _ Hd) as Hc.
    assert (E : TenantManager.createInstance env s
                = let s1 := Tenant.with_db
                              (<[k := Store.mkRow i None None None true (Tenant.e_now env)
                                        (Tenant.e_now env)]> (Tenant.db s)) s in
                  let w := Db (Store.Create [("id", Store.VStr i); ("apiKey", Store.VStr k);
                                             ("isActive", Store.VBool true)]) in
                  match Tenant.e_relaunch env with
                  | Throw msg => (Throw msg, s1, [w; Drv Driver.Launch])
                  | Return h =>
                      let '(cs, r) :=
                        Driver.run (Tenant.e_fails env) 0
                          [Driver.Do (Driver.NewContext None); Driver.Do Driver.NewPage;
                           Driver.Do (Driver.Goto "https://pro.shalom.pe/login");
                           Driver.Do (Driver.Pause 1500)] in
                      match r with
                      | Some msg => (Throw msg, s1, w :: Drv Driver.Launch :: (Drv <$> cs))
                      | None =>
                          (Return (k, i),
                           Tenant.with_instances
                             <[k := Tenant.mkInstance i k (Some h) (Tenant.e_context env)
                                      (Tenant.e_page env) (Tenant.e_now env) None None]> s1,
                           w :: Drv Driver.Launch :: (Drv <$> cs))
                      end
                  end).
    { unfold TenantManager.createInstance. unfold Tenant.bind at 1. rewrite E1. cbn beta iota.
      rewrite Hu.
      unfold Tenant.bind, Tenant.ret, Tenant.store, Tenant.drive, Tenant.drive_from,
        Tenant.modify, Tenant.emit, Tenant.throw, Store.apply.
      rewrite Hc.
      rewrite (proj2 (set_fields_keys i k (Store.mkRow i None None None true (Tenant.e_now env)
                                             (Tenant.e_now env))) eq_refl).
      cbn beta iota.
      destruct (Tenant.e_relaunch env) as [h|msg]; [|reflexivity].
      destruct (Driver.run _ _ _) as [cs [msg|]]; cbn; rewrite ?app_nil_r; reflexivity. }
    rewrite E. clear E.
    split; [|split].
    + destruct (Tenant.e_relaunch env) as [h|msg]; [|cbn; apply lookup_insert_eq].
      destruct (Driver.run _ _ _) as [cs [msg|]]; cbn; apply lookup_insert_eq.
    + destruct (Tenant.e_relaunch env) as [h|msg].
      * destruct (Driver.run _ _ _) as [cs [msg|]]; cbn.
        -- right. exists msg. split; [reflexivity|exact Hi].
        -- left. split; [reflexivity|]. exists h. split; [reflexivity|apply lookup_insert_eq].
      * right. exists msg. split; [reflexivity|exact Hi].
    + intros msg ->. reflexivity.
Qed.

(** ** Logging out, and restoring a session from its row *)

(** [logout] clears the session in the Registry and in the store before it
    navigates back to the login view. On a live session whose cookies and
    storage can be cleared, the username of the session is null and the row
    has neither username nor cached state when the call ends, whether the
    last navigation succeeds (the call returns 'Logged out') or fails (the
    call throws); the other columns of the row are kept. [getStatus] on
    the key then reports a session that is not logged in, whatever the page
    shows. *)
Theorem logout_clears_the_session (k : string) (env : Tenant.Env) (s : Tenant.State)
    (i : Tenant.Instance) (row : Store.Row) :
  Inv.live k i row s ->
  Tenant.e_fails env 0%nat = None ->
  Tenant.e_fails env 1%nat = None ->
  exists s',
    Tenant.instances s' !! k = Some (Tenant.set_username None i)
    /\ Tenant.db s' !! k
       = Some (Store.mkRow (Store.id row) None None (Store.password row) (Store.isActive row)
                 (Store.createdAt row) (Store.lastUsedAt row))
    /\ (forall logout,
          logout = TenantManager.logout \/ logout = TenantManagerR.logout ->
          Tenant.state (logout k env s) = s'
          /\ Tenant.result (logout k env s)
             = match Tenant.e_fails env 2%nat with
               | Some msg => Throw msg
               | None => Return (Login.mkResult true (Some "Logged out") None)
               end
          /\ writes (Tenant.trace (logout k env s))
             = [Store.Update (Store.ByApiKey k)
                  [("username", Store.VNull); ("storageState", Store.VNull)]])
    /\ (forall env',
          Tenant.result (TenantManager.getStatus k env' s')
          = Return (Some (false, None, Tenant.e_url env'))
          /\ Tenant.result (TenantManagerR.getStatus k env' s')
             = Return (Some (TenantManagerR.mkStatus false None (Tenant.e_url env')))).
Proof.
  intros (Hinit & Hsd & Hi & Hd) H0 H1.
  destruct (initialize_done env s Hinit) as [E1 E2].
  destruct (update_key k [("username", Store.VNull); ("storageState", Store.VNull)] _ _ Hd)
    as (d & Hu & Hk & _).
  rewrite (proj1 (proj2 (proj2 (set_fields_row row 0 "" "")))) in Hk.
  set (s' := Tenant.with_db d (Tenant.with_instances (alter (Tenant.set_username None) k) s)).
  assert (Hi' : Tenant.instances s' !! k = Some (Tenant.set_username None i)).
  { subst s'. cbn. rewrite lookup_alter_eq, Hi. reflexivity. }
  exists s'. split; [exact Hi'|]. split; [exact Hk|]. split.
  - assert (E : forall init,
               init env s = (Return (), s, []) ->
               (Tenant.bind (init env)
                  (fun _ =>
                     Tenant.bind (Tenant.getInstance k)
                       (fun instance =>
                          match instance with
                          | None => Tenant.throw "Instance not found"
                          | Some _ =>
                              Tenant.bind
                                (Tenant.drive (Tenant.e_fails env)
                                   [Driver.Do Driver.ClearCookies; Driver.Do Driver.ClearStorage])
                                (fun _ =>
                                   Tenant.bind
                                     (Tenant.modify
                                        (Tenant.with_instances (alter (Tenant.set_username None) k)))
                                     (fun _ =>
                                        Tenant.bind
                                          (Tenant.store (Tenant.e_now env)
                                             (Store.Update (Store.ByApiKey k)
                                                [("username", Store.VNull);
                                                 ("storageState", Store.VNull)]))
                                          (fun _ =>
                                             Tenant.bind
                                               (Tenant.drive_from 2 (Tenant.e_fails env)
                                                  [Driver.Do (Driver.Goto "https://pro.shalom.pe/login")])
                                               (fun _ =>
                                                  Tenant.ret
                                                    (Login.mkResult true (Some "Logged out") None)))))
                          end)) s)
               = (match Tenant.e_fails env 2%nat with
                  | Some msg => Throw msg
                  | None => Return (Login.mkResult true (Some "Logged out") None)
                  end, s',
                  [Drv Driver.ClearCookies; Drv Driver.ClearStorage;
                   Db (Store.Update (Store.ByApiKey k)
                         [("username", Store.VNull); ("storageState", Store.VNull)]);
                   Drv (Driver.Goto "https://pro.shalom.pe/login")])).
    { intros init Einit. unfold Tenant.bind at 1. rewrite Einit. cbn beta iota.
      unfold Tenant.bind at 1, Tenant.getInstance. rewrite Hi. cbn beta iota.
      unfold Tenant.bind, Tenant.drive, Tenant.drive_from, Tenant.modify, Tenant.store,
        Tenant.ret, Store.apply.
      cbn [Driver.run]. rewrite H0, H1. cbn beta iota.
      cbn [Tenant.db Tenant.with_instances]. rewrite Hu. cbn beta iota.
      destruct (Tenant.e_fails env 2%nat); reflexivity. }
    intros logout [-> | ->].
    + unfold TenantManager.logout, TenantManager.instance_not_found.
      rewrite (E _ E1). repeat split.
    + unfold TenantManagerR.logout, TenantManagerR.instance_not_found.
      rewrite (E _ E2). repeat split.
  - intros env'.
    assert (Hinit' : Tenant.initialized s' = true) by exact Hinit.
    destruct (initialize_done env' s' Hinit') as [E1' E2'].
    split.
    + unfold TenantManager.getStatus. unfold Tenant.bind at 1. rewrite E1'. cbn beta iota.
      unfold Tenant.bind, Tenant.getInstance. rewrite Hi'. cbn.
      rewrite andb_false_r. reflexivity.
    + unfold TenantManagerR.getStatus. unfold Tenant.bind at 1. rewrite E2'. cbn beta iota.
      unfold Tenant.bind, Tenant.getInstance. rewrite Hi'. cbn.
      rewrite andb_false_r. reflexivity.
Qed.

Lemma update_by_id (k : string) (data : Store.Data) (db : gmap string Store.Row)
    (row : Store.Row) :
  db !! k = Some row ->
  exists d, Store.update (Store.ById (Store.id row)) data db = Some d
            /\ d !! k = Some (Store.set_fields data row).
Proof.
  intros H. unfold Store.update, Store.has_row.
  rewrite bool_decide_eq_true_2.
  - eexists. split; [reflexivity|].
    rewrite map_lookup_imap, H. cbn. rewrite bool_decide_eq_true_2 by reflexivity. reflexivity.
  - apply Exists_exists. exists (k, row). split; [|reflexivity].
    apply elem_of_map_to_list. exact H.
Qed.

Lemma restore_script_plain (row : Store.Row) (o : Tenant.RestoreObs) :
  Forall (fun b => match b with Driver.Raise _ => False | _ => True end)
         (TenantManagerR.restore_script row o).
Proof.
  unfold TenantManagerR.restore_script.
  destruct (Store.storageState row) as [blob|]; [destruct (Js.truthy blob)|];
    [destruct (Tenant.r_parse_ok o); [destruct (Tenant.r_fails o 0%nat)|]| |];
    repeat constructor.
Qed.

(** A session that is not live is restored from its row on demand. When
    the shared browser is up, the row has no password and the driver does
    not fail, [getOrRestoreInstance] on a key that has a row and no session
    returns a session with the identifier and the creation date of the row,
    and registers it under the key, without a login attempt. The session
    carries the username of the row when the site does not show the login
    view, and none when it does, in which case the row keeps its username
    and its cached state. When the site does not show the login view, the
    state of the new context is written back to the row. *)
Theorem session_is_restored_on_demand (k : string) (env : Tenant.Env) (s : Tenant.State)
    (row : Store.Row) (h : nat) :
  Tenant.browser s = Some h ->
  Tenant.isShuttingDown s = false ->
  Tenant.instances s !! k = None ->
  Tenant.db s !! k = Some row ->
  Js.truthy_opt (Store.password row) = false ->
  (forall j, Tenant.r_fails (Tenant.e_restore env k) j = None) ->
  let o := Tenant.e_restore env k in
  let logged := negb (Js.includes (Tenant.r_url o) "login") in
  let session :=
    Tenant.mkInstance (Store.id row) k None (Tenant.r_context o) (Tenant.r_page o)
      (Store.createdAt row) (if logged then Store.username row else None) None in
  let x := TenantManagerR.getOrRestoreInstance k env s in
  Tenant.result x = Return (Some session)
  /\ Tenant.instances (Tenant.state x) !! k = Some session
  /\ attempts (Tenant.trace x) = 0%nat
  /\ exists row',
       Tenant.db (Tenant.state x) !! k = Some row'
       /\ Store.id row' = Store.id row
       /\ Store.username row' = Store.username row
       /\ (logged = false ->
           row' = Store.mkRow (Store.id row) (Store.username row) (Store.storageState row)
                    (Store.password row) (Store.isActive row) (Store.createdAt row)
                    (Tenant.r_now o))
       /\ (logged = true ->
           forall blob, Tenant.sv_state (Tenant.r_save o) = Some blob ->
           Store.storageState row' = Some blob
           /\ Store.lastUsedAt row' = Tenant.sv_now (Tenant.r_save o)).
Proof.
  intros Hb Hsd Hi Hd Hpw Hf. cbv zeta.
  set (o := Tenant.e_restore env k).
  set (logged := negb (Js.includes (Tenant.r_url o) "login")).
  set (session := Tenant.mkInstance (Store.id row) k None (Tenant.r_context o) (Tenant.r_page o)
                    (Store.createdAt row) (if logged then Store.username row else None) None).
  destruct (update_by_id k [("lastUsedAt", Store.VDate (Tenant.r_now o))] _ _ Hd)
    as (d & Hu & Hk).
  rewrite (proj1 (set_fields_row row (Tenant.r_now o) "" "")) in Hk.
  set (s1 := Tenant.with_db d (Tenant.with_instances <[k := session]> s)).
  assert (Hi1 : Tenant.instances s1 !! k = Some session)
    by (subst s1; cbn; apply lookup_insert_eq).
  assert (Hd1 : Tenant.db s1 !! k = Some _) by exact Hk.
  assert (Hsd1 : Tenant.isShuttingDown s1 = false) by exact Hsd.
  pose proof (save_live k session _ (Tenant.r_save o) s1 Hsd1 Hi1 Hd1
                TenantManagerR._saveStorageState (or_intror eq_refl)) as Hsave.
  cbv zeta in Hsave.
  assert (E : exists s' t,
             TenantManagerR.getOrRestoreInstance k env s = (Return (Some session), s', t)
             /\ Tenant.instances s' !! k = Some session
             /\ attempts t = 0%nat
             /\ ((logged = false /\ s' = s1)
                 \/ (logged = true
                     /\ match Tenant.sv_state (Tenant.r_save o) with
                        | None => s' = s1
                        | Some blob =>
                            exists d', s' = Tenant.with_db d' s1
                                       /\ d' !! k
                                          = Some (Store.set_fields
                                                    [("storageState", Store.VStr blob);
                                                     ("lastUsedAt",
                                                      Store.VDate (Tenant.sv_now (Tenant.r_save o)))]
                                                    (Store.mkRow (Store.id row) (Store.username row)
                                                       (Store.storageState row) (Store.password row)
                                                       (Store.isActive row) (Store.createdAt row)
                                                       (Tenant.r_now o)))
                        end))).
  { assert (Hcond : Js.includes (Tenant.r_url o) "login" && Js.truthy_opt (Store.username row)
                    && Js.truthy_opt (Store.password row) = false).
    { rewrite Hpw. apply andb_false_r. }
    unfold TenantManagerR.getOrRestoreInstance, TenantManagerR._restoreInstance,
      TenantManagerR.restore_row, Tenant.bind, Tenant.getInstance, Tenant.get, Tenant.drive,
      Tenant.drive_from, Tenant.modify, Tenant.store, Tenant.ret, Store.apply, Store.findFirst.
    fold o. cbn beta iota.
    rewrite Hi. cbn beta iota. rewrite Hd. cbn beta iota. rewrite Hb. cbn beta iota.
    rewrite ?Hb. cbn beta iota.
    rewrite (run_quiet _ _ _ Hf (restore_script_plain row o)). cbn beta iota.
    rewrite Hcond. cbn beta iota. fold logged. fold session.
    cbn [Tenant.db Tenant.with_instances]. rewrite Hu. fold s1. cbn beta iota.
    destruct logged eqn:Hl.
    - destruct (Tenant.sv_state (Tenant.r_save o)) as [blob|] eqn:Hblob.
      + destruct Hsave as (d' & Es & Hk'). rewrite Es. cbn beta iota.
        assert (Hi1' : Tenant.instances (Tenant.with_db d' s1) !! k = Some session) by exact Hi1.
        rewrite Hi1'.
        do 2 eexists. split; [reflexivity|]. split; [exact Hi1'|].
        split; [rewrite ?app_nil_r, ?attempts_app, attempts_drv; reflexivity|].
        right. split; [reflexivity|]. exists d'. split; [reflexivity|exact Hk'].
      + rewrite Hsave. cbn beta iota. rewrite Hi1.
        do 2 eexists. split; [reflexivity|]. split; [exact Hi1|].
        split; [rewrite ?app_nil_r, ?attempts_app, attempts_drv; reflexivity|].
        right. split; reflexivity.
    - cbn beta iota. rewrite Hi1.
      do 2 eexists. split; [reflexivity|]. split; [exact Hi1|].
      split; [rewrite ?app_nil_r, ?attempts_app, attempts_drv; reflexivity|].
      left. split; reflexivity. }
  destruct E as (s' & t & -> & Hi' & Hatt & Hcases).
  unfold Tenant.result, Tenant.state, Tenant.trace. cbn [fst snd].
  split; [reflexivity|]. split; [exact Hi'|]. split; [exact Hatt|].
  destruct Hcases as [[Hl ->] | [Hl Hs']].
  - eexists. split; [exact Hk|]. repeat split; congruence.
  - destruct (Tenant.sv_state (Tenant.r_save o)) as [blob|] eqn:Hblob.
    + destruct Hs' as (d' & -> & Hk').
      rewrite (proj1 (proj2 (set_fields_row _ (Tenant.sv_now (Tenant.r_save o)) blob ""))) in Hk'.
      eexists. split; [exact Hk'|]. repeat split; try congruence; cbn; congruence.
    + subst s'. eexists. split; [exact Hk|]. repeat split; congruence.
Qed.

(** ** Start-up *)

Lemma initialize_sets_the_flag (env : Tenant.Env) (s : Tenant.State) :
  Tenant.initialized (Tenant.state (TenantManager.initialize env s)) = true
  /\ (Tenant.isShuttingDown s = false ->
      Tenant.initialized (Tenant.state (TenantManagerR.initialize env s)) = true).
Proof.
  split.
  - unfold TenantManager.initialize, Tenant.bind at 1, Tenant.get. cbn beta iota.
    destruct (Tenant.initialized s) eqn:Hi; [exact Hi|].
    unfold Tenant.catch, Tenant.bind, Tenant.get, Tenant.modify, Tenant.state, Tenant.emit,
      Tenant.ret, Tenant.throw.
    destruct (Tenant.browser s); [|destruct (Tenant.e_launch env); [|reflexivity]];
      cbn beta iota;
      destruct (TenantManager.restore_all _ env _) as [[[[]|m1] s2] t2]; reflexivity.
  - intros Hsd.
    unfold TenantManagerR.initialize, Tenant.bind at 1, Tenant.get. cbn beta iota. rewrite Hsd.
    destruct (Tenant.initialized s) eqn:Hi; [exact Hi|]. cbn [orb].
    unfold Tenant.catch, Tenant.bind, Tenant.get, Tenant.modify, Tenant.state, Tenant.emit,
      Tenant.ret, Tenant.throw.
    destruct (Tenant.browser s); [|destruct (Tenant.e_launch env); [|reflexivity]];
      cbn beta iota;
      destruct (TenantManagerR.restore_all _ env _) as [[[[]|m1] s2] t2]; reflexivity.
Qed.

(** [initialize] does its work once. Whatever happens during the first
    call, it returns and leaves the manager marked as initialized, and any
    later call returns at once, without a command and without a write. A
    launch of the shared browser that fails is therefore never tried again
    by [initialize]: the first call ends with no browser, no session
    restored and nothing written, and the manager counts as initialized. *)
Theorem initialize_runs_once (env env' : Tenant.Env) (s : Tenant.State) :
  Tenant.isShuttingDown s = false ->
  (forall init,
     init = TenantManager.initialize \/ init = TenantManagerR.initialize ->
     Tenant.result (init env s) = Return ()
     /\ Tenant.initialized (Tenant.state (init env s)) = true
     /\ init env' (Tenant.state (init env s)) = (Return (), Tenant.state (init env s), [])
     /\ (forall msg,
           Tenant.initialized s = false -> Tenant.browser s = None ->
           Tenant.e_launch env = Throw msg ->
           init env s = (Return (), Tenant.with_initialized true s, [Drv Driver.Launch]))).
Proof.
  intros Hsd init Hinit.
  destruct (initialize_returns env s) as [R1 R2].
  destruct (initialize_sets_the_flag env s) as [F1 F2]. specialize (F2 Hsd).
  destruct Hinit as [-> | ->].
  - split; [exact R1|]. split; [exact F1|]. split.
    + exact (proj1 (initialize_done env' _ F1)).
    + intros msg Hi Hb Hl.
      unfold TenantManager.initialize, Tenant.bind, Tenant.catch, Tenant.get, Tenant.emit,
        Tenant.throw, Tenant.modify.
      rewrite Hi, Hb, Hl. reflexivity.
  - split; [exact R2|]. split; [exact F2|]. split.
    + exact (proj2 (initialize_done env' _ F2)).
    + intros msg Hi Hb Hl.
      unfold TenantManagerR.initialize, Tenant.bind, Tenant.catch, Tenant.get, Tenant.emit,
        Tenant.throw, Tenant.modify.
      rewrite Hi, Hsd, Hb, Hl. reflexivity.
Qed.

Lemma update_row (w : Store.Where) (data : Store.Data) (db d : gmap string Store.Row)
    (k : string) (r : Store.Row) :
  Store.update w data db = Some d -> db !! k = Some r ->
  d !! k = Some (if Store.selects w k r then Store.set_fields data r else r).
Proof.
  unfold Store.update. destruct (Store.has_row w db); [|discriminate].
  intros [= <-] Hk. rewrite map_lookup_imap, Hk. reflexivity.
Qed.

(** The two updates of start-up (the date of last use, the inactive mark)
    keep what is kept of a closed session. *)
Lemma startup_update_keeps_retired (k : string) (row : Store.Row) (now : nat)
    (w : Store.Where) (data : Store.Data) :
  (exists t, data = [("lastUsedAt", Store.VDate t)]) \/ data = [("isActive", Store.VBool false)] ->
  Inv.keeps (Shape.retired k row) (fun _ => True) (Tenant.store now (Store.Update w data)).
Proof.
  intros Hdata. apply keeps_store; [exact Logic.I|].
  intros s d [Hi (row' & Hk & Ha & Hu & Hs)] Hupd. split; [exact Hi|].
  cbn in Hupd. pose proof (update_row _ _ _ _ _ _ Hupd Hk) as Hk'.
  eexists. split; [exact Hk'|].
  destruct (Store.selects w k row'); [|auto].
  destruct Hdata as [[t ->] | ->].
  - rewrite (proj1 (set_fields_row row' t "" "")). cbn. auto.
  - rewrite (proj2 (proj2 (proj2 (proj2 (set_fields_row row' 0 "" ""))))). cbn. auto.
Qed.

Lemma restore_all_keeps_retired (k : string) (row : Store.Row)
    (rows : list (string * Store.Row)) (env : Tenant.Env) :
  Forall (fun kr => fst kr <> k) rows ->
  Inv.keeps (Shape.retired k row) (fun _ => True) (TenantManager.restore_all rows env).
Proof.
  induction rows as [|[k' r] rows IH]; intros Hrows; simpl; [apply keeps_ret|].
  inversion Hrows as [|? ? Hne Hrest]; subst. simpl in Hne.
  apply keeps_bind; [|intros; exact (IH Hrest)].
  apply keeps_catch; [|intros; apply startup_update_keeps_retired; right; reflexivity].
  apply keeps_bind; [|intros; apply keeps_ret].
  unfold TenantManager.restore_row.
  apply keeps_bind; [apply keeps_get|]. intros s.
  destruct (Tenant.browser s); [|apply keeps_throw].
  apply keeps_bind; [apply keeps_drive_from|]. intros _.
  apply keeps_bind.
  { apply keeps_modify. intros s0 [Hi Hrow]. split; [|exact Hrow].
    cbn. rewrite lookup_insert_ne by exact Hne. exact Hi. }
  intros _.
  apply keeps_bind; [|intros; apply keeps_ret].
  apply startup_update_keeps_retired. left. eexists. reflexivity.
Qed.

Lemma retired_is_not_active (k : string) (row : Store.Row) (s : Tenant.State) :
  Shape.retired k row s ->
  Forall (fun kr => fst kr <> k) (TenantManager.active_rows (Tenant.db s)).
Proof.
  intros [_ (row' & Hk & Ha & _)]. apply Forall_forall. intros [k' r] Hin Heq.
  cbn in Heq. subst k'. unfold TenantManager.active_rows, Store.findMany in Hin.
  apply list_elem_of_In, filter_In in Hin as [Hin Hact].
  apply list_elem_of_In, elem_of_map_to_list in Hin. cbn in Hact.
  rewrite Hk in Hin. injection Hin as <-. rewrite Ha in Hact. discriminate.
Qed.

Lemma initialize_keeps_retired (k : string) (row : Store.Row) (env : Tenant.Env) :
  Inv.keeps (Shape.retired k row) (fun _ => True) (TenantManager.initialize env).
Proof.
  assert (Hflag : forall b, Inv.keeps (Shape.retired k row) (fun _ => True)
                              (Tenant.modify (Tenant.with_initialized b))).
  { intros b. apply keeps_modify. intros s Hs. exact Hs. }
  unfold TenantManager.initialize.
  apply keeps_bind; [apply keeps_get|]. intros s.
  destruct (Tenant.initialized s); [apply keeps_ret|].
  apply keeps_catch; [|intros; apply Hflag].
  apply keeps_bind.
  { destruct (Tenant.browser s); [apply keeps_ret|].
    apply keeps_bind; [apply keeps_emit; constructor|]. intros _.
    destruct (Tenant.e_launch env); [|apply keeps_throw].
    apply keeps_modify. intros s0 Hs0. exact Hs0. }
  intros _. apply keeps_get_bind. intros s' Hs'.
  apply keeps_bind; [|intros; apply Hflag|exact Hs'].
  apply restore_all_keeps_retired, (retired_is_not_active k row), Hs'.
Qed.

(** In the manager of [src/tenantManager.js] a closed session stays closed
    when the process starts again. [closeInstance] keeps the row and marks
    it inactive; [initialize] of the next start restores active rows only,
    so no session is live under the key after it, whatever the driver
    answers, and [login] with the key is refused as 'Instance not found'.
    The row is still in the store, with the username and the cached state
    of the closed session. *)
Theorem closed_session_stays_closed_after_restart (k : string) (env env' : Tenant.Env)
    (s : Tenant.State) (i : Tenant.Instance) (row : Store.Row) (h : nat) :
  Inv.live k i row s ->
  Tenant.own_browser i = Some h ->
  Tenant.e_fails env 0%nat = None ->
  let closed := Tenant.state (TenantManager.closeInstance k env s) in
  let next := Tenant.state (TenantManager.initialize env' (Shape.started (Tenant.db closed))) in
  Shape.retired k row closed
  /\ Shape.retired k row next
  /\ (forall u p retries env2,
        Tenant.result (TenantManager.login k u p retries env2 next)
        = Throw TenantManager.instance_not_found).
Proof.
  intros (Hinit & Hsd & Hi & Hd) Hh Hf. cbv zeta.
  destruct (initialize_done env s Hinit) as [E1 _].
  destruct (update_key k [("isActive", Store.VBool false)] _ _ Hd) as (d & Hu & Hk & _).
  assert (E : TenantManager.closeInstance k env s
              = (Return true, Tenant.with_db d (Tenant.with_instances (delete k) s),
                 [Drv (Driver.CloseBrowser h);
                  Db (Store.Update (Store.ByApiKey k) [("isActive", Store.VBool false)])])).
  { unfold TenantManager.closeInstance. unfold Tenant.bind at 1. rewrite E1. cbn beta iota.
    unfold Tenant.bind at 1, Tenant.getInstance. rewrite Hi. cbn beta iota. rewrite Hh.
    unfold Tenant.bind, Tenant.drive, Tenant.drive_from, Tenant.modify,
      Tenant.store, Tenant.ret, Store.apply.
    cbn [Driver.run]. rewrite Hf. cbn. rewrite Hu. reflexivity. }
  assert (Ec : Tenant.state (TenantManager.closeInstance k env s)
               = Tenant.with_db d (Tenant.with_instances (delete k) s))
    by (rewrite E; reflexivity).
  rewrite Ec.
  change (Tenant.db (Tenant.with_db d (Tenant.with_instances (delete k) s))) with d.
  rewrite (proj2 (proj2 (proj2 (proj2 (set_fields_row row 0 "" ""))))) in Hk.
  assert (Hclosed : Shape.retired k row
                      (Tenant.with_db d (Tenant.with_instances (delete k) s))).
  { split; [cbn; apply lookup_delete_eq|]. eexists. split; [exact Hk|]. cbn. auto. }
  assert (Hstart : Shape.retired k row (Shape.started d)).
  { split; [cbn; apply lookup_empty|]. eexists. split; [exact Hk|]. cbn. auto. }
  pose proof (proj1 (initialize_keeps_retired k row env' _ Hstart)) as Hnext.
  split; [exact Hclosed|]. split; [exact Hnext|].
  intros u p retries env2.
  pose proof (proj1 (initialize_sets_the_flag env' (Shape.started d))) as Hflag.
  destruct (initialize_done env2 _ Hflag) as [E2 _].
  unfold TenantManager.login. unfold Tenant.bind at 1. rewrite E2. cbn beta iota.
  unfold Tenant.bind at 1, Tenant.getInstance. rewrite (proj1 Hnext). reflexivity.
Qed.

(** ** A login that succeeds *)

Lemma attempt_once_navigated (attempt retries : Z) (u p url : string) (o : Login.AttemptObs) :
  snd (Login.attempt_once attempt retries u p o) = Login.Navigated url ->
  url = Login.a_url o /\ Js.includes (Login.a_url o) "login" = false.
Proof.
  unfold Login.attempt_once.
  destruct (Driver.run _ _ _) as [cs [msg|]]; cbn [snd]; [discriminate|].
  destruct (Js.includes (Login.a_url o) "login"); cbn [negb snd].
  - destruct (Login.a_fails o _); cbn [snd]; [discriminate|].
    destruct (Login.has_indicator _); discriminate.
  - intros [= <-]. split; reflexivity.
Qed.

Lemma attempt_once_stays (attempt retries : Z) (u p : string) (o : Login.AttemptObs) :
  Js.includes (Login.a_url o) "login" = true ->
  forall url, snd (Login.attempt_once attempt retries u p o) <> Login.Navigated url.
Proof.
  intros H url E. apply attempt_once_navigated in E as [_ E]. congruence.
Qed.

Lemma attempt_once_navigates (attempt retries : Z) (u p : string) (o : Login.AttemptObs) :
  Shape.navigates o ->
  snd (Login.attempt_once attempt retries u p o) = Login.Navigated (Login.a_url o).
Proof.
  intros (Hf & Hin & Hpw & Hurl).
  unfold Login.attempt_once, Login.attempt_script.
  rewrite Hin, Hpw, Hurl.
  destruct (1 <? attempt), (Login.a_email o), (Login.a_submit o);
    cbn; rewrite ?Hf; cbn; rewrite ?Hf; reflexivity.
Qed.

Lemma attempt_loop_bound (n : nat) (attempt retries : Z) (u p : string)
    (obs : Z -> Login.AttemptObs) :
  (attempts (fst (Login.attempt_loop n attempt retries u p obs)) <= n)%nat.
Proof.
  revert attempt. induction n as [|n IH]; intros attempt; [reflexivity|].
  cbn [Login.attempt_loop].
  pose proof (attempt_once_attempts attempt retries u p (obs attempt)) as Ha.
  specialize (IH (attempt + 1)).
  destruct (Login.attempt_once attempt retries u p (obs attempt)) as [tr r]. cbn [fst] in Ha.
  destruct r as [url| | |msg]; cbn [fst].
  - lia.
  - destruct (attempt <? retries); cbn [fst]; [|lia].
    rewrite attempts_app, attempts_cons_drv. lia.
  - rewrite attempts_app. lia.
  - destruct (attempt =? retries); cbn [fst]; [lia|].
    rewrite attempts_app, attempts_cons_drv. lia.
Qed.

Lemma attempt_loop_success (n : nat) (attempt retries : Z) (u p : string)
    (obs : Z -> Login.AttemptObs) :
  Login.success (snd (Login.attempt_loop n attempt retries u p obs)) = true ->
  exists a,
    attempt <= a < attempt + Z.of_nat n
    /\ Js.includes (Login.a_url (obs a)) "login" = false
    /\ snd (Login.attempt_loop n attempt retries u p obs)
       = Login.mkResult true None (Some (Login.a_url (obs a)))
    /\ attempts (fst (Login.attempt_loop n attempt retries u p obs))
       = Z.to_nat (a - attempt + 1).
Proof.
  revert attempt. induction n as [|n IH]; intros attempt; [discriminate|].
  cbn [Login.attempt_loop].
  pose proof (attempt_once_attempts attempt retries u p (obs attempt)) as Ha.
  pose proof (fun url => attempt_once_navigated attempt retries u p url (obs attempt)) as Hnav.
  specialize (IH (attempt + 1)).
  destruct (Login.attempt_once attempt retries u p (obs attempt)) as [tr r]. cbn [fst snd] in *.
  assert (Hnext : Login.success (snd (Login.attempt_loop n (attempt + 1) retries u p obs)) = true ->
                  forall pre, attempts pre = 1%nat ->
                  exists a,
                    attempt <= a < attempt + Z.of_nat (S n)
                    /\ Js.includes (Login.a_url (obs a)) "login" = false
                    /\ snd (Login.attempt_loop n (attempt + 1) retries u p obs)
                       = Login.mkResult true None (Some (Login.a_url (obs a)))
                    /\ attempts (pre ++ fst (Login.attempt_loop n (attempt + 1) retries u p obs))
                       = Z.to_nat (a - attempt + 1)).
  { intros Hs pre Hpre. destruct (IH Hs) as (a & Hr & Hu & Hres & Hat).
    exists a. split; [lia|]. split; [exact Hu|]. split; [exact Hres|].
    rewrite attempts_app, Hpre, Hat. lia. }
  destruct r as [url| | |msg]; cbn [fst snd].
  - intros _. destruct (Hnav url eq_refl) as [-> Hu].
    exists attempt. split; [lia|]. split; [exact Hu|]. split; [reflexivity|].
    rewrite Ha. replace (attempt - attempt + 1) with 1 by lia. reflexivity.
  - destruct (attempt <? retries); cbn [fst snd]; [|discriminate].
    intros Hs. destruct (Hnext Hs (tr ++ [Drv (Driver.Pause 1000)])) as (a & H).
    { rewrite attempts_app, Ha. reflexivity. }
    exists a. rewrite <- app_assoc in H. exact H.
  - intros Hs. exact (Hnext Hs tr Ha).
  - destruct (attempt =? retries); cbn [fst snd]; [discriminate|].
    intros Hs. destruct (Hnext Hs (tr ++ [Drv (Driver.Pause 1000)])) as (a & H).
    { rewrite attempts_app, Ha. reflexivity. }
    exists a. rewrite <- app_assoc in H. exact H.
Qed.

Lemma attempt_loop_first_navigation (n : nat) (attempt retries a : Z) (u p : string)
    (obs : Z -> Login.AttemptObs) :
  attempt <= a <= retries ->
  a < attempt + Z.of_nat n ->
  Shape.navigates (obs a) ->
  (forall b, attempt <= b < a -> Js.includes (Login.a_url (obs b)) "login" = true) ->
  snd (Login.attempt_loop n attempt retries u p obs)
  = Login.mkResult true None (Some (Login.a_url (obs a)))
  /\ attempts (fst (Login.attempt_loop n attempt retries u p obs)) = Z.to_nat (a - attempt + 1).
Proof.
  revert attempt. induction n as [|n IH]; intros attempt Hr Hn Hnav Hstay; [lia|].
  cbn [Login.attempt_loop].
  pose proof (attempt_once_attempts attempt retries u p (obs attempt)) as Ha.
  destruct (Z.eq_dec attempt a) as [->|Hne].
  - rewrite (surjective_pairing (Login.attempt_once a retries u p (obs a))).
    rewrite (attempt_once_navigates a retries u p (obs a) Hnav). cbn [fst snd].
    split; [reflexivity|]. rewrite Ha. replace (a - a + 1) with 1 by lia. reflexivity.
  - pose proof (attempt_once_stays attempt retries u p (obs attempt)
                  (Hstay attempt ltac:(lia))) as Hno.
    destruct (IH (attempt + 1)) as [IHr IHa];
      [lia|lia|exact Hnav|intros b Hb; apply Hstay; lia|].
    destruct (Login.attempt_once attempt retries u p (obs attempt)) as [tr r].
    cbn [fst snd] in *.
    assert ((attempt <? retries) = true) as Hlt by (apply Z.ltb_lt; lia).
    assert ((attempt =? retries) = false) as Hneq by (apply Z.eqb_neq; lia).
    destruct r as [url| | |msg]; [exfalso; exact (Hno url eq_refl)|..];
      rewrite ?Hlt, ?Hneq; cbn [fst snd]; (split; [exact IHr|]);
      rewrite !attempts_app, ?attempts_cons_drv, Ha, IHa; lia.
Qed.

(** [_attemptLogin] of the revision that restores on demand never opens
    more attempts than [retries] (none when [retries] is below 1, at least
    one otherwise). It reports a success exactly when the page has left the
    login view after one of the attempts; the loop stops at that attempt and
    the result carries the URL read there. When the attempt [a] finds the
    form, submits it without a failure of the driver and leaves the login
    view, and the page was still on the login view after every earlier
    attempt, whatever went wrong in them, the login succeeds at attempt [a]. *)
Theorem attemptLogin_stops_at_the_first_navigation (u p : string) (retries : Z)
    (obs : Z -> Login.AttemptObs) :
  let x := Login._attemptLogin u p retries obs in
  (attempts (fst x) <= Z.to_nat retries)%nat
  /\ (retries < 1 -> x = ([], Login.login_failed))
  /\ (1 <= retries -> (1 <= attempts (fst x))%nat)
  /\ (Login.success (snd x) = true ->
      exists a, 1 <= a <= retries
                /\ Js.includes (Login.a_url (obs a)) "login" = false
                /\ snd x = Login.mkResult true None (Some (Login.a_url (obs a)))
                /\ attempts (fst x) = Z.to_nat a)
  /\ (forall a, 1 <= a <= retries ->
        Shape.navigates (obs a) ->
        (forall b, 1 <= b < a -> Js.includes (Login.a_url (obs b)) "login" = true) ->
        snd x = Login.mkResult true None (Some (Login.a_url (obs a)))
        /\ attempts (fst x) = Z.to_nat a).
Proof.
  cbv zeta. unfold Login._attemptLogin. split; [apply attempt_loop_bound|].
  split.
  { intros H. replace (Z.to_nat retries) with 0%nat by lia. reflexivity. }
  split.
  { intros H. destruct (Z.to_nat retries) as [|n] eqn:E; [lia|].
    cbn [Login.attempt_loop].
    pose proof (attempt_once_attempts 1 retries u p (obs 1)) as Ha.
    destruct (Login.attempt_once 1 retries u p (obs 1)) as [tr r]. cbn [fst] in Ha.
    destruct r as [url| | |msg]; cbn [fst]; [lia| |rewrite attempts_app; lia|].
    - destruct (1 <? retries); cbn [fst]; [rewrite attempts_app|]; lia.
    - destruct (1 =? retries); cbn [fst]; [|rewrite attempts_app]; lia. }
  split.
  { intros Hs. destruct (attempt_loop_success _ _ _ _ _ _ Hs) as (a & Hr & Hu & Hres & Hat).
    exists a. split; [lia|]. split; [exact Hu|]. split; [exact Hres|].
    rewrite Hat. f_equal. lia. }
  intros a Hr Hnav Hstay.
  destruct (attempt_loop_first_navigation (Z.to_nat retries) 1 retries a u p obs)
    as [Hres Hat]; [lia|lia|exact Hnav|exact Hstay|].
  split; [exact Hres|]. rewrite Hat. f_equal. lia.
Qed.

Lemma emit_then {A} (t : list Event) (c : Tenant.M A) (s : Tenant.State) :
  Tenant.result (Tenant.bind (Tenant.emit t) (fun _ => c) s) = Tenant.result (c s)
  /\ Tenant.state (Tenant.bind (Tenant.emit t) (fun _ => c) s) = Tenant.state (c s)
  /\ Tenant.trace (Tenant.bind (Tenant.emit t) (fun _ => c) s) = t ++ Tenant.trace (c s).
Proof.
  unfold Tenant.bind, Tenant.emit. destruct (c s) as [[r s2] t2]. repeat split.
Qed.

Lemma login_success_step (k u : string) (env : Tenant.Env) (i : Tenant.Instance)
    (row : Store.Row) (s : Tenant.State) (r : Login.Result)
    (save : string -> Tenant.SaveObs -> Tenant.M unit) :
  save = TenantManager._saveStorageState \/ save = TenantManagerR._saveStorageState ->
  Tenant.isShuttingDown s = false ->
  Tenant.instances s !! k = Some i ->
  Tenant.db s !! k = Some row ->
  exists s' t,
    Tenant.bind (TenantManager.bind_username k u)
      (fun _ => Tenant.bind
                  (Tenant.store (Tenant.e_now env)
                     (Store.Update (Store.ByApiKey k) [("username", Store.VStr u)]))
                  (fun _ => Tenant.bind (save k (Tenant.e_save env)) (fun _ => Tenant.ret r))) s
    = (Return r, s', t)
    /\ Shape.bound k u env i row s'
    /\ attempts t = 0%nat.
Proof.
  intros Hsave Hsd Hi Hd.
  destruct (update_key k [("username", Store.VStr u)] _ _ Hd) as (d & Hu & Hk & _).
  rewrite (proj1 (proj2 (proj2 (proj2 (set_fields_row row 0 "" u))))) in Hk.
  set (s1 := Tenant.with_db d
               (Tenant.with_instances (alter (Tenant.set_username (Some u)) k) s)).
  assert (Hi1 : Tenant.instances s1 !! k = Some (Tenant.set_username (Some u) i)).
  { cbn. rewrite lookup_alter_eq, Hi. reflexivity. }
  assert (Hd1 : Tenant.db s1 !! k = Some _) by exact Hk.
  assert (Hsd1 : Tenant.isShuttingDown s1 = false) by exact Hsd.
  pose proof (save_live k _ _ (Tenant.e_save env) s1 Hsd1 Hi1 Hd1 save Hsave) as H.
  cbv zeta in H.
  assert (E1 : forall (c : Tenant.M Login.Result),
             Tenant.bind (TenantManager.bind_username k u)
               (fun _ => Tenant.bind
                           (Tenant.store (Tenant.e_now env)
                              (Store.Update (Store.ByApiKey k) [("username", Store.VStr u)]))
                           (fun _ => c)) s
             = let '(r2, s2, t2) := c s1 in
               (r2, s2, Db (Store.Update (Store.ByApiKey k) [("username", Store.VStr u)]) :: t2)).
  { intros c. unfold Tenant.bind at 1, TenantManager.bind_username, Tenant.modify.
    cbn beta iota. unfold Tenant.bind at 1, Tenant.store, Store.apply.
    cbn [Tenant.db Tenant.with_instances]. rewrite Hu. cbn beta iota. fold s1.
    destruct (c s1) as [[r2 s2] t2]. reflexivity. }
  rewrite E1. unfold Tenant.bind, Tenant.ret.
  destruct (Tenant.sv_state (Tenant.e_save env)) as [blob|] eqn:Hb.
  - destruct H as (d' & -> & Hk'). cbn beta iota.
    rewrite (proj1 (proj2 (set_fields_row _ (Tenant.sv_now (Tenant.e_save env)) blob ""))) in Hk'.
    do 2 eexists. split; [reflexivity|]. split; [|reflexivity].
    split; [exact Hi1|]. eexists. split; [exact Hk'|]. cbn.
    split; [reflexivity|]. split; [reflexivity|].
    intros blob' Hb'. rewrite Hb in Hb'. injection Hb' as <-. split; reflexivity.
  - rewrite H. cbn beta iota.
    do 2 eexists. split; [reflexivity|]. split; [|reflexivity].
    split; [exact Hi1|]. eexists. split; [exact Hk|]. cbn.
    split; [reflexivity|]. split; [reflexivity|].
    intros blob' Hb'. rewrite Hb in Hb'. discriminate.
Qed.

Lemma login_loop_first_navigation (n : nat) (attempt retries a : Z) (k u p : string)
    (env : Tenant.Env) (s : Tenant.State) (i : Tenant.Instance) (row : Store.Row) :
  attempt <= a <= retries ->
  a < attempt + Z.of_nat n ->
  Shape.navigates (Tenant.e_attempts env a) ->
  (forall b, attempt <= b < a -> Js.includes (Login.a_url (Tenant.e_attempts env b)) "login" = true) ->
  Tenant.isShuttingDown s = false ->
  Tenant.instances s !! k = Some i ->
  Tenant.db s !! k = Some row ->
  let x := TenantManager.login_loop n attempt retries k u p env s in
  Tenant.result x
  = Return (Login.mkResult true (Some "Login successful")
              (Some (Login.a_url (Tenant.e_attempts env a))))
  /\ Shape.bound k u env i row (Tenant.state x)
  /\ attempts (Tenant.trace x) = Z.to_nat (a - attempt + 1).
Proof.
  intros Hr Hn Hnav Hstay Hsd Hi Hd. cbv zeta.
  revert attempt Hr Hn Hstay. induction n as [|n IH]; intros attempt Hr Hn Hstay; [lia|].
  cbn [TenantManager.login_loop].
  pose proof (attempt_once_attempts attempt retries u p (Tenant.e_attempts env attempt)) as Ha.
  match goal with
  | |- context [Tenant.bind (Tenant.emit ?t) (fun _ => ?c) s] =>
      destruct (emit_then t c s) as (Er & Es & Et)
  end.
  rewrite Er, Es, Et, attempts_app, Ha. clear Er Es Et.
  destruct (Z.eq_dec attempt a) as [->|Hne].
  - rewrite (attempt_once_navigates a retries u p _ Hnav).
    destruct (login_success_step k u env i row s
                (Login.mkResult true (Some "Login successful")
                   (Some (Login.a_url (Tenant.e_attempts env a))))
                TenantManager._saveStorageState (or_introl eq_refl) Hsd Hi Hd)
      as (s' & t & E & Hb & Ht).
    unfold Tenant.catch. rewrite E.
    split; [reflexivity|]. split; [exact Hb|].
    change (1 + attempts t = Z.to_nat (a - a + 1))%nat. rewrite Ht. lia.
  - pose proof (attempt_once_stays attempt retries u p (Tenant.e_attempts env attempt)
                  (Hstay attempt ltac:(lia))) as Hno.
    destruct (IH (attempt + 1)) as (IHr & IHs & IHa);
      [lia|lia|intros b Hb; apply Hstay; lia|].
    assert ((attempt <? retries) = true) as Hlt by (apply Z.ltb_lt; lia).
    assert ((attempt =? retries) = false) as Hneq by (apply Z.eqb_neq; lia).
    destruct (snd (Login.attempt_once attempt retries u p (Tenant.e_attempts env attempt)))
      as [url| | |msg]; [exfalso; exact (Hno url eq_refl)|..]; rewrite ?Hlt, ?Hneq.
    + match goal with
      | |- context [Tenant.bind (Tenant.emit ?t) (fun _ => ?c) s] =>
          destruct (emit_then t c s) as (Er & Es & Et)
      end.
      rewrite Er, Es, Et, IHr, attempts_app, IHa.
      split; [reflexivity|]. split; [exact IHs|].
      change (attempts [Drv (Driver.Pause 1000)]) with 0%nat. lia.
    + rewrite IHr, IHa. split; [reflexivity|]. split; [exact IHs|]. lia.
    + match goal with
      | |- context [Tenant.bind (Tenant.emit ?t) (fun _ => ?c) s] =>
          destruct (emit_then t c s) as (Er & Es & Et)
      end.
      rewrite Er, Es, Et, IHr, attempts_app, IHa.
      split; [reflexivity|]. split; [exact IHs|].
      change (attempts [Drv (Driver.Pause 1000)]) with 0%nat. lia.
Qed.

(** A login succeeds at the first attempt that leaves the login view. On a
    live session whose page is on the login view, when attempt [a] (from 1
    to [retries]) finds the form, submits it without a failure of the driver
    and leaves the login view, and the page was still on the login view after
    every earlier attempt, [login] of both revisions returns
    'Login successful' with the URL read at attempt [a], after exactly [a]
    attempts. The username is then set on the session and on its row, and
    the state of the context is written to the row when the driver returns
    it; the row keeps its id. *)
Theorem login_succeeds_at_the_first_navigation (k u p : string) (retries a : Z)
    (env : Tenant.Env) (s : Tenant.State) (i : Tenant.Instance) (row : Store.Row) :
  Inv.live k i row s ->
  Js.includes (Tenant.e_url env) "login" = true ->
  1 <= a <= retries ->
  Shape.navigates (Tenant.e_attempts env a) ->
  (forall b, 1 <= b < a -> Js.includes (Login.a_url (Tenant.e_attempts env b)) "login" = true) ->
  forall login,
    login = TenantManager.login \/ login = TenantManagerR.login ->
    let x := login k u p retries env s in
    Tenant.result x
    = Return (Login.mkResult true (Some "Login successful")
                (Some (Login.a_url (Tenant.e_attempts env a))))
    /\ attempts (Tenant.trace x) = Z.to_nat a
    /\ Tenant.instances (Tenant.state x) !! k = Some (Tenant.set_username (Some u) i)
    /\ exists row',
         Tenant.db (Tenant.state x) !! k = Some row'
         /\ Store.id row' = Store.id row
         /\ Store.username row' = Some u
         /\ (forall blob, Tenant.sv_state (Tenant.e_save env) = Some blob ->
             Store.storageState row' = Some blob
             /\ Store.lastUsedAt row' = Tenant.sv_now (Tenant.e_save env)).
Proof.
  intros (Hinit & Hsd & Hi & Hd) Hurl Hr Hnav Hstay login [-> | ->]; cbv zeta.
  - destruct (initialize_done env s Hinit) as [E1 _].
    assert (E : TenantManager.login k u p retries env s
                = TenantManager.login_loop (Z.to_nat retries) 1 retries k u p env s).
    { unfold TenantManager.login. unfold Tenant.bind at 1. rewrite E1. cbn beta iota.
      unfold Tenant.bind at 1, Tenant.getInstance. rewrite Hi. cbn beta iota. rewrite Hurl.
      cbn [negb]. destruct (TenantManager.login_loop _ _ _ _ _ _ _ _) as [[r2 s2] t2].
      reflexivity. }
    rewrite E.
    destruct (login_loop_first_navigation (Z.to_nat retries) 1 retries a k u p env s i row)
      as (Hres & Hb & Hat); [lia|lia|exact Hnav|exact Hstay|exact Hsd|exact Hi|exact Hd|].
    split; [exact Hres|]. split; [rewrite Hat; f_equal; lia|]. exact Hb.
  - destruct (initialize_done env s Hinit) as [_ E1].
    destruct (attempt_loop_first_navigation (Z.to_nat retries) 1 retries a u p
                (Tenant.e_attempts env)) as [Hres Hat]; [lia|lia|exact Hnav|exact Hstay|].
    destruct (login_success_step k u env i row s
                (Login.mkResult true (Some "Login successful")
                   (Some (Login.a_url (Tenant.e_attempts env a))))
                TenantManagerR._saveStorageState (or_intror eq_refl) Hsd Hi Hd)
      as (s' & t & E & Hb & Ht).
    assert (E2 : TenantManagerR.login k u p retries env s
                 = (Return (Login.mkResult true (Some "Login successful")
                              (Some (Login.a_url (Tenant.e_attempts env a)))), s',
                    fst (Login._attemptLogin u p retries (Tenant.e_attempts env)) ++ t)).
    { unfold TenantManagerR.login. unfold Tenant.bind at 1. rewrite E1. cbn beta iota.
      unfold Tenant.bind at 1. rewrite (getOrRestore_live k i env s Hi). cbn beta iota.
      rewrite Hurl. cbn [negb]. cbv zeta. unfold Login._attemptLogin. rewrite Hres.
      cbn [Login.success Login.url]. unfold Tenant.bind at 1, Tenant.emit. cbn beta iota.
      change TenantManagerR.bind_username with TenantManager.bind_username.
      rewrite E. reflexivity. }
    rewrite E2. unfold Tenant.result, Tenant.state, Tenant.trace. cbn [fst snd].
    split; [reflexivity|]. split; [|exact Hb].
    unfold Login._attemptLogin. rewrite attempts_app, Hat, Ht. lia.
Qed.

(** ** Shutdown *)

Lemma with_db_same (s : Tenant.State) : Tenant.with_db (Tenant.db s) s = s.
Proof. destruct s. reflexivity. Qed.

Lemma save_any (k : string) (i : Tenant.Instance) (env : Tenant.Env) (s : Tenant.State)
    (save : string -> Tenant.SaveObs -> Tenant.M unit) :
  save = TenantManager._saveStorageState \/ save = TenantManagerR._saveStorageState ->
  Tenant.isShuttingDown s = false ->
  Tenant.instances s !! k = Some i ->
  exists d t,
    save k (Tenant.r_save (Tenant.e_restore env k)) s
    = (Return (), Tenant.with_db d s, Drv Driver.StorageState :: t)
    /\ (forall k', k' <> k -> d !! k' = Tenant.db s !! k')
    /\ d !! k = Shape.saved env k <$> Tenant.db s !! k.
Proof.
  intros Hsave Hsd Hi.
  assert (E : save k (Tenant.r_save (Tenant.e_restore env k)) s
              = Tenant.catch
                  (Tenant.bind (Tenant.emit [Drv Driver.StorageState])
                     (fun _ =>
                        match Tenant.sv_state (Tenant.r_save (Tenant.e_restore env k)) with
                        | None => Tenant.throw "storageState failed"
                        | Some blob =>
                            Tenant.store (Tenant.sv_now (Tenant.r_save (Tenant.e_restore env k)))
                              (Store.Update (Store.ByApiKey k)
                                 [("storageState", Store.VStr blob);
                                  ("lastUsedAt",
                                   Store.VDate
                                     (Tenant.sv_now (Tenant.r_save (Tenant.e_restore env k))))])
                        end))
                  (fun _ => Tenant.ret ()) s).
  { destruct Hsave as [-> | ->].
    - unfold TenantManager._saveStorageState. unfold Tenant.bind at 1, Tenant.getInstance.
      rewrite Hi. cbn beta iota.
      destruct (Tenant.catch _ _ s) as [[r2 s2] t2]. reflexivity.
    - unfold TenantManagerR._saveStorageState. unfold Tenant.bind at 1, Tenant.getInstance.
      rewrite Hi. cbn beta iota. unfold Tenant.bind at 1, Tenant.get. cbn beta iota.
      rewrite Hsd. cbn [andb].
      destruct (Tenant.catch _ _ s) as [[r2 s2] t2]. reflexivity. }
  rewrite E. unfold Shape.saved, Tenant.catch, Tenant.bind, Tenant.emit, Tenant.throw,
    Tenant.store, Tenant.ret, Store.apply.
  destruct (Tenant.sv_state (Tenant.r_save (Tenant.e_restore env k))) as [blob|].
  - destruct (Tenant.db s !! k) as [row|] eqn:Hd.
    + destruct (update_key k [("storageState", Store.VStr blob);
                              ("lastUsedAt",
                               Store.VDate (Tenant.sv_now (Tenant.r_save (Tenant.e_restore env k))))]
                  _ _ Hd) as (d & Hu & Hk & Hother).
      rewrite Hu. cbn beta iota. exists d. eexists. split; [reflexivity|].
      split; [exact Hother|]. rewrite Hk.
      rewrite (proj1 (proj2 (set_fields_row row _ blob ""))). reflexivity.
    + unfold Store.update, Store.has_row.
      rewrite bool_decide_eq_false_2 by (rewrite Hd; intros [? [=]]).
      cbn beta iota. exists (Tenant.db s). eexists.
      rewrite with_db_same. split; [reflexivity|]. split; [reflexivity|exact Hd].
  - cbn beta iota. exists (Tenant.db s). eexists.
    rewrite with_db_same. split; [reflexivity|]. split; [reflexivity|].
    destruct (Tenant.db s !! k); reflexivity.
Qed.

Lemma close_one (k : string) (i : Tenant.Instance) (env : Tenant.Env) (s : Tenant.State)
    (save : string -> Tenant.SaveObs -> Tenant.M unit) :
  save = TenantManager._saveStorageState \/ save = TenantManagerR._saveStorageState ->
  Tenant.isShuttingDown s = false ->
  Tenant.instances s !! k = Some i ->
  exists d t,
    Tenant.catch
      (Tenant.bind (save k (Tenant.r_save (Tenant.e_restore env k)))
         (fun _ => Tenant.drive (Tenant.r_fails (Tenant.e_restore env k))
                     [Driver.Do (Driver.CloseContext (Tenant.context i))]))
      (fun _ => Tenant.ret ()) s
    = (Return (), Tenant.with_db d s, t)
    /\ (forall k', k' <> k -> d !! k' = Tenant.db s !! k')
    /\ d !! k = Shape.saved env k <$> Tenant.db s !! k
    /\ Drv Driver.StorageState ∈ t
    /\ Drv (Driver.CloseContext (Tenant.context i)) ∈ t.
Proof.
  intros Hsave Hsd Hi.
  destruct (save_any k i env s save Hsave Hsd Hi) as (d & t & E & Hother & Hk).
  unfold Tenant.catch, Tenant.bind. rewrite E.
  unfold Tenant.drive, Tenant.drive_from, Tenant.ret. cbn [Driver.run].
  exists d.
  destruct (Tenant.r_fails (Tenant.e_restore env k) 0%nat); cbn beta iota;
    (eexists; split; [reflexivity|]; split; [exact Hother|]; split; [exact Hk|];
     split; [apply list_elem_of_here|]);
    rewrite ?app_nil_r; apply list_elem_of_further, elem_of_app; right; apply list_elem_of_here.
Qed.

Ltac close_all_flushes save_eq :=
  intros live; induction live as [|[k i] live IH]; intros env s Hnd Hsd Hlive;
  [ exists (Tenant.db s), []; rewrite with_db_same;
    split; [reflexivity|]; split; [reflexivity|];
    split; [intros k Hk; apply elem_of_nil in Hk; contradiction|];
    intros k i Hk; apply elem_of_nil in Hk; contradiction
  | cbn [fmap list_fmap fst] in Hnd; apply NoDup_cons in Hnd as [Hk Hnd];
    destruct (close_one k i env s _ save_eq Hsd (Hlive k i (list_elem_of_here _ _)))
      as (d1 & t1 & E1 & Hother1 & Hk1 & Hs1 & Hc1);
    destruct (IH env (Tenant.with_db d1 s) Hnd Hsd
                (fun k' i' H => Hlive k' i' (list_elem_of_further _ _ _ H)))
      as (d2 & t2 & E2 & Hout2 & Hin2 & Htr2);
    exists d2, (t1 ++ t2); split;
    [ simpl; unfold Tenant.bind at 1; rewrite E1; cbn beta iota; rewrite E2; reflexivity |];
    split;
    [ intros k' Hk'; cbn [fmap list_fmap fst] in Hk'; apply not_elem_of_cons in Hk' as [Hne Hk'];
      rewrite (Hout2 k' Hk'); exact (Hother1 k' Hne) |];
    split;
    [ intros k' Hk'; cbn [fmap list_fmap fst] in Hk'; apply elem_of_cons in Hk' as [-> | Hk'];
      [ rewrite (Hout2 k Hk); exact Hk1
      | rewrite (Hin2 k' Hk'); cbn [Tenant.db Tenant.with_db];
        rewrite Hother1 by (intros ->; contradiction); reflexivity ] |];
    intros k' i' Hk'; apply elem_of_cons in Hk' as [[= -> ->] | Hk'];
    [ split; apply elem_of_app; left; assumption
    | destruct (Htr2 k' i' Hk'); split; apply elem_of_app; right; assumption ] ].

Lemma close_all_flushes :
  (forall (live : list (string * Tenant.Instance)) (env : Tenant.Env) (s : Tenant.State),
     NoDup live.*1 ->
     Tenant.isShuttingDown s = false ->
     (forall k i, (k, i) ∈ live -> Tenant.instances s !! k = Some i) ->
     exists d t,
       TenantManager.close_all live env s = (Return (), Tenant.with_db d s, t)
       /\ (forall k, k ∉ live.*1 -> d !! k = Tenant.db s !! k)
       /\ (forall k, k ∈ live.*1 -> d !! k = Shape.saved env k <$> Tenant.db s !! k)
       /\ (forall k i, (k, i) ∈ live ->
           Drv Driver.StorageState ∈ t /\ Drv (Driver.CloseContext (Tenant.context i)) ∈ t))
  /\ (forall (live : list (string * Tenant.Instance)) (env : Tenant.Env) (s : Tenant.State),
        NoDup live.*1 ->
        Tenant.isShuttingDown s = false ->
        (forall k i, (k, i) ∈ live -> Tenant.instances s !! k = Some i) ->
        exists d t,
          TenantManagerR.close_all live env s = (Return (), Tenant.with_db d s, t)
          /\ (forall k, k ∉ live.*1 -> d !! k = Tenant.db s !! k)
          /\ (forall k, k ∈ live.*1 -> d !! k = Shape.saved env k <$> Tenant.db s !! k)
          /\ (forall k i, (k, i) ∈ live ->
              Drv Driver.StorageState ∈ t /\ Drv (Driver.CloseContext (Tenant.context i)) ∈ t)).
Proof.
  split.
  - close_all_flushes
      (or_introl eq_refl : TenantManager._saveStorageState = TenantManager._saveStorageState
                           \/ TenantManager._saveStorageState = TenantManagerR._saveStorageState).
  - close_all_flushes
      (or_intror eq_refl : TenantManagerR._saveStorageState = TenantManager._saveStorageState
                           \/ TenantManagerR._saveStorageState = TenantManagerR._saveStorageState).
Qed.

(** [shutdown] flushes every live session. Of each session in the Registry
    it asks the state of the context and closes the context, whether or not
    either fails; the row of a session whose state the driver returned holds
    that state afterwards, with everything else in it kept, and the rows of
    keys without a session are left as they were. The Registry itself is not
    emptied and the manager stays initialized. It returns with the shared
    browser released, and rejects only when closing that browser fails. *)
Theorem shutdown_flushes_every_live_session (env : Tenant.Env) (s : Tenant.State) :
  Tenant.isShuttingDown s = false ->
  forall shutdown,
    shutdown = TenantManager.shutdown \/ shutdown = TenantManagerR.shutdown ->
    let x := shutdown env s in
    Tenant.instances (Tenant.state x) = Tenant.instances s
    /\ Tenant.initialized (Tenant.state x) = Tenant.initialized s
    /\ (forall k i,
          Tenant.instances s !! k = Some i ->
          Drv Driver.StorageState ∈ Tenant.trace x
          /\ Drv (Driver.CloseContext (Tenant.context i)) ∈ Tenant.trace x
          /\ Tenant.db (Tenant.state x) !! k = Shape.saved env k <$> Tenant.db s !! k)
    /\ (forall k, Tenant.instances s !! k = None ->
        Tenant.db (Tenant.state x) !! k = Tenant.db s !! k)
    /\ (Tenant.result x = Return () /\ Tenant.browser (Tenant.state x) = None
        \/ exists h msg,
             Tenant.browser s = Some h /\ Tenant.e_fails env 0%nat = Some msg
             /\ Tenant.result x = Throw msg /\ Tenant.browser (Tenant.state x) = Some h).
Proof.
  intros Hsd shutdown Hshutdown.
  assert (Hloop : exists d t,
             (shutdown = TenantManager.shutdown /\
              TenantManager.close_all (map_to_list (Tenant.instances s)) env s
              = (Return (), Tenant.with_db d s, t)
              \/ shutdown = TenantManagerR.shutdown /\
                 TenantManagerR.close_all (map_to_list (Tenant.instances s)) env s
                 = (Return (), Tenant.with_db d s, t))
             /\ (forall k, Tenant.instances s !! k = None -> d !! k = Tenant.db s !! k)
             /\ (forall k i, Tenant.instances s !! k = Some i ->
                 d !! k = Shape.saved env k <$> Tenant.db s !! k
                 /\ Drv Driver.StorageState ∈ t
                 /\ Drv (Driver.CloseContext (Tenant.context i)) ∈ t)).
  { assert (Hnd : NoDup (map_to_list (Tenant.instances s)).*1)
      by apply NoDup_fst_map_to_list.
    assert (Hlive : forall k i, (k, i) ∈ map_to_list (Tenant.instances s) ->
                                Tenant.instances s !! k = Some i)
      by (intros k i; apply elem_of_map_to_list).
    assert (Hkeys : forall k i, Tenant.instances s !! k = Some i ->
                                k ∈ (map_to_list (Tenant.instances s)).*1).
    { intros k i Hi. apply list_elem_of_fmap. exists (k, i). split; [reflexivity|].
      apply elem_of_map_to_list. exact Hi. }
    assert (Hnone : forall k, Tenant.instances s !! k = None ->
                              k ∉ (map_to_list (Tenant.instances s)).*1).
    { intros k Hk Hin. apply list_elem_of_fmap in Hin as ([k' i] & -> & Hin).
      apply elem_of_map_to_list in Hin. cbn in Hk. congruence. }
    destruct Hshutdown as [-> | ->].
    - destruct (proj1 close_all_flushes _ env s Hnd Hsd Hlive) as (d & t & E & Hout & Hin & Htr).
      exists d, t. split; [left; split; [reflexivity|exact E]|].
      split; [intros k Hk; apply Hout, Hnone, Hk|].
      intros k i Hi. split; [apply Hin, (Hkeys k i Hi)|].
      apply (Htr k i), elem_of_map_to_list, Hi.
    - destruct (proj2 close_all_flushes _ env s Hnd Hsd Hlive) as (d & t & E & Hout & Hin & Htr).
      exists d, t. split; [right; split; [reflexivity|exact E]|].
      split; [intros k Hk; apply Hout, Hnone, Hk|].
      intros k i Hi. split; [apply Hin, (Hkeys k i Hi)|].
      apply (Htr k i), elem_of_map_to_list, Hi. }
  destruct Hloop as (d & t & Hrun & Hnone & Hsome). cbv zeta.
  assert (E : shutdown env s
              = match Tenant.browser s with
                | Some h =>
                    match Tenant.e_fails env 0%nat with
                    | Some msg => (Throw msg, Tenant.with_db d s, t ++ [Drv (Driver.CloseBrowser h)])
                    | None =>
                        (Return (), Tenant.with_browser None (Tenant.with_db d s),
                         t ++ [Drv (Driver.CloseBrowser h)] ++ [])
                    end
                | None => (Return (), Tenant.with_db d s, t ++ [])
                end).
  { destruct Hrun as [[-> E] | [-> E]].
    - unfold TenantManager.shutdown. unfold Tenant.bind at 1, Tenant.get. cbn beta iota.
      unfold Tenant.bind at 1. rewrite E. cbn beta iota.
      unfold Tenant.bind at 1. cbn beta iota. cbn [Tenant.browser Tenant.with_db].
      destruct (Tenant.browser s) as [h|]; [|reflexivity].
      unfold Tenant.bind, Tenant.drive, Tenant.drive_from, Tenant.modify. cbn [Driver.run].
      destruct (Tenant.e_fails env 0%nat); reflexivity.
    - unfold TenantManagerR.shutdown. unfold Tenant.bind at 1, Tenant.get. cbn beta iota.
      unfold Tenant.bind at 1. rewrite E. cbn beta iota.
      unfold Tenant.bind at 1. cbn beta iota. cbn [Tenant.browser Tenant.with_db].
      destruct (Tenant.browser s) as [h|]; [|reflexivity].
      unfold Tenant.bind, Tenant.drive, Tenant.drive_from, Tenant.modify. cbn [Driver.run].
      destruct (Tenant.e_fails env 0%nat); reflexivity. }
  rewrite E. clear E Hrun.
  assert (Htrace : forall e t', e ∈ t -> e ∈ t ++ t')
    by (intros e t' He; apply elem_of_app; left; exact He).
  destruct (Tenant.browser s) as [h|] eqn:Hb; [destruct (Tenant.e_fails env 0%nat) as [msg|] eqn:Hf|];
    unfold Tenant.result, Tenant.state, Tenant.trace; cbn [fst snd];
    (split; [reflexivity|]); (split; [reflexivity|]);
    (split; [intros k i Hi; destruct (Hsome k i Hi) as (Hk & Hs & Hc);
             split; [apply Htrace, Hs|]; split; [apply Htrace, Hc|exact Hk]|]);
    (split; [exact Hnone|]).
  - right. exists h, msg. repeat split; try reflexivity. exact Hb.
  - left. split; reflexivity.
  - left. split; [reflexivity|exact Hb].
Qed.

(** ** A registration that fails *)

(** When a step of the workflow fails, the two revisions report it
    differently. [registerShipment] of [src/tenantManager.js] rejects with
    the driver's message. The revision that restores on demand takes a
    screenshot and returns the failure object, with the message as [error]
    and 'Registration failed' as [details]: for a key with a live session it
    never rejects, whatever the driver and the site answer. In both, a
    failure among the steps leaves the manager and the store as they were. *)
Theorem failed_registration_is_thrown_or_reported (k : string) (d : Shipment.Data)
    (env : Tenant.Env) (s : Tenant.State) (i : Tenant.Instance) :
  Tenant.initialized s = true ->
  Tenant.instances s !! k = Some i ->
  (exists r, Tenant.result (TenantManagerR.registerShipment k d env s) = Return r)
  /\ (forall msg,
        snd (Driver.run (Tenant.e_fails env) 0 (TenantManagerR.shipment_script d env)) = Some msg ->
        let x := TenantManagerR.registerShipment k d env s in
        Tenant.result x
        = Return (Shipment.mkResult false None None None (Some msg) (Some "Registration failed"))
        /\ Tenant.state x = s
        /\ writes (Tenant.trace x) = []
        /\ Drv Driver.Screenshot ∈ Tenant.trace x)
  /\ (forall msg,
        snd (Driver.run (Tenant.e_fails env) 0 (TenantManager.shipment_script d env)) = Some msg ->
        let x := TenantManager.registerShipment k d env s in
        Tenant.result x = Throw msg
        /\ Tenant.state x = s
        /\ writes (Tenant.trace x) = []).
Proof.
  intros Hinit Hi.
  destruct (initialize_done env s Hinit) as [E1 E1R].
  assert (ER : TenantManagerR.registerShipment k d env s
               = Tenant.catch (TenantManagerR.shipment_body k d env)
                   (fun msg =>
                      Tenant.bind (Tenant.emit [Drv Driver.Screenshot])
                        (fun _ => Tenant.ret
                                    (Shipment.mkResult false None None None (Some msg)
                                       (Some "Registration failed")))) s).
  { unfold TenantManagerR.registerShipment. unfold Tenant.bind at 1. rewrite E1R.
    cbn beta iota. unfold Tenant.bind at 1. rewrite (getOrRestore_live k i env s Hi).
    cbn beta iota. destruct (Tenant.catch _ _ s) as [[r2 s2] t2]. reflexivity. }
  split; [|split].
  - rewrite ER. unfold Tenant.catch.
    destruct (TenantManagerR.shipment_body k d env s) as [[[r|msg] s2] t2]; cbn; eauto.
  - intros msg Hrun. cbv zeta. rewrite ER.
    assert (Eb : exists cs, TenantManagerR.shipment_body k d env s = (Throw msg, s, Drv <$> cs)).
    { unfold TenantManagerR.shipment_body. cbv zeta.
      unfold Tenant.bind at 1, Tenant.drive, Tenant.drive_from.
      destruct (Driver.run (Tenant.e_fails env) 0 (TenantManagerR.shipment_script d env))
        as [cs r]. cbn [snd] in Hrun. subst r. exists cs. reflexivity. }
    destruct Eb as [cs Eb]. unfold Tenant.catch. rewrite Eb.
    unfold Tenant.bind, Tenant.emit, Tenant.ret. cbn beta iota.
    unfold Tenant.result, Tenant.state, Tenant.trace. cbn [fst snd].
    split; [reflexivity|]. split; [reflexivity|].
    split; [rewrite writes_app, writes_drv; reflexivity|].
    apply elem_of_app. right. apply list_elem_of_here.
  - intros msg Hrun. cbv zeta.
    assert (E : exists cs, TenantManager.registerShipment k d env s = (Throw msg, s, Drv <$> cs)).
    { unfold TenantManager.registerShipment. unfold Tenant.bind at 1. rewrite E1.
      cbn beta iota. unfold Tenant.bind at 1, Tenant.getInstance. rewrite Hi. cbn beta iota.
      unfold Tenant.bind at 1, Tenant.drive, Tenant.drive_from.
      destruct (Driver.run (Tenant.e_fails env) 0 (TenantManager.shipment_script d env))
        as [cs r]. cbn [snd] in Hrun. subst r. exists cs. reflexivity. }
    destruct E as [cs E]. rewrite E.
    unfold Tenant.result, Tenant.state, Tenant.trace. cbn [fst snd].
    split; [reflexivity|]. split; [reflexivity|apply writes_drv].
Qed.

(** ** The shutdown flag *)

(** No operation of either manager sets [isShuttingDown]: it is false in
    every state reached from a start, whatever the calls. So the guards on
    it never fire: [initialize] of a manager that is not initialized always
    goes on to the store, and [_saveStorageState] always asks a live
    session's context for its state. *)
Theorem shutdown_flag_is_never_set (rows : gmap string Store.Row) (s : Tenant.State) :
  (Shape.reachable rows s -> Tenant.isShuttingDown s = false)
  /\ (Shape.reachableR rows s ->
      Tenant.isShuttingDown s = false
      /\ forall k i o,
           Tenant.instances s !! k = Some i ->
           Drv Driver.StorageState ∈ Tenant.trace (TenantManagerR._saveStorageState k o s)).
Proof.
  assert (HR : Shape.reachableR rows s -> Tenant.isShuttingDown s = false).
  { induction 1 as [|c env s Hs IH]; [reflexivity|].
    apply (stable_performR (fun s => Tenant.isShuttingDown s = false)); auto. }
  split.
  - clear HR. induction 1 as [|c env s Hs IH]; [reflexivity|].
    apply (stable_perform (fun s => Tenant.isShuttingDown s = false)); auto.
  - intros Hs. split; [exact (HR Hs)|]. intros k i o Hi.
    unfold TenantManagerR._saveStorageState, Tenant.bind, Tenant.getInstance, Tenant.get,
      Tenant.catch, Tenant.emit, Tenant.throw, Tenant.store.
    rewrite Hi, (HR Hs). cbn [andb].
    destruct (Tenant.sv_state o); [destruct (Store.apply _ _ _)|]; apply list_elem_of_here.
Qed.

(** ** The shape of a scraped entry *)

Lemma group_shape (p : ascii -> bool) (s g : string) :
  Scrape.group p s = Some g -> Js.truthy g = true /\ Js.all_chars p g = true.
Proof.
  unfold Scrape.group. pose proof (take_while_all p s) as H.
  destruct (Scan.take_while p s) as [a b]. cbn [fst] in H.
  destruct (Js.truthy a) eqn:Ht; [|discriminate]. intros [= <-]. split; assumption.
Qed.

Lemma order_shape (text o : string) :
  Scan.first_match Scrape.order_at text = Some o ->
  Js.truthy o = true /\ Js.all_chars Js.is_digit o = true.
Proof.
  intros H. apply first_match_Some in H as [s H]. unfold Scrape.order_at in H.
  destruct (Scrape.strip_ci _ s); [|discriminate]. exact (group_shape _ _ _ H).
Qed.

Lemma code_shape (text : string) :
  let c := default "N/A" (Scan.first_match Scrape.code_at text) in
  Js.truthy c = true /\ (c = "N/A" \/ Js.all_chars Scrape.is_alnum c = true).
Proof.
  cbv zeta. destruct (Scan.first_match Scrape.code_at text) as [c|] eqn:H; cbn [default].
  - apply first_match_Some in H as [s H]. unfold Scrape.code_at in H.
    destruct (Scrape.strip_ci _ s); [|discriminate].
    destruct (group_shape _ _ _ H). auto.
  - split; [reflexivity|left; reflexivity].
Qed.

Lemma cost_shape (text : string) :
  let c := default "0.00" (Scan.first_match Scrape.cost_at text) in
  Js.truthy c = true /\ Js.all_chars Scan.is_digit_or_dot c = true.
Proof.
  cbv zeta. destruct (Scan.first_match Scrape.cost_at text) as [c|] eqn:H; cbn [default].
  - apply first_match_Some in H as [s H]. unfold Scrape.cost_at in H.
    destruct (Scan.strip "S/" s) as [[|ch s2]|]; [discriminate| |discriminate].
    destruct (decide (ch = Scan.dot)).
    + destruct (Scrape.group Scan.is_digit_or_dot (Scan.skip_space s2)) as [g|] eqn:Hg.
      * injection H as <-. exact (group_shape _ _ _ Hg).
      * exact (group_shape _ _ _ H).
    + exact (group_shape _ _ _ H).
  - split; reflexivity.
Qed.

Lemma exists_order_false (o : string) (results : list Scrape.Entry) :
  Scrape.exists_order o results = false -> o ∉ Scrape.orderNumber <$> results.
Proof.
  unfold Scrape.exists_order. intros H Hin.
  apply list_elem_of_fmap in Hin as (e & -> & He).
  assert (Scrape.exists_order (Scrape.orderNumber e) results = true) as Ht.
  { apply existsb_exists. exists e. split; [apply list_elem_of_In, He|].
    apply bool_decide_eq_true_2. reflexivity. }
  unfold Scrape.exists_order in Ht. congruence.
Qed.

Lemma collect_distinct (labels : list (Dom.Node * list Dom.Node)) (results : list Scrape.Entry) :
  NoDup (Scrape.orderNumber <$> results) ->
  NoDup (Scrape.orderNumber <$> foldl Scrape.visit results labels).
Proof.
  revert results. induction labels as [|l labels IH]; intros results Hres; simpl; [exact Hres|].
  apply IH. unfold Scrape.visit.
  destruct (Scrape.find_container 6 (snd l)) as [[container above]|]; [|exact Hres].
  destruct (Scan.first_match Scrape.order_at _) as [o|]; [|exact Hres].
  destruct (negb (Scrape.isDeleted container above)); cbn [andb]; [|exact Hres].
  destruct (Scrape.exists_order o results) eqn:He; cbn [negb]; [exact Hres|].
  rewrite fmap_app. apply NoDup_app. split; [exact Hres|]. split.
  - intros x Hx Hin. cbn in Hin. apply list_elem_of_singleton in Hin. subst x.
    exact (exists_order_false o results He Hx).
  - cbn. apply NoDup_singleton.
Qed.

(** Every entry the scrape of the pending shipments collects is well formed,
    whatever the page: the order number is a non-empty string of digits, the
    code is 'N/A' or a non-empty string of ASCII letters and digits, and the
    cost is a non-empty string of digits and dots ('0.00' when the card shows
    none). No two collected entries have the same order number, and the
    entry the scrape returns is one of them. *)
Theorem scraped_entries_are_well_formed (doc : Dom.Node) :
  Forall (fun e =>
            (Js.truthy (Scrape.orderNumber e) = true
             /\ Js.all_chars Js.is_digit (Scrape.orderNumber e) = true)
            /\ (Js.truthy (Scrape.code e) = true
                /\ (Scrape.code e = "N/A" \/ Js.all_chars Scrape.is_alnum (Scrape.code e) = true))
            /\ (Js.truthy (Scrape.cost e) = true
                /\ Js.all_chars Scan.is_digit_or_dot (Scrape.cost e) = true))
         (Scrape.collect doc)
  /\ NoDup (Scrape.orderNumber <$> Scrape.collect doc)
  /\ Scrape.shipments doc ⊆ Scrape.collect doc.
Proof.
  split; [|split].
  - assert (Hlive : Forall (Scrape.from_live_card (Scrape.orderLabels doc)) (Scrape.collect doc)).
    { apply collect_live; [done|constructor]. }
    eapply Forall_impl; [exact Hlive|].
    intros e (label & container & above & _ & _ & _ & Ho & Hc & Hp).
    split; [exact (order_shape _ _ Ho)|].
    split; [rewrite Hc; apply code_shape|rewrite Hp; apply cost_shape].
  - apply collect_distinct. constructor.
  - unfold Scrape.shipments. destruct (last (Scrape.collect doc)) as [e|] eqn:Hl.
    + intros x Hx. apply list_elem_of_singleton in Hx. subst x.
      apply last_Some in Hl as [l' ->]. apply elem_of_app. right. apply list_elem_of_here.
    + intros x Hx. apply elem_of_nil in Hx. contradiction.
Qed.

(** ** The theorems at concrete inputs *)

Lemma C3_unknown_key_witness :
  Inv.absent "key-9" one_session
  /\ TenantManagerR.getOrRestoreInstance "key-9" quiet one_session = (Return None, one_session, [])
  /\ Tenant.result (TenantManagerR.logout "key-9" quiet one_session)
     = Throw TenantManagerR.instance_not_found.
Proof.
  assert (H : Inv.absent "key-9" one_session) by (split; vm_compute; reflexivity).
  destruct (C3_unknown_key "key-9" quiet one_session H) as (H1 & _ & H2 & _).
  split; [exact H|]. split; [exact H1|exact H2].
Defined.

Lemma C4_login_when_already_authenticated_witness :
  Inv.live "key-1" ana (Store.mkRow "id-1" (Some "ana@x.com") None None true 0 0) one_session
  /\ Js.includes (Tenant.e_url quiet) "login" = false
  /\ Tenant.result (TenantManager.login "key-1" "bob@x.com" "secret" 3 quiet one_session)
     = Return (Login.mkResult true (Some "Already logged in")
                 (Some "https://pro.shalom.pe/#/home"))
  /\ cmds (Tenant.trace (TenantManager.login "key-1" "bob@x.com" "secret" 3 quiet one_session))
     = [Driver.StorageState]
  /\ Tenant.instances
       (Tenant.state (TenantManager.login "key-1" "bob@x.com" "secret" 3 quiet one_session))
       !! "key-1" = Some ana.
Proof.
  assert (H1 : Inv.live "key-1" ana
                 (Store.mkRow "id-1" (Some "ana@x.com") None None true 0 0) one_session)
    by (repeat split; vm_compute; reflexivity).
  assert (H2 : Js.includes (Tenant.e_url quiet) "login" = false) by reflexivity.
  destruct (C4_login_when_already_authenticated "key-1" "bob@x.com" "secret" 3 quiet
              one_session ana _ H1 H2 TenantManager.login (or_introl eq_refl))
    as (Hr & _ & Hc & _ & Hi & _).
  split; [exact H1|]. split; [exact H2|]. split; [exact Hr|]. split; [exact Hc|exact Hi].
Defined.

Lemma C5_invalid_credentials_after_N_attempts_witness :
  Inv.live "key-1" ana (Store.mkRow "id-1" (Some "ana@x.com") None None true 0 0) one_session
  /\ Js.includes (Tenant.e_url at_login) "login" = true
  /\ 1 <= 2
  /\ (forall a, 1 <= a <= 2 -> Inv.shows_invalid (Tenant.e_attempts at_login a))
  /\ Tenant.result (TenantManager.login "key-1" "user@x.com" "wrong" 2 at_login one_session)
     = Return Login.invalid_credentials
  /\ attempts (Tenant.trace
                 (TenantManager.login "key-1" "user@x.com" "wrong" 2 at_login one_session))
     = 2%nat
  /\ issued Login.submits
       (Tenant.trace (TenantManager.login "key-1" "user@x.com" "wrong" 2 at_login one_session))
     = 2%nat.
Proof.
  assert (H0 : 1 <= 2) by lia.
  assert (H1 : Inv.live "key-1" ana
                 (Store.mkRow "id-1" (Some "ana@x.com") None None true 0 0) one_session)
    by (repeat split; vm_compute; reflexivity).
  assert (H2 : Js.includes (Tenant.e_url at_login) "login" = true) by reflexivity.
  assert (H3 : forall a, 1 <= a <= 2 -> Inv.shows_invalid (Tenant.e_attempts at_login a))
    by (intros a _; repeat split; reflexivity).
  destruct (C5_invalid_credentials_after_N_attempts 2 "key-1" "user@x.com" "wrong" at_login
              one_session ana _ H1 H2) as [H _].
  destruct (H TenantManager.login (or_introl eq_refl)) as [Hinv _].
  destruct (Hinv H0 H3) as (Hr & _ & _ & Ha & _ & _ & Hs & _).
  split; [exact H1|]. split; [exact H2|]. split; [exact H0|]. split; [exact H3|].
  split; [exact Hr|]. split; [exact Ha|exact Hs].
Defined.


Lemma agency_result_is_the_first_match_witness :
  Agency.getAgencies agency_obs idle
  = (Agency.Returned (Agency.JArray [Agency.JString "Lima"]), Agency.mkService (Some 1%nat) false,
     [Agency.Did Agency.Launch; Agency.Did Agency.NewContext; Agency.Did Agency.NewPage;
      Agency.Did Agency.Route; Agency.Did Agency.On; Agency.Did Agency.Goto;
      Agency.Did Agency.Off; Agency.Did Agency.ClosePage; Agency.Did Agency.CloseContext])
  /\ Agency.apiResult (Agency.responses agency_obs) = Some (Agency.JArray [Agency.JString "Lima"]).
Proof.
  assert (H : Agency.getAgencies agency_obs idle
              = (Agency.Returned (Agency.JArray [Agency.JString "Lima"]),
                 Agency.mkService (Some 1%nat) false,
                 [Agency.Did Agency.Launch; Agency.Did Agency.NewContext;
                  Agency.Did Agency.NewPage; Agency.Did Agency.Route; Agency.Did Agency.On;
                  Agency.Did Agency.Goto; Agency.Did Agency.Off; Agency.Did Agency.ClosePage;
                  Agency.Did Agency.CloseContext])) by (vm_compute; reflexivity).
  destruct (agency_result_is_the_first_match _ _ _ _ _ H) as (_ & _ & Hr & _).
  split; [exact H|exact Hr].
Defined.

Lemma store_never_gains_a_password_witness :
  Shape.no_password {[ "key-1" := plain_row ]}
  /\ Shape.no_password
       (Tenant.db (fst (TenantManagerR.perform
                          (TenantManagerR.LoginCall "key-1" "ana@x.com" "s3cret" 3) second_try
                          (Shape.started {[ "key-1" := plain_row ]})))).
Proof.
  assert (H : Shape.no_password {[ "key-1" := plain_row ]}).
  { intros k row Hk. apply lookup_singleton_Some in Hk as [_ <-]. reflexivity. }
  split; [exact H|].
  apply (proj2 (store_never_gains_a_password _ H)).
  apply Shape.reachR_call, Shape.reachR_start.
Defined.

Lemma tenant_key_reaches_only_its_own_session_witness :
  Shape.keyed one_session
  /\ Tenant.result (Routes.checkApiKey (Some "key-1") (Some "admin-key") (Some "id-1") quiet
                      one_session)
     = Return (Routes.Allow ana false)
  /\ Some "key-1" = Some (Tenant.apiKey ana)
  /\ Some "id-1" = Some (Tenant.id ana).
Proof.
  assert (H : Shape.keyed one_session).
  { intros k i Hk.
    change (({[ "key-1" := ana ]} : gmap string Tenant.Instance) !! k = Some i) in Hk.
    apply lookup_singleton_Some in Hk as [<- <-]. reflexivity. }
  assert (Hr : Tenant.result (Routes.checkApiKey (Some "key-1") (Some "admin-key") (Some "id-1")
                                quiet one_session)
               = Return (Routes.Allow ana false)) by (vm_compute; reflexivity).
  destruct (tenant_key_reaches_only_its_own_session (Some "key-1") (Some "admin-key")
              (Some "id-1") quiet one_session ana false H) as [Hgate _].
  destruct (Hgate Routes.checkApiKey (or_introl eq_refl) Hr) as (Hk & Hid & _).
  split; [exact H|]. split; [exact Hr|]. split; [exact Hk|exact Hid].
Defined.

Lemma login_route_retries_witness :
  Inv.live "key-1" ana (Store.mkRow "id-1" (Some "ana@x.com") None None true 0 0) one_session
  /\ Js.includes (Tenant.e_url at_login) "login" = true
  /\ (forall a, 1 <= a <= 3 -> Inv.shows_invalid (Tenant.e_attempts at_login a))
  /\ Tenant.result (Routes.login_handler TenantManagerR.login ana (Some "user@x.com")
                      (Some "wrong") None at_login one_session)
     = Return (Routes.Answer 401 Login.invalid_credentials)
  /\ attempts (Tenant.trace (Routes.login_handler TenantManagerR.login ana (Some "user@x.com")
                               (Some "wrong") None at_login one_session))
     = 3%nat.
Proof.
  assert (H1 : Inv.live "key-1" ana
                 (Store.mkRow "id-1" (Some "ana@x.com") None None true 0 0) one_session)
    by (repeat split; vm_compute; reflexivity).
  assert (H2 : Js.includes (Tenant.e_url at_login) "login" = true) by reflexivity.
  assert (H3 : forall a, 1 <= a <= 3 -> Inv.shows_invalid (Tenant.e_attempts at_login a))
    by (intros a _; repeat split; reflexivity).
  assert (Hu : "user@x.com" <> "") by discriminate.
  assert (Hp : "wrong" <> "") by discriminate.
  destruct (login_route_retries "key-1" "user@x.com" "wrong" None at_login one_session ana _
              H1 eq_refl Hu Hp H2 TenantManagerR.login (or_intror eq_refl)) as [H _].
  destruct (H (or_introl eq_refl) H3) as [Hr Ha].
  split; [exact H1|]. split; [exact H2|]. split; [exact H3|]. split; [exact Hr|exact Ha].
Defined.

Lemma close_returns_whether_a_row_was_deleted_witness :
  Tenant.initialized one_session = true
  /\ Tenant.result (TenantManagerR.closeInstance "key-1" quiet one_session) = Return true
  /\ Tenant.result (TenantManagerR.closeInstance "key-9" quiet one_session) = Return false.
Proof.
  assert (H : Tenant.initialized one_session = true) by reflexivity.
  split; [exact H|]. split.
  - exact (proj1 (close_returns_whether_a_row_was_deleted "key-1" quiet one_session H)).
  - exact (proj1 (close_returns_whether_a_row_was_deleted "key-9" quiet one_session H)).
Defined.

Lemma createInstance_writes_the_row_first_witness :
  Tenant.initialized one_session = true
  /\ Tenant.e_uuid quiet = ("key-2", "id-2")
  /\ Tenant.instances one_session !! "key-2" = None
  /\ Tenant.db one_session !! "key-2" = None
  /\ Tenant.db (Tenant.state (TenantManager.createInstance quiet one_session)) !! "key-2"
     = Some (Store.mkRow "id-2" None None None true (Tenant.e_now quiet) (Tenant.e_now quiet)).
Proof.
  assert (H1 : Tenant.initialized one_session = true) by reflexivity.
  assert (H2 : Tenant.e_uuid quiet = ("key-2", "id-2")) by reflexivity.
  assert (H3 : Tenant.instances one_session !! "key-2" = None) by (vm_compute; reflexivity).
  assert (H4 : Tenant.db one_session !! "key-2" = None) by (vm_compute; reflexivity).
  destruct (createInstance_writes_the_row_first quiet one_session "key-2" "id-2" H1 H2 H3 H4)
    as [_ [Hrow _]].
  split; [exact H1|]. split; [exact H2|]. split; [exact H3|]. split; [exact H4|exact Hrow].
Defined.

Lemma logout_clears_the_session_witness :
  Inv.live "key-1" ana (Store.mkRow "id-1" (Some "ana@x.com") None None true 0 0) one_session
  /\ Tenant.e_fails quiet 0%nat = None
  /\ Tenant.e_fails quiet 1%nat = None
  /\ exists s',
       Tenant.instances s' !! "key-1" = Some (Tenant.set_username None ana)
       /\ Tenant.state (TenantManagerR.logout "key-1" quiet one_session) = s'
       /\ Tenant.result (TenantManager.getStatus "key-1" quiet s')
          = Return (Some (false, None, Tenant.e_url quiet)).
Proof.
  assert (H1 : Inv.live "key-1" ana
                 (Store.mkRow "id-1" (Some "ana@x.com") None None true 0 0) one_session)
    by (repeat split; vm_compute; reflexivity).
  assert (H2 : Tenant.e_fails quiet 0%nat = None) by reflexivity.
  assert (H3 : Tenant.e_fails quiet 1%nat = None) by reflexivity.
  destruct (logout_clears_the_session "key-1" quiet one_session ana _ H1 H2 H3)
    as (s' & Hi & _ & Hout & Hstatus).
  split; [exact H1|]. split; [exact H2|]. split; [exact H3|].
  exists s'. split; [exact Hi|].
  split; [exact (proj1 (Hout TenantManagerR.logout (or_intror eq_refl)))|].
  exact (proj1 (Hstatus quiet)).
Defined.

Lemma session_is_restored_on_demand_witness :
  Tenant.browser cold = Some 0%nat
  /\ Tenant.isShuttingDown cold = false
  /\ Tenant.instances cold !! "key-1" = None
  /\ Tenant.db cold !! "key-1" = Some plain_row
  /\ Js.truthy_opt (Store.password plain_row) = false
  /\ (forall j, Tenant.r_fails (Tenant.e_restore quiet "key-1") j = None)
  /\ Tenant.result (TenantManagerR.getOrRestoreInstance "key-1" quiet cold)
     = Return (Some (Tenant.mkInstance "id-1" "key-1" None 1 1 0 (Some "ana@x.com") None)).
Proof.
  assert (H1 : Tenant.browser cold = Some 0%nat) by reflexivity.
  assert (H2 : Tenant.isShuttingDown cold = false) by reflexivity.
  assert (H3 : Tenant.instances cold !! "key-1" = None) by (vm_compute; reflexivity).
  assert (H4 : Tenant.db cold !! "key-1" = Some plain_row) by (vm_compute; reflexivity).
  assert (H5 : Js.truthy_opt (Store.password plain_row) = false) by reflexivity.
  assert (H6 : forall j, Tenant.r_fails (Tenant.e_restore quiet "key-1") j = None)
    by (intros j; reflexivity).
  split; [exact H1|]. split; [exact H2|]. split; [exact H3|]. split; [exact H4|].
  split; [exact H5|]. split; [exact H6|].
  exact (proj1 (session_is_restored_on_demand "key-1" quiet cold plain_row 0%nat
                  H1 H2 H3 H4 H5 H6)).
Defined.

Lemma initialize_runs_once_witness :
  Tenant.isShuttingDown (Shape.started {[ "key-1" := plain_row ]}) = false
  /\ Tenant.initialized
       (Tenant.state (TenantManager.initialize quiet (Shape.started {[ "key-1" := plain_row ]})))
     = true
  /\ TenantManager.initialize at_login
       (Tenant.state (TenantManager.initialize quiet (Shape.started {[ "key-1" := plain_row ]})))
     = (Return (),
        Tenant.state (TenantManager.initialize quiet (Shape.started {[ "key-1" := plain_row ]})),
        []).
Proof.
  assert (H : Tenant.isShuttingDown (Shape.started {[ "key-1" := plain_row ]}) = false)
    by reflexivity.
  destruct (initialize_runs_once quiet at_login (Shape.started {[ "key-1" := plain_row ]}) H
              TenantManager.initialize (or_introl eq_refl)) as (_ & Hflag & Hagain & _).
  split; [exact H|]. split; [exact Hflag|exact Hagain].
Defined.

Lemma closed_session_stays_closed_after_restart_witness :
  Inv.live "key-1" ana (Store.mkRow "id-1" (Some "ana@x.com") None None true 0 0) one_session
  /\ Tenant.own_browser ana = Some 1%nat
  /\ Tenant.e_fails quiet 0%nat = None
  /\ Tenant.result
       (TenantManager.login "key-1" "ana@x.com" "s3cret" 3 quiet
          (Tenant.state
             (TenantManager.initialize quiet
                (Shape.started
                   (Tenant.db (Tenant.state (TenantManager.closeInstance "key-1" quiet
                                               one_session)))))))
     = Throw TenantManager.instance_not_found.
Proof.
  assert (H1 : Inv.live "key-1" ana
                 (Store.mkRow "id-1" (Some "ana@x.com") None None true 0 0) one_session)
    by (repeat split; vm_compute; reflexivity).
  assert (H2 : Tenant.own_browser ana = Some 1%nat) by reflexivity.
  assert (H3 : Tenant.e_fails quiet 0%nat = None) by reflexivity.
  destruct (closed_session_stays_closed_after_restart "key-1" quiet quiet one_session ana _
              1%nat H1 H2 H3) as (_ & _ & Hlogin).
  split; [exact H1|]. split; [exact H2|]. split; [exact H3|].
  exact (Hlogin "ana@x.com" "s3cret" 3 quiet).
Defined.

Lemma login_succeeds_at_the_first_navigation_witness :
  Inv.live "key-1" ana (Store.mkRow "id-1" (Some "ana@x.com") None None true 0 0) one_session
  /\ Js.includes (Tenant.e_url second_try) "login" = true
  /\ 1 <= 2 <= 3
  /\ Shape.navigates (Tenant.e_attempts second_try 2)
  /\ (forall b, 1 <= b < 2 ->
      Js.includes (Login.a_url (Tenant.e_attempts second_try b)) "login" = true)
  /\ Tenant.result (TenantManagerR.login "key-1" "bob@x.com" "s3cret" 3 second_try one_session)
     = Return (Login.mkResult true (Some "Login successful") (Some "https://pro.shalom.pe/#/home"))
  /\ attempts (Tenant.trace
                 (TenantManagerR.login "key-1" "bob@x.com" "s3cret" 3 second_try one_session))
     = 2%nat.
Proof.
  assert (H1 : Inv.live "key-1" ana
                 (Store.mkRow "id-1" (Some "ana@x.com") None None true 0 0) one_session)
    by (repeat split; vm_compute; reflexivity).
  assert (H2 : Js.includes (Tenant.e_url second_try) "login" = true) by reflexivity.
  assert (H3 : 1 <= 2 <= 3) by lia.
  assert (H4 : Shape.navigates (Tenant.e_attempts second_try 2))
    by (repeat split; reflexivity).
  assert (H5 : forall b, 1 <= b < 2 ->
               Js.includes (Login.a_url (Tenant.e_attempts second_try b)) "login" = true).
  { intros b Hb. assert (b = 1) as -> by lia. reflexivity. }
  destruct (login_succeeds_at_the_first_navigation "key-1" "bob@x.com" "s3cret" 3 2 second_try
              one_session ana _ H1 H2 H3 H4 H5 TenantManagerR.login (or_intror eq_refl))
    as (Hr & Ha & _).
  split; [exact H1|]. split; [exact H2|]. split; [exact H3|]. split; [exact H4|].
  split; [exact H5|]. split; [exact Hr|exact Ha].
Defined.

Lemma shutdown_flushes_every_live_session_witness :
  Tenant.isShuttingDown one_session = false
  /\ Tenant.instances (Tenant.state (TenantManagerR.shutdown quiet one_session))
     = Tenant.instances one_session
  /\ Tenant.db (Tenant.state (TenantManagerR.shutdown quiet one_session)) !! "key-1"
     = Some (Store.mkRow "id-1" (Some "ana@x.com") (Some "{}") None true 0 7).
Proof.
  assert (H : Tenant.isShuttingDown one_session = false) by reflexivity.
  destruct (shutdown_flushes_every_live_session quiet one_session H TenantManagerR.shutdown
              (or_intror eq_refl)) as (Hi & _ & Hlive & _).
  assert (Ha : Tenant.instances one_session !! "key-1" = Some ana) by (vm_compute; reflexivity).
  destruct (Hlive "key-1" ana Ha) as (_ & _ & Hrow).
  split; [exact H|]. split; [exact Hi|].
  rewrite Hrow. vm_compute. reflexivity.
Defined.

Lemma failed_registration_is_thrown_or_reported_witness :
  Tenant.initialized one_session = true
  /\ Tenant.instances one_session !! "key-1" = Some ana
  /\ Tenant.result (TenantManagerR.registerShipment "key-1" envelope stuck one_session)
     = Return (Shipment.mkResult false None None None (Some "Timeout 15000ms exceeded")
                 (Some "Registration failed"))
  /\ Tenant.result (TenantManager.registerShipment "key-1" envelope stuck one_session)
     = Throw "Timeout 15000ms exceeded".
Proof.
  assert (H1 : Tenant.initialized one_session = true) by reflexivity.
  assert (H2 : Tenant.instances one_session !! "key-1" = Some ana) by (vm_compute; reflexivity).
  destruct (failed_registration_is_thrown_or_reported "key-1" envelope stuck one_session ana
              H1 H2) as (_ & HR & HV).
  split; [exact H1|]. split; [exact H2|]. split.
  - refine (proj1 (HR "Timeout 15000ms exceeded" _)). vm_compute. reflexivity.
  - refine (proj1 (HV "Timeout 15000ms exceeded" _)). vm_compute. reflexivity.
Defined.
